(** * MealOps API: shallow embedding of [apps/api/src/server.ts] and
      [apps/api/src/nutrition.ts], with the properties of its specification.

    Conventions of the embedding.
    - A JavaScript [Date] holding a valid time value is its number of
      milliseconds since the epoch, a [Z]; an invalid [Date] (time value NaN)
      and [null] are [None].
    - JavaScript strings are [string]; the strings handled here are ASCII.
    - The Prisma client is a record of tables ([Db]) threaded through the
      handlers by a state monad; every Prisma call appends itself to a query
      log, so that the number and shape of the queries can be stated.
    - JavaScript [number]s used for nutrition are an interface [JsNumber]
      with two instances: IEEE-754 binary64 (what Node runs) and exact
      rationals (the arithmetic the specification reasons in). *)

From Stdlib Require Import ZArith QArith Qcanon Qabs Qcabs Qround Qpower Qfield Lqa Floats Uint63.
From Stdlib Require Import String Ascii List Lia Sorted Permutation Bool.
From stdpp Require Import gmap strings list sorting.

Local Open Scope string_scope.
Local Open Scope list_scope.
Local Open Scope Z_scope.

(** ** Strings of decimal digits *)

Module Digits.

Definition isDigit (c : ascii) : bool :=
  let n := Z.of_nat (nat_of_ascii c) in (48 <=? n) && (n <=? 57).

Definition digitVal (c : ascii) : Z := Z.of_nat (nat_of_ascii c) - 48.

Definition digitChar (n : Z) : ascii := ascii_of_nat (Z.to_nat (48 + n mod 10)).

(** [String(n).padStart(2, '0')] and its wider variants, for [0 <= n]. *)
Definition pad2 (n : Z) : string :=
  String (digitChar (n / 10)) (String (digitChar n) EmptyString).

Definition pad3 (n : Z) : string := String (digitChar (n / 100)) (pad2 n).

Definition pad4 (n : Z) : string := String (digitChar (n / 1000)) (pad3 n).

Definition pad6 (n : Z) : string :=
  String (digitChar (n / 100000)) (String (digitChar (n / 10000)) (pad4 n)).

(** Value of a string of digits read in base ten, most significant first. *)
Fixpoint digitsVal (acc : Z) (s : string) : Z :=
  match s with
  | EmptyString => acc
  | String c rest => digitsVal (10 * acc + digitVal c) rest
  end.

Fixpoint allDigits (s : string) : bool :=
  match s with
  | EmptyString => true
  | String c rest => isDigit c && allDigits rest
  end.

End Digits.

(** ** The part of the ECMAScript [Date] object the server uses *)

Module JsDate.
Import Digits.

Definition msPerDay : Z := 86400000.

Definition isLeapYear (y : Z) : bool :=
  ((y mod 4 =? 0) && negb (y mod 100 =? 0)) || (y mod 400 =? 0).

Definition daysInMonth (y m : Z) : Z :=
  if m =? 2 then (if isLeapYear y then 29 else 28)
  else if (m =? 4) || (m =? 6) || (m =? 9) || (m =? 11) then 30
  else 31.

(** [MakeDay(year, month - 1, date)]: the day number (days since
    1970-01-01) of a proleptic Gregorian date. As in ECMAScript, a day of
    the month beyond the month's end runs over into the following month. *)
Definition MakeDay (y m d : Z) : Z :=
  let y' := if m <=? 2 then y - 1 else y in
  let era := y' / 400 in
  let yoe := y' - era * 400 in
  let mp := if 2 <? m then m - 3 else m + 9 in
  let doy := (153 * mp + 2) / 5 + d - 1 in
  let doe := yoe * 365 + yoe / 4 - yoe / 100 + doy in
  era * 146097 + doe - 719468.

(** [(YearFromTime, MonthFromTime + 1, DateFromTime)] of a day number. *)
Definition civilFromDay (day : Z) : Z * Z * Z :=
  let z := day + 719468 in
  let era := z / 146097 in
  let doe := z - era * 146097 in
  let yoe := (doe - doe / 1460 + doe / 36524 - doe / 146096) / 365 in
  let doy := doe - (365 * yoe + yoe / 4 - yoe / 100) in
  let mp := (5 * doy + 2) / 153 in
  let d := doy - (153 * mp + 2) / 5 + 1 in
  let m := if mp <? 10 then mp + 3 else mp - 9 in
  let y := yoe + era * 400 in
  (if m <=? 2 then y + 1 else y, m, d).

Definition Day (t : Z) : Z := t / msPerDay.
Definition TimeWithinDay (t : Z) : Z := t mod msPerDay.

(** [new Date(value + "T00:00:00.000Z")] for a [value] that matches
    [DATE_ONLY_REGEX], the only way the server builds a [Date] from text.
    V8 (the engine of Node.js) accepts the ISO form when the month is in
    1..12 and the day in 1..31, whatever the month, and lets [MakeDay] carry
    an overlong day into the next month; everything else is an invalid
    [Date]. *)
Definition newDateUtcMidnight (value : string) : option Z :=
  let y := digitsVal 0 (substring 0 4 value) in
  let m := digitsVal 0 (substring 5 2 value) in
  let d := digitsVal 0 (substring 8 2 value) in
  if (1 <=? m) && (m <=? 12) && (1 <=? d) && (d <=? 31)
  then Some (MakeDay y m d * msPerDay)
  else None.

(** The year field of [Date.prototype.toISOString]: four digits for the
    years 0..9999, otherwise a sign and six digits. *)
Definition isoYear (y : Z) : string :=
  if (0 <=? y) && (y <=? 9999) then pad4 y
  else if y <? 0 then String "-"%char (pad6 (- y))
  else String "+"%char (pad6 y).

Definition toISOString (t : Z) : string :=
  let '(y, m, d) := civilFromDay (Day t) in
  let ms := TimeWithinDay t in
  isoYear y +:+ "-" +:+ pad2 m +:+ "-" +:+ pad2 d +:+ "T"
    +:+ pad2 (ms / 3600000) +:+ ":" +:+ pad2 (ms / 60000 mod 60) +:+ ":"
    +:+ pad2 (ms / 1000 mod 60) +:+ "." +:+ pad3 (ms mod 1000) +:+ "Z".

(** [date.getTime()] *)
Definition getTime (t : Z) : Z := t.

End JsDate.

(** ** Date helpers of [server.ts] *)

Import Digits JsDate.

(** [/^\d{4}-\d{2}-\d{2}$/.test(value)] *)
Definition DATE_ONLY_REGEX (value : string) : bool :=
  (String.length value =? 10)%nat
  && allDigits (substring 0 4 value)
  && String.eqb (substring 4 1 value) "-"
  && allDigits (substring 5 2 value)
  && String.eqb (substring 7 1 value) "-"
  && allDigits (substring 8 2 value).

Definition formatDateOnly (date : Z) : string :=
  substring 0 10 (toISOString date).

Definition parseDateOnly (value : string) : option Z :=
  if negb (DATE_ONLY_REGEX value) then None
  else
    match newDateUtcMidnight value with
    | None => None
    | Some date => if String.eqb (formatDateOnly date) value then Some date else None
    end.

Definition isWithinWeek (date weekStart : Z) : bool :=
  let dayMs := 24 * 60 * 60 * 1000 in
  let diffMs := getTime date - getTime weekStart in
  (0 <=? diffMs) && (diffMs <=? dayMs * 6).

Definition slotSortOrder : list string :=
  ["breakfast"; "lunch"; "afternoon_snack"; "dinner"].

(** [Array.prototype.indexOf], with [-1] for an absent element. *)
Fixpoint indexOf (l : list string) (x : string) : Z :=
  match l with
  | [] => -1
  | y :: rest =>
      if String.eqb y x then 0
      else let i := indexOf rest x in if i =? -1 then -1 else i + 1
  end.

Definition slotRank (slot : string) : Z :=
  let idx := indexOf slotSortOrder slot in
  if idx =? -1 then Z.of_nat (length slotSortOrder) else idx.


(** ** JavaScript numbers *)

(** The arithmetic [nutrition.ts] and the recipe handlers use on [number]s.
    [num_round] is [Math.round]; [num_of_Z] reads an integer literal or an
    integer-valued field such as [servings]. *)
Class JsNumber (N : Type) := {
  num_of_Z : Z -> N;
  num_add : N -> N -> N;
  num_mul : N -> N -> N;
  num_div : N -> N -> N;
  num_round : N -> N
}.

Module Binary64.

Definition of_Z (k : Z) : float :=
  if k <? 0 then PrimFloat.opp (PrimFloat.of_uint63 (Uint63.of_Z (- k)))
  else PrimFloat.of_uint63 (Uint63.of_Z k).

(** [Math.round] on a double: the integer nearest to [x], the larger one
    when two are equally near; [x] itself when it is an integer, a zero, an
    infinity or NaN; a zero of the sign of [x] when the result is zero. A
    finite double is [n * 2^e] for integers [n] and [e], and for [e < 0] the
    result is [floor ((2 * n + 2^(-e)) / 2^(1 - e))], computed in [Z] with
    shifts. *)
Definition Math_round (x : float) : float :=
  match Prim2SF x with
  | S754_finite s m e =>
      if 0 <=? e then x
      else
        let n := if s then Z.neg m else Z.pos m in
        let k := Z.shiftr (2 * n + Z.shiftl 1 (- e)) (1 - e) in
        if k =? 0 then (if s then PrimFloat.opp PrimFloat.zero else PrimFloat.zero)
        else of_Z k
  | _ => x
  end.

End Binary64.

(** IEEE-754 binary64 with round-to-nearest-even: the [number] of Node.js. *)
#[export] Instance binary64 : JsNumber float := {
  num_of_Z := Binary64.of_Z;
  num_add := PrimFloat.add;
  num_mul := PrimFloat.mul;
  num_div := PrimFloat.div;
  num_round := Binary64.Math_round
}.

(** Exact rational arithmetic: the same operations without rounding error.
    The code does not run on it; it is the arithmetic the specification
    reasons in, and says here what a decimal adds up and rounds to. *)
#[export] Instance exact : JsNumber Qc := {
  num_of_Z := fun k => Q2Qc (inject_Z k);
  num_add := Qcplus;
  num_mul := Qcmult;
  num_div := Qcdiv;
  num_round := fun x => Q2Qc (inject_Z (Qfloor (Qplus (this x) (1 # 2))))
}.

(** ** [nutrition.ts] *)

Record Nutrition (N : Type) := mkNutrition {
  kcal : N;
  protein : N;
  carbs : N;
  fat : N
}.
Arguments mkNutrition {N}.
Arguments kcal {N}.
Arguments protein {N}.
Arguments carbs {N}.
Arguments fat {N}.

Section NutritionCode.
Context {N : Type} `{JsNumber N}.

Definition add (a b : Nutrition N) : Nutrition N :=
  {| kcal := num_add (kcal a) (kcal b);
     protein := num_add (protein a) (protein b);
     carbs := num_add (carbs a) (carbs b);
     fat := num_add (fat a) (fat b) |}.

Definition round1 (n : N) : N :=
  num_div (num_round (num_mul n (num_of_Z 10))) (num_of_Z 10).

Definition roundNutrition (n : Nutrition N) : Nutrition N :=
  {| kcal := round1 (kcal n);
     protein := round1 (protein n);
     carbs := round1 (carbs n);
     fat := round1 (fat n) |}.

(** *** The nutrition arithmetic of [POST /recipes] and [GET /recipes] *)

Record Ingredient := mkIngredient {
  ingredient_name : string;
  kcalPer100g : N;
  proteinPer100g : N;
  carbsPer100g : N;
  fatPer100g : N
}.

(** An element of [body.items]. *)
Record ItemInput := mkItemInput {
  ingredientId : string;
  quantityG : N
}.

(** The object literal that the reducer of [POST /recipes] passes to [add]. *)
Definition scaled (ing : Ingredient) (quantity : N) : Nutrition N :=
  let factor := num_div quantity (num_of_Z 100) in
  {| kcal := num_mul (kcalPer100g ing) factor;
     protein := num_mul (proteinPer100g ing) factor;
     carbs := num_mul (carbsPer100g ing) factor;
     fat := num_mul (fatPer100g ing) factor |}.

Definition zeroNutrition : Nutrition N :=
  {| kcal := num_of_Z 0; protein := num_of_Z 0; carbs := num_of_Z 0; fat := num_of_Z 0 |}.

(** [body.items.reduce((acc, it) => add(acc, {...}), {kcal: 0, ...})] of
    [POST /recipes], from a given accumulator. [byId.get(id)!] of an id that
    is not in the map raises a TypeError, here [None]; the handler has
    answered 400 before if any id is unknown. *)
Fixpoint reduceItems (byId : gmap string Ingredient) (items : list ItemInput)
    (acc : Nutrition N) : option (Nutrition N) :=
  match items with
  | [] => Some acc
  | it :: rest =>
      match byId !! ingredientId it with
      | None => None
      | Some ing => reduceItems byId rest (add acc (scaled ing (quantityG it)))
      end
  end.

Definition totalsOf (byId : gmap string Ingredient) (items : list ItemInput)
    : option (Nutrition N) :=
  reduceItems byId items zeroNutrition.

(** The reducer of [GET /recipes]: the items come with their ingredient
    joined, and the accumulator is updated in place with [+=]. *)
Definition accumulate (acc : Nutrition N) (it : Ingredient * N) : Nutrition N :=
  let factor := num_div (snd it) (num_of_Z 100) in
  {| kcal := num_add (kcal acc) (num_mul (kcalPer100g (fst it)) factor);
     protein := num_add (protein acc) (num_mul (proteinPer100g (fst it)) factor);
     carbs := num_add (carbs acc) (num_mul (carbsPer100g (fst it)) factor);
     fat := num_add (fat acc) (num_mul (fatPer100g (fst it)) factor) |}.

Definition listTotals (items : list (Ingredient * N)) : Nutrition N :=
  fold_left accumulate items zeroNutrition.

Definition perServingOf (totals : Nutrition N) (servings : Z) : Nutrition N :=
  {| kcal := num_div (kcal totals) (num_of_Z servings);
     protein := num_div (protein totals) (num_of_Z servings);
     carbs := num_div (carbs totals) (num_of_Z servings);
     fat := num_div (fat totals) (num_of_Z servings) |}.

(** The [nutrition] field of both responses. *)
Record NutritionReport := mkReport {
  total : Nutrition N;
  perServing : Nutrition N
}.

Definition report (totals : Nutrition N) (servings : Z) : NutritionReport :=
  {| total := roundNutrition totals;
     perServing := roundNutrition (perServingOf totals servings) |}.

End NutritionCode.

Arguments Ingredient N : clear implicits.
Arguments ItemInput N : clear implicits.
Arguments NutritionReport N : clear implicits.

(** ** The database behind the Prisma client *)

Inductive Role := USER | ADMIN.

#[export] Instance Role_eq_dec : EqDecision Role.
Proof. solve_decision. Defined.

(** Rows. Tables with a primary key the handlers look rows up by are maps
    from that key; the credential and [createdAt] columns are left out. *)
Record UserRow := mkUser {
  user_email : string;
  user_role : Role
}.

Record RecipeRow := mkRecipe {
  recipe_userId : string;
  recipe_name : string
}.

Record MealPlanRow := mkMealPlan {
  plan_userId : string;
  plan_weekStart : Z
}.

Record PlannedMealRow := mkPlannedMeal {
  pm_planId : string;
  pm_date : Z;
  pm_slot : string;
  pm_recipeId : string
}.

(** The Prisma calls the handlers below make, as they appear in the query
    log. *)
Inductive Query :=
  | Q_user_findUnique (id : string)
  | Q_user_findUniqueByEmail (email : string)
  | Q_user_count (role : Role)
  | Q_user_update (id : string) (role : Role)
  | Q_user_create (email : string)
  | Q_recipe_findMany (userId : string) (ids : list string)
  | Q_mealPlan_findFirst (userId : string) (weekStart : Z)
  | Q_mealPlan_create (userId : string) (weekStart : Z)
  | Q_mealPlan_findUniqueOrThrow (id : string)
  | Q_plannedMeal_deleteMany (planId : string)
  | Q_plannedMeal_createMany (rows : list PlannedMealRow)
  | Q_transaction_begin
  | Q_transaction_commit
  | Q_transaction_rollback.

Record Db := mkDb {
  users : gmap string UserRow;
  recipes : gmap string RecipeRow;
  mealPlans : gmap string MealPlanRow;
  plannedMeals : list PlannedMealRow;
  queries : list Query
}.

(** Computations that use the Prisma client. *)
Definition Prisma (A : Type) : Type := Db -> A * Db.

#[export] Instance Prisma_ret : MRet Prisma := fun A x db => (x, db).
#[export] Instance Prisma_bind : MBind Prisma :=
  fun A B f m db => let '(a, db') := m db in f a db'.

(** A planned meal with its [recipe] relation included ([select: { id,
    name }]); the relation is [None] when the row's recipe id is dangling,
    which a foreign key excludes. *)
Definition MealWithRecipe : Type := PlannedMealRow * option (string * string).

(** A meal plan with [include: { meals: { include: { recipe } } }]. *)
Record PlanWithMeals := mkPlanWithMeals {
  pwm_id : string;
  pwm_weekStart : Z;
  pwm_meals : list MealWithRecipe
}.

Definition includeRecipe (db : Db) (meal : PlannedMealRow) : MealWithRecipe :=
  (meal, (fun r => (pm_recipeId meal, recipe_name r)) <$> recipes db !! pm_recipeId meal).

Definition includeMeals (db : Db) (plan : string * MealPlanRow) : PlanWithMeals :=
  {| pwm_id := fst plan;
     pwm_weekStart := plan_weekStart (snd plan);
     pwm_meals :=
       includeRecipe db <$>
         filter (fun meal => pm_planId meal = fst plan) (plannedMeals db) |}.

Module prisma.

Definition record (q : Query) (db : Db) : Db :=
  {| users := users db; recipes := recipes db; mealPlans := mealPlans db;
     plannedMeals := plannedMeals db; queries := queries db ++ [q] |}.

Definition logged (q : Query) : Prisma unit := fun db => (tt, record q db).

(** A call: the query is logged, then answered on the tables. *)
Definition call {A} (q : Query) (answer : Db -> A * Db) : Prisma A :=
  fun db => answer (record q db).

(** [prisma.$transaction(async (tx) => ...)]: the body runs on the tables;
    when it ends with an exception ([None]) the tables are put back as they
    were before it started. Requests are handled one after another here, so
    nothing else runs in between. *)
Definition transaction {A} (body : Prisma (option A)) : Prisma (option A) :=
  fun db =>
    let '(result, db') := body (record Q_transaction_begin db) in
    match result with
    | Some a => (Some a, record Q_transaction_commit db')
    | None =>
        (None,
         {| users := users db; recipes := recipes db; mealPlans := mealPlans db;
            plannedMeals := plannedMeals db;
            queries := queries db' ++ [Q_transaction_rollback] |})
    end.

Module user.

Definition findUnique (id : string) : Prisma (option UserRow) :=
  call (Q_user_findUnique id) (fun db => (users db !! id, db)).

(** [findUnique({ where: { email } })]: the id of the row, if any. *)
Definition findUniqueByEmail (email : string) : Prisma (option string) :=
  call (Q_user_findUniqueByEmail email) (fun db =>
    (fst <$> head (map_to_list (filter (fun p => user_email (snd p) = email) (users db))),
     db)).

(** [count({ where: { role } })] *)
Definition count (role : Role) : Prisma Z :=
  call (Q_user_count role) (fun db => (Z.of_nat (size (filter (fun p => user_role (snd p) = role) (users db))), db)).

(** [update({ where: { id }, data: { role } })]: the updated row, or
    [None] for the P2025 error Prisma raises when there is no such row. *)
Definition update (id : string) (role : Role) : Prisma (option UserRow) :=
  call (Q_user_update id role) (fun db =>
    match users db !! id with
    | None => (None, db)
    | Some u =>
        let u' := {| user_email := user_email u; user_role := role |} in
        (Some u',
         {| users := <[id := u']> (users db); recipes := recipes db;
            mealPlans := mealPlans db; plannedMeals := plannedMeals db;
            queries := queries db |})
    end).

(** [create({ data: { email, password, role } })] under a generated id. *)
Definition create (email : string) (role : Role) : Prisma string :=
  call (Q_user_create email) (fun db =>
    let id := fresh (dom (users db)) in
    (id,
     {| users := <[id := {| user_email := email; user_role := role |}]> (users db);
        recipes := recipes db; mealPlans := mealPlans db;
        plannedMeals := plannedMeals db; queries := queries db |})).

End user.

Module recipe.

(** [findMany({ where: { userId, id: { in: ids } }, select: { id: true } })] *)
Definition findMany (userId : string) (ids : list string) : Prisma (list string) :=
  call (Q_recipe_findMany userId ids) (fun db =>
    (fst <$> map_to_list
       (filter (fun p => recipe_userId (snd p) = userId ∧ fst p ∈ ids) (recipes db)),
     db)).

End recipe.

Module mealPlan.

(** [findFirst({ where: { userId, weekStart }, include })]: the first row
    that matches, in the order the table yields its rows. *)
Definition findFirst (userId : string) (weekStart : Z) : Prisma (option PlanWithMeals) :=
  call (Q_mealPlan_findFirst userId weekStart) (fun db =>
    (includeMeals db <$>
       List.find (fun p => bool_decide (plan_userId (snd p) = userId
                                        ∧ plan_weekStart (snd p) = weekStart))
         (map_to_list (mealPlans db)),
     db)).

(** [create({ data: { userId, weekStart }, select: { id: true } })] under a
    generated id. *)
Definition create (userId : string) (weekStart : Z) : Prisma string :=
  call (Q_mealPlan_create userId weekStart) (fun db =>
    let id := fresh (dom (mealPlans db)) in
    (id,
     {| users := users db; recipes := recipes db;
        mealPlans :=
          <[id := {| plan_userId := userId; plan_weekStart := weekStart |}]> (mealPlans db);
        plannedMeals := plannedMeals db; queries := queries db |})).

(** [findUniqueOrThrow({ where: { id }, include })], [None] when it throws. *)
Definition findUniqueOrThrow (id : string) : Prisma (option PlanWithMeals) :=
  call (Q_mealPlan_findUniqueOrThrow id) (fun db =>
    ((fun row => includeMeals db (id, row)) <$> mealPlans db !! id, db)).

End mealPlan.

Module plannedMeal.

(** [deleteMany({ where: { planId } })] *)
Definition deleteMany (planId : string) : Prisma unit :=
  call (Q_plannedMeal_deleteMany planId) (fun db =>
    (tt,
     {| users := users db; recipes := recipes db; mealPlans := mealPlans db;
        plannedMeals := filter (fun meal => pm_planId meal ≠ planId) (plannedMeals db);
        queries := queries db |})).

(** [createMany({ data })] *)
Definition createMany (data : list PlannedMealRow) : Prisma unit :=
  call (Q_plannedMeal_createMany data) (fun db =>
    (tt,
     {| users := users db; recipes := recipes db; mealPlans := mealPlans db;
        plannedMeals := plannedMeals db ++ data; queries := queries db |})).

End plannedMeal.

End prisma.

(** ** Replies *)

(** An element of the [meals] array of a plan response. *)
Record MealView := mkMealView {
  view_date : string;
  view_slot : string;
  view_recipeId : string;
  view_recipeName : string
}.

Inductive Body :=
  | B_error (error : string)
  | B_plan (id : option string) (weekStart : string) (meals : list MealView)
  | B_user (id email : string) (role : Role).

(** What a request ends with: a reply sent with a status code (200 when the
    handler returns a value), or an exception that leaves the handler. *)
Inductive Reply :=
  | Send (code : Z) (body : Body)
  | Throws (error : string).

(** ** Sorting the meals of a response *)

(** [a.localeCompare(b)], on the strings the handlers compare: dates of
    the years 0 to 9999 as [formatDateOnly] writes them, made of digits and
    hyphens, which the collation orders as their character codes do. On
    other strings the collation can differ (it puts a hyphen before a plus
    sign, as in the cut strings of years outside that range); the properties
    of the sort below are stated for stored dates within the range. *)
Definition localeCompare (a b : string) : Z :=
  match String.compare a b with
  | Lt => -1
  | Eq => 0
  | Gt => 1
  end.

(** The comparator both plan handlers pass to [sort]. *)
Definition compareMeals (a b : MealView) : Z :=
  let dateCompare := localeCompare (view_date a) (view_date b) in
  if negb (dateCompare =? 0) then dateCompare
  else slotRank (view_slot a) - slotRank (view_slot b).

Fixpoint insertBy {A} (cmp : A -> A -> Z) (x : A) (l : list A) : list A :=
  match l with
  | [] => [x]
  | y :: rest => if cmp x y <=? 0 then x :: l else y :: insertBy cmp x rest
  end.

(** [Array.prototype.sort(cmp)], which is stable: elements that compare
    equal keep their order. Written as an insertion sort. *)
Definition Array_sort {A} (cmp : A -> A -> Z) (l : list A) : list A :=
  foldr (insertBy cmp) [] l.

(** The [.map(meal => ({ date: formatDateOnly(meal.date), slot: meal.slot,
    recipeId: meal.recipe.id, recipeName: meal.recipe.name }))] of both plan
    handlers; reading [meal.recipe.id] of a missing relation is a TypeError. *)
Definition toView (meal : MealWithRecipe) : option MealView :=
  match snd meal with
  | None => None
  | Some (id, name) =>
      Some {| view_date := formatDateOnly (pm_date (fst meal));
              view_slot := pm_slot (fst meal);
              view_recipeId := id;
              view_recipeName := name |}
  end.

Definition toViews (meals : list MealWithRecipe) : option (list MealView) :=
  mapM toView meals.

(** ** Hooks *)

(** The [authenticate] hook of [auth.ts]. [token] is the [sub] of the
    request's token when [req.jwtVerify()] accepts it, and [None] when it
    throws; the hook then answers 401, and otherwise leaves [req.user.sub]
    to the hooks and the handler that follow. *)
Definition authenticate (token : option string) : Reply + string :=
  match token with
  | None => inl (Send 401 (B_error "Unauthorized"))
  | Some sub => inr sub
  end.

(** The [requireAdmin] hook on [req.user?.sub]; [None] lets the request
    through. [!userId] holds of a missing [sub] and of the empty string. *)
Definition requireAdmin (principal : option string) : Prisma (option Reply) :=
  match principal with
  | None => mret (Some (Send 401 (B_error "Unauthorized")))
  | Some userId =>
      if bool_decide (userId = EmptyString)
      then mret (Some (Send 401 (B_error "Unauthorized")))
      else
        user ← prisma.user.findUnique userId;
        match user with
        | Some u =>
            if bool_decide (user_role u = ADMIN) then mret None
            else mret (Some (Send 403 (B_error "Forbidden")))
        | None => mret (Some (Send 403 (B_error "Forbidden")))
        end
  end.

(** ** [GET /meal-plans]

    The handlers take [userId], the [req.user.sub] of a request that went
    through [authenticate]. *)
Definition GET_meal_plans (userId : string) (weekStartQuery : string) : Prisma Reply :=
  match parseDateOnly weekStartQuery with
  | None => mret (Send 400 (B_error "weekStart must be YYYY-MM-DD"))
  | Some weekStart =>
      plan ← prisma.mealPlan.findFirst userId weekStart;
      match toViews (from_option pwm_meals [] plan) with
      | None => mret (Throws "TypeError")
      | Some views =>
          mret (Send 200 (B_plan (pwm_id <$> plan) weekStartQuery
                            (Array_sort compareMeals views)))
      end
  end.

(** ** [PUT /meal-plans] *)

Record MealInput := mkMealInput {
  in_date : string;
  in_slot : string;
  in_recipeId : string
}.

Record PutBody := mkPutBody {
  body_weekStart : string;
  body_meals : list MealInput
}.

(** An element of the handler's [meals] array: the input with its date
    parsed. *)
Record Meal := mkMeal {
  meal_date : Z;
  meal_slot : string;
  meal_recipeId : string
}.

Definition mealSlotSchema (slot : string) : bool :=
  bool_decide (slot ∈ ["breakfast"; "lunch"; "afternoon_snack"; "dinner"]).

(** [Body.parse(req.body)] on a body that has the fields of [PutBody]: each
    slot is one of the enum and each recipe id has at least one character. *)
Definition Body_parse (body : PutBody) : bool :=
  forallb (fun meal => mealSlotSchema (in_slot meal)
                       && (1 <=? Z.of_nat (String.length (in_recipeId meal))))
    (body_meals body).

(** The first loop: every date is parsed and checked against the week, in
    submission order; the first one that fails ends the request. *)
Fixpoint readMeals (weekStart : Z) (input : list MealInput) : Reply + list Meal :=
  match input with
  | [] => inr []
  | meal :: rest =>
      match parseDateOnly (in_date meal) with
      | None =>
          inl (Send 400 (B_error ("Meal date must be YYYY-MM-DD: " +:+ in_date meal)))
      | Some date =>
          if negb (isWithinWeek date weekStart)
          then inl (Send 400 (B_error ("Meal date is outside selected week: " +:+ in_date meal)))
          else
            match readMeals weekStart rest with
            | inl reply => inl reply
            | inr meals =>
                inr ({| meal_date := date; meal_slot := in_slot meal;
                        meal_recipeId := in_recipeId meal |} :: meals)
            end
      end
  end.

Definition slotKey (meal : Meal) : string :=
  formatDateOnly (meal_date meal) +:+ ":" +:+ meal_slot meal.

(** The second loop, over [meals] with the [seenSlots] set. *)
Fixpoint checkSlots (seenSlots : gset string) (meals : list Meal) : option Reply :=
  match meals with
  | [] => None
  | meal :: rest =>
      if bool_decide (slotKey meal ∈ seenSlots)
      then Some (Send 400 (B_error ("Duplicate slot for date " +:+ formatDateOnly (meal_date meal))))
      else checkSlots ({[slotKey meal]} ∪ seenSlots) rest
  end.

(** [[...new Set(ids)]]: the distinct elements, in order of first
    appearance. *)
Fixpoint distinct (seen : gset string) (ids : list string) : list string :=
  match ids with
  | [] => []
  | id :: rest =>
      if bool_decide (id ∈ seen) then distinct seen rest
      else id :: distinct ({[id]} ∪ seen) rest
  end.

(** The recipe check: [None] when it passes. *)
Definition checkRecipes (userId : string) (meals : list Meal) : Prisma (option Reply) :=
  let recipeIds := distinct ∅ (meal_recipeId <$> meals) in
  if 0 <? Z.of_nat (length recipeIds) then
    found ← prisma.recipe.findMany userId recipeIds;
    if negb (Z.of_nat (length found) =? Z.of_nat (length recipeIds))
    then mret (Some (Send 400 (B_error "One or more recipes were not found for this user")))
    else mret None
  else mret None.

Definition toRow (planId : string) (meal : Meal) : PlannedMealRow :=
  {| pm_planId := planId; pm_date := meal_date meal; pm_slot := meal_slot meal;
     pm_recipeId := meal_recipeId meal |}.

(** The body of the transaction. *)
Definition savePlan (userId : string) (weekStart : Z) (meals : list Meal)
    : Prisma (option PlanWithMeals) :=
  existing ← prisma.mealPlan.findFirst userId weekStart;
  planId ← match existing with
           | Some plan => mret (pwm_id plan)
           | None => prisma.mealPlan.create userId weekStart
           end;
  _ ← prisma.plannedMeal.deleteMany planId;
  _ ← (if 0 <? Z.of_nat (length meals)
       then prisma.plannedMeal.createMany (toRow planId <$> meals)
       else mret tt);
  prisma.mealPlan.findUniqueOrThrow planId.

Definition PUT_meal_plans (userId : string) (body : PutBody) : Prisma Reply :=
  if negb (Body_parse body) then mret (Throws "ZodError")
  else
    match parseDateOnly (body_weekStart body) with
    | None => mret (Send 400 (B_error "weekStart must be YYYY-MM-DD"))
    | Some weekStart =>
        match readMeals weekStart (body_meals body) with
        | inl reply => mret reply
        | inr meals =>
            match checkSlots ∅ meals with
            | Some reply => mret reply
            | None =>
                failed ← checkRecipes userId meals;
                match failed with
                | Some reply => mret reply
                | None =>
                    saved ← prisma.transaction (savePlan userId weekStart meals);
                    match saved with
                    | None => mret (Throws "NotFoundError")
                    | Some savedPlan =>
                        match toViews (pwm_meals savedPlan) with
                        | None => mret (Throws "TypeError")
                        | Some views =>
                            mret (Send 200
                                    (B_plan (Some (pwm_id savedPlan))
                                       (formatDateOnly (pwm_weekStart savedPlan))
                                       (Array_sort compareMeals views)))
                        end
                    end
                end
            end
        end
    end.

(** ** The admin and registration handlers *)

Definition sendUser (id : string) (updated : option UserRow) : Reply :=
  match updated with
  | Some u => Send 200 (B_user id (user_email u) (user_role u))
  | None => Throws "PrismaClientKnownRequestError P2025"
  end.

Definition POST_admin_bootstrap_self (userId : string) : Prisma Reply :=
  adminCount ← prisma.user.count ADMIN;
  if 0 <? adminCount then mret (Send 409 (B_error "An admin already exists"))
  else
    updated ← prisma.user.update userId ADMIN;
    mret (sendUser userId updated).

(** The handler of [PATCH /admin/users/:id/role]; [role] is the body's
    field, one of the enum. *)
Definition PATCH_admin_users_role (id : string) (role : Role) : Prisma Reply :=
  if negb (1 <=? Z.of_nat (String.length id)) then mret (Throws "ZodError")
  else
    target ← prisma.user.findUnique id;
    match target with
    | None => mret (Send 404 (B_error "User not found"))
    | Some t =>
        blocked ← (if bool_decide (user_role t = ADMIN) && bool_decide (role = USER)
                   then
                     adminCount ← prisma.user.count ADMIN;
                     mret (adminCount <=? 1)
                   else mret false);
        if (blocked : bool)
        then mret (Send 409 (B_error "Cannot remove admin role from the last admin"))
        else
          updated ← prisma.user.update id role;
          mret (sendUser id updated)
    end.

(** [POST /auth/register], for a body that [Body.parse] accepts (an email
    address and a password of eight characters or more). *)
Definition POST_auth_register (email : string) : Prisma Reply :=
  existing ← prisma.user.findUniqueByEmail email;
  match existing with
  | Some _ => mret (Send 409 (B_error "Email already in use"))
  | None =>
      id ← prisma.user.create email USER;
      mret (Send 200 (B_user id email USER))
  end.

(** ** The server as a whole *)

Inductive Request :=
  | Req_GET_meal_plans (token : option string) (weekStart : string)
  | Req_PUT_meal_plans (token : option string) (body : PutBody)
  | Req_POST_admin_bootstrap_self (token : option string)
  | Req_PATCH_admin_users_role (token : option string) (id : string) (role : Role)
  | Req_POST_auth_register (email : string).

(** A route with the [authenticate] hook in front of its handler. *)
Definition authenticated (token : option string) (handler : string -> Prisma Reply)
    : Prisma Reply :=
  match authenticate token with
  | inl reply => mret reply
  | inr userId => handler userId
  end.

Definition handle (request : Request) : Prisma Reply :=
  match request with
  | Req_GET_meal_plans token weekStart =>
      authenticated token (fun userId => GET_meal_plans userId weekStart)
  | Req_PUT_meal_plans token body =>
      authenticated token (fun userId => PUT_meal_plans userId body)
  | Req_POST_admin_bootstrap_self token =>
      authenticated token POST_admin_bootstrap_self
  | Req_PATCH_admin_users_role token id role =>
      authenticated token (fun userId =>
        denied ← requireAdmin (Some userId);
        match denied with
        | Some reply => mret reply
        | None => PATCH_admin_users_role id role
        end)
  | Req_POST_auth_register email => POST_auth_register email
  end.

(** Requests served one after another: the replies, and the database left. *)
Fixpoint serve (requests : list Request) (db : Db) : list Reply * Db :=
  match requests with
  | [] => ([], db)
  | request :: rest =>
      let '(reply, db') := handle request db in
      let '(replies, db'') := serve rest db' in
      (reply :: replies, db'')
  end.

(** ** Notions of the specification *)

(** The text of a date as the specification writes it, [YYYY-MM-DD]. *)
Definition isoDate (y m d : Z) : string :=
  pad4 y +:+ "-" +:+ pad2 m +:+ "-" +:+ pad2 d.

(** A string that is syntactically [YYYY-MM-DD] and names a day that exists
    in the proleptic Gregorian calendar ISO 8601 uses (years 0000..9999). *)
Definition CalendarDateString (s : string) : Prop :=
  exists y m d : Z,
    0 <= y <= 9999 /\ 1 <= m <= 12 /\ 1 <= d <= daysInMonth y m /\ s = isoDate y m d.

(** The integers [0 .. n - 1]. *)
Definition upto (n : Z) : list Z := List.map Z.of_nat (List.seq 0 (Z.to_nat n)).


(** One date checked: formatting the day that [MakeDay] builds gives a real
    date of the same year, and gives back the month and day that were put in
    exactly when that day exists in that month. *)
Definition checkDate (y m d : Z) : bool :=
  let '(y', m', d') := civilFromDay (MakeDay y m d) in
  (y' =? y) && (1 <=? m') && (m' <=? 12) && (1 <=? d')
  && (d' <=? daysInMonth y m')
  && Bool.eqb ((m' =? m) && (d' =? d)) (d <=? daysInMonth y m).

(** The year of the era that [civilFromDay] reads off a day of the era, and
    the three quantities it derives the date from: the era, the year of the
    era and the month counted from March. *)
Definition yearOfEra (doe : Z) : Z :=
  (doe - doe / 1460 + doe / 36524 - doe / 146096) / 365.

Definition civilParts (day : Z) : Z * Z * Z :=
  let z := day + 719468 in
  let era := z / 146097 in
  let doe := z - era * 146097 in
  let yoe := yearOfEra doe in
  let doy := doe - (365 * yoe + yoe / 4 - yoe / 100) in
  (era, yoe, (5 * doy + 2) / 153).

Definition sameParts (a b : Z) : bool :=
  let '(e1, y1, m1) := civilParts a in
  let '(e2, y2, m2) := civilParts b in
  (e1 =? e2) && (y1 =? y2) && (m1 =? m2).

Definition civilIs (day y m d : Z) : bool :=
  let '(y', m', d') := civilFromDay day in
  (y' =? y) && (m' =? m) && (d' =? d).

(** One month checked at its ends: its first day and its last are read back
    as such from the same era, year of the era and month; and when the month
    has fewer than 31 days, the days [MakeDay] counts beyond its end, up to a
    31st, are read back as the first days of the next month. *)
Definition checkMonth (y m : Z) : bool :=
  let len := daysInMonth y m in
  let first := MakeDay y m 1 in
  civilIs first y m 1 && sameParts first (first + len - 1)
  && ((len =? 31)
      || ((m <? 12) && civilIs (first + len) y (m + 1) 1
          && sameParts (first + len) (first + 30))).

(** The order the specification gives for the meals of a response: by date
    as a string, then by the rank of the slot. *)
Definition specRank (slot : string) : Z :=
  if String.eqb slot "breakfast" then 0
  else if String.eqb slot "lunch" then 1
  else if String.eqb slot "afternoon_snack" then 2
  else if String.eqb slot "dinner" then 3
  else 4.

Definition mealOrder (a b : MealView) : Prop :=
  String.compare (view_date a) (view_date b) = Lt
  \/ (view_date a = view_date b /\ specRank (view_slot a) <= specRank (view_slot b)).


(** The plan row [findFirst] picks for an owner and a week, the planned
    meals stored under a plan, and the recipes a user owns. *)
Definition planOf (db : Db) (userId : string) (weekStart : Z) : option (string * MealPlanRow) :=
  List.find (fun p => bool_decide (plan_userId (snd p) = userId
                                   ∧ plan_weekStart (snd p) = weekStart))
    (map_to_list (mealPlans db)).

Definition mealsOf (db : Db) (planId : string) : list PlannedMealRow :=
  filter (fun meal => pm_planId meal = planId) (plannedMeals db).

Definition ownedBy (db : Db) (userId : string) (recipeId : string) : Prop :=
  exists r, recipes db !! recipeId = Some r /\ recipe_userId r = userId.

(** The rows [recipe.findMany] returns. *)
Definition foundRecipes (db : Db) (userId : string) (ids : list string) : list string :=
  fst <$> map_to_list
    (filter (fun p => recipe_userId (snd p) = userId ∧ fst p ∈ ids) (recipes db)).

(** The queries of the transaction of [PUT /meal-plans], between its begin
    and its commit. *)
Definition saveQueries (userId : string) (weekStart : Z) (existed : bool)
    (planId : string) (meals : list Meal) : list Query :=
  [Q_mealPlan_findFirst userId weekStart]
  ++ (if existed then [] else [Q_mealPlan_create userId weekStart])
  ++ [Q_plannedMeal_deleteMany planId]
  ++ (if 0 <? Z.of_nat (length meals)
      then [Q_plannedMeal_createMany (toRow planId <$> meals)] else [])
  ++ [Q_mealPlan_findUniqueOrThrow planId].

(** The triple a client submits for a meal, and the one it reads back. *)
Definition submitted (i : MealInput) : string * string * string :=
  (in_date i, in_slot i, in_recipeId i).

Definition returned (v : MealView) : string * string * string :=
  (view_date v, view_slot v, view_recipeId v).

(** What a successful [PUT /meal-plans] leaves behind: the request passed
    every check, with [out_weekStart] and [out_meals] its parsed week and
    meals; [planId] is the plan of the owner and the week, its stored meals
    are the submitted ones and no others, the other tables and the
    meals of other plans are as before, and the writes happened between the
    begin and the commit of one transaction. *)
Record PutOutcome (userId : string) (body : PutBody) (db db' : Db)
    (out_weekStart : Z) (out_meals : list Meal)
    (planId : string) (views : list MealView) : Prop := {
  out_parsed : parseDateOnly (body_weekStart body) = Some out_weekStart;
  out_read : readMeals out_weekStart (body_meals body) = inr out_meals;
  out_slots : checkSlots ∅ out_meals = None;
  out_owned : forall m, m ∈ out_meals -> ownedBy db userId (meal_recipeId m);
  out_users : users db' = users db;
  out_recipes : recipes db' = recipes db;
  out_plan :
    planOf db' userId out_weekStart
    = Some (planId, {| plan_userId := userId; plan_weekStart := out_weekStart |});
  out_plans :
    match planOf db userId out_weekStart with
    | Some p => fst p = planId /\ mealPlans db' = mealPlans db
    | None =>
        mealPlans db !! planId = None
        /\ mealPlans db'
           = <[planId := {| plan_userId := userId; plan_weekStart := out_weekStart |}]>
               (mealPlans db)
    end;
  out_stored : mealsOf db' planId = toRow planId <$> out_meals;
  out_others : forall other, other ≠ planId -> mealsOf db' other = mealsOf db other;
  out_views :
    toViews (includeRecipe db' <$> (toRow planId <$> out_meals)) = Some views;
  out_queries :
    queries db'
    = queries db
      ++ (if 0 <? Z.of_nat (length (distinct ∅ (meal_recipeId <$> out_meals)))
          then [Q_recipe_findMany userId (distinct ∅ (meal_recipeId <$> out_meals))]
          else [])
      ++ [Q_transaction_begin]
      ++ saveQueries userId out_weekStart
           (bool_decide (is_Some (planOf db userId out_weekStart))) planId out_meals
      ++ [Q_transaction_commit]
}.

(** The number of administrators, as [user.count({ where: { role: 'ADMIN' } })]
    counts them. *)
Definition adminCount (db : Db) : Z :=
  Z.of_nat (size (filter (fun p : string * UserRow => user_role (snd p) = ADMIN) (users db))).

(** The database with its [users] table replaced and queries added to the
    log. *)
Definition withUsers (db : Db) (table : gmap string UserRow) (log : list Query) : Db :=
  {| users := table; recipes := recipes db; mealPlans := mealPlans db;
     plannedMeals := plannedMeals db; queries := queries db ++ log |}.

(** A role change that takes the admin role away from the only admin. *)
Definition removesLastAdmin (db : Db) (target : UserRow) (role : Role) : bool :=
  bool_decide (user_role target = ADMIN) && bool_decide (role = USER)
  && (adminCount db <=? 1).

(** What every request leaves in place: the recipes, the plan rows that
    exist, and an administrator if there is one. *)
Definition Keeps (db db' : Db) : Prop :=
  recipes db' = recipes db
  /\ (forall id row, mealPlans db !! id = Some row -> mealPlans db' !! id = Some row)
  /\ (1 <= adminCount db -> 1 <= adminCount db').


(** Queries that change a table. *)
Definition isWrite (q : Query) : bool :=
  match q with
  | Q_user_update _ _ | Q_user_create _ | Q_mealPlan_create _ _
  | Q_plannedMeal_deleteMany _ | Q_plannedMeal_createMany _ => true
  | _ => false
  end.

(** Two submitted meals for the same slot of the same day, a meals list
    that has two such entries, and the first place in a list where an entry
    repeats the slot of an earlier one. *)
Definition sameSlot (a b : MealInput) : Prop :=
  in_date a = in_date b /\ in_slot a = in_slot b.

Definition HasDuplicateSlot (meals : list MealInput) : Prop :=
  exists (i j : nat) (a b : MealInput),
    (i < j)%nat /\ meals !! i = Some a /\ meals !! j = Some b /\ sameSlot a b.

Definition FirstCollision (meals pre : list MealInput) (dup : MealInput)
    (post : list MealInput) : Prop :=
  meals = pre ++ dup :: post
  /\ NoDup ((fun i => (in_date i, in_slot i)) <$> pre)
  /\ (exists first, first ∈ pre /\ sameSlot first dup).

(** Every meal of a request passes the date checks of the first loop. *)
Definition DatesInWeek (weekStart : Z) (meals : list MealInput) : Prop :=
  Forall (fun i => exists date, parseDateOnly (in_date i) = Some date
                                /\ isWithinWeek date weekStart = true) meals.

(** The key of the [seenSlots] set, in terms of what was submitted. *)
Definition inputKey (i : MealInput) : string := in_date i +:+ ":" +:+ in_slot i.


(** Rounding to one decimal place, half away from zero: [r] is a multiple of
    one tenth nearest to [x], and when two are equally near, the one farther
    from zero. *)
Definition RoundedHalfAway1 (x r : Qc) : Prop :=
  (exists k : Z, r = Q2Qc (k # 10))
  /\ (Qcabs (r - x) <= Q2Qc (1 # 20))%Qc
  /\ (Qcabs (r - x) = Q2Qc (1 # 20) -> (Qcabs x < Qcabs r)%Qc).

Definition AllRounded (raw rounded : Nutrition Qc) : Prop :=
  RoundedHalfAway1 (kcal raw) (kcal rounded)
  /\ RoundedHalfAway1 (protein raw) (protein rounded)
  /\ RoundedHalfAway1 (carbs raw) (carbs rounded)
  /\ RoundedHalfAway1 (fat raw) (fat rounded).

(** The invariants of the data model that the nutrition arithmetic is
    given: macro values are not negative and quantities are positive. *)
Definition NonNegative (n : Nutrition Qc) : Prop :=
  (0 <= kcal n)%Qc /\ (0 <= protein n)%Qc /\ (0 <= carbs n)%Qc /\ (0 <= fat n)%Qc.

Definition ValidIngredient (ing : Ingredient Qc) : Prop :=
  (0 <= kcalPer100g ing)%Qc /\ (0 <= proteinPer100g ing)%Qc
  /\ (0 <= carbsPer100g ing)%Qc /\ (0 <= fatPer100g ing)%Qc.

Definition ValidItems (byId : gmap string (Ingredient Qc)) (items : list (ItemInput Qc)) : Prop :=
  (forall id ing, byId !! id = Some ing -> ValidIngredient ing)
  /\ Forall (fun it => (0 < quantityG it)%Qc) items.

(** The same invariants on doubles, as a test. *)
Definition validFloatItems (byId : gmap string (Ingredient float))
    (items : list (ItemInput float)) : bool :=
  forallb (fun it =>
    PrimFloat.ltb PrimFloat.zero (quantityG it)
    && match byId !! ingredientId it with
       | Some ing =>
           PrimFloat.leb PrimFloat.zero (kcalPer100g ing)
           && PrimFloat.leb PrimFloat.zero (proteinPer100g ing)
           && PrimFloat.leb PrimFloat.zero (carbsPer100g ing)
           && PrimFloat.leb PrimFloat.zero (fatPer100g ing)
       | None => false
       end) items.

(** On doubles: [round1] of the decimal [d / 100] is the double of the
    decimal with one place that rounding half away from zero gives. *)
Definition roundsTwoDecimals (d : Z) : bool :=
  PrimFloat.eqb
    (round1 (PrimFloat.div (Binary64.of_Z d) (Binary64.of_Z 100)))
    (PrimFloat.div (Binary64.of_Z ((d + 5) / 10)) (Binary64.of_Z 10)).

(** ** Sample data *)

Module Sample.

(** Two users, the first an administrator, and three recipes. *)
Definition db : Db :=
  {| users := {[ "u1" := mkUser "ana@example.org" ADMIN;
                 "u2" := mkUser "rui@example.org" USER ]};
     recipes := {[ "R1" := mkRecipe "u1" "Porridge";
                   "R2" := mkRecipe "u1" "Soup";
                   "R3" := mkRecipe "u2" "Cake" ]};
     mealPlans := ∅;
     plannedMeals := [];
     queries := [] |}.

(** A week of three meals, submitted out of order. *)
Definition week : PutBody :=
  mkPutBody "2024-01-01"
    [mkMealInput "2024-01-02" "dinner" "R1";
     mkMealInput "2024-01-01" "lunch" "R2";
     mkMealInput "2024-01-01" "breakfast" "R1"].

Definition emptyWeek : PutBody := mkPutBody "2024-01-01" [].

(** The example of the specification: the same day and slot twice. *)
Definition twice : PutBody :=
  mkPutBody "2024-01-01"
    [mkMealInput "2024-01-01" "breakfast" "R1";
     mkMealInput "2024-01-01" "breakfast" "R2"].

(** The same slot twice, on a day outside the week of the request. *)
Definition twiceOutside : PutBody :=
  mkPutBody "2024-01-01"
    [mkMealInput "2024-02-01" "breakfast" "R1";
     mkMealInput "2024-02-01" "breakfast" "R2"].

End Sample.

(** ** Sample recipes *)

Module SampleFood.

(** A decimal literal [n / d] as JavaScript reads it: the nearest double. *)
Definition dec (n d : Z) : float := PrimFloat.div (Binary64.of_Z n) (Binary64.of_Z d).

(** Three ingredients with 0.1, 0.2 and 0.3 kcal per 100 g, and nothing
    else. *)
Definition byId : gmap string (Ingredient float) :=
  {[ "a" := mkIngredient "A" (dec 1 10) (dec 0 1) (dec 0 1) (dec 0 1);
     "b" := mkIngredient "B" (dec 2 10) (dec 0 1) (dec 0 1) (dec 0 1);
     "c" := mkIngredient "C" (dec 3 10) (dec 0 1) (dec 0 1) (dec 0 1) ]}.


(** The same in exact arithmetic. *)
Definition byIdQ : gmap string (Ingredient Qc) :=
  {[ "a" := mkIngredient "A" (Q2Qc (1 # 10)) 0%Qc 0%Qc 0%Qc;
     "b" := mkIngredient "B" (Q2Qc (2 # 10)) 0%Qc 0%Qc 0%Qc;
     "c" := mkIngredient "C" (Q2Qc (3 # 10)) 0%Qc 0%Qc 0%Qc ]}.

Definition itemsAQ : list (ItemInput Qc) := [mkItemInput "a" (Q2Qc 100)].
Definition itemsBQ : list (ItemInput Qc) :=
  [mkItemInput "b" (Q2Qc 100); mkItemInput "c" (Q2Qc 100)].

(** The example of the specification: 200 g of an ingredient with
    165 kcal per 100 g, in two servings. *)
Definition chicken : gmap string (Ingredient Qc) :=
  {[ "chicken" := mkIngredient "Chicken Breast" (Q2Qc 165) (Q2Qc 31) 0%Qc (Q2Qc (36 # 10)) ]}.

Definition chickenItems : list (ItemInput Qc) := [mkItemInput "chicken" (Q2Qc 200)].

End SampleFood.

(** ** More of the [Date] object: the UTC day of the month and its setter *)

Module JsDateUTC.
Import JsDate.

(** [TimeClip]: a time value farther than 8.64e15 ms from the epoch makes
    an invalid [Date]. *)
Definition TimeClip (time : Z) : option Z :=
  if Z.abs time <=? 8640000000000000 then Some time else None.

Definition YearFromTime (t : Z) : Z := let '(y, _, _) := civilFromDay (Day t) in y.

(** [date.getUTCDate()] *)
Definition getUTCDate (t : Z) : Z := let '(_, _, d) := civilFromDay (Day t) in d.

(** [date.getUTCDay()]: 0 for Sunday; the epoch was a Thursday. *)
Definition getUTCDay (t : Z) : Z := (Day t + 4) mod 7.

(** [date.setUTCDate(dt)] for an integer [dt]: the new time value is
    [MakeDate(MakeDay(YearFromTime(t), MonthFromTime(t), dt), TimeWithinDay(t))],
    clipped. *)
Definition setUTCDate (t dt : Z) : option Z :=
  let '(y, m, _) := civilFromDay (Day t) in
  TimeClip (MakeDay y m dt * msPerDay + TimeWithinDay t).

End JsDateUTC.

Import JsDateUTC.

(** [addDaysUtc] of [server.ts], for a whole number of days: the copy with
    its day of the month moved. *)
Definition addDaysUtc (date days : Z) : option Z :=
  setUTCDate date (getUTCDate date + days).

(** The day of the era on which its year [k] starts, and the check that
    [yearOfEra] reads [k] from the first and from the last day of that year. *)
Definition yearStart (k : Z) : Z := 365 * k + k / 4 - k / 100.

Definition checkYearOfEra (k : Z) : bool :=
  (yearOfEra (yearStart k) =? k) && (yearOfEra (yearStart (k + 1) - 1) =? k).

(** Dates compared as calendar dates: by year, then month, then day. *)
Definition compareCivil (a b : Z * Z * Z) : comparison :=
  let '(y1, m1, d1) := a in
  let '(y2, m2, d2) := b in
  match y1 ?= y2 with
  | Eq => match m1 ?= m2 with Eq => d1 ?= d2 | c => c end
  | c => c
  end.

(** ** What requests leave in place *)

(** The four tables are the same in both databases; the query logs may
    differ. *)
Definition sameTables (db db' : Db) : Prop :=
  users db' = users db /\ recipes db' = recipes db
  /\ mealPlans db' = mealPlans db /\ plannedMeals db' = plannedMeals db.

(** No user has two plan rows for the same week. *)
Definition UniquePlans (db : Db) : Prop :=
  forall id1 id2 row1 row2,
    mealPlans db !! id1 = Some row1 -> mealPlans db !! id2 = Some row2 ->
    plan_userId row1 = plan_userId row2 -> plan_weekStart row1 = plan_weekStart row2 ->
    id1 = id2.

(** The triple of a stored planned meal that a response shows. *)
Definition stored (r : PlannedMealRow) : string * string * string :=
  (formatDateOnly (pm_date r), pm_slot r, pm_recipeId r).

(** ** Users *)

(** No two users have the same email address. *)
Definition UniqueEmails (db : Db) : Prop :=
  forall id1 id2 u1 u2,
    users db !! id1 = Some u1 -> users db !! id2 = Some u2 ->
    user_email u1 = user_email u2 -> id1 = id2.

(** Some user has this email address. *)
Definition emailTaken (db : Db) (email : string) : Prop :=
  exists id u, users db !! id = Some u /\ user_email u = email.

(** The user a token names is an administrator. *)
Definition isAdmin (db : Db) (token : option string) : Prop :=
  exists userId u, token = Some userId /\ users db !! userId = Some u /\ user_role u = ADMIN.

(** A request for [PATCH /admin/users/:id/role] that carries the token of an
    administrator. *)
Definition roleChangeByAdmin (db : Db) (request : Request) : Prop :=
  match request with
  | Req_PATCH_admin_users_role token _ _ => isAdmin db token
  | _ => False
  end.

(** ** The ingredient check of [POST /recipes] *)

Section RecipeCode.
Context {N : Type} `{JsNumber N}.

(** [[...new Set(body.items.map((i) => i.ingredientId))]] *)
Definition ingredientIds (items : list (ItemInput N)) : list string :=
  distinct ∅ (ingredientId <$> items).

(** [prisma.ingredient.findMany({ where: { id: { in: ingredientIds } } })]
    on the ingredient table, keyed by id: the rows found, with their ids. *)
Definition ingredient_findMany (table : gmap string (Ingredient N)) (ids : list string)
    : list (string * Ingredient N) :=
  map_to_list (filter (fun p => fst p ∈ ids) table).

(** [new Map(ingredients.map((i) => [i.id, i]))]: of two entries with the
    same key the later one stays. *)
Definition byIdOf (ingredients : list (string * Ingredient N)) : gmap string (Ingredient N) :=
  fold_left (fun m p => <[fst p := snd p]> m) ingredients ∅.

(** The loop over [body.items] that answers 400 at the first item whose
    ingredient is not in the map; [None] when it runs to its end. *)
Fixpoint unknownIngredient (byId : gmap string (Ingredient N)) (items : list (ItemInput N))
    : option Reply :=
  match items with
  | [] => None
  | it :: rest =>
      if negb (bool_decide (is_Some (byId !! ingredientId it)))
      then Some (Send 400 (B_error ("Unknown ingredientId: " +:+ ingredientId it)))
      else unknownIngredient byId rest
  end.

(** The nutrition of the answer of [POST /recipes] to a body that passed
    [Body.parse], on a given ingredient table: the 400 of the ingredient
    check, or the report computed from the totals; the recipe row the handler
    creates in between takes no part in it. [inr None] is the TypeError of
    [byId.get(id)!] on a missing ingredient. *)
Definition recipeNutrition (table : gmap string (Ingredient N)) (servings : Z)
    (items : list (ItemInput N)) : Reply + option (NutritionReport N) :=
  let ingredients := ingredient_findMany table (ingredientIds items) in
  let byId := byIdOf ingredients in
  match unknownIngredient byId items with
  | Some reply => inl reply
  | None => inr ((fun totals => report totals servings) <$> totalsOf byId items)
  end.

(** The items of a stored recipe as [GET /recipes] reads them, each with its
    ingredient joined: [None] when an ingredient is missing. *)
Definition joined (byId : gmap string (Ingredient N)) (items : list (ItemInput N))
    : option (list (Ingredient N * N)) :=
  mapM (fun it => (fun ing => (ing, quantityG it)) <$> byId !! ingredientId it) items.

End RecipeCode.

(** ** The weekly planner page, [apps/web/src/pages/WeeklyMealPlanPage.tsx]

    The helpers of the page that build the week and the body of the save
    request. The page holds dates as strings [YYYY-MM-DD], from the date
    input and from [toISOString]. *)

Module WeeklyMealPlanPage.
Import Digits JsDate JsDateUTC.

(** [s.split(sep)] for a separator of one character. *)
Fixpoint split (sep : ascii) (s : string) : list string :=
  match s with
  | EmptyString => [EmptyString]
  | String c rest =>
      if Ascii.eqb c sep then EmptyString :: split sep rest
      else match split sep rest with
           | piece :: pieces => String c piece :: pieces
           | [] => [String c EmptyString]
           end
  end.

(** [Number(s)] on the strings the page gives it, strings of decimal digits:
    their value, 0 for the empty string. Any other string is read as NaN
    here ([None]); JavaScript reads more forms as numbers (signs, fractions,
    exponents, other bases, blanks around), which the properties below keep
    out by asking for a date string. *)
Definition Number (s : string) : option Z :=
  if allDigits s then Some (digitsVal 0 s) else None.

(** [MakeDay(year, month, date)] with [month] counted from 0 and not
    necessarily in 0..11. *)
Definition MakeDayOf (year month date : Z) : Z :=
  MakeDay (year + month / 12) (month mod 12 + 1) date.

(** [Date.UTC(year, month, day)]; NaN when an argument is. Years 0 to 99
    stand for 1900 to 1999. *)
Definition Date_UTC (year month day : option Z) : option Z :=
  y ← year; m ← month; d ← day;
  let yr := if (0 <=? y) && (y <=? 99) then 1900 + y else y in
  TimeClip (MakeDayOf yr m d * msPerDay).

(** [new Date(value)] of a number. *)
Definition newDate (value : option Z) : option Z := value ≫= TimeClip.

Definition parseDateOnly (value : string) : option Z :=
  let parts := Number <$> split "-" value in
  let year := mjoin (parts !! 0%nat) in
  let month := mjoin (parts !! 1%nat) in
  let day := mjoin (parts !! 2%nat) in
  newDate (Date_UTC year ((fun m => m - 1) <$> month) day).

(** [toISOString] throws a RangeError on an invalid [Date]; the functions
    below take valid ones. *)
Definition formatDateOnly (date : Z) : string :=
  substring 0 10 (toISOString date).

Definition addDaysUtc (date days : Z) : option Z :=
  setUTCDate date (getUTCDate date + days).

Definition startOfWeekMonday (date : Z) : option Z :=
  let day := getUTCDay date in
  let offset := if day =? 0 then -6 else 1 - day in
  addDaysUtc date offset.

(** [buildWeekDates]; [None] when [toISOString] throws. *)
Definition buildWeekDates (weekStart : string) : option (list string) :=
  start ← parseDateOnly weekStart;
  mapM (fun idx => formatDateOnly <$> addDaysUtc start idx) [0; 1; 2; 3; 4; 5; 6].

(** The keys of [mealSlots]. *)
Definition mealSlots : list string := ["breakfast"; "lunch"; "afternoon_snack"; "dinner"].

(** [SelectionState]: for a date, the recipe chosen for each slot. The
    objects are read as maps of their own properties; the keys at hand are
    date strings and slot keys, none of them a property that every object
    inherits. *)
Notation SelectionState := (gmap string (gmap string string)) (only parsing).

Definition createEmptySelection (weekDates : list string) : SelectionState :=
  fold_left (fun next date => <[date := ∅]> next) weekDates ∅.

(** The updater of [setSlotRecipe]. *)
Definition setSlotRecipe (date slot recipeId : string) (prev : SelectionState)
    : SelectionState :=
  let day := default ∅ (prev !! date) in
  <[date := if bool_decide (recipeId = "") then delete slot day
            else <[slot := recipeId]> day]> prev.

(** The selection the page shows once the plan of the week has arrived:
    the empty one, with each meal of the answer written into its day; a meal
    of a day that is not in the week is skipped. *)
Definition loadSelection (weekDates : list string) (meals : list MealView) : SelectionState :=
  fold_left (fun next meal =>
    match next !! view_date meal with
    | Some day => <[view_date meal := <[view_slot meal := view_recipeId meal]> day]> next
    | None => next
    end) meals (createEmptySelection weekDates).

(** [day[slot.key]] read as a condition: the recipe id, unless it is missing
    or empty. *)
Definition chosen (selections : SelectionState) (date slot : string) : option string :=
  match default ∅ (selections !! date) !! slot with
  | Some recipeId => if bool_decide (recipeId = "") then None else Some recipeId
  | None => None
  end.

(** The [meals] array that [save] builds. *)
Definition mealsToSave (weekDates : list string) (selections : SelectionState)
    : list MealInput :=
  date ← weekDates;
  slot ← mealSlots;
  match chosen selections date slot with
  | Some recipeId => [mkMealInput date slot recipeId]
  | None => []
  end.

(** The body [save] sends. *)
Definition save (weekStart : string) (weekDates : list string) (selections : SelectionState)
    : PutBody :=
  mkPutBody weekStart (mealsToSave weekDates selections).

(** [selectedCount]: a day that is missing is skipped; a slot counts when
    it holds a recipe id that is not empty. *)
Definition selectedCount (weekDates : list string) (selections : SelectionState) : Z :=
  fold_left (fun count date =>
    match selections !! date with
    | None => count
    | Some day =>
        fold_left (fun count slot =>
          match day !! slot with
          | Some recipeId => if bool_decide (recipeId = "") then count else count + 1
          | None => count
          end) mealSlots count
    end) weekDates 0.

(** The week the page shows for a day picked in the date input:
    [formatDateOnly(startOfWeekMonday(parseDateOnly(value)))]. *)
Definition weekOf (value : string) : option string :=
  formatDateOnly <$> (parseDateOnly value ≫= startOfWeekMonday).

End WeeklyMealPlanPage.

Module Page := WeeklyMealPlanPage.

(** ** The numbers that doubles stand for *)

(** The rational number a finite double stands for, [m * 2^e] with its
    sign; [None] for the infinities and NaN. *)
Definition toQ (x : float) : option Q :=
  match Prim2SF x with
  | S754_zero _ => Some 0%Q
  | S754_finite s m e => Some (inject_Z (if s then Z.neg m else Z.pos m) * Qpower 2 e)%Q
  | _ => None
  end.

(** The double holds the integer [n]. *)
Definition holdsInteger (k : float) (n : Z) : Prop :=
  exists q, toQ k = Some q /\ (q == inject_Z n)%Q.

(** [n] is the integer nearest to [q], the larger one when two are equally
    near. *)
Definition NearestInteger (q : Q) (n : Z) : Prop :=
  (inject_Z n - (1 # 2) <= q /\ q < inject_Z n + (1 # 2))%Q.

(** What [round1] makes of a double [x]: the quotient by 10, in binary64,
    of a double [k] that holds the integer nearest to the product [x * 10]
    as binary64 computes it, the larger integer when two are equally near.
    When that product is an infinity or NaN, it is [k]. *)
Definition Rounded64 (x r : float) : Prop :=
  exists k : float,
    r = PrimFloat.div k (Binary64.of_Z 10)
    /\ match toQ (PrimFloat.mul x (Binary64.of_Z 10)) with
       | Some q => exists n, NearestInteger q n /\ holdsInteger k n
       | None => k = PrimFloat.mul x (Binary64.of_Z 10)
       end.

Definition AllRounded64 (raw rounded : Nutrition float) : Prop :=
  Rounded64 (kcal raw) (kcal rounded)
  /\ Rounded64 (protein raw) (protein rounded)
  /\ Rounded64 (carbs raw) (carbs rounded)
  /\ Rounded64 (fat raw) (fat rounded).

(** Where a number [v] lies from the integer [m] to the next, as a
    rounding location says it: on [m], below the middle, on it or above. *)
Definition inbetween (m : Z) (l : location) (v : Q) : Prop :=
  match l with
  | loc_Exact => (v == inject_Z m)%Q
  | loc_Inexact Lt => (inject_Z m < v /\ v < inject_Z m + (1 # 2))%Q
  | loc_Inexact Eq => (v == inject_Z m + (1 # 2))%Q
  | loc_Inexact Gt => (inject_Z m + (1 # 2) < v /\ v < inject_Z m + 1)%Q
  end.

(** [result] is [exact] as binary64 rounds it to nearest: at most one part
    in 2^53 of itself away, or 2^-1075 among the smallest doubles, which are
    2^-1074 apart. *)
Definition Near64 (result exact : Q) : Prop :=
  (Qabs (result - exact) <= Qabs result * Qpower 2 (-53) + Qpower 2 (-1075))%Q.

(** The sign of a double as a factor. *)
Definition signOf (s : bool) : Q := if s then (-1)%Q else 1%Q.


(** More sample data. *)
Module SampleEgg.
Import SampleFood.

(** The Egg of [prisma/seed.ts], and 230 g of it. *)
Definition byId : gmap string (Ingredient float) :=
  {[ "egg" := mkIngredient "Egg" (dec 143 1) (dec 13 1) (dec 11 10) (dec 95 10) ]}.

Definition items : list (ItemInput float) := [mkItemInput "egg" (dec 230 1)].

(** The same in exact arithmetic. *)
Definition byIdQ : gmap string (Ingredient Qc) :=
  {[ "egg" := mkIngredient "Egg" (Q2Qc 143) (Q2Qc 13) (Q2Qc (11 # 10)) (Q2Qc (95 # 10)) ]}.

Definition itemsQ : list (ItemInput Qc) := [mkItemInput "egg" (Q2Qc 230)].

(** An ingredient with 0.15 kcal per 100 g, and 100 g of it. *)
Definition light : gmap string (Ingredient float) :=
  {[ "x" := mkIngredient "X" (dec 15 100) (dec 0 1) (dec 0 1) (dec 0 1) ]}.

Definition lightItems : list (ItemInput float) := [mkItemInput "x" (dec 100 1)].





End SampleEgg.



(** ** The dates of stored meals *)

(** Every stored planned meal has a date in the years 0 to 9999, as every
    date has that [parseDateOnly] has accepted. *)
Definition StoredDatesInRange (db : Db) : Prop :=
  Forall (fun r => 0 <= YearFromTime (pm_date r) <= 9999) (plannedMeals db).

(** * Properties *)

(** ** The code at work on a few inputs *)

Module Checks.

Example parse_new_year : parseDateOnly "2024-01-01" = Some 1704067200000.
Proof. vm_compute. reflexivity. Qed.

Example parse_leap_day_of_year_0 : parseDateOnly "0000-02-29" = Some (-62162121600000).
Proof. vm_compute. reflexivity. Qed.

Example iso_string_with_time : toISOString 1704067200123 = "2024-01-01T00:00:00.123Z".
Proof. vm_compute. reflexivity. Qed.

Example iso_string_before_year_0 :
  toISOString (-62167219200001) = "-000001-12-31T23:59:59.999Z".
Proof. vm_compute. reflexivity. Qed.

Example format_year_10000 : formatDateOnly 253402300800000 = "+010000-01".
Proof. vm_compute. reflexivity. Qed.

Example rank_of_slots :
  slotRank <$> ["breakfast"; "lunch"; "afternoon_snack"; "dinner"; "brunch"] = [0; 1; 2; 3; 4].
Proof. vm_compute. reflexivity. Qed.

Example save_then_read :
  let saved := PUT_meal_plans "u1" Sample.week Sample.db in
  fst (GET_meal_plans "u1" "2024-01-01" (snd saved)) = fst saved
  /\ queries (snd saved)
     = [Q_recipe_findMany "u1" ["R1"; "R2"]; Q_transaction_begin;
        Q_mealPlan_findFirst "u1" 1704067200000; Q_mealPlan_create "u1" 1704067200000;
        Q_plannedMeal_deleteMany "0";
        Q_plannedMeal_createMany (mealsOf (snd saved) "0");
        Q_mealPlan_findUniqueOrThrow "0"; Q_transaction_commit].
Proof. split; vm_compute; reflexivity. Qed.

Example foreign_recipe_refused :
  fst (PUT_meal_plans "u1"
         (mkPutBody "2024-01-01" [mkMealInput "2024-01-01" "breakfast" "R3"]) Sample.db)
  = Send 400 (B_error "One or more recipes were not found for this user").
Proof. vm_compute. reflexivity. Qed.

End Checks.

(** ** Calendar arithmetic *)

Module DateFacts.
Import Digits JsDate.

Lemma digitChar_spec (n : Z) :
  digitVal (digitChar n) = n mod 10 /\ isDigit (digitChar n) = true.
Proof.
  unfold digitChar.
  assert (H : 0 <= n mod 10 < 10) by (apply Z.mod_pos_bound; lia).
  revert H. generalize (n mod 10). intros k H.
  assert (Hk : k = 0 \/ k = 1 \/ k = 2 \/ k = 3 \/ k = 4 \/ k = 5 \/ k = 6
               \/ k = 7 \/ k = 8 \/ k = 9) by lia.
  repeat (destruct Hk as [-> | Hk]; [split; reflexivity |]).
  subst k. split; reflexivity.
Qed.

Lemma pad2_val (n : Z) : 0 <= n < 100 -> digitsVal 0 (pad2 n) = n.
Proof.
  intros H. unfold pad2. cbn [digitsVal].
  rewrite !(proj1 (digitChar_spec _)).
  rewrite (Z.mod_small (n / 10) 10) by (split; [apply Z.div_pos | apply Z.div_lt_upper_bound]; lia).
  pose proof (Z.div_mod n 10 ltac:(lia)). lia.
Qed.

Lemma pad4_val (n : Z) : 0 <= n < 10000 -> digitsVal 0 (pad4 n) = n.
Proof.
  intros H. unfold pad4, pad3, pad2. cbn [digitsVal].
  rewrite !(proj1 (digitChar_spec _)).
  assert (n / 1000 mod 10 = n / 1000) as ->
    by (apply Z.mod_small; split; [apply Z.div_pos | apply Z.div_lt_upper_bound]; lia).
  assert (E1 : n / 100 = 10 * (n / 1000) + n / 100 mod 10).
  { replace (n / 1000) with (n / 100 / 10) by (rewrite Z.div_div by lia; reflexivity).
    apply Z.div_mod; lia. }
  assert (E2 : n / 10 = 10 * (n / 100) + n / 10 mod 10).
  { replace (n / 100) with (n / 10 / 10) by (rewrite Z.div_div by lia; reflexivity).
    apply Z.div_mod; lia. }
  pose proof (Z.div_mod n 10 ltac:(lia)). lia.
Qed.

Lemma pad2_digits (n : Z) : allDigits (pad2 n) = true.
Proof.
  unfold pad2. cbn [allDigits]. rewrite !(proj2 (digitChar_spec _)). reflexivity.
Qed.

Lemma pad4_digits (n : Z) : allDigits (pad4 n) = true.
Proof.
  unfold pad4, pad3, pad2. cbn [allDigits].
  rewrite !(proj2 (digitChar_spec _)). reflexivity.
Qed.

(** The Gregorian calendar repeats every 400 years, that is every 146097
    days. *)
Lemma isLeapYear_period (y k : Z) : isLeapYear (y + 400 * k) = isLeapYear y.
Proof.
  unfold isLeapYear.
  replace ((y + 400 * k) mod 4) with (y mod 4)
    by (replace (y + 400 * k) with (y + (100 * k) * 4) by lia; rewrite Z.mod_add; lia).
  replace ((y + 400 * k) mod 100) with (y mod 100)
    by (replace (y + 400 * k) with (y + (4 * k) * 100) by lia; rewrite Z.mod_add; lia).
  replace ((y + 400 * k) mod 400) with (y mod 400)
    by (replace (y + 400 * k) with (y + k * 400) by lia; rewrite Z.mod_add; lia).
  reflexivity.
Qed.

Lemma daysInMonth_period (y k m : Z) : daysInMonth (y + 400 * k) m = daysInMonth y m.
Proof. unfold daysInMonth. rewrite isLeapYear_period. reflexivity. Qed.

Lemma MakeDay_period (y k m d : Z) :
  MakeDay (y + 400 * k) m d = MakeDay y m d + 146097 * k.
Proof.
  unfold MakeDay.
  set (y0 := if m <=? 2 then y - 1 else y).
  replace (if m <=? 2 then y + 400 * k - 1 else y + 400 * k) with (y0 + k * 400)
    by (unfold y0; destruct (m <=? 2); lia).
  rewrite Z.div_add by lia.
  set (era := y0 / 400).
  replace (y0 + k * 400 - (era + k) * 400) with (y0 - era * 400) by lia.
  lia.
Qed.

Lemma civilFromDay_period (z k : Z) :
  civilFromDay (z + 146097 * k) =
  let '(y, m, d) := civilFromDay z in (y + 400 * k, m, d).
Proof.
  unfold civilFromDay.
  replace (z + 146097 * k + 719468) with (z + 719468 + k * 146097) by lia.
  rewrite Z.div_add by lia.
  set (era := (z + 719468) / 146097).
  replace (z + 719468 + k * 146097 - (era + k) * 146097)
    with (z + 719468 - era * 146097) by lia.
  set (doe := z + 719468 - era * 146097).
  set (yoe := (doe - doe / 1460 + doe / 36524 - doe / 146096) / 365).
  set (doy := doe - (365 * yoe + yoe / 4 - yoe / 100)).
  set (mp := (5 * doy + 2) / 153).
  destruct (_ <=? 2); f_equal; f_equal; lia.
Qed.

Lemma forallb_upto (f : Z -> bool) (n : Z) :
  List.forallb f (upto n) = true -> forall z, 0 <= z < n -> f z = true.
Proof.
  intros H z Hz. rewrite forallb_forall in H. apply H.
  unfold upto. apply in_map_iff. exists (Z.to_nat z).
  split; [lia | apply in_seq; lia].
Qed.

(** The sandwich: between two days that [civilFromDay] reads from the same
    era, year and month, the day of the month runs with the day number. *)
Lemma yearOfEra_mono (u v : Z) :
  0 <= u <= v -> v < 146097 -> yearOfEra u <= yearOfEra v.
Proof.
  intros Hu Hv. unfold yearOfEra. apply Z.div_le_mono; [lia |].
  pose proof (Z.div_le_mono u v 36524 ltac:(lia) ltac:(lia)) as H2.
  assert (H1 : v / 1460 - u / 1460 <= v - u).
  { pose proof (Z.div_mod u 1460 ltac:(lia)). pose proof (Z.div_mod v 1460 ltac:(lia)).
    pose proof (Z.mod_pos_bound u 1460 ltac:(lia)).
    pose proof (Z.mod_pos_bound v 1460 ltac:(lia)). lia. }
  destruct (Z.eq_dec v 146096) as [-> | Hne].
  - destruct (Z.eq_dec u 146096) as [-> | Hne']; [lia |].
    rewrite (Z.div_small u 146096) by lia.
    change (146096 / 1460) with 100. change (146096 / 36524) with 4.
    change (146096 / 146096) with 1.
    assert (u / 1460 <= 100) by (apply Z.lt_succ_r, Z.div_lt_upper_bound; lia).
    assert (u / 36524 <= 3) by (apply Z.lt_succ_r, Z.div_lt_upper_bound; lia).
    destruct (Z_lt_le_dec u 146000).
    + assert (u / 1460 <= 99) by (apply Z.lt_succ_r, Z.div_lt_upper_bound; lia).
      pose proof (Z.div_le_compat_l u 1460 36524 ltac:(lia) ltac:(lia)). lia.
    + assert (100 <= u / 1460) by (apply Z.div_le_lower_bound; lia). lia.
  - rewrite (Z.div_small u 146096), (Z.div_small v 146096) by lia. lia.
Qed.

Lemma civilFromDay_between (a b x y m d : Z) :
  civilParts a = civilParts b -> civilFromDay a = (y, m, d) -> a <= x <= b ->
  civilFromDay x = (y, m, d + (x - a)).
Proof.
  unfold civilParts, civilFromDay. fold (yearOfEra (a + 719468 - (a + 719468) / 146097 * 146097)).
  fold (yearOfEra (x + 719468 - (x + 719468) / 146097 * 146097)).
  cbv zeta.
  intros Hp Ha Hx.
  injection Hp as Hera Hyoe Hmp.
  assert (Ex : (x + 719468) / 146097 = (a + 719468) / 146097).
  { pose proof (Z.div_le_mono (a + 719468) (x + 719468) 146097 ltac:(lia) ltac:(lia)).
    pose proof (Z.div_le_mono (x + 719468) (b + 719468) 146097 ltac:(lia) ltac:(lia)). lia. }
  rewrite Ex.
  set (era := (a + 719468) / 146097) in *.
  assert (Ra : 0 <= a + 719468 - era * 146097 < 146097).
  { unfold era. pose proof (Z.div_mod (a + 719468) 146097 ltac:(lia)).
    pose proof (Z.mod_pos_bound (a + 719468) 146097 ltac:(lia)). lia. }
  assert (Rb : 0 <= b + 719468 - era * 146097 < 146097).
  { rewrite Hera. pose proof (Z.div_mod (b + 719468) 146097 ltac:(lia)).
    pose proof (Z.mod_pos_bound (b + 719468) 146097 ltac:(lia)). lia. }
  rewrite <- Hera in Hyoe, Hmp.
  assert (Yx : yearOfEra (x + 719468 - era * 146097) = yearOfEra (a + 719468 - era * 146097)).
  { pose proof (yearOfEra_mono (a + 719468 - era * 146097) (x + 719468 - era * 146097) ltac:(lia) ltac:(lia)).
    pose proof (yearOfEra_mono (x + 719468 - era * 146097) (b + 719468 - era * 146097) ltac:(lia) ltac:(lia)).
    lia. }
  rewrite Yx.
  set (yoe := yearOfEra (a + 719468 - era * 146097)) in *.
  rewrite <- Hyoe in Hmp.
  set (c := 365 * yoe + yoe / 4 - yoe / 100) in *.
  assert (Mx : (5 * (x + 719468 - era * 146097 - c) + 2) / 153
               = (5 * (a + 719468 - era * 146097 - c) + 2) / 153).
  { pose proof (Z.div_le_mono (5 * (a + 719468 - era * 146097 - c) + 2)
                  (5 * (x + 719468 - era * 146097 - c) + 2) 153 ltac:(lia) ltac:(lia)).
    pose proof (Z.div_le_mono (5 * (x + 719468 - era * 146097 - c) + 2)
                  (5 * (b + 719468 - era * 146097 - c) + 2) 153 ltac:(lia) ltac:(lia)).
    lia. }
  rewrite Mx.
  set (mp := (5 * (a + 719468 - era * 146097 - c) + 2) / 153) in *.
  injection Ha as Hy Hm Hd.
  rewrite Hy, Hm. f_equal. lia.
Qed.

(** Every month of one 400-year cycle, checked at its ends. *)
Lemma checkMonth_cycle :
  List.forallb (fun y => List.forallb (fun m => checkMonth y (m + 1)) (upto 12))
    (upto 400) = true.
Proof. vm_cast_no_check (eq_refl true). Qed.

Lemma sameParts_eq (a b : Z) : sameParts a b = true -> civilParts a = civilParts b.
Proof.
  unfold sameParts. destruct (civilParts a) as [[e1 y1] m1], (civilParts b) as [[e2 y2] m2].
  rewrite !andb_true_iff, !Z.eqb_eq. intros [[-> ->] ->]. reflexivity.
Qed.

Lemma civilIs_eq (day y m d : Z) : civilIs day y m d = true -> civilFromDay day = (y, m, d).
Proof.
  unfold civilIs. destruct (civilFromDay day) as [[y' m'] d'].
  rewrite !andb_true_iff, !Z.eqb_eq. intros [[-> ->] ->]. reflexivity.
Qed.

Lemma MakeDay_day (y m d : Z) : MakeDay y m d = MakeDay y m 1 + (d - 1).
Proof. unfold MakeDay. lia. Qed.

Lemma daysInMonth_ge_28 (y m : Z) : 28 <= daysInMonth y m <= 31.
Proof.
  unfold daysInMonth.
  destruct (m =? 2); [destruct (isLeapYear y); lia |].
  destruct (_ || _); lia.
Qed.

Lemma checkMonth_checkDate (y m d : Z) :
  1 <= m <= 12 -> 1 <= d <= 31 -> checkMonth y m = true -> checkDate y m d = true.
Proof.
  intros Hm Hd. unfold checkMonth. cbv zeta.
  pose proof (daysInMonth_ge_28 y m) as Hlen.
  rewrite !andb_true_iff, orb_true_iff, !andb_true_iff.
  intros [[Hfirst Hsame] Hover].
  apply civilIs_eq in Hfirst. apply sameParts_eq in Hsame.
  unfold checkDate. rewrite (MakeDay_day y m d).
  destruct (Z_le_gt_dec d (daysInMonth y m)) as [Hin | Hout].
  - rewrite (civilFromDay_between _ _ (MakeDay y m 1 + (d - 1)) _ _ _ Hsame Hfirst) by lia.
    replace (1 + (MakeDay y m 1 + (d - 1) - MakeDay y m 1)) with d by lia.
    rewrite !Z.eqb_refl.
    repeat match goal with
    | |- context [?a <=? ?b] => destruct (Z.leb_spec a b); try lia
    end.
  - destruct Hover as [H31 | [[Hlt Hnext] Hsame']]; [apply Z.eqb_eq in H31; lia |].
    apply Z.ltb_lt in Hlt. apply civilIs_eq in Hnext. apply sameParts_eq in Hsame'.
    pose proof (daysInMonth_ge_28 y (m + 1)) as Hlen'.
    rewrite (civilFromDay_between _ _ (MakeDay y m 1 + (d - 1)) _ _ _ Hsame' Hnext) by lia.
    rewrite Z.eqb_refl.
    replace (m + 1 =? m) with false by (symmetry; apply Z.eqb_neq; lia).
    repeat match goal with
    | |- context [?a <=? ?b] => destruct (Z.leb_spec a b); try lia
    end.
Qed.


Lemma checkDate_period (y k m d : Z) : checkDate (y + 400 * k) m d = checkDate y m d.
Proof.
  unfold checkDate. rewrite MakeDay_period, civilFromDay_period.
  destruct (civilFromDay (MakeDay y m d)) as [[y' m'] d'].
  rewrite !daysInMonth_period.
  replace (y' + 400 * k =? y + 400 * k) with (y' =? y); [reflexivity |].
  destruct (Z.eqb_spec y' y), (Z.eqb_spec (y' + 400 * k) (y + 400 * k)); lia || reflexivity.
Qed.

Lemma checkDate_all (y m d : Z) :
  1 <= m <= 12 -> 1 <= d <= 31 -> checkDate y m d = true.
Proof.
  intros Hm Hd.
  replace y with (y mod 400 + 400 * (y / 400))
    by (pose proof (Z.div_mod y 400 ltac:(lia)); lia).
  rewrite checkDate_period.
  assert (Hy : 0 <= y mod 400 < 400) by (apply Z.mod_pos_bound; lia).
  pose proof (forallb_upto _ _ checkMonth_cycle _ Hy) as H1.
  pose proof (forallb_upto _ _ H1 (m - 1) ltac:(lia)) as H2.
  cbv beta in H2. replace (m - 1 + 1) with m in H2 by lia.
  apply checkMonth_checkDate; assumption.
Qed.

Lemma daysInMonth_le_31 (y m : Z) : 28 <= daysInMonth y m <= 31.
Proof.
  unfold daysInMonth.
  destruct (m =? 2); [destruct (isLeapYear y); lia |].
  destruct (_ || _); lia.
Qed.

Lemma formatDateOnly_midnight (day y m d : Z) :
  civilFromDay day = (y, m, d) -> 0 <= y <= 9999 ->
  formatDateOnly (day * msPerDay) = isoDate y m d.
Proof.
  intros Hc Hy. unfold formatDateOnly, toISOString, Day.
  rewrite Z.div_mul by (unfold msPerDay; lia). rewrite Hc.
  unfold isoYear.
  replace ((0 <=? y) && (y <=? 9999)) with true
    by (symmetry; apply andb_true_iff; split; apply Z.leb_le; lia).
  unfold isoDate, pad4, pad3, pad2. reflexivity.
Qed.

Lemma DATE_ONLY_REGEX_isoDate (y m d : Z) : DATE_ONLY_REGEX (isoDate y m d) = true.
Proof.
  unfold DATE_ONLY_REGEX, isoDate, pad4, pad3, pad2.
  lazy beta iota zeta delta [String.append String.length substring allDigits String.eqb Nat.eqb Ascii.eqb].
  rewrite !(proj2 (digitChar_spec _)). reflexivity.
Qed.

Lemma newDateUtcMidnight_isoDate (y m d : Z) :
  0 <= y <= 9999 -> 1 <= m <= 12 -> 1 <= d <= 31 ->
  newDateUtcMidnight (isoDate y m d) = Some (MakeDay y m d * msPerDay).
Proof.
  intros Hy Hm Hd. unfold newDateUtcMidnight.
  replace (substring 0 4 (isoDate y m d)) with (pad4 y) by reflexivity.
  replace (substring 5 2 (isoDate y m d)) with (pad2 m) by reflexivity.
  replace (substring 8 2 (isoDate y m d)) with (pad2 d) by reflexivity.
  rewrite pad4_val, !pad2_val by lia.
  replace ((1 <=? m) && (m <=? 12) && (1 <=? d) && (d <=? 31)) with true; [reflexivity |].
  symmetry. rewrite !andb_true_iff, !Z.leb_le. lia.
Qed.

(** What [checkDate] says, in propositional form. *)
Lemma civilFromDay_MakeDay (y m d : Z) :
  1 <= m <= 12 -> 1 <= d <= 31 ->
  exists m' d',
    civilFromDay (MakeDay y m d) = (y, m', d')
    /\ 1 <= m' <= 12 /\ 1 <= d' <= daysInMonth y m'
    /\ ((m' = m /\ d' = d) <-> d <= daysInMonth y m).
Proof.
  intros Hm Hd. pose proof (checkDate_all y m d Hm Hd) as H.
  unfold checkDate in H.
  destruct (civilFromDay (MakeDay y m d)) as [[y' m'] d'].
  rewrite !andb_true_iff in H.
  destruct H as [[[[[H1 H2] H3] H4] H5] H6].
  apply Z.eqb_eq in H1. apply Z.leb_le in H2, H3, H4, H5. subst y'.
  exists m', d'. repeat split; lia.
Qed.

Lemma string_length_10 (s : string) :
  String.length s = 10%nat ->
  exists c0 c1 c2 c3 c4 c5 c6 c7 c8 c9,
    s = String c0 (String c1 (String c2 (String c3 (String c4 (String c5
          (String c6 (String c7 (String c8 (String c9 EmptyString))))))))).
Proof.
  intros H.
  do 10 (destruct s as [| ? s]; [discriminate H |]).
  destruct s; [| discriminate H]. eauto 11.
Qed.

Lemma isDigit_val (c : ascii) : isDigit c = true -> 0 <= digitVal c <= 9.
Proof.
  unfold isDigit, digitVal. rewrite andb_true_iff, !Z.leb_le. lia.
Qed.

(** A string that passes [DATE_ONLY_REGEX] carries a year in 0..9999. *)
Lemma DATE_ONLY_REGEX_year (s : string) :
  DATE_ONLY_REGEX s = true -> 0 <= digitsVal 0 (substring 0 4 s) <= 9999.
Proof.
  unfold DATE_ONLY_REGEX. rewrite !andb_true_iff.
  intros [[[[[Hl Hy] _] _] _] _].
  apply Nat.eqb_eq in Hl.
  destruct (string_length_10 s Hl) as (c0 & c1 & c2 & c3 & c4 & c5 & c6 & c7 & c8 & c9 & ->).
  cbn [substring allDigits] in Hy. rewrite !andb_true_iff in Hy.
  destruct Hy as (H0 & H1 & H2 & H3 & _).
  apply isDigit_val in H0, H1, H2, H3.
  cbn [substring digitsVal]. lia.
Qed.

Lemma parseDateOnly_isoDate (y m d : Z) :
  0 <= y <= 9999 -> 1 <= m <= 12 -> 1 <= d <= daysInMonth y m ->
  parseDateOnly (isoDate y m d) = Some (MakeDay y m d * msPerDay)
  /\ formatDateOnly (MakeDay y m d * msPerDay) = isoDate y m d.
Proof.
  intros Hy Hm Hd. pose proof (daysInMonth_le_31 y m) as Hb.
  destruct (civilFromDay_MakeDay y m d Hm ltac:(lia)) as (m' & d' & Hc & _ & _ & Hiff).
  destruct (proj2 Hiff ltac:(lia)) as [-> ->].
  pose proof (formatDateOnly_midnight _ _ _ _ Hc Hy) as Hf.
  split; [| exact Hf].
  unfold parseDateOnly.
  rewrite DATE_ONLY_REGEX_isoDate, newDateUtcMidnight_isoDate by lia.
  cbn [negb]. rewrite Hf, String.eqb_refl. reflexivity.
Qed.

Lemma parseDateOnly_Some (s : string) (t : Z) :
  parseDateOnly s = Some t ->
  formatDateOnly t = s /\ CalendarDateString s /\ t mod msPerDay = 0.
Proof.
  unfold parseDateOnly.
  destruct (DATE_ONLY_REGEX s) eqn:Hre; [| discriminate].
  cbn [negb]. unfold newDateUtcMidnight.
  pose proof (DATE_ONLY_REGEX_year s Hre) as Hy.
  set (y := digitsVal 0 (substring 0 4 s)) in *.
  set (m := digitsVal 0 (substring 5 2 s)).
  set (d := digitsVal 0 (substring 8 2 s)).
  destruct ((1 <=? m) && (m <=? 12) && (1 <=? d) && (d <=? 31)) eqn:Hr; [| discriminate].
  rewrite !andb_true_iff, !Z.leb_le in Hr.
  destruct (String.eqb_spec (formatDateOnly (MakeDay y m d * msPerDay)) s) as [He | ];
    [| discriminate].
  intros [= <-]. split; [exact He |].
  split; [| apply Z.mod_mul; unfold msPerDay; lia].
  destruct (civilFromDay_MakeDay y m d ltac:(lia) ltac:(lia))
    as (m' & d' & Hc & Hm' & Hd' & _).
  rewrite (formatDateOnly_midnight _ _ _ _ Hc Hy) in He.
  exists y, m', d'. auto.
Qed.

End DateFacts.

(** ** Sorting *)

Module SortFacts.

Lemma ascii_compare_N (a b : ascii) :
  Ascii.compare a b = N.compare (N_of_ascii a) (N_of_ascii b).
Proof. reflexivity. Qed.

Lemma string_compare_refl (a : string) : String.compare a a = Eq.
Proof.
  induction a as [| x a IH]; simpl; [reflexivity |].
  rewrite ascii_compare_N, N.compare_refl. exact IH.
Qed.

Lemma string_compare_Gt (a b : string) :
  String.compare a b = Gt <-> String.compare b a = Lt.
Proof.
  rewrite (String.compare_antisym b a).
  destruct (String.compare a b); simpl; split; congruence.
Qed.

Lemma string_compare_Lt_trans (a b c : string) :
  String.compare a b = Lt -> String.compare b c = Lt -> String.compare a c = Lt.
Proof.
  revert b c. induction a as [| x a IH]; intros [| y b] [| z c]; simpl; try congruence.
  rewrite !ascii_compare_N.
  destruct (N.compare_spec (N_of_ascii x) (N_of_ascii y)) as [Exy | Lxy | Gxy];
    try discriminate;
  destruct (N.compare_spec (N_of_ascii y) (N_of_ascii z)) as [Eyz | Lyz | Gyz];
    try discriminate; intros H1 H2.
  - rewrite Exy, Eyz, N.compare_refl. eauto.
  - rewrite Exy. apply N.compare_lt_iff in Lyz. rewrite Lyz. reflexivity.
  - rewrite <- Eyz. apply N.compare_lt_iff in Lxy. rewrite Lxy. reflexivity.
  - assert (L : (N_of_ascii x < N_of_ascii z)%N) by lia.
    apply N.compare_lt_iff in L. rewrite L. reflexivity.
Qed.

Lemma slotRank_specRank (slot : string) : slotRank slot = specRank slot.
Proof.
  unfold slotRank, specRank, slotSortOrder. cbn [indexOf length].
  rewrite !(String.eqb_sym _ slot).
  repeat (destruct (String.eqb slot _); [reflexivity |]). reflexivity.
Qed.

Lemma compareMeals_le (a b : MealView) : compareMeals a b <= 0 <-> mealOrder a b.
Proof.
  unfold compareMeals, mealOrder, localeCompare. rewrite !slotRank_specRank.
  destruct (String.compare (view_date a) (view_date b)) eqn:E; simpl.
  - apply String.compare_eq_iff in E. split; [intros; right; split; [assumption | lia] |].
    intros [? | [_ ?]]; [discriminate | lia].
  - split; [auto | lia].
  - split; [lia |]. intros [? | [Heq _]]; [discriminate |].
    rewrite Heq, string_compare_refl in E. discriminate.
Qed.

Lemma mealOrder_total (a b : MealView) : mealOrder a b \/ mealOrder b a.
Proof.
  unfold mealOrder.
  destruct (String.compare (view_date a) (view_date b)) eqn:E.
  - apply String.compare_eq_iff in E.
    destruct (Z.le_ge_cases (specRank (view_slot a)) (specRank (view_slot b))); auto.
  - auto.
  - apply string_compare_Gt in E. auto.
Qed.

Lemma mealOrder_trans (a b c : MealView) : mealOrder a b -> mealOrder b c -> mealOrder a c.
Proof.
  unfold mealOrder. intros [L1 | [E1 R1]] [L2 | [E2 R2]].
  - left. eapply string_compare_Lt_trans; eassumption.
  - left. rewrite <- E2. assumption.
  - left. rewrite E1. assumption.
  - right. split; [congruence | lia].
Qed.

Section ArraySort.
Context {A : Type} (cmp : A -> A -> Z).
Hypothesis cmp_total : forall x y, cmp x y <= 0 \/ cmp y x <= 0.
Hypothesis cmp_trans : forall x y z, cmp x y <= 0 -> cmp y z <= 0 -> cmp x z <= 0.

Lemma insertBy_Permutation (x : A) (l : list A) : insertBy cmp x l ≡ₚ x :: l.
Proof.
  induction l as [| y l IH]; simpl; [reflexivity |].
  destruct (cmp x y <=? 0); [reflexivity |].
  rewrite IH. apply Permutation_swap.
Qed.

Lemma insertBy_StronglySorted (x : A) (l : list A) :
  StronglySorted (fun x y => cmp x y <= 0) l -> StronglySorted (fun x y => cmp x y <= 0) (insertBy cmp x l).
Proof.
  induction 1 as [| y l Hl IH Hy]; simpl.
  - repeat constructor.
  - destruct (Z.leb_spec (cmp x y) 0) as [Hxy | Hxy].
    + constructor; [constructor; assumption |].
      constructor; [exact Hxy |].
      eapply Forall_impl; [exact Hy |]. intros z Hz. eapply cmp_trans; eassumption.
    + constructor; [exact IH |].
      rewrite insertBy_Permutation. constructor; [| exact Hy].
      destruct (cmp_total x y) as [H' | H']; [lia | exact H'].
Qed.

Lemma Array_sort_StronglySorted (l : list A) : StronglySorted (fun x y => cmp x y <= 0) (Array_sort cmp l).
Proof.
  induction l as [| x l IH]; simpl; [constructor |].
  apply insertBy_StronglySorted, IH.
Qed.

Lemma Array_sort_Permutation (l : list A) : Array_sort cmp l ≡ₚ l.
Proof.
  induction l as [| x l IH]; simpl; [reflexivity |].
  rewrite insertBy_Permutation, IH. reflexivity.
Qed.

End ArraySort.

Lemma Array_sort_nil {A} (cmp : A -> A -> Z) : Array_sort cmp [] = [].
Proof. reflexivity. Qed.

Lemma StronglySorted_weaken {A} (R R' : A -> A -> Prop) (l : list A) :
  (forall x y, R x y -> R' x y) -> StronglySorted R l -> StronglySorted R' l.
Proof.
  intros HR. induction 1 as [| x l Hl IH Hx]; constructor; [exact IH |].
  eapply Forall_impl; [exact Hx | auto].
Qed.

Lemma sorted_meals (views : list MealView) :
  StronglySorted mealOrder (Array_sort compareMeals views).
Proof.
  apply (StronglySorted_weaken (fun a b => compareMeals a b <= 0)).
  - intros a b. apply compareMeals_le.
  - apply Array_sort_StronglySorted.
    + intros a b. rewrite !compareMeals_le. apply mealOrder_total.
    + intros a b c. rewrite !compareMeals_le. apply mealOrder_trans.
Qed.

End SortFacts.

(** ** The meal-plan handlers *)

Module PlanFacts.
Import DateFacts SortFacts.

(** *** The validation loops *)

Lemma readMeals_inl (weekStart : Z) (input : list MealInput) (reply : Reply) :
  readMeals weekStart input = inl reply -> exists msg, reply = Send 400 (B_error msg).
Proof.
  induction input as [| meal rest IH]; simpl; [discriminate |].
  destruct (parseDateOnly (in_date meal)); [| intros [= <-]; eauto].
  destruct (negb _); [intros [= <-]; eauto |].
  destruct (readMeals weekStart rest); [| discriminate].
  intros [= <-]. apply IH. reflexivity.
Qed.

Lemma readMeals_inr (weekStart : Z) (input : list MealInput) (meals : list Meal) :
  readMeals weekStart input = inr meals ->
  Forall2 (fun i m => parseDateOnly (in_date i) = Some (meal_date m)
                      /\ isWithinWeek (meal_date m) weekStart = true
                      /\ meal_slot m = in_slot i /\ meal_recipeId m = in_recipeId i)
    input meals.
Proof.
  revert meals. induction input as [| meal rest IH]; simpl; intros meals.
  - intros [= <-]. constructor.
  - destruct (parseDateOnly (in_date meal)) as [date |] eqn:Hd; [| discriminate].
    destruct (isWithinWeek date weekStart) eqn:Hw; [| discriminate]. simpl.
    destruct (readMeals weekStart rest) as [| meals']; [discriminate |].
    intros [= <-]. constructor; [simpl; auto | apply IH; reflexivity].
Qed.

(** Conversely, dates that parse and lie in the week pass the loop. *)
Lemma readMeals_total (weekStart : Z) (input : list MealInput) :
  Forall (fun i => exists date, parseDateOnly (in_date i) = Some date
                                /\ isWithinWeek date weekStart = true) input ->
  exists meals, readMeals weekStart input = inr meals.
Proof.
  induction 1 as [| meal rest (date & Hd & Hw) _ (meals & IH)]; simpl; [eauto |].
  rewrite Hd, Hw, IH. simpl. eauto.
Qed.

Lemma readMeals_dates (weekStart : Z) (input : list MealInput) (meals : list Meal) :
  readMeals weekStart input = inr meals ->
  (fun m => (formatDateOnly (meal_date m), meal_slot m, meal_recipeId m)) <$> meals
  = submitted <$> input.
Proof.
  intros H. apply readMeals_inr in H.
  induction H as [| i m input meals (Hd & _ & Hs & Hr) _ IH]; [reflexivity |].
  rewrite !fmap_cons, IH.
  apply parseDateOnly_Some in Hd as [Hf _]. unfold submitted. rewrite Hf, Hs, Hr. reflexivity.
Qed.

Lemma checkSlots_Some (seen : gset string) (meals : list Meal) (reply : Reply) :
  checkSlots seen meals = Some reply -> exists msg, reply = Send 400 (B_error msg).
Proof.
  revert seen. induction meals as [| meal rest IH]; simpl; intros seen; [discriminate |].
  destruct (bool_decide _); [intros [= <-]; eauto | apply IH].
Qed.

(** The loop passes exactly when no key is in [seenSlots] already and no
    two meals share a key. *)
Lemma checkSlots_None (seen : gset string) (meals : list Meal) :
  checkSlots seen meals = None <->
  NoDup (slotKey <$> meals) /\ (forall m, m ∈ meals -> slotKey m ∉ seen).
Proof.
  revert seen. induction meals as [| meal rest IH]; simpl; intros seen.
  - split; [intros _; split; [constructor | intros m Hm; inversion Hm] | reflexivity].
  - destruct (bool_decide_reflect (slotKey meal ∈ seen)) as [Hin | Hout].
    + split; [discriminate |]. intros [_ H]. exfalso. apply (H meal); [left | exact Hin].
    + rewrite IH. rewrite NoDup_cons. split.
      * intros [Hnd Hseen]. split; [split; [| exact Hnd] |].
        -- intros Hk. apply list_elem_of_fmap in Hk as (m & Hkm & Hm).
           apply (Hseen m Hm). rewrite <- Hkm. set_solver.
        -- intros m Hm. apply elem_of_cons in Hm as [-> | Hm]; [exact Hout |].
           specialize (Hseen m Hm). set_solver.
      * intros [[Hk Hnd] Hseen]. split; [exact Hnd |].
        intros m Hm Hin. apply elem_of_union in Hin as [Hin | Hin].
        -- apply elem_of_singleton in Hin. apply Hk. rewrite <- Hin.
           apply list_elem_of_fmap. eauto.
        -- apply (Hseen m); [right; exact Hm | exact Hin].
Qed.

(** *** [distinct] *)

Lemma distinct_elem_of (seen : gset string) (ids : list string) (id : string) :
  id ∈ distinct seen ids <-> id ∈ ids /\ id ∉ seen.
Proof.
  revert seen. induction ids as [| x rest IH]; simpl; intros seen.
  - set_solver.
  - destruct (bool_decide_reflect (x ∈ seen)) as [Hin | Hout].
    + rewrite IH. set_solver.
    + rewrite elem_of_cons, IH. destruct (decide (id = x)); set_solver.
Qed.

Lemma distinct_NoDup (seen : gset string) (ids : list string) : NoDup (distinct seen ids).
Proof.
  revert seen. induction ids as [| x rest IH]; simpl; intros seen; [constructor |].
  destruct (bool_decide (x ∈ seen)); [apply IH |].
  apply NoDup_cons. split; [| apply IH].
  rewrite distinct_elem_of. set_solver.
Qed.

Lemma distinct_nil_inv (ids : list string) : distinct ∅ ids = [] -> ids = [].
Proof.
  destruct ids as [| x rest]; [reflexivity |]. simpl.
  destruct (bool_decide_reflect (x ∈ (∅ : gset string))); [set_solver | discriminate].
Qed.

(** *** The recipe check *)

Lemma elem_of_found (db : Db) (userId : string) (ids : list string) (id : string) :
  id ∈ dom (filter (fun p : string * RecipeRow =>
                      recipe_userId (snd p) = userId ∧ fst p ∈ ids) (recipes db))
  <-> ownedBy db userId id /\ id ∈ ids.
Proof.
  rewrite elem_of_dom. unfold is_Some, ownedBy.
  setoid_rewrite map_lookup_filter_Some. simpl. naive_solver.
Qed.

Lemma length_foundRecipes (db : Db) (userId : string) (ids : list string) :
  NoDup ids ->
  (length (foundRecipes db userId ids) <= length ids)%nat
  /\ (length (foundRecipes db userId ids) = length ids
      <-> forall id, id ∈ ids -> ownedBy db userId id).
Proof.
  intros Hnd. unfold foundRecipes.
  rewrite length_fmap, length_map_to_list, <- size_dom.
  rewrite <- (size_list_to_set (C := gset string) ids Hnd).
  set (S := dom _).
  assert (Hsub : S ⊆ list_to_set ids).
  { intros id Hid. apply elem_of_found in Hid. set_solver. }
  split; [apply subseteq_size, Hsub |].
  split.
  - intros Hsize id Hid.
    assert (HS : S = list_to_set ids)
      by (apply set_subseteq_size_eq; [exact Hsub | lia]).
    assert (Hin : id ∈ S) by (rewrite HS; set_solver).
    apply elem_of_found in Hin. tauto.
  - intros Hall. f_equal. apply set_eq. intros id. split; [apply Hsub |].
    intros Hid. apply elem_of_list_to_set in Hid. apply elem_of_found. auto.
Qed.

Lemma checkRecipes_run (userId : string) (meals : list Meal) (db : Db) :
  let recipeIds := distinct ∅ (meal_recipeId <$> meals) in
  checkRecipes userId meals db =
  if 0 <? Z.of_nat (length recipeIds) then
    (if negb (Z.of_nat (length (foundRecipes db userId recipeIds))
              =? Z.of_nat (length recipeIds))
     then Some (Send 400 (B_error "One or more recipes were not found for this user"))
     else None,
     prisma.record (Q_recipe_findMany userId recipeIds) db)
  else (None, db).
Proof.
  intros recipeIds. unfold checkRecipes. fold recipeIds.
  destruct (0 <? Z.of_nat (length recipeIds)); [| reflexivity].
  unfold mbind, Prisma_bind, prisma.recipe.findMany, prisma.call.
  fold (foundRecipes (prisma.record (Q_recipe_findMany userId recipeIds) db) userId recipeIds).
  change (foundRecipes (prisma.record _ db)) with (foundRecipes db).
  destruct (negb _); reflexivity.
Qed.

(** The check passes exactly when every recipe of the request is one of
    the user's. *)
Lemma checkRecipes_None (userId : string) (meals : list Meal) (db : Db) :
  fst (checkRecipes userId meals db) = None
  <-> forall m, m ∈ meals -> ownedBy db userId (meal_recipeId m).
Proof.
  rewrite checkRecipes_run. cbv zeta.
  set (recipeIds := distinct ∅ (meal_recipeId <$> meals)).
  pose proof (length_foundRecipes db userId recipeIds (distinct_NoDup _ _)) as [Hle Heq].
  assert (Hmem : forall id, id ∈ recipeIds <-> exists m, m ∈ meals /\ meal_recipeId m = id).
  { intros id. unfold recipeIds. rewrite distinct_elem_of, list_elem_of_fmap.
    split; [intros [(m & -> & Hm) _]; eauto | intros (m & Hm & <-); split; [eauto | set_solver]]. }
  destruct (Z.ltb_spec 0 (Z.of_nat (length recipeIds))) as [Hpos | Hzero]; simpl.
  - destruct (Z.eqb_spec (Z.of_nat (length (foundRecipes db userId recipeIds)))
                (Z.of_nat (length recipeIds))) as [He | Hne]; simpl.
    + split; [intros _ m Hm | reflexivity].
      apply Heq; [lia |]. apply Hmem. eauto.
    + split; [discriminate |]. intros Hall. exfalso. apply Hne. f_equal.
      apply Heq. intros id Hid. apply Hmem in Hid as (m & Hm & <-). auto.
  - split; [| reflexivity]. intros _ m Hm. exfalso.
    assert (Hin : meal_recipeId m ∈ recipeIds) by (apply Hmem; eauto).
    destruct recipeIds; [inversion Hin | simpl in Hzero; lia].
Qed.

Lemma checkRecipes_Some (userId : string) (meals : list Meal) (db : Db) (reply : Reply) :
  fst (checkRecipes userId meals db) = Some reply ->
  reply = Send 400 (B_error "One or more recipes were not found for this user").
Proof.
  rewrite checkRecipes_run. cbv zeta.
  destruct (0 <? _); [| discriminate]. destruct (negb _); [| discriminate].
  intros [= <-]. reflexivity.
Qed.

Lemma checkRecipes_tables (userId : string) (meals : list Meal) (db : Db) :
  let db' := snd (checkRecipes userId meals db) in
  users db' = users db /\ recipes db' = recipes db
  /\ mealPlans db' = mealPlans db /\ plannedMeals db' = plannedMeals db.
Proof.
  rewrite checkRecipes_run. cbv zeta. destruct (0 <? _); auto.
Qed.

(** *** Picking and creating the plan row *)

Lemma find_Some_elem {A} (f : A -> bool) (l : list A) (x : A) :
  List.find f l = Some x -> x ∈ l /\ f x = true.
Proof.
  intros H. apply find_some in H as [Hin Hf]. split; [apply list_elem_of_In, Hin | exact Hf].
Qed.

Lemma find_None_elem {A} (f : A -> bool) (l : list A) (x : A) :
  List.find f l = None -> x ∈ l -> f x = false.
Proof.
  intros H Hin. apply (find_none f l H). apply list_elem_of_In, Hin.
Qed.

Lemma find_is_Some {A} (f : A -> bool) (l : list A) (x : A) :
  x ∈ l -> f x = true -> is_Some (List.find f l).
Proof.
  intros Hin Hf. destruct (List.find f l) eqn:E; [eauto |].
  rewrite (find_None_elem f l x E Hin) in Hf. discriminate.
Qed.

Lemma planOf_Some (db : Db) (userId : string) (weekStart : Z) (id : string) (row : MealPlanRow) :
  planOf db userId weekStart = Some (id, row) ->
  mealPlans db !! id = Some row /\ plan_userId row = userId /\ plan_weekStart row = weekStart.
Proof.
  intros H. apply find_Some_elem in H as [Hin Hf].
  apply elem_of_map_to_list in Hin. apply bool_decide_eq_true in Hf. simpl in Hf. tauto.
Qed.

(** A pair that has a plan row is given one by [findFirst]. *)
Lemma planOf_is_Some (db : Db) (userId : string) (weekStart : Z) (id : string) (row : MealPlanRow) :
  mealPlans db !! id = Some row -> plan_userId row = userId -> plan_weekStart row = weekStart ->
  is_Some (planOf db userId weekStart).
Proof.
  intros Hl Hu Hw. apply (find_is_Some _ _ (id, row)).
  - apply elem_of_map_to_list, Hl.
  - apply bool_decide_eq_true. simpl. auto.
Qed.

(** After a row for a pair that had none is inserted, it is the one picked. *)
Lemma planOf_insert (db db' : Db) (userId : string) (weekStart : Z) (id : string) :
  planOf db userId weekStart = None ->
  mealPlans db !! id = None ->
  mealPlans db' = <[id := {| plan_userId := userId; plan_weekStart := weekStart |}]> (mealPlans db) ->
  planOf db' userId weekStart
  = Some (id, {| plan_userId := userId; plan_weekStart := weekStart |}).
Proof.
  intros Hnone Hfresh Hins.
  set (row := {| plan_userId := userId; plan_weekStart := weekStart |}) in *.
  destruct (planOf_is_Some db' userId weekStart id row) as [[id' row'] Hp];
    [rewrite Hins; apply lookup_insert_eq | reflexivity | reflexivity |].
  rewrite Hp. f_equal.
  apply planOf_Some in Hp as (Hl & Hu & Hw).
  rewrite Hins in Hl. apply lookup_insert_Some in Hl as [[-> ->] | [Hne Hl]]; [reflexivity |].
  exfalso.
  assert (Hf : bool_decide (plan_userId (snd (id', row')) = userId
                            ∧ plan_weekStart (snd (id', row')) = weekStart) = false).
  { apply (find_None_elem _ _ _ Hnone). apply elem_of_map_to_list, Hl. }
  apply bool_decide_eq_false in Hf. simpl in Hf. tauto.
Qed.

Lemma includeMeals_ext (db db' : Db) (plan : string * MealPlanRow) :
  recipes db' = recipes db -> plannedMeals db' = plannedMeals db ->
  includeMeals db' plan = includeMeals db plan.
Proof.
  intros Hr Hp. unfold includeMeals, includeRecipe. rewrite Hr, Hp. reflexivity.
Qed.

(** *** The transaction *)

(** The rows stored under a plan after its meals are replaced. *)
Lemma replaced_mealsOf (old : list PlannedMealRow) (planId : string) (meals : list Meal) :
  filter (fun meal => pm_planId meal = planId)
    (filter (fun meal => pm_planId meal ≠ planId) old ++ (toRow planId <$> meals))
  = toRow planId <$> meals.
Proof.
  rewrite filter_app.
  replace (filter _ (filter _ old)) with ([] : list PlannedMealRow).
  - simpl. induction meals as [| m meals IH]; [reflexivity |].
    rewrite fmap_cons, filter_cons_True by reflexivity. f_equal. exact IH.
  - symmetry. induction old as [| r old IH]; [reflexivity |].
    destruct (decide (pm_planId r = planId)) as [He | Hne].
    + rewrite (filter_cons_False _ r) by tauto. exact IH.
    + rewrite (filter_cons_True _ r) by exact Hne.
      rewrite filter_cons_False by exact Hne. exact IH.
Qed.

Lemma replaced_others (old : list PlannedMealRow) (planId other : string) (meals : list Meal) :
  other ≠ planId ->
  filter (fun meal => pm_planId meal = other)
    (filter (fun meal => pm_planId meal ≠ planId) old ++ (toRow planId <$> meals))
  = filter (fun meal => pm_planId meal = other) old.
Proof.
  intros Hne. rewrite filter_app.
  replace (filter (fun meal => pm_planId meal = other) (toRow planId <$> meals))
    with ([] : list PlannedMealRow).
  - rewrite app_nil_r. induction old as [| r old IH]; [reflexivity |].
    destruct (decide (pm_planId r = planId)) as [He | Hne'].
    + rewrite (filter_cons_False _ r) by tauto.
      rewrite (filter_cons_False _ r) by congruence. exact IH.
    + rewrite (filter_cons_True _ r) by exact Hne'.
      destruct (decide (pm_planId r = other)).
      * rewrite !filter_cons_True by assumption. f_equal. exact IH.
      * rewrite !filter_cons_False by assumption. exact IH.
  - symmetry. induction meals as [| m meals IH]; [reflexivity |].
    rewrite fmap_cons, filter_cons_False by (simpl; congruence). exact IH.
Qed.

(** The body of the transaction, computed. *)
Lemma savePlan_run (userId : string) (weekStart : Z) (meals : list Meal) (db : Db) :
  let row := {| plan_userId := userId; plan_weekStart := weekStart |} in
  let existing := planOf db userId weekStart in
  let planId := match existing with
                | Some p => fst p
                | None => fresh (dom (mealPlans db))
                end in
  let plans := match existing with
               | Some _ => mealPlans db
               | None => <[planId := row]> (mealPlans db)
               end in
  let db' :=
    {| users := users db; recipes := recipes db; mealPlans := plans;
       plannedMeals :=
         filter (fun meal => pm_planId meal ≠ planId) (plannedMeals db)
         ++ (toRow planId <$> meals);
       queries :=
         queries db
         ++ saveQueries userId weekStart (bool_decide (is_Some existing)) planId meals |} in
  savePlan userId weekStart meals db
  = ((fun r => includeMeals db' (planId, r)) <$> plans !! planId, db').
Proof.
  unfold savePlan, mbind, Prisma_bind, prisma.mealPlan.findFirst, prisma.call.
  change (List.find _ (map_to_list (mealPlans (prisma.record _ db))))
    with (planOf db userId weekStart).
  unfold saveQueries, prisma.mealPlan.findUniqueOrThrow, prisma.mealPlan.create,
    prisma.plannedMeal.deleteMany, prisma.plannedMeal.createMany, prisma.call,
    prisma.record, mret, Prisma_ret.
  destruct (planOf db userId weekStart) as [[planId row'] |];
    (destruct meals as [| m ms];
     [change (0 <? Z.of_nat (length (@nil Meal))) with false
     | change (0 <? Z.of_nat (length (m :: ms))) with true]);
    cbn -[fresh filter lookup insert dom];
    rewrite <- ?app_assoc, ?app_nil_r; reflexivity.
Qed.

(** What the body of the transaction does to the tables and the log. *)
Lemma savePlan_spec (userId : string) (weekStart : Z) (meals : list Meal) (db : Db) :
  exists planId row db',
    savePlan userId weekStart meals db = (Some (includeMeals db' (planId, row)), db')
    /\ row = {| plan_userId := userId; plan_weekStart := weekStart |}
    /\ users db' = users db /\ recipes db' = recipes db
    /\ planOf db' userId weekStart = Some (planId, row)
    /\ (match planOf db userId weekStart with
        | Some p => p = (planId, row) /\ mealPlans db' = mealPlans db
        | None => mealPlans db !! planId = None
                  /\ mealPlans db' = <[planId := row]> (mealPlans db)
        end)
    /\ plannedMeals db'
       = filter (fun meal => pm_planId meal ≠ planId) (plannedMeals db) ++ (toRow planId <$> meals)
    /\ queries db'
       = queries db
         ++ saveQueries userId weekStart (bool_decide (is_Some (planOf db userId weekStart)))
              planId meals.
Proof.
  rewrite savePlan_run. cbv zeta.
  set (row := {| plan_userId := userId; plan_weekStart := weekStart |}).
  destruct (planOf db userId weekStart) as [[planId row'] |] eqn:Hplan.
  - pose proof (planOf_Some _ _ _ _ _ Hplan) as (Hl & Hu & Hw).
    assert (row' = row) as -> by (destruct row'; simpl in *; subst; reflexivity).
    exists planId, row. eexists. simpl. rewrite Hl. simpl.
    split; [reflexivity |]. simpl. repeat split; try reflexivity. exact Hplan.
  - set (planId := fresh (dom (mealPlans db))).
    assert (Hfresh : mealPlans db !! planId = None)
      by (apply not_elem_of_dom, is_fresh).
    exists planId, row. eexists. rewrite lookup_insert_eq. simpl.
    split; [reflexivity |]. simpl. repeat split; try reflexivity; try exact Hfresh.
    eapply planOf_insert; [exact Hplan | exact Hfresh | reflexivity].
Qed.

Lemma transaction_savePlan (userId : string) (weekStart : Z) (meals : list Meal) (db : Db) :
  exists planId row db',
    prisma.transaction (savePlan userId weekStart meals) db
    = (Some (includeMeals db' (planId, row)), db')
    /\ row = {| plan_userId := userId; plan_weekStart := weekStart |}
    /\ users db' = users db /\ recipes db' = recipes db
    /\ planOf db' userId weekStart = Some (planId, row)
    /\ (match planOf db userId weekStart with
        | Some p => p = (planId, row) /\ mealPlans db' = mealPlans db
        | None => mealPlans db !! planId = None
                  /\ mealPlans db' = <[planId := row]> (mealPlans db)
        end)
    /\ plannedMeals db'
       = filter (fun meal => pm_planId meal ≠ planId) (plannedMeals db) ++ (toRow planId <$> meals)
    /\ queries db'
       = queries db ++ [Q_transaction_begin]
         ++ saveQueries userId weekStart (bool_decide (is_Some (planOf db userId weekStart)))
              planId meals
         ++ [Q_transaction_commit].
Proof.
  unfold prisma.transaction.
  destruct (savePlan_spec userId weekStart meals (prisma.record Q_transaction_begin db))
    as (planId & row & db1 & Hrun & Hrow & Hu & Hr & Hp & Hm & Hpm & Hq).
  rewrite Hrun. exists planId, row, (prisma.record Q_transaction_commit db1).
  split; [reflexivity |].
  repeat split; try assumption.
  cbn [queries prisma.record]. rewrite Hq. cbn [queries prisma.record].
  rewrite <- !app_assoc. reflexivity.
Qed.

(** *** The handlers *)

Lemma GET_meal_plans_run (userId weekStartQuery : string) (db : Db) :
  GET_meal_plans userId weekStartQuery db =
  match parseDateOnly weekStartQuery with
  | None => (Send 400 (B_error "weekStart must be YYYY-MM-DD"), db)
  | Some weekStart =>
      (match toViews (from_option pwm_meals []
                        (includeMeals db <$> planOf db userId weekStart)) with
       | None => Throws "TypeError"
       | Some views =>
           Send 200 (B_plan (fst <$> planOf db userId weekStart) weekStartQuery
                       (Array_sort compareMeals views))
       end,
       prisma.record (Q_mealPlan_findFirst userId weekStart) db)
  end.
Proof.
  unfold GET_meal_plans. destruct (parseDateOnly weekStartQuery) as [weekStart |];
    [| reflexivity].
  unfold mbind, Prisma_bind, prisma.mealPlan.findFirst, prisma.call.
  change (List.find _ (map_to_list (mealPlans (prisma.record _ db))))
    with (planOf db userId weekStart).
  change (includeMeals (prisma.record _ db)) with (includeMeals db).
  destruct (planOf db userId weekStart) as [p |];
    destruct (toViews (from_option pwm_meals [] _)); reflexivity.
Qed.

Lemma PUT_meal_plans_ok (userId : string) (body : PutBody) (db db' : Db)
    (id : option string) (ws : string) (views : list MealView) :
  PUT_meal_plans userId body db = (Send 200 (B_plan id ws views), db') ->
  exists weekStart meals planId views0,
    id = Some planId /\ ws = body_weekStart body
    /\ views = Array_sort compareMeals views0
    /\ PutOutcome userId body db db' weekStart meals planId views0.
Proof.
  unfold PUT_meal_plans.
  destruct (Body_parse body) eqn:Hbp; cbn [negb]; [| intros H; inversion H].
  destruct (parseDateOnly (body_weekStart body)) as [weekStart |] eqn:Hws;
    [| intros H; inversion H].
  destruct (readMeals weekStart (body_meals body)) as [reply | meals] eqn:Hrm.
  { apply readMeals_inl in Hrm as [msg ->]. intros H; inversion H. }
  destruct (checkSlots ∅ meals) as [reply |] eqn:Hcs.
  { apply checkSlots_Some in Hcs as [msg ->]. intros H; inversion H. }
  unfold mbind, Prisma_bind.
  pose proof (checkRecipes_None userId meals db) as Hnone.
  pose proof (checkRecipes_Some userId meals db) as Hsome.
  pose proof (checkRecipes_tables userId meals db) as Htab.
  destruct (checkRecipes userId meals db) as [failed db1] eqn:Hcr.
  cbn [fst snd] in Hnone, Hsome, Htab. cbv zeta in Htab.
  destruct failed as [reply |].
  { rewrite (Hsome reply eq_refl). intros H; inversion H. }
  destruct Htab as (Hu1 & Hr1 & Hm1 & Hp1).
  destruct (transaction_savePlan userId weekStart meals db1)
    as (planId & row & db2 & Htx & -> & Hu & Hr & Hp & Hm & Hpm & Hq).
  rewrite Htx.
  destruct (toViews (pwm_meals (includeMeals db2 _))) as [views0 |] eqn:Hv;
    [| intros H; inversion H].
  unfold mret, Prisma_ret. intros [= <- <- <- <-].
  exists weekStart, meals, planId, views0.
  apply parseDateOnly_Some in Hws as Hfmt. destruct Hfmt as [Hfmt _].
  split; [reflexivity |]. split; [exact Hfmt |]. split; [reflexivity |].
  assert (Hplan1 : planOf db1 userId weekStart = planOf db userId weekStart)
    by (unfold planOf; rewrite Hm1; reflexivity).
  assert (Hstored : mealsOf db2 planId = toRow planId <$> meals)
    by (unfold mealsOf; rewrite Hpm; apply replaced_mealsOf).
  constructor; try assumption.
  - apply Hnone. reflexivity.
  - congruence.
  - congruence.
  - rewrite Hplan1 in Hm. destruct (planOf db userId weekStart) as [p |].
    + destruct Hm as [-> Hm]. split; [reflexivity | congruence].
    + rewrite <- Hm1. exact Hm.
  - intros other Hne. unfold mealsOf. rewrite Hpm, Hp1. apply replaced_others, Hne.
  - cbn [includeMeals pwm_meals fst] in Hv. fold (mealsOf db2 planId) in Hv.
    rewrite Hstored in Hv. exact Hv.
  - rewrite Hq, Hplan1.
    assert (Hdb1 : db1 = snd (checkRecipes userId meals db)) by (rewrite Hcr; reflexivity).
    rewrite checkRecipes_run in Hdb1. cbv zeta in Hdb1.
    destruct (0 <? _); subst db1; cbn [snd queries prisma.record];
      rewrite <- ?app_assoc; reflexivity.
Qed.

(** *** Reading a saved plan back *)

Lemma toViews_stored (db : Db) (planId : string) (meals : list Meal) (views : list MealView) :
  toViews (includeRecipe db <$> (toRow planId <$> meals)) = Some views ->
  Forall2 (fun m v => exists r,
             recipes db !! meal_recipeId m = Some r
             /\ v = {| view_date := formatDateOnly (meal_date m);
                       view_slot := meal_slot m;
                       view_recipeId := meal_recipeId m;
                       view_recipeName := recipe_name r |})
    meals views.
Proof.
  unfold toViews. rewrite mapM_Some. rewrite <- list_fmap_compose.
  intros H. apply Forall2_fmap_l in H.
  eapply Forall2_impl; [exact H |]. intros m v. unfold toView, includeRecipe. simpl.
  destruct (recipes db !! meal_recipeId m) as [r |]; simpl; [| discriminate].
  intros [= <-]. eauto.
Qed.

Lemma toViews_returned (db : Db) (planId : string) (meals : list Meal) (views : list MealView) :
  toViews (includeRecipe db <$> (toRow planId <$> meals)) = Some views ->
  returned <$> views
  = (fun m => (formatDateOnly (meal_date m), meal_slot m, meal_recipeId m)) <$> meals.
Proof.
  intros H. apply toViews_stored in H.
  induction H as [| m v meals views (r & _ & ->) _ IH]; [reflexivity |].
  rewrite !fmap_cons, IH. reflexivity.
Qed.

Lemma toViews_total (db : Db) (planId : string) (meals : list Meal) :
  (forall m, m ∈ meals -> is_Some (recipes db !! meal_recipeId m)) ->
  is_Some (toViews (includeRecipe db <$> (toRow planId <$> meals))).
Proof.
  intros Hall. unfold toViews. apply mapM_is_Some. rewrite <- list_fmap_compose.
  apply Forall_fmap. apply Forall_forall. intros m Hm.
  destruct (Hall m Hm) as [r Hr]. unfold toView, includeRecipe. simpl. rewrite Hr.
  simpl. eauto.
Qed.

(** After a successful save, [GET /meal-plans] for the same week answers
    with the plan and the very meals the save answered with. *)
Lemma GET_after_PUT (userId : string) (body : PutBody) (db db' : Db)
    (weekStart : Z) (meals : list Meal) (planId : string) (views0 : list MealView) :
  PutOutcome userId body db db' weekStart meals planId views0 ->
  fst (GET_meal_plans userId (body_weekStart body) db')
  = Send 200 (B_plan (Some planId) (body_weekStart body) (Array_sort compareMeals views0)).
Proof.
  intros O. rewrite GET_meal_plans_run.
  rewrite (out_parsed _ _ _ _ _ _ _ _ O), (out_plan _ _ _ _ _ _ _ _ O).
  cbn [fst fmap option_fmap option_map from_option includeMeals pwm_meals].
  fold (mealsOf db' planId).
  rewrite (out_stored _ _ _ _ _ _ _ _ O), (out_views _ _ _ _ _ _ _ _ O). reflexivity.
Qed.

Lemma PutOutcome_returned (userId : string) (body : PutBody) (db db' : Db)
    (weekStart : Z) (meals : list Meal) (planId : string) (views0 : list MealView) :
  PutOutcome userId body db db' weekStart meals planId views0 ->
  returned <$> views0 = submitted <$> body_meals body
  /\ (fun r => (formatDateOnly (pm_date r), pm_slot r, pm_recipeId r)) <$> mealsOf db' planId
     = submitted <$> body_meals body.
Proof.
  intros O. split.
  - rewrite (toViews_returned _ _ _ _ (out_views _ _ _ _ _ _ _ _ O)).
    apply readMeals_dates with (weekStart := weekStart), (out_read _ _ _ _ _ _ _ _ O).
  - rewrite (out_stored _ _ _ _ _ _ _ _ O), <- list_fmap_compose.
    apply readMeals_dates with (weekStart := weekStart), (out_read _ _ _ _ _ _ _ _ O).
Qed.

(** A request that passes every check is answered with the saved plan. *)
Lemma PUT_meal_plans_total (userId : string) (body : PutBody) (db : Db)
    (weekStart : Z) (meals : list Meal) :
  Body_parse body = true ->
  parseDateOnly (body_weekStart body) = Some weekStart ->
  readMeals weekStart (body_meals body) = inr meals ->
  checkSlots ∅ meals = None ->
  (forall m, m ∈ meals -> ownedBy db userId (meal_recipeId m)) ->
  exists planId views db',
    PUT_meal_plans userId body db
    = (Send 200 (B_plan (Some planId) (body_weekStart body) views), db').
Proof.
  intros Hbp Hws Hrm Hcs Hown.
  unfold PUT_meal_plans. rewrite Hbp, Hws, Hrm, Hcs. cbn [negb].
  unfold mbind, Prisma_bind.
  pose proof (proj2 (checkRecipes_None userId meals db) Hown) as Hnone.
  pose proof (checkRecipes_tables userId meals db) as Htab.
  destruct (checkRecipes userId meals db) as [failed db1].
  cbn [fst snd] in Hnone, Htab. cbv zeta in Htab. subst failed.
  destruct Htab as (Hu1 & Hr1 & Hm1 & Hp1).
  destruct (transaction_savePlan userId weekStart meals db1)
    as (planId & row & db2 & Htx & -> & Hu & Hr & Hp & Hm & Hpm & Hq).
  rewrite Htx.
  cbn [includeMeals pwm_meals pwm_id pwm_weekStart fst snd plan_weekStart].
  rewrite Hpm, replaced_mealsOf.
  destruct (toViews_total db2 planId meals) as [views0 Hv].
  { intros m Hm'. destruct (Hown m Hm') as (r & Hl & _). rewrite Hr, Hr1. eauto. }
  rewrite Hv. unfold mret, Prisma_ret.
  apply parseDateOnly_Some in Hws as [-> _]. eauto.
Qed.

End PlanFacts.

(** ** The admin handlers *)

Module UserFacts.

Lemma min1_nonempty (id : string) : id ≠ "" -> (1 <=? Z.of_nat (String.length id)) = true.
Proof.
  destruct id as [| a id]; [congruence |]. intros _. apply Z.leb_le.
  cbn [String.length]. lia.
Qed.

Lemma adminCount_nonneg (db : Db) : 0 <= adminCount db.
Proof. unfold adminCount. lia. Qed.

Lemma adminCount_withUsers (db : Db) (table : gmap string UserRow) (log : list Query) :
  adminCount (withUsers db table log)
  = Z.of_nat (size (filter (fun p : string * UserRow => user_role (snd p) = ADMIN) table)).
Proof. reflexivity. Qed.

(** Changing the role of one row moves the count by that row alone. *)
Lemma admins_after_update (table : gmap string UserRow) (id : string) (t : UserRow) (role : Role) :
  table !! id = Some t ->
  Z.of_nat (size (filter (fun p : string * UserRow => user_role (snd p) = ADMIN)
                    (<[id := {| user_email := user_email t; user_role := role |}]> table)))
  = Z.of_nat (size (filter (fun p : string * UserRow => user_role (snd p) = ADMIN) table))
    - (if bool_decide (user_role t = ADMIN) then 1 else 0)
    + (if bool_decide (role = ADMIN) then 1 else 0).
Proof.
  intros Ht.
  set (P := fun p : string * UserRow => user_role (snd p) = ADMIN).
  assert (Hf : filter P table !! id = if bool_decide (user_role t = ADMIN) then Some t else None).
  { destruct (bool_decide_reflect (user_role t = ADMIN)) as [Ha | Ha].
    - apply map_lookup_filter_Some. auto.
    - apply map_lookup_filter_None. right. intros x Hx HP. unfold P in HP. simpl in HP.
      congruence. }
  rewrite map_filter_insert.
  destruct (bool_decide_reflect (role = ADMIN)) as [Hr | Hr].
  - rewrite decide_True by exact Hr. rewrite map_size_insert, Hf.
    destruct (bool_decide (user_role t = ADMIN)); simpl; lia.
  - rewrite decide_False by exact Hr. rewrite map_filter_delete, map_size_delete, Hf.
    destruct (bool_decide (user_role t = ADMIN)) eqn:Ha; simpl; [| lia].
    assert (size (filter P table) ≠ 0%nat)
      by (apply (map_size_ne_0_lookup_2 _ id); rewrite Hf; eauto).
    lia.
Qed.

Lemma admins_after_create (table : gmap string UserRow) (id email : string) :
  table !! id = None ->
  size (filter (fun p : string * UserRow => user_role (snd p) = ADMIN)
          (<[id := {| user_email := email; user_role := USER |}]> table))
  = size (filter (fun p : string * UserRow => user_role (snd p) = ADMIN) table).
Proof.
  intros Hn. rewrite map_filter_insert_False by (simpl; discriminate).
  rewrite delete_id by exact Hn. reflexivity.
Qed.

(** The handler of [PATCH /admin/users/:id/role], computed on a target that
    exists. *)
Lemma PATCH_admin_users_role_run (id : string) (role : Role) (db : Db) (t : UserRow) :
  id ≠ "" -> users db !! id = Some t ->
  PATCH_admin_users_role id role db =
  if removesLastAdmin db t role
  then (Send 409 (B_error "Cannot remove admin role from the last admin"),
        withUsers db (users db) [Q_user_findUnique id; Q_user_count ADMIN])
  else (Send 200 (B_user id (user_email t) role),
        withUsers db (<[id := {| user_email := user_email t; user_role := role |}]> (users db))
          ([Q_user_findUnique id]
           ++ (if bool_decide (user_role t = ADMIN) && bool_decide (role = USER)
               then [Q_user_count ADMIN] else [])
           ++ [Q_user_update id role])).
Proof.
  intros Hid Ht. unfold PATCH_admin_users_role, removesLastAdmin.
  rewrite (min1_nonempty id Hid).
  cbn [negb].
  unfold mbind, Prisma_bind, prisma.user.findUnique, prisma.user.count, prisma.user.update,
    prisma.call, mret, Prisma_ret.
  cbn [users prisma.record]. rewrite Ht.
  destruct (bool_decide (user_role t = ADMIN) && bool_decide (role = USER)).
  - cbn [andb users prisma.record]. fold (adminCount db).
    destruct (adminCount db <=? 1).
    + unfold withUsers, prisma.record. cbn. rewrite <- ?app_assoc. reflexivity.
    + cbn [users prisma.record]. rewrite Ht. unfold withUsers, sendUser, prisma.record. cbn.
      rewrite <- ?app_assoc. reflexivity.
  - cbn [andb users prisma.record]. rewrite Ht. unfold withUsers, sendUser, prisma.record. cbn.
    rewrite <- ?app_assoc. reflexivity.
Qed.

(** Whatever the request, the handler changes no table but [users], and
    leaves an administrator in place if there was one. *)
Lemma PATCH_admin_users_role_keeps (id : string) (role : Role) (db : Db) :
  let db' := snd (PATCH_admin_users_role id role db) in
  recipes db' = recipes db /\ mealPlans db' = mealPlans db
  /\ plannedMeals db' = plannedMeals db
  /\ (1 <= adminCount db -> 1 <= adminCount db').
Proof.
  destruct (decide (id = "")) as [-> | Hid]; [cbn; auto |].
  destruct (users db !! id) as [t |] eqn:Ht.
  - rewrite (PATCH_admin_users_role_run id role db t Hid Ht).
    unfold removesLastAdmin.
    destruct (bool_decide_reflect (user_role t = ADMIN)) as [Ha | Ha];
      destruct (bool_decide_reflect (role = USER)) as [Hr | Hr]; cbn [andb].
    + destruct (Z.leb_spec (adminCount db) 1) as [Hc | Hc]; cbn [snd];
        (split; [reflexivity |]); (split; [reflexivity |]); (split; [reflexivity |]).
      * auto.
      * intros _. rewrite adminCount_withUsers, (admins_after_update _ _ _ _ Ht).
        fold (adminCount db). rewrite bool_decide_eq_true_2 by exact Ha.
        subst role. rewrite bool_decide_eq_false_2 by discriminate. lia.
    + cbn [snd]. repeat split. intros H.
      rewrite adminCount_withUsers, (admins_after_update _ _ _ _ Ht). fold (adminCount db).
      rewrite bool_decide_eq_true_2 by exact Ha.
      rewrite bool_decide_eq_true_2 by (destruct role; congruence). lia.
    + cbn [snd]. repeat split. intros H.
      rewrite adminCount_withUsers, (admins_after_update _ _ _ _ Ht). fold (adminCount db).
      rewrite (bool_decide_eq_false_2 (user_role t = ADMIN)) by exact Ha.
      destruct (bool_decide (role = ADMIN)); lia.
    + cbn [snd]. repeat split. intros H.
      rewrite adminCount_withUsers, (admins_after_update _ _ _ _ Ht). fold (adminCount db).
      rewrite (bool_decide_eq_false_2 (user_role t = ADMIN)) by exact Ha.
      destruct (bool_decide (role = ADMIN)); lia.
  - unfold PATCH_admin_users_role.
    rewrite (min1_nonempty id Hid).
    cbn [negb]. unfold mbind, Prisma_bind, prisma.user.findUnique, prisma.call.
    cbn [users prisma.record]. rewrite Ht. cbn. auto.
Qed.

Lemma requireAdmin_tables (principal : option string) (db : Db) :
  let db' := snd (requireAdmin principal db) in
  users db' = users db /\ recipes db' = recipes db /\ mealPlans db' = mealPlans db
  /\ plannedMeals db' = plannedMeals db.
Proof.
  unfold requireAdmin. destruct principal as [userId |]; [| cbn; auto].
  destruct (bool_decide (userId = EmptyString)); [cbn; auto |].
  unfold mbind, Prisma_bind, prisma.user.findUnique, prisma.call. cbn [users prisma.record].
  destruct (users db !! userId) as [u |]; [destruct (bool_decide _) |]; cbn; auto.
Qed.

(** The hook lets through exactly the users who are administrators, and
    nobody under the empty name. *)
Lemma requireAdmin_None (userId : string) (db : Db) :
  fst (requireAdmin (Some userId) db) = None
  <-> userId <> EmptyString /\ exists u, users db !! userId = Some u /\ user_role u = ADMIN.
Proof.
  unfold requireAdmin.
  destruct (bool_decide_reflect (userId = EmptyString)) as [He | He];
    [cbn; split; [discriminate | intros [? _]; contradiction] |].
  unfold mbind, Prisma_bind, prisma.user.findUnique, prisma.call.
  cbn [users prisma.record].
  destruct (users db !! userId) as [u |];
    [| cbn; split; [discriminate | intros (_ & u & [=] & _)]].
  destruct (bool_decide_reflect (user_role u = ADMIN)); cbn.
  - split; eauto.
  - split; [discriminate | intros (_ & u' & [= <-] & ?); contradiction].
Qed.

Lemma POST_admin_bootstrap_self_keeps (userId : string) (db : Db) :
  let db' := snd (POST_admin_bootstrap_self userId db) in
  recipes db' = recipes db /\ mealPlans db' = mealPlans db
  /\ plannedMeals db' = plannedMeals db
  /\ (1 <= adminCount db -> 1 <= adminCount db').
Proof.
  unfold POST_admin_bootstrap_self, mbind, Prisma_bind, prisma.user.count, prisma.user.update,
    prisma.call.
  cbn [users prisma.record]. fold (adminCount db).
  destruct (Z.ltb_spec 0 (adminCount db)) as [Hc | Hc]; [cbn; auto |].
  cbn [users prisma.record].
  destruct (users db !! userId) as [u |];
    (split; [reflexivity | split; [reflexivity | split; [reflexivity | intros H; lia]]]).
Qed.

Lemma POST_auth_register_keeps (email : string) (db : Db) :
  let db' := snd (POST_auth_register email db) in
  recipes db' = recipes db /\ mealPlans db' = mealPlans db
  /\ plannedMeals db' = plannedMeals db
  /\ adminCount db' = adminCount db.
Proof.
  unfold POST_auth_register, mbind, Prisma_bind, prisma.user.findUniqueByEmail,
    prisma.user.create, prisma.call.
  cbn [users prisma.record].
  destruct (head _) as [p |]; [cbn; auto |].
  cbn [fmap option_fmap option_map snd recipes mealPlans plannedMeals].
  repeat split. unfold adminCount. cbn [users]. f_equal.
  apply admins_after_create. apply not_elem_of_dom, is_fresh.
Qed.

End UserFacts.

(** ** Requests served in sequence *)

Module ServerFacts.
Import DateFacts PlanFacts UserFacts.

Lemma Keeps_refl (db : Db) : Keeps db db.
Proof. unfold Keeps. auto. Qed.

Lemma Keeps_trans (db1 db2 db3 : Db) : Keeps db1 db2 -> Keeps db2 db3 -> Keeps db1 db3.
Proof.
  unfold Keeps. intros (Hr1 & Hp1 & Ha1) (Hr2 & Hp2 & Ha2).
  split; [congruence |]. split; auto.
Qed.

Lemma Keeps_same_tables (db db' : Db) :
  users db' = users db -> recipes db' = recipes db -> mealPlans db' = mealPlans db ->
  Keeps db db'.
Proof.
  intros Hu Hr Hm. unfold Keeps, adminCount. rewrite Hu, Hr, Hm. auto.
Qed.

Lemma GET_meal_plans_keeps (userId weekStartQuery : string) (db : Db) :
  Keeps db (snd (GET_meal_plans userId weekStartQuery db)).
Proof.
  rewrite GET_meal_plans_run.
  destruct (parseDateOnly weekStartQuery); [apply Keeps_same_tables; reflexivity | apply Keeps_refl].
Qed.

Lemma PUT_meal_plans_keeps (userId : string) (body : PutBody) (db : Db) :
  Keeps db (snd (PUT_meal_plans userId body db)).
Proof.
  unfold PUT_meal_plans.
  destruct (Body_parse body); cbn [negb]; [| apply Keeps_refl].
  destruct (parseDateOnly (body_weekStart body)) as [weekStart |]; [| apply Keeps_refl].
  destruct (readMeals weekStart (body_meals body)) as [reply | meals]; [apply Keeps_refl |].
  destruct (checkSlots ∅ meals) as [reply |]; [apply Keeps_refl |].
  unfold mbind, Prisma_bind.
  pose proof (checkRecipes_tables userId meals db) as Htab.
  destruct (checkRecipes userId meals db) as [failed db1].
  cbn [snd] in Htab. cbv zeta in Htab. destruct Htab as (Hu1 & Hr1 & Hm1 & Hp1).
  assert (K1 : Keeps db db1) by (apply Keeps_same_tables; assumption).
  destruct failed as [reply |]; [exact K1 |].
  destruct (transaction_savePlan userId weekStart meals db1)
    as (planId & row & db2 & Htx & -> & Hu & Hr & Hp & Hm & Hpm & Hq).
  rewrite Htx.
  assert (K2 : Keeps db1 db2).
  { unfold Keeps, adminCount. rewrite Hu, Hr. split; [reflexivity |]. split; [| auto].
    intros id row Hl. destruct (planOf db1 userId weekStart) as [p |].
    - destruct Hm as [_ ->]. exact Hl.
    - destruct Hm as [Hfresh ->]. rewrite lookup_insert_ne; [exact Hl | congruence]. }
  destruct (toViews _); apply (Keeps_trans _ _ _ K1 K2).
Qed.

Lemma handle_keeps (request : Request) (db : Db) : Keeps db (snd (handle request db)).
Proof.
  destruct request as [token w | token body | token | token id role | email];
    unfold handle, authenticated, authenticate.
  - destruct token; [apply GET_meal_plans_keeps | apply Keeps_refl].
  - destruct token; [apply PUT_meal_plans_keeps | apply Keeps_refl].
  - destruct token as [userId |]; [| apply Keeps_refl].
    pose proof (POST_admin_bootstrap_self_keeps userId db) as (Hr & Hm & _ & Ha).
    unfold Keeps. rewrite Hr, Hm. auto.
  - destruct token as [userId |]; [| apply Keeps_refl].
    unfold mbind, Prisma_bind.
    pose proof (requireAdmin_tables (Some userId) db) as Htab.
    destruct (requireAdmin (Some userId) db) as [denied db1].
    cbn [snd] in Htab. destruct Htab as (Hu1 & Hr1 & Hm1 & Hp1).
    assert (K1 : Keeps db db1) by (apply Keeps_same_tables; assumption).
    destruct denied as [reply |]; [exact K1 |].
    apply (Keeps_trans _ _ _ K1).
    pose proof (PATCH_admin_users_role_keeps id role db1) as (Hr & Hm & _ & Ha).
    unfold Keeps. rewrite Hr, Hm. auto.
  - pose proof (POST_auth_register_keeps email db) as (Hr & Hm & _ & Ha).
    unfold Keeps. rewrite Hr, Hm, Ha. auto.
Qed.

Lemma serve_keeps (requests : list Request) (db : Db) : Keeps db (snd (serve requests db)).
Proof.
  revert db. induction requests as [| request rest IH]; intros db; simpl; [apply Keeps_refl |].
  pose proof (handle_keeps request db) as K1.
  destruct (handle request db) as [reply db1]. cbn [snd] in K1.
  specialize (IH db1). destruct (serve rest db1) as [replies db2]. cbn [snd] in *.
  apply (Keeps_trans _ _ _ K1 IH).
Qed.

(** [GET /meal-plans] answers with a null id only when the owner has no
    plan row for the week. *)
Lemma GET_null_id (userId weekStartQuery : string) (db : Db) (ws : string)
    (meals : list MealView) :
  fst (GET_meal_plans userId weekStartQuery db) = Send 200 (B_plan None ws meals) ->
  exists weekStart,
    parseDateOnly weekStartQuery = Some weekStart /\ planOf db userId weekStart = None.
Proof.
  rewrite GET_meal_plans_run.
  destruct (parseDateOnly weekStartQuery) as [weekStart |]; [| discriminate].
  cbn [fst]. destruct (toViews _); [| discriminate].
  destruct (planOf db userId weekStart) eqn:Hp; [discriminate |]. intros _. eauto.
Qed.

End ServerFacts.

(** ** Duplicate slots *)

Module SlotFacts.
Import DateFacts PlanFacts.

Lemma parseDateOnly_length (s : string) (date : Z) :
  parseDateOnly s = Some date -> String.length s = 10%nat.
Proof.
  unfold parseDateOnly. destruct (DATE_ONLY_REGEX s) eqn:Hre; [| discriminate].
  intros _. unfold DATE_ONLY_REGEX in Hre. rewrite !andb_true_iff in Hre.
  destruct Hre as [[[[[Hl _] _] _] _] _]. apply Nat.eqb_eq. exact Hl.
Qed.

Lemma append_inj_length (a b x y : string) :
  String.length a = String.length b -> a +:+ x = b +:+ y -> a = b /\ x = y.
Proof.
  revert b. induction a as [| c a IH]; intros [| d b]; simpl; try discriminate.
  - auto.
  - intros [= Hlen] [= -> H]. destruct (IH b Hlen H) as [-> ->]. auto.
Qed.

Lemma inputKey_inj (a b : MealInput) (da db : Z) :
  parseDateOnly (in_date a) = Some da -> parseDateOnly (in_date b) = Some db ->
  inputKey a = inputKey b -> sameSlot a b.
Proof.
  intros Ha Hb Hk. unfold inputKey in Hk.
  apply append_inj_length in Hk as [Hd Hs];
    [| rewrite (parseDateOnly_length _ _ Ha), (parseDateOnly_length _ _ Hb); reflexivity].
  injection Hs as Hs. split; assumption.
Qed.

Lemma readMeals_keys (weekStart : Z) (input : list MealInput) (meals : list Meal) :
  readMeals weekStart input = inr meals -> slotKey <$> meals = inputKey <$> input.
Proof.
  intros H. apply readMeals_inr in H.
  induction H as [| i m input meals (Hd & _ & Hs & _) _ IH]; [reflexivity |].
  rewrite !fmap_cons, IH. f_equal. unfold slotKey, inputKey.
  apply parseDateOnly_Some in Hd as [-> _]. rewrite Hs. reflexivity.
Qed.

Lemma readMeals_app (weekStart : Z) (pre post : list MealInput) (meals : list Meal) :
  readMeals weekStart (pre ++ post) = inr meals ->
  exists mpre mpost,
    meals = mpre ++ mpost /\ readMeals weekStart pre = inr mpre
    /\ readMeals weekStart post = inr mpost.
Proof.
  revert meals. induction pre as [| i pre IH]; intros meals; simpl.
  - intros H. exists [], meals. auto.
  - destruct (parseDateOnly (in_date i)) as [date |]; [| discriminate].
    destruct (negb _); [discriminate |].
    destruct (readMeals weekStart (pre ++ post)) as [| rest] eqn:Hrest; [discriminate |].
    intros [= <-]. destruct (IH rest eq_refl) as (mpre & mpost & -> & Hpre & Hpost).
    rewrite Hpre. eexists _, mpost. split; [| split; [reflexivity | exact Hpost]].
    reflexivity.
Qed.

(** The loop stops at the first meal whose key was seen, naming its date. *)
Lemma checkSlots_collision (seen : gset string) (pre : list Meal) (dup : Meal)
    (post : list Meal) :
  NoDup (slotKey <$> pre) -> (forall m, m ∈ pre -> slotKey m ∉ seen) ->
  slotKey dup ∈ seen ∪ list_to_set (slotKey <$> pre) ->
  checkSlots seen (pre ++ dup :: post)
  = Some (Send 400 (B_error ("Duplicate slot for date " +:+ formatDateOnly (meal_date dup)))).
Proof.
  revert seen. induction pre as [| m pre IH]; intros seen Hnd Hseen Hdup; simpl.
  - rewrite bool_decide_eq_true_2; [reflexivity |]. set_solver.
  - rewrite fmap_cons in Hnd. apply NoDup_cons in Hnd as [Hm Hnd].
    rewrite bool_decide_eq_false_2 by (apply Hseen; left).
    apply IH; [exact Hnd | |].
    + intros m' Hm' Hin. apply elem_of_union in Hin as [Hin | Hin].
      * apply elem_of_singleton in Hin. apply Hm. rewrite <- Hin.
        apply list_elem_of_fmap. eauto.
      * apply (Hseen m'); [right; exact Hm' | exact Hin].
    + rewrite fmap_cons, list_to_set_cons in Hdup. set_solver.
Qed.

(** A list either has no two entries for one slot, or has a first
    collision. *)
Lemma first_collision (meals : list MealInput) :
  NoDup ((fun i => (in_date i, in_slot i)) <$> meals)
  \/ exists pre dup post, FirstCollision meals pre dup post.
Proof.
  induction meals as [| x l IH] using rev_ind; [left; constructor |].
  destruct IH as [Hnd | (pre & dup & post & -> & Hpre & Hfirst)].
  - destruct (decide ((in_date x, in_slot x) ∈ (fun i => (in_date i, in_slot i)) <$> l))
      as [Hin | Hout].
    + right. exists l, x, []. split; [reflexivity |]. split; [exact Hnd |].
      apply list_elem_of_fmap in Hin as (first & Heq & Hfirst).
      exists first. split; [exact Hfirst |]. unfold sameSlot. split; congruence.
    + left. rewrite fmap_app. apply NoDup_app. split; [exact Hnd |].
      split; [| repeat constructor; set_solver].
      intros k Hk Hk'. apply list_elem_of_singleton in Hk'. subst k. exact (Hout Hk).
  - right. exists pre, dup, (post ++ [x]). split; [| split; assumption].
    rewrite <- app_assoc. reflexivity.
Qed.

Lemma HasDuplicateSlot_collision (meals : list MealInput) :
  HasDuplicateSlot meals -> exists pre dup post, FirstCollision meals pre dup post.
Proof.
  intros (i & j & a & b & Hij & Ha & Hb & Hd & Hs).
  destruct (first_collision meals) as [Hnd | H]; [| exact H].
  exfalso.
  assert (H1 : ((fun i => (in_date i, in_slot i)) <$> meals) !! i
               = Some (in_date a, in_slot a))
    by (rewrite list_lookup_fmap, Ha; reflexivity).
  assert (H2 : ((fun i => (in_date i, in_slot i)) <$> meals) !! j
               = Some (in_date a, in_slot a))
    by (rewrite list_lookup_fmap, Hb; simpl; rewrite Hd, Hs; reflexivity).
  pose proof (NoDup_lookup _ i j _ Hnd H1 H2). lia.
Qed.

Lemma NoDup_fmap_transfer {A B C} (f : A -> B) (g : A -> C) (l : list A) :
  (forall x y, x ∈ l -> y ∈ l -> g x = g y -> f x = f y) ->
  NoDup (f <$> l) -> NoDup (g <$> l).
Proof.
  induction l as [| x l IH]; intros Hfg Hnd; [constructor |].
  rewrite fmap_cons in *. apply NoDup_cons in Hnd as [Hx Hnd]. apply NoDup_cons. split.
  - intros Hin. apply Hx. apply list_elem_of_fmap in Hin as (y & Hxy & Hy).
    apply list_elem_of_fmap. exists y. split; [| exact Hy].
    apply Hfg; [left | right; exact Hy | exact Hxy].
  - apply IH; [| exact Hnd]. intros a b Ha Hb. apply Hfg; right; assumption.
Qed.

End SlotFacts.

(** ** The nutrition arithmetic *)

Module NumberFacts.

(** *** Exact arithmetic *)

Lemma this_Q2Qc (q : Q) : (this (Q2Qc q) == q)%Q.
Proof. apply Qred_correct. Qed.

Lemma this_mult (x y : Qc) : (this (x * y)%Qc == this x * this y)%Q.
Proof. apply Qred_correct. Qed.

Lemma this_plus (x y : Qc) : (this (x + y)%Qc == this x + this y)%Q.
Proof. apply Qred_correct. Qed.

Lemma this_minus (x y : Qc) : (this (x - y)%Qc == this x - this y)%Q.
Proof.
  unfold Qcminus. rewrite this_plus. unfold Qcopp. rewrite this_Q2Qc. reflexivity.
Qed.

Lemma this_div (x y : Qc) : (this (x / y)%Qc == this x / this y)%Q.
Proof.
  unfold Qcdiv. rewrite this_mult. unfold Qcinv. rewrite this_Q2Qc. reflexivity.
Qed.

Lemma tenths (k : Z) : ((k # 10) * 10 == inject_Z k)%Q.
Proof. unfold Qeq, Qmult, inject_Z. simpl. lia. Qed.

(** [Math.round(n * 10) / 10] in exact arithmetic is the number of tenths
    [floor (10 n + 1/2)]. *)
Lemma round1_tenths (x : Qc) :
  round1 x = Q2Qc (Qfloor (this x * 10 + (1 # 2)) # 10).
Proof.
  change (round1 x)
    with (Q2Qc (inject_Z (Qfloor (this (x * Q2Qc (inject_Z 10))%Qc + (1 # 2))))
          / Q2Qc (inject_Z 10))%Qc.
  apply Qc_is_canon. rewrite this_div, !this_Q2Qc.
  assert (E : Qfloor (this (x * Q2Qc (inject_Z 10))%Qc + (1 # 2))
              = Qfloor (this x * 10 + (1 # 2))).
  { apply Qfloor_comp. rewrite this_mult, this_Q2Qc. reflexivity. }
  rewrite E. set (k := Qfloor _).
  unfold Qeq, Qdiv, Qmult, Qinv, inject_Z. simpl. lia.
Qed.

(** The tenths chosen lie within a twentieth of [q], the upper bound
    included and the lower one not. *)
Lemma half_up_bounds (q : Q) :
  let r := (Qfloor (q * 10 + (1 # 2)) # 10)%Q in
  (q - (1 # 20) < r)%Q /\ (r <= q + (1 # 20))%Q.
Proof.
  intros r. pose proof (tenths (Qfloor (q * 10 + (1 # 2)))) as Hr. fold r in Hr.
  pose proof (Qfloor_le (q * 10 + (1 # 2))) as Hle.
  pose proof (Qlt_floor (q * 10 + (1 # 2))) as Hlt.
  rewrite inject_Z_plus in Hlt. rewrite <- Hr in Hle, Hlt.
  change (inject_Z 1) with 1%Q in Hlt.
  split; lra.
Qed.

Lemma Qcle_this (x y : Qc) : (x <= y)%Qc <-> (this x <= this y)%Q.
Proof. reflexivity. Qed.

Lemma Qclt_this (x y : Qc) : (x < y)%Qc <-> (this x < this y)%Q.
Proof. reflexivity. Qed.

Lemma Qceq_this (x y : Qc) : x = y <-> (this x == this y)%Q.
Proof. split; [intros ->; reflexivity | apply Qc_is_canon]. Qed.

(** On a value that is not negative, [round1] rounds to one decimal place,
    half away from zero. *)
Lemma round1_half_away (x : Qc) : (0 <= x)%Qc -> RoundedHalfAway1 x (round1 x).
Proof.
  intros Hx. rewrite round1_tenths.
  pose proof (half_up_bounds (this x)) as [Hlo Hhi]. cbv zeta in Hlo, Hhi.
  set (k := Qfloor (this x * 10 + (1 # 2))) in *.
  set (r := Q2Qc (k # 10)).
  assert (Hr : (this r == k # 10)%Q) by apply this_Q2Qc.
  assert (Hex : exists j : Z, r = Q2Qc (j # 10)) by (exists k; reflexivity).
  clearbody r. revert Hlo Hhi Hr. generalize (k # 10)%Q. intros rq Hlo Hhi Hr.
  assert (Hx' : (0 <= this x)%Q) by exact Hx.
  assert (Hd : (this (r - x)%Qc == rq - this x)%Q)
    by (rewrite this_minus, Hr; reflexivity).
  split; [exact Hex |]. split.
  - apply Qcabs_Qcle_condition. split; apply Qcle_this.
    + unfold Qcopp. rewrite this_Q2Qc, this_Q2Qc, Hd. clear - Hlo Hhi. lra.
    + rewrite this_Q2Qc, Hd. clear - Hlo Hhi. lra.
  - intros Htie.
    assert (Hpos : (0 <= r - x)%Qc \/ (r - x <= 0)%Qc).
    { destruct (Qclt_le_dec (r - x) 0); [right; apply Qclt_le_weak; assumption | left; assumption]. }
    assert (Hup : (this x + (1 # 20) == rq)%Q).
    { destruct Hpos as [Hp | Hn].
      - rewrite (Qcabs_pos _ Hp) in Htie. apply Qceq_this in Htie.
        rewrite Hd, this_Q2Qc in Htie. lra.
      - rewrite (Qcabs_neg _ Hn) in Htie. apply Qceq_this in Htie.
        unfold Qcopp in Htie. rewrite !this_Q2Qc, Hd in Htie. lra. }
    assert (Hr0' : (0 <= this r)%Q) by (rewrite Hr; lra).
    assert (Hr0 : (0 <= r)%Qc) by exact Hr0'.
    rewrite (Qcabs_pos x Hx), (Qcabs_pos r Hr0). apply Qclt_this. rewrite Hr. lra.
Qed.

(** On negative values [Math.round] still rounds a half up, towards zero:
    a quarter below zero goes to two tenths below zero, not three. *)
Lemma round1_negative_tie :
  round1 (Q2Qc (-1 # 4)) = Q2Qc (-2 # 10)
  /\ ~ RoundedHalfAway1 (Q2Qc (-1 # 4)) (round1 (Q2Qc (-1 # 4))).
Proof.
  assert (E : round1 (Q2Qc (-1 # 4)) = Q2Qc (-2 # 10))
    by (apply Qc_is_canon; vm_compute; reflexivity).
  split; [exact E |]. rewrite E. intros (_ & _ & Htie).
  assert (H : (Qcabs (Q2Qc (-1 # 4)) < Qcabs (Q2Qc (-2 # 10)))%Qc).
  { apply Htie. apply Qc_is_canon. vm_compute. reflexivity. }
  vm_compute in H. discriminate H.
Qed.

(** *** Values that are not negative *)

Lemma exact_add_nonneg (x y : Qc) : (0 <= x)%Qc -> (0 <= y)%Qc -> (0 <= num_add x y)%Qc.
Proof.
  intros Hx Hy. change (num_add x y) with (x + y)%Qc.
  assert (Hx' : (0 <= this x)%Q) by exact Hx. assert (Hy' : (0 <= this y)%Q) by exact Hy.
  apply Qcle_this. rewrite this_plus. change (this 0%Qc) with 0%Q. lra.
Qed.

Lemma exact_mul_nonneg (x y : Qc) : (0 <= x)%Qc -> (0 <= y)%Qc -> (0 <= num_mul x y)%Qc.
Proof.
  intros Hx Hy. change (num_mul x y) with (x * y)%Qc.
  assert (Hx' : (0 <= this x)%Q) by exact Hx. assert (Hy' : (0 <= this y)%Q) by exact Hy.
  apply Qcle_this. rewrite this_mult. change (this 0%Qc) with 0%Q.
  apply Qmult_le_0_compat; assumption.
Qed.

Lemma exact_div_nonneg (x : Qc) (k : Z) :
  (0 <= x)%Qc -> 1 <= k -> (0 <= num_div x (num_of_Z k))%Qc.
Proof.
  intros Hx Hk. change (num_div x (num_of_Z k)) with (x / Q2Qc (inject_Z k))%Qc.
  assert (Hx' : (0 <= this x)%Q) by exact Hx.
  apply Qcle_this. rewrite this_div, !this_Q2Qc. unfold Qdiv.
  apply Qmult_le_0_compat; [exact Hx' |]. apply Qinv_le_0_compat.
  change (inject_Z 0 <= inject_Z k)%Q. rewrite <- Zle_Qle. lia.
Qed.

Lemma zeroNutrition_nonneg : NonNegative (zeroNutrition (N := Qc)).
Proof. repeat split; apply Qcle_this; vm_compute; discriminate. Qed.

Lemma scaled_nonneg (ing : Ingredient Qc) (quantity : Qc) :
  ValidIngredient ing -> (0 < quantity)%Qc -> NonNegative (scaled ing quantity).
Proof.
  intros (Hk & Hp & Hc & Hf) Hq.
  assert (Hfac : (0 <= num_div quantity (num_of_Z 100))%Qc)
    by (apply exact_div_nonneg; [apply Qclt_le_weak; exact Hq | lia]).
  repeat split; apply exact_mul_nonneg; assumption.
Qed.

Lemma add_nonneg (a b : Nutrition Qc) : NonNegative a -> NonNegative b -> NonNegative (add a b).
Proof.
  intros (Ha1 & Ha2 & Ha3 & Ha4) (Hb1 & Hb2 & Hb3 & Hb4).
  repeat split; apply exact_add_nonneg; assumption.
Qed.

Lemma reduceItems_nonneg (byId : gmap string (Ingredient Qc)) (items : list (ItemInput Qc))
    (acc totals : Nutrition Qc) :
  ValidItems byId items -> NonNegative acc ->
  reduceItems byId items acc = Some totals -> NonNegative totals.
Proof.
  intros [Hing Hq]. revert acc. induction Hq as [| it rest Hit Hrest IH]; intros acc Hacc; simpl.
  - intros [= <-]. exact Hacc.
  - destruct (byId !! ingredientId it) as [ing |] eqn:E; [| discriminate].
    apply IH. apply add_nonneg; [exact Hacc |]. apply scaled_nonneg; [| exact Hit].
    exact (Hing _ _ E).
Qed.

Lemma listTotals_nonneg (items : list (Ingredient Qc * Qc)) (acc : Nutrition Qc) :
  Forall (fun it => ValidIngredient (fst it) /\ (0 < snd it)%Qc) items ->
  NonNegative acc -> NonNegative (fold_left accumulate items acc).
Proof.
  intros H. revert acc. induction H as [| it rest [Hing Hq] _ IH]; intros acc Hacc; simpl.
  - exact Hacc.
  - apply IH. change (accumulate acc it) with (add acc (scaled (fst it) (snd it))).
    apply add_nonneg; [exact Hacc |]. apply scaled_nonneg; assumption.
Qed.

Lemma perServingOf_nonneg (totals : Nutrition Qc) (servings : Z) :
  NonNegative totals -> 1 <= servings -> NonNegative (perServingOf totals servings).
Proof.
  intros (H1 & H2 & H3 & H4) Hs. repeat split; apply exact_div_nonneg; assumption.
Qed.

Lemma roundNutrition_half_away (n : Nutrition Qc) :
  NonNegative n -> AllRounded n (roundNutrition n).
Proof.
  intros (H1 & H2 & H3 & H4). repeat split; apply round1_half_away; assumption.
Qed.

(** *** The fold, for any numbers *)

Section Fold.
Context {N : Type} `{JsNumber N}.


(** Both recipe handlers compute the same totals. *)
Lemma accumulate_add (acc : Nutrition N) (it : Ingredient N * N) :
  accumulate acc it = add acc (scaled (fst it) (snd it)).
Proof. reflexivity. Qed.

Hypothesis add_assoc : forall x y z : N, num_add x (num_add y z) = num_add (num_add x y) z.
Hypothesis add_0_l : forall x : N, num_add (num_of_Z 0) x = x.
Hypothesis add_0_r : forall x : N, num_add x (num_of_Z 0) = x.

Lemma add_assoc_nutrition (a b c : Nutrition N) : add a (add b c) = add (add a b) c.
Proof. unfold add. simpl. rewrite !add_assoc. reflexivity. Qed.

Lemma add_zero_l (a : Nutrition N) : add zeroNutrition a = a.
Proof. destruct a. unfold add, zeroNutrition. simpl. rewrite !add_0_l. reflexivity. Qed.

Lemma add_zero_r (a : Nutrition N) : add a zeroNutrition = a.
Proof. destruct a. unfold add, zeroNutrition. simpl. rewrite !add_0_r. reflexivity. Qed.

Lemma reduceItems_from (byId : gmap string (Ingredient N)) (items : list (ItemInput N))
    (acc : Nutrition N) :
  reduceItems byId items acc = add acc <$> reduceItems byId items zeroNutrition.
Proof.
  revert acc. induction items as [| it rest IH]; intros acc; simpl.
  - rewrite add_zero_r. reflexivity.
  - destruct (byId !! ingredientId it) as [ing |]; [| reflexivity].
    rewrite (IH (add acc _)), (IH (add zeroNutrition _)), add_zero_l.
    destruct (reduceItems byId rest zeroNutrition) as [t |]; simpl; [| reflexivity].
    rewrite add_assoc_nutrition. reflexivity.
Qed.

End Fold.

End NumberFacts.

(** ** Doubles *)

Module FloatFacts.

(** Every amount from 0.00 to 9.99 with two decimals, and every amount
    ending in 5 hundredths from 0.05 to 999.95, is rounded by the binary64
    [round1] as rounding half away from zero rounds the decimal. *)
Lemma round1_binary64_two_decimals :
  List.forallb roundsTwoDecimals (upto 1000) = true
  /\ List.forallb (fun j => roundsTwoDecimals (10 * j + 5)) (upto 10000) = true.
Proof. split; vm_cast_no_check (eq_refl true). Qed.

(** The example of the specification, on doubles: 200 g at 165 kcal per
    100 g in two servings. *)
Lemma spec_example_binary64 :
  let byId : gmap string (Ingredient float) :=
    {[ "chicken" := mkIngredient "Chicken Breast" (SampleFood.dec 165 1) (SampleFood.dec 31 1)
                      (SampleFood.dec 0 1) (SampleFood.dec 36 10) ]} in
  (fun t => (kcal (total (report t 2)), kcal (perServing (report t 2))))
    <$> totalsOf byId [mkItemInput "chicken" (SampleFood.dec 200 1)]
  = Some (SampleFood.dec 330 1, SampleFood.dec 165 1).
Proof. vm_compute. reflexivity. Qed.

End FloatFacts.

(** * The claims of the specification *)

Import DateFacts SortFacts PlanFacts UserFacts ServerFacts SlotFacts.

(** C1. A successful [PUT /meal-plans] replaces the stored plan wholesale.
    After it, the planned meals stored under the plan of the owner and the
    week are exactly the submitted ones (same dates, slots and recipes, in
    submission order), the meals of every other plan are untouched, every
    write of the request lies between the begin and the commit of one
    transaction, in which the old meals are deleted and the new ones
    inserted, and [GET /meal-plans] for that week then answers with the
    meals the save answered with; after an empty save the week has no
    stored meal and the answer carries an empty list. *)
Theorem C1_put_replaces_plan (userId : string) (body : PutBody) (db db' : Db)
    (id : option string) (ws : string) (views : list MealView)
    (Hput : PUT_meal_plans userId body db = (Send 200 (B_plan id ws views), db')) :
  exists weekStart planId,
    parseDateOnly (body_weekStart body) = Some weekStart
    /\ id = Some planId
    /\ planOf db' userId weekStart
       = Some (planId, {| plan_userId := userId; plan_weekStart := weekStart |})
    /\ (fun r => (formatDateOnly (pm_date r), pm_slot r, pm_recipeId r)) <$> mealsOf db' planId
       = submitted <$> body_meals body
    /\ (forall other, other ≠ planId -> mealsOf db' other = mealsOf db other)
    /\ (exists before inside,
          queries db'
          = queries db ++ before ++ [Q_transaction_begin] ++ inside ++ [Q_transaction_commit]
          /\ Forall (fun q => isWrite q = false) before
          /\ Q_plannedMeal_deleteMany planId ∈ inside
          /\ (body_meals body ≠ [] -> Q_plannedMeal_createMany (mealsOf db' planId) ∈ inside))
    /\ fst (GET_meal_plans userId (body_weekStart body) db')
       = Send 200 (B_plan (Some planId) (body_weekStart body) views)
    /\ returned <$> views ≡ₚ submitted <$> body_meals body
    /\ (body_meals body = [] -> mealsOf db' planId = [] /\ views = []).
Proof.
  apply PUT_meal_plans_ok in Hput
    as (weekStart & meals & planId & views0 & -> & -> & -> & O).
  pose proof (PutOutcome_returned _ _ _ _ _ _ _ _ O) as [Hret Hsto].
  exists weekStart, planId.
  split; [exact (out_parsed _ _ _ _ _ _ _ _ O) |]. split; [reflexivity |].
  split; [exact (out_plan _ _ _ _ _ _ _ _ O) |]. split; [exact Hsto |].
  split; [exact (out_others _ _ _ _ _ _ _ _ O) |].
  split.
  { eexists _, _. split; [exact (out_queries _ _ _ _ _ _ _ _ O) |].
    split; [destruct (0 <? _); repeat constructor |].
    unfold saveQueries. split; [set_solver |].
    intros Hne. rewrite (out_stored _ _ _ _ _ _ _ _ O).
    assert (Hlen : (0 <? Z.of_nat (length meals)) = true).
    { apply Z.ltb_lt.
      assert (length (submitted <$> body_meals body) = length meals)
        by (rewrite <- Hsto, (out_stored _ _ _ _ _ _ _ _ O), !length_fmap; reflexivity).
      rewrite length_fmap in H. destruct (body_meals body); [congruence | simpl in H; lia]. }
    rewrite Hlen. set_solver. }
  split; [exact (GET_after_PUT _ _ _ _ _ _ _ _ O) |].
  split.
  { rewrite <- Hret. apply fmap_Permutation.
    apply Array_sort_Permutation. }
  intros Hnil. rewrite Hnil in Hsto, Hret.
  apply fmap_nil_inv in Hsto, Hret. subst views0. auto.
Qed.

(** C1 at work: a week of three meals is saved, then cleared by an empty
    save. *)
Lemma C1_put_replaces_plan_witness :
  let saved := PUT_meal_plans "u1" Sample.week Sample.db in
  let again := PUT_meal_plans "u1" Sample.emptyWeek (snd saved) in
  PUT_meal_plans "u1" Sample.emptyWeek (snd saved)
  = (Send 200 (B_plan (Some "0") "2024-01-01" []), snd again)
  /\ mealsOf (snd saved) "0" ≠ []
  /\ mealsOf (snd again) "0" = []
  /\ fst (GET_meal_plans "u1" "2024-01-01" (snd again))
     = Send 200 (B_plan (Some "0") "2024-01-01" []).
Proof.
  intros saved again.
  assert (Hput : PUT_meal_plans "u1" Sample.emptyWeek (snd saved)
                 = (Send 200 (B_plan (Some "0") "2024-01-01" []), snd again))
    by (vm_compute; reflexivity).
  destruct (C1_put_replaces_plan _ _ _ _ _ _ _ Hput)
    as (weekStart & planId & _ & Hid & _ & _ & _ & _ & Hget & _ & Hempty).
  injection Hid as <-.
  split; [exact Hput |].
  split; [vm_compute; discriminate |].
  split; [apply Hempty; reflexivity | exact Hget].
Defined.

(** C2, as stated, fails: a request whose two entries share a date and a
    slot is answered with the error of the week check when that date lies
    outside the week of the request, the check that comes first. *)
Lemma C2_counterexample :
  HasDuplicateSlot (body_meals Sample.twiceOutside)
  /\ PUT_meal_plans "u1" Sample.twiceOutside Sample.db
     = (Send 400 (B_error "Meal date is outside selected week: 2024-02-01"), Sample.db)
  /\ forall date,
       fst (PUT_meal_plans "u1" Sample.twiceOutside Sample.db)
       ≠ Send 400 (B_error ("Duplicate slot for date " +:+ date)).
Proof.
  split; [| split].
  - exists 0%nat, 1%nat, (mkMealInput "2024-02-01" "breakfast" "R1"),
      (mkMealInput "2024-02-01" "breakfast" "R2").
    repeat split. lia.
  - vm_compute. reflexivity.
  - intros date H.
    assert (E : fst (PUT_meal_plans "u1" Sample.twiceOutside Sample.db)
                = Send 400 (B_error "Meal date is outside selected week: 2024-02-01"))
      by (vm_compute; reflexivity).
    rewrite E in H. discriminate H.
Qed.

(** C2, amended. A request that passes the schema and whose week and meal
    dates pass the date checks, and whose meals list has two entries with
    the same date and slot, is answered 400 with the duplicate-slot error
    that names the date of [dup], the first entry that repeats the slot of an
    entry before it; the database is left as it was, query log included. *)
Theorem C2_duplicate_slot_rejected (userId : string) (body : PutBody) (db : Db)
    (weekStart : Z)
    (Hschema : Body_parse body = true)
    (Hweek : parseDateOnly (body_weekStart body) = Some weekStart)
    (Hdates : DatesInWeek weekStart (body_meals body))
    (Hdup : HasDuplicateSlot (body_meals body)) :
  exists pre dup post,
    FirstCollision (body_meals body) pre dup post
    /\ PUT_meal_plans userId body db
       = (Send 400 (B_error ("Duplicate slot for date " +:+ in_date dup)), db).
Proof.
  destruct (HasDuplicateSlot_collision _ Hdup) as (pre & dup & post & Hc).
  exists pre, dup, post. split; [exact Hc |].
  destruct Hc as (Hmeals & Hnd & first & Hfirst & Hsame).
  destruct (readMeals_total weekStart _ Hdates) as [meals Hrm].
  unfold PUT_meal_plans. rewrite Hschema, Hweek, Hrm. cbn [negb].
  pose proof Hrm as Hrm'. rewrite Hmeals in Hrm'.
  apply readMeals_app in Hrm' as (mpre & mrest & -> & Hpre & Hrest).
  change (dup :: post) with ([dup] ++ post) in Hrest.
  apply readMeals_app in Hrest as (mdup & mpost & -> & Hdupm & Hpost).
  pose proof (readMeals_keys _ _ _ Hpre) as Kpre.
  pose proof (readMeals_keys _ _ _ Hdupm) as Kdup.
  pose proof (readMeals_dates _ _ _ Hdupm) as Ddup.
  destruct mdup as [| md [| ? ?]]; try discriminate Kdup.
  injection Kdup as Kdup. injection Ddup as Ddup _ _.
  assert (Hin : forall i, i ∈ pre -> exists d, parseDateOnly (in_date i) = Some d).
  { intros i Hi. unfold DatesInWeek in Hdates. rewrite Forall_forall in Hdates.
    destruct (Hdates i) as (d & Hd & _); [rewrite Hmeals; set_solver | eauto]. }
  rewrite (checkSlots_collision ∅ mpre md mpost).
  - rewrite Ddup. reflexivity.
  - rewrite Kpre.
    apply (NoDup_fmap_transfer (fun i => (in_date i, in_slot i))); [| exact Hnd].
    intros a b Ha Hb Hk. destruct (Hin a Ha) as [da Hda]. destruct (Hin b Hb) as [db0 Hdb].
    destruct (inputKey_inj a b da db0 Hda Hdb Hk) as [Hd Hs]. congruence.
  - set_solver.
  - rewrite Kpre, Kdup. apply elem_of_union_r. apply elem_of_list_to_set.
    apply list_elem_of_fmap. exists first. split; [| exact Hfirst].
    destruct Hsame as [Hd Hs]. unfold inputKey. rewrite Hd, Hs. reflexivity.
Qed.

(** C2 amended, on the example of the specification. *)
Lemma C2_duplicate_slot_rejected_witness :
  Body_parse Sample.twice = true
  /\ parseDateOnly (body_weekStart Sample.twice) = Some 1704067200000
  /\ DatesInWeek 1704067200000 (body_meals Sample.twice)
  /\ HasDuplicateSlot (body_meals Sample.twice)
  /\ exists pre dup post,
       FirstCollision (body_meals Sample.twice) pre dup post
       /\ PUT_meal_plans "u1" Sample.twice Sample.db
          = (Send 400 (B_error ("Duplicate slot for date " +:+ in_date dup)), Sample.db).
Proof.
  assert (H1 : Body_parse Sample.twice = true) by (vm_compute; reflexivity).
  assert (H2 : parseDateOnly (body_weekStart Sample.twice) = Some 1704067200000)
    by (vm_compute; reflexivity).
  assert (H3 : DatesInWeek 1704067200000 (body_meals Sample.twice)).
  { repeat constructor; exists 1704067200000; split; vm_compute; reflexivity. }
  assert (H4 : HasDuplicateSlot (body_meals Sample.twice)).
  { exists 0%nat, 1%nat, (mkMealInput "2024-01-01" "breakfast" "R1"),
      (mkMealInput "2024-01-01" "breakfast" "R2").
    repeat split. lia. }
  repeat (split; [assumption |]).
  exact (C2_duplicate_slot_rejected "u1" Sample.twice Sample.db 1704067200000 H1 H2 H3 H4).
Defined.

(** C3. The recipe check of [PUT /meal-plans] works on the distinct recipe
    ids of the request. With no meal it makes no query and passes, leaving
    the database and its log as they were. Otherwise it makes one
    [recipe.findMany] for all the ids at once, which finds those of them that
    are recipes of the requesting user, never more rows than ids; it fails
    exactly when it finds fewer, with a 400 whose message is the same
    whatever the ids, and changes no table. When the steps before it pass,
    its failure is the answer of the request. *)
Theorem C3_recipe_check (userId : string) (meals : list Meal) (db : Db) :
  let recipeIds := distinct ∅ (meal_recipeId <$> meals) in
  let found := foundRecipes db userId recipeIds in
  NoDup recipeIds
  /\ (forall id, id ∈ recipeIds <-> id ∈ meal_recipeId <$> meals)
  /\ (forall id, id ∈ found <-> id ∈ recipeIds /\ ownedBy db userId id)
  /\ (length found <= length recipeIds)%nat
  /\ checkRecipes userId meals db
     = (if bool_decide (meals = []) then (None, db)
        else (if bool_decide (length found < length recipeIds)%nat
              then Some (Send 400 (B_error "One or more recipes were not found for this user"))
              else None,
              prisma.record (Q_recipe_findMany userId recipeIds) db))
  /\ (forall body weekStart,
        Body_parse body = true ->
        parseDateOnly (body_weekStart body) = Some weekStart ->
        readMeals weekStart (body_meals body) = inr meals ->
        checkSlots ∅ meals = None ->
        (length found < length recipeIds)%nat ->
        PUT_meal_plans userId body db
        = (Send 400 (B_error "One or more recipes were not found for this user"),
           prisma.record (Q_recipe_findMany userId recipeIds) db)).
Proof.
  intros recipeIds found.
  pose proof (distinct_NoDup ∅ (meal_recipeId <$> meals)) as Hnd. fold recipeIds in Hnd.
  pose proof (length_foundRecipes db userId recipeIds Hnd) as [Hle _]. fold found in Hle.
  assert (Hrun : checkRecipes userId meals db
     = (if bool_decide (meals = []) then (None, db)
        else (if bool_decide (length found < length recipeIds)%nat
              then Some (Send 400 (B_error "One or more recipes were not found for this user"))
              else None,
              prisma.record (Q_recipe_findMany userId recipeIds) db))).
  { rewrite checkRecipes_run. cbv zeta. fold recipeIds. fold found.
    destruct meals as [| m meals'].
    - reflexivity.
    - rewrite (bool_decide_eq_false_2 (m :: meals' = [])) by discriminate.
      assert (Hpos : (0 < length recipeIds)%nat).
      { destruct recipeIds eqn:E; [| simpl; lia].
        apply distinct_nil_inv in E. discriminate E. }
      replace (0 <? Z.of_nat (length recipeIds)) with true by (symmetry; apply Z.ltb_lt; lia).
      destruct (bool_decide_reflect (length found < length recipeIds)%nat) as [Hlt | Hge].
      + replace (Z.of_nat (length found) =? Z.of_nat (length recipeIds)) with false
          by (symmetry; apply Z.eqb_neq; lia).
        reflexivity.
      + replace (Z.of_nat (length found) =? Z.of_nat (length recipeIds)) with true
          by (symmetry; apply Z.eqb_eq; lia).
        reflexivity. }
  split; [exact Hnd |].
  split; [intros id; unfold recipeIds; rewrite distinct_elem_of; set_solver |].
  split.
  { intros id. unfold found, foundRecipes.
    rewrite list_elem_of_fmap. split.
    - intros ([id' r] & -> & Hin). apply elem_of_map_to_list in Hin.
      apply map_lookup_filter_Some in Hin as (Hl & Hu & Hid). simpl in *.
      split; [exact Hid | exists r; auto].
    - intros (Hid & r & Hl & Hu). exists (id, r). split; [reflexivity |].
      apply elem_of_map_to_list. apply map_lookup_filter_Some. auto. }
  split; [exact Hle |]. split; [exact Hrun |].
  intros body weekStart Hbp Hws Hrm Hcs Hlt.
  unfold PUT_meal_plans. rewrite Hbp, Hws, Hrm, Hcs. cbn [negb].
  unfold mbind, Prisma_bind. rewrite Hrun.
  destruct meals as [| m meals']; [simpl in Hlt; lia |].
  rewrite (bool_decide_eq_false_2 (m :: meals' = [])) by discriminate.
  rewrite bool_decide_eq_true_2 by exact Hlt. reflexivity.
Qed.

(** C5. For every string that is a calendar date written [YYYY-MM-DD],
    [parseDateOnly] gives a date that [formatDateOnly] writes back as that
    string; for every other string, whether it misses the pattern or names a
    day that does not exist, it gives [null]. Whatever it accepts formats
    back to the input, because it compares the two: for [2024-02-30] the
    [Date] is a valid one, the first of March, and the comparison is what
    rejects it. *)
Theorem C5_date_round_trip :
  (forall s, CalendarDateString s ->
     exists date, parseDateOnly s = Some date /\ formatDateOnly date = s)
  /\ (forall s, ~ CalendarDateString s -> parseDateOnly s = None)
  /\ (forall s, DATE_ONLY_REGEX s = false -> parseDateOnly s = None)
  /\ (forall s date, parseDateOnly s = Some date -> formatDateOnly date = s)
  /\ parseDateOnly "2024-13-01" = None
  /\ parseDateOnly "2024-02-30" = None
  /\ parseDateOnly "20240101" = None
  /\ (exists date, newDateUtcMidnight "2024-02-30" = Some date
                   /\ formatDateOnly date = "2024-03-01").
Proof.
  split.
  { intros s (y & m & d & Hy & Hm & Hd & ->).
    destruct (parseDateOnly_isoDate y m d Hy Hm Hd) as [Hp Hf]. eauto. }
  split.
  { intros s Hs. destruct (parseDateOnly s) as [date |] eqn:E; [| reflexivity].
    apply parseDateOnly_Some in E as (_ & Hc & _). contradiction. }
  split; [intros s Hre; unfold parseDateOnly; rewrite Hre; reflexivity |].
  split; [intros s date H; apply parseDateOnly_Some in H; tauto |].
  repeat (split; [vm_compute; reflexivity |]).
  exists 1709251200000. split; vm_compute; reflexivity.
Qed.

(** C6. [isWithinWeek date weekStart] holds exactly when [date] is no
    earlier than [weekStart] and at most six days later; for two midnights,
    exactly when their day numbers differ by 0 to 6: it holds at [weekStart]
    itself and six days later, and fails seven days later and one day
    earlier. *)
Theorem C6_isWithinWeek (date weekStart : Z) :
  (isWithinWeek date weekStart = true <-> 0 <= date - weekStart <= 6 * msPerDay)
  /\ (forall day start : Z,
        isWithinWeek (day * msPerDay) (start * msPerDay) = true <-> 0 <= day - start <= 6)
  /\ isWithinWeek weekStart weekStart = true
  /\ isWithinWeek (weekStart + 6 * msPerDay) weekStart = true
  /\ isWithinWeek (weekStart + 7 * msPerDay) weekStart = false
  /\ isWithinWeek (weekStart - 1 * msPerDay) weekStart = false.
Proof.
  assert (H : forall a b, isWithinWeek a b = true <-> 0 <= a - b <= 6 * msPerDay).
  { intros a b. unfold isWithinWeek, getTime, msPerDay.
    rewrite andb_true_iff, !Z.leb_le. lia. }
  split; [apply H |]. split; [intros day start; rewrite H; unfold msPerDay; lia |].
  split; [apply H; unfold msPerDay; lia |]. split; [apply H; unfold msPerDay; lia |].
  split; apply not_true_is_false; rewrite H; unfold msPerDay; lia.
Qed.

(** C9. Once the database has an administrator, it has one after every
    sequence of requests, whatever they are and whoever sends them. The
    handler of [PATCH /admin/users/:id/role], on a user that exists, answers
    409 and changes nothing when the user is an administrator, the new role
    is USER and there is at most one administrator; in every other case,
    a demotion that leaves another administrator and every promotion among
    them, it answers with the user under the new role, which is then the
    user's role in the table. *)
Theorem C9_last_admin_kept (db : Db) :
  (forall requests, 1 <= adminCount db -> 1 <= adminCount (snd (serve requests db)))
  /\ (forall id role target,
        id ≠ "" -> users db !! id = Some target ->
        PATCH_admin_users_role id role db =
        if removesLastAdmin db target role
        then (Send 409 (B_error "Cannot remove admin role from the last admin"),
              withUsers db (users db) [Q_user_findUnique id; Q_user_count ADMIN])
        else (Send 200 (B_user id (user_email target) role),
              withUsers db
                (<[id := {| user_email := user_email target; user_role := role |}]> (users db))
                ([Q_user_findUnique id]
                 ++ (if bool_decide (user_role target = ADMIN) && bool_decide (role = USER)
                     then [Q_user_count ADMIN] else [])
                 ++ [Q_user_update id role])))
  /\ (forall target role,
        removesLastAdmin db target role = true
        <-> user_role target = ADMIN /\ role = USER /\ adminCount db <= 1).
Proof.
  split; [| split].
  - intros requests. apply serve_keeps.
  - intros id role target. apply PATCH_admin_users_role_run.
  - intros target role. unfold removesLastAdmin.
    rewrite !andb_true_iff, !bool_decide_eq_true, Z.leb_le. tauto.
Qed.

(** C9 at work: the only administrator cannot demote herself, promotes a
    second user, and then can. *)
Lemma C9_last_admin_kept_witness :
  let requests :=
    [Req_PATCH_admin_users_role (Some "u1") "u1" USER;
     Req_PATCH_admin_users_role (Some "u1") "u2" ADMIN;
     Req_PATCH_admin_users_role (Some "u1") "u1" USER;
     Req_PATCH_admin_users_role (Some "u2") "u2" USER] in
  1 <= adminCount Sample.db
  /\ 1 <= adminCount (snd (serve requests Sample.db))
  /\ fst (serve requests Sample.db)
     = [Send 409 (B_error "Cannot remove admin role from the last admin");
        Send 200 (B_user "u2" "rui@example.org" ADMIN);
        Send 200 (B_user "u1" "ana@example.org" USER);
        Send 409 (B_error "Cannot remove admin role from the last admin")]
  /\ fst (PATCH_admin_users_role "u1" USER Sample.db)
     = Send 409 (B_error "Cannot remove admin role from the last admin").
Proof.
  intros requests.
  assert (H1 : 1 <= adminCount Sample.db) by (vm_compute; discriminate).
  destruct (C9_last_admin_kept Sample.db) as (Hinv & Hrun & _).
  split; [exact H1 |]. split; [exact (Hinv requests H1) |].
  split; [vm_compute; reflexivity |].
  rewrite (Hrun "u1" USER (mkUser "ana@example.org" ADMIN));
    [vm_compute; reflexivity | discriminate | vm_compute; reflexivity].
Defined.

(** C10. A successful [PUT /meal-plans] leaves a plan row for the owner and
    the week, with the id it answers with, creating the row when the pair had
    none; this holds for an empty meals list too, and [GET /meal-plans] for
    that week then answers with that id and an empty list. From then on,
    whatever requests follow, [GET /meal-plans] for that owner and week never
    answers with a null id. It does answer with a null id, and no meals, as
    long as the pair has no plan row. *)
Theorem C10_save_leaves_plan_row (userId : string) (body : PutBody) (db db' : Db)
    (id : option string) (ws : string) (views : list MealView)
    (Hput : PUT_meal_plans userId body db = (Send 200 (B_plan id ws views), db')) :
  exists weekStart planId,
    parseDateOnly (body_weekStart body) = Some weekStart
    /\ id = Some planId
    /\ mealPlans db' !! planId
       = Some {| plan_userId := userId; plan_weekStart := weekStart |}
    /\ (planOf db userId weekStart = None -> mealPlans db !! planId = None)
    /\ (body_meals body = [] ->
        fst (GET_meal_plans userId (body_weekStart body) db')
        = Send 200 (B_plan (Some planId) (body_weekStart body) []))
    /\ (forall later ws' meals',
          fst (GET_meal_plans userId (body_weekStart body) (snd (serve later db')))
          ≠ Send 200 (B_plan None ws' meals'))
    /\ (planOf db userId weekStart = None ->
        fst (GET_meal_plans userId (body_weekStart body) db)
        = Send 200 (B_plan None (body_weekStart body) [])).
Proof.
  apply PUT_meal_plans_ok in Hput
    as (weekStart & meals & planId & views0 & -> & -> & -> & O).
  pose proof (out_parsed _ _ _ _ _ _ _ _ O) as Hws.
  pose proof (out_plan _ _ _ _ _ _ _ _ O) as Hplan.
  pose proof (planOf_Some _ _ _ _ _ Hplan) as (Hrow & _ & _).
  exists weekStart, planId.
  split; [exact Hws |]. split; [reflexivity |]. split; [exact Hrow |].
  split.
  { intros Hnone. pose proof (out_plans _ _ _ _ _ _ _ _ O) as Hp.
    rewrite Hnone in Hp. tauto. }
  split.
  { intros Hnil. rewrite (GET_after_PUT _ _ _ _ _ _ _ _ O).
    pose proof (PutOutcome_returned _ _ _ _ _ _ _ _ O) as [Hret _].
    rewrite Hnil in Hret. apply fmap_nil_inv in Hret. subst views0. reflexivity. }
  split.
  { intros later ws' meals' Hget.
    apply GET_null_id in Hget as (weekStart' & Hws' & Hnone).
    rewrite Hws in Hws'. injection Hws' as <-.
    pose proof (serve_keeps later db') as (_ & Hkeep & _).
    destruct (planOf_is_Some (snd (serve later db')) userId weekStart planId _
                (Hkeep _ _ Hrow) eq_refl eq_refl) as [p Hp].
    congruence. }
  intros Hnone. rewrite GET_meal_plans_run, Hws, Hnone. reflexivity.
Qed.

(** C10 at work: an empty save on a database without plans, then other
    requests, then a read. *)
Lemma C10_save_leaves_plan_row_witness :
  let saved := PUT_meal_plans "u2" Sample.emptyWeek Sample.db in
  let later := [Req_PUT_meal_plans (Some "u1") Sample.week;
                Req_POST_auth_register "eva@example.org"] in
  mealPlans Sample.db = ∅
  /\ saved = (Send 200 (B_plan (Some "0") "2024-01-01" []), snd saved)
  /\ mealPlans (snd saved) !! "0" = Some (mkMealPlan "u2" 1704067200000)
  /\ fst (GET_meal_plans "u2" "2024-01-01" (snd saved))
     = Send 200 (B_plan (Some "0") "2024-01-01" [])
  /\ (forall ws' meals',
        fst (GET_meal_plans "u2" "2024-01-01" (snd (serve later (snd saved))))
        ≠ Send 200 (B_plan None ws' meals')).
Proof.
  intros saved later.
  assert (Hput : PUT_meal_plans "u2" Sample.emptyWeek Sample.db
                 = (Send 200 (B_plan (Some "0") "2024-01-01" []), snd saved))
    by (vm_compute; reflexivity).
  destruct (C10_save_leaves_plan_row _ _ _ _ _ _ _ Hput)
    as (weekStart & planId & Hws & Hid & Hrow & _ & Hget & Hlater & _).
  injection Hid as <-.
  assert (weekStart = 1704067200000) as ->
    by (apply (inj Some); rewrite <- Hws; vm_compute; reflexivity).
  split; [reflexivity |]. split; [exact Hput |]. split; [exact Hrow |].
  split; [apply Hget; reflexivity | exact (Hlater later)].
Defined.

(** * Further properties of the code

    ** Days, months and date strings *)

Module MoreDateFacts.
Import DateFacts.

Lemma checkYearOfEra_cycle : List.forallb checkYearOfEra (upto 400) = true.
Proof. vm_compute. reflexivity. Qed.

Lemma yearStart_step (k : Z) : 365 <= yearStart (k + 1) - yearStart k <= 366.
Proof.
  unfold yearStart.
  pose proof (Z.div_mod k 4 ltac:(lia)). pose proof (Z.mod_pos_bound k 4 ltac:(lia)).
  pose proof (Z.div_mod (k + 1) 4 ltac:(lia)). pose proof (Z.mod_pos_bound (k + 1) 4 ltac:(lia)).
  pose proof (Z.div_mod k 100 ltac:(lia)). pose proof (Z.mod_pos_bound k 100 ltac:(lia)).
  pose proof (Z.div_mod (k + 1) 100 ltac:(lia)). pose proof (Z.mod_pos_bound (k + 1) 100 ltac:(lia)).
  lia.
Qed.

Lemma yearStart_mono (j k : Z) : 0 <= j <= k -> yearStart j <= yearStart k.
Proof.
  intros H. unfold yearStart.
  pose proof (Z.div_le_mono j k 4 ltac:(lia) ltac:(lia)).
  assert (k / 100 - j / 100 <= k - j).
  { pose proof (Z.div_mod j 100 ltac:(lia)). pose proof (Z.mod_pos_bound j 100 ltac:(lia)).
    pose proof (Z.div_mod k 100 ltac:(lia)). pose proof (Z.mod_pos_bound k 100 ltac:(lia)). lia. }
  lia.
Qed.

(** [yearOfEra] finds the year a day of the era lies in. *)
Lemma yearOfEra_bounds (doe : Z) :
  0 <= doe < 146097 ->
  0 <= yearOfEra doe <= 399 /\ 0 <= doe - yearStart (yearOfEra doe) <= 365.
Proof.
  intros Hdoe.
  pose proof (yearOfEra_mono 0 doe ltac:(lia) ltac:(lia)) as H0.
  pose proof (yearOfEra_mono doe 146096 ltac:(lia) ltac:(lia)) as H1.
  change (yearOfEra 0) with 0 in H0. change (yearOfEra 146096) with 399 in H1.
  split; [lia |].
  set (k := yearOfEra doe) in *.
  assert (Hk : 0 <= k < 400) by lia.
  pose proof (forallb_upto _ _ checkYearOfEra_cycle k Hk) as Hc.
  unfold checkYearOfEra in Hc. apply andb_true_iff in Hc as [Hc1 Hc2].
  apply Z.eqb_eq in Hc1, Hc2.
  pose proof (yearStart_step k) as Hstep.
  assert (Hs0 : 0 <= yearStart k).
  { pose proof (yearStart_mono 0 k ltac:(lia)) as H. change (yearStart 0) with 0 in H. lia. }
  assert (Hs400 : yearStart (k + 1) <= 146096).
  { pose proof (yearStart_mono (k + 1) 400 ltac:(lia)) as H.
    change (yearStart 400) with 146096 in H. lia. }
  split.
  - destruct (Z_lt_le_dec doe (yearStart k)) as [Hlt |]; [| lia].
    exfalso.
    assert (Hk1 : 1 <= k).
    { destruct (Z.eq_dec k 0) as [E |]; [| lia].
      rewrite E in Hlt. change (yearStart 0) with 0 in Hlt. lia. }
    pose proof (forallb_upto _ _ checkYearOfEra_cycle (k - 1) ltac:(lia)) as Hp.
    unfold checkYearOfEra in Hp. apply andb_true_iff in Hp as [_ Hp].
    apply Z.eqb_eq in Hp. replace (k - 1 + 1) with k in Hp by lia.
    pose proof (yearOfEra_mono doe (yearStart k - 1) ltac:(lia) ltac:(lia)) as Hm.
    fold k in Hm. lia.
  - destruct (Z.eq_dec k 399) as [E | Hne].
    + rewrite E. change (yearStart 399) with 145731. lia.
    + destruct (Z_lt_le_dec doe (yearStart (k + 1))) as [| Hge]; [lia |].
      exfalso.
      pose proof (forallb_upto _ _ checkYearOfEra_cycle (k + 1) ltac:(lia)) as Hp.
      unfold checkYearOfEra in Hp. apply andb_true_iff in Hp as [Hp _].
      apply Z.eqb_eq in Hp.
      pose proof (yearOfEra_mono (yearStart (k + 1)) doe ltac:(lia) ltac:(lia)) as Hm.
      fold k in Hm. lia.
Qed.


(** What [civilFromDay] computes on the way, with the ranges of the year of
    the era, the day of the March-based year and the month counted from March. *)
Lemma civilFromDay_unfold (z : Z) :
  exists era yoe doy mp : Z,
    era = (z + 719468) / 146097
    /\ yoe = yearOfEra (z + 719468 - era * 146097)
    /\ z = era * 146097 + yearStart yoe + doy - 719468
    /\ 0 <= yoe <= 399 /\ 0 <= doy <= 365 /\ mp = (5 * doy + 2) / 153 /\ 0 <= mp <= 11
    /\ civilFromDay z
       = (yoe + era * 400 + (if mp <? 10 then 0 else 1),
          (if mp <? 10 then mp + 3 else mp - 9),
          doy - (153 * mp + 2) / 5 + 1).
Proof.
  unfold civilFromDay. cbv zeta.
  set (era := (z + 719468) / 146097).
  set (doe := z + 719468 - era * 146097).
  assert (Hdoe : 0 <= doe < 146097).
  { unfold doe, era. pose proof (Z.div_mod (z + 719468) 146097 ltac:(lia)).
    pose proof (Z.mod_pos_bound (z + 719468) 146097 ltac:(lia)). lia. }
  fold (yearOfEra doe).
  destruct (yearOfEra_bounds doe Hdoe) as [Hk Hdoy].
  set (yoe := yearOfEra doe) in *.
  unfold yearStart in Hdoy. fold (yearStart yoe) in Hdoy |- *.
  exists era, yoe, (doe - yearStart yoe), ((5 * (doe - yearStart yoe) + 2) / 153).
  set (doy := doe - yearStart yoe) in *.
  set (mp := (5 * doy + 2) / 153).
  assert (Hmp : 0 <= mp <= 11).
  { unfold mp. split; [apply Z.div_pos; lia | apply Z.lt_succ_r, Z.div_lt_upper_bound; lia]. }
  repeat split; try lia; try reflexivity.
  destruct (Z.ltb_spec mp 10).
  - replace (mp + 3 <=? 2) with false by (symmetry; apply Z.leb_gt; lia).
    f_equal. f_equal. lia.
  - replace (mp - 9 <=? 2) with true by (symmetry; apply Z.leb_le; lia).
    reflexivity.
Qed.

(** [MakeDay] undoes [civilFromDay]: every day number is the day number of
    the date read from it. *)
Lemma MakeDay_civilFromDay (z y m d : Z) : civilFromDay z = (y, m, d) -> MakeDay y m d = z.
Proof.
  destruct (civilFromDay_unfold z) as (era & yoe & doy & mp & _ & _ & Hz & Hyoe & Hdoy & Hmp & Hr & ->).
  intros [= <- <- <-]. unfold MakeDay.
  destruct (Z.ltb_spec mp 10).
  - replace (mp + 3 <=? 2) with false by (symmetry; apply Z.leb_gt; lia).
    replace (2 <? mp + 3) with true by (symmetry; apply Z.ltb_lt; lia).
    replace (yoe + era * 400 + 0) with (yoe + era * 400) by lia.
    rewrite Z.div_add, (Z.div_small yoe 400) by lia.
    unfold yearStart in Hz.
    replace (mp + 3 - 3) with mp by lia.
    replace (yoe + era * 400 - (0 + era) * 400) with yoe by lia. lia.
  - replace (mp - 9 <=? 2) with true by (symmetry; apply Z.leb_le; lia).
    replace (2 <? mp - 9) with false by (symmetry; apply Z.ltb_ge; lia).
    replace (yoe + era * 400 + 1 - 1) with (yoe + era * 400) by lia.
    rewrite Z.div_add, (Z.div_small yoe 400) by lia.
    unfold yearStart in Hz.
    replace (mp - 9 + 9) with mp by lia.
    replace (yoe + era * 400 - (0 + era) * 400) with yoe by lia. lia.
Qed.

(** The date read from a day number is a date of the calendar. *)
Lemma civilFromDay_valid (z y m d : Z) :
  civilFromDay z = (y, m, d) -> 1 <= m <= 12 /\ 1 <= d <= daysInMonth y m.
Proof.
  intros Hc. pose proof (MakeDay_civilFromDay _ _ _ _ Hc) as Hmk.
  destruct (civilFromDay_unfold z) as (era & yoe & doy & mp & _ & _ & Hz & Hyoe & Hdoy & Hmp & Hr & Hc').
  rewrite Hc in Hc'. injection Hc' as Hy Hm Hd.
  assert (Hm' : 1 <= m <= 12) by (rewrite Hm; destruct (mp <? 10) eqn:E; [apply Z.ltb_lt in E | apply Z.ltb_ge in E]; lia).
  assert (Hd' : 1 <= d <= 31).
  { pose proof (Z.div_mod (5 * doy + 2) 153 ltac:(lia)).
    pose proof (Z.mod_pos_bound (5 * doy + 2) 153 ltac:(lia)).
    pose proof (Z.div_mod (153 * mp + 2) 5 ltac:(lia)).
    pose proof (Z.mod_pos_bound (153 * mp + 2) 5 ltac:(lia)). lia. }
  split; [exact Hm' |].
  destruct (civilFromDay_MakeDay y m d Hm' Hd') as (m' & d' & Hc2 & _ & _ & Hiff).
  rewrite Hmk, Hc in Hc2. injection Hc2 as <- <-.
  split; [lia |]. apply Hiff. split; reflexivity.
Qed.

Lemma Day_msPerDay (t : Z) : Day t * msPerDay + TimeWithinDay t = t.
Proof.
  unfold Day, TimeWithinDay. pose proof (Z.div_mod t msPerDay ltac:(unfold msPerDay; lia)). lia.
Qed.

Lemma addDaysUtc_spec (date days : Z) :
  addDaysUtc date days = TimeClip (date + days * msPerDay).
Proof.
  unfold addDaysUtc, setUTCDate, getUTCDate.
  destruct (civilFromDay (Day date)) as [[y m] d] eqn:Hc.
  f_equal.
  pose proof (MakeDay_civilFromDay _ _ _ _ Hc) as Hmk.
  pose proof (MakeDay_day y m (d + days)) as H1. pose proof (MakeDay_day y m d) as H2.
  pose proof (Day_msPerDay date). lia.
Qed.


Lemma formatDateOnly_civil (t y m d : Z) :
  civilFromDay (Day t) = (y, m, d) -> 0 <= y <= 9999 -> formatDateOnly t = isoDate y m d.
Proof.
  intros Hc Hy. unfold formatDateOnly, toISOString. rewrite Hc.
  unfold isoYear.
  replace ((0 <=? y) && (y <=? 9999)) with true
    by (symmetry; apply andb_true_iff; split; apply Z.leb_le; lia).
  unfold isoDate, pad4, pad3, pad2. reflexivity.
Qed.

Lemma formatDateOnly_far (t : Z) :
  ~ 0 <= YearFromTime t <= 9999 -> DATE_ONLY_REGEX (formatDateOnly t) = false.
Proof.
  unfold YearFromTime, formatDateOnly, toISOString.
  destruct (civilFromDay (Day t)) as [[y m] d]. intros Hy.
  unfold isoYear.
  replace ((0 <=? y) && (y <=? 9999)) with false
    by (symmetry; apply andb_false_iff; rewrite !Z.leb_gt; lia).
  unfold DATE_ONLY_REGEX, pad6, pad4, pad3, pad2.
  destruct (y <? 0); reflexivity.
Qed.

(** Parsing what [formatDateOnly] wrote. *)
Lemma parseDateOnly_formatDateOnly (t : Z) :
  parseDateOnly (formatDateOnly t)
  = if (0 <=? YearFromTime t) && (YearFromTime t <=? 9999)
    then Some (Day t * msPerDay) else None.
Proof.
  destruct ((0 <=? YearFromTime t) && (YearFromTime t <=? 9999)) eqn:E.
  - apply andb_true_iff in E as [E1 E2]. apply Z.leb_le in E1, E2.
    unfold YearFromTime in E1, E2.
    destruct (civilFromDay (Day t)) as [[y m] d] eqn:Hc.
    rewrite (formatDateOnly_civil t y m d Hc) by lia.
    destruct (civilFromDay_valid _ _ _ _ Hc) as [Hm Hd].
    rewrite (proj1 (parseDateOnly_isoDate y m d ltac:(lia) Hm Hd)).
    rewrite (MakeDay_civilFromDay _ _ _ _ Hc). reflexivity.
  - unfold parseDateOnly. rewrite formatDateOnly_far; [reflexivity |].
    apply andb_false_iff in E. rewrite !Z.leb_gt in E. lia.
Qed.

(** Dates read from day numbers compare as the day numbers do. *)
Lemma compareCivil_civilFromDay_le (z1 z2 : Z) :
  z1 <= z2 -> compareCivil (civilFromDay z1) (civilFromDay z2) <> Gt.
Proof.
  intros Hle.
  destruct (civilFromDay_unfold z1)
    as (era1 & yoe1 & doy1 & mp1 & He1 & Hy1 & Hz1 & Hyoe1 & Hdoy1 & Hmp1 & Hr1 & ->).
  destruct (civilFromDay_unfold z2)
    as (era2 & yoe2 & doy2 & mp2 & He2 & Hy2 & Hz2 & Hyoe2 & Hdoy2 & Hmp2 & Hr2 & ->).
  assert (Hera : era1 <= era2) by (subst era1 era2; apply Z.div_le_mono; lia).
  assert (Hsame : era1 = era2 -> yoe1 <= yoe2
                  /\ (yoe1 = yoe2 -> doy1 <= doy2 /\ mp1 <= mp2)).
  { intros E. rewrite <- E in He2, Hy2.
    assert (R1 : 0 <= z1 + 719468 - era1 * 146097 < 146097).
    { rewrite He1 at 1 2. pose proof (Z.div_mod (z1 + 719468) 146097 ltac:(lia)).
      pose proof (Z.mod_pos_bound (z1 + 719468) 146097 ltac:(lia)). lia. }
    assert (R2 : 0 <= z2 + 719468 - era1 * 146097 < 146097).
    { rewrite He2 at 1 2. pose proof (Z.div_mod (z2 + 719468) 146097 ltac:(lia)).
      pose proof (Z.mod_pos_bound (z2 + 719468) 146097 ltac:(lia)). lia. }
    split.
    - rewrite Hy1, Hy2. apply yearOfEra_mono; lia.
    - intros E'. rewrite <- E', <- E in Hz2. split; [lia |].
      rewrite Hmp1, Hmp2. apply Z.div_le_mono; lia. }
  unfold compareCivil.
  assert (Hd : mp1 = mp2 -> yoe1 = yoe2 -> era1 = era2 ->
               doy1 - (153 * mp1 + 2) / 5 + 1 <= doy2 - (153 * mp2 + 2) / 5 + 1).
  { intros -> E1 E2. destruct (Hsame E2) as [_ H]. destruct (H E1). lia. }
  clear Hz1 Hz2 He1 He2 Hy1 Hy2 Hmp1 Hmp2.
  destruct (Z.ltb_spec mp1 10), (Z.ltb_spec mp2 10);
    repeat match goal with
    | |- context [?a ?= ?b] => destruct (Z.compare_spec a b)
    end; try discriminate; exfalso;
    (destruct (Z.eq_dec era1 era2) as [E |]; [destruct (Hsame E) as [? Hs] | lia]);
    (destruct (Z.eq_dec yoe1 yoe2) as [E' |]; [destruct (Hs E') | lia]);
    (destruct (Z.eq_dec mp1 mp2) as [E'' |]; [pose proof (Hd E'' E' E) | lia]); lia.
Qed.

Lemma compareCivil_refl (a : Z * Z * Z) : compareCivil a a = Eq.
Proof. destruct a as [[y m] d]. unfold compareCivil. rewrite !Z.compare_refl. reflexivity. Qed.

Lemma compareCivil_antisym (a b : Z * Z * Z) :
  compareCivil b a = CompOpp (compareCivil a b).
Proof.
  destruct a as [[y1 m1] d1], b as [[y2 m2] d2]. unfold compareCivil.
  rewrite (Z.compare_antisym y1 y2), (Z.compare_antisym m1 m2), (Z.compare_antisym d1 d2).
  destruct (y1 ?= y2), (m1 ?= m2), (d1 ?= d2); reflexivity.
Qed.

Lemma compareCivil_Eq (a b : Z * Z * Z) : compareCivil a b = Eq -> a = b.
Proof.
  destruct a as [[y1 m1] d1], b as [[y2 m2] d2]. unfold compareCivil.
  destruct (Z.compare_spec y1 y2), (Z.compare_spec m1 m2), (Z.compare_spec d1 d2);
    try discriminate. intros _. congruence.
Qed.

Lemma compareCivil_civilFromDay (z1 z2 : Z) :
  compareCivil (civilFromDay z1) (civilFromDay z2) = (z1 ?= z2).
Proof.
  assert (Hinj : forall a b, civilFromDay a = civilFromDay b -> a = b).
  { intros a b E. destruct (civilFromDay a) as [[y m] d] eqn:Ha.
    symmetry in E. rewrite <- (MakeDay_civilFromDay _ _ _ _ Ha).
    apply (MakeDay_civilFromDay _ _ _ _ E). }
  destruct (Z.compare_spec z1 z2) as [-> | Hlt | Hgt].
  - apply compareCivil_refl.
  - pose proof (compareCivil_civilFromDay_le z1 z2 ltac:(lia)) as H.
    destruct (compareCivil (civilFromDay z1) (civilFromDay z2)) eqn:E; try congruence.
    apply compareCivil_Eq, Hinj in E. lia.
  - pose proof (compareCivil_civilFromDay_le z2 z1 ltac:(lia)) as H.
    rewrite compareCivil_antisym.
    destruct (compareCivil (civilFromDay z2) (civilFromDay z1)) eqn:E;
      try (simpl; congruence).
    apply compareCivil_Eq, Hinj in E. lia.
Qed.


(** Strings of padded digits compare as the numbers they write. *)
Lemma digitChar_compare (a b : Z) :
  Ascii.compare (digitChar a) (digitChar b) = (a mod 10 ?= b mod 10).
Proof.
  unfold digitChar.
  assert (Ha : 0 <= a mod 10 < 10) by (apply Z.mod_pos_bound; lia).
  assert (Hb : 0 <= b mod 10 < 10) by (apply Z.mod_pos_bound; lia).
  revert Ha Hb. generalize (a mod 10) (b mod 10). intros j k Hj Hk.
  assert (Hj' : j = 0 \/ j = 1 \/ j = 2 \/ j = 3 \/ j = 4 \/ j = 5 \/ j = 6
                \/ j = 7 \/ j = 8 \/ j = 9) by lia.
  assert (Hk' : k = 0 \/ k = 1 \/ k = 2 \/ k = 3 \/ k = 4 \/ k = 5 \/ k = 6
                \/ k = 7 \/ k = 8 \/ k = 9) by lia.
  clear Hj Hk.
  repeat (destruct Hj' as [-> | Hj']);
    repeat (destruct Hk' as [-> | Hk']); try subst j; try subst k; reflexivity.
Qed.

Lemma string_compare_cons (c c' : ascii) (s s' : string) :
  String.compare (String c s) (String c' s')
  = match Ascii.compare c c' with Eq => String.compare s s' | r => r end.
Proof. reflexivity. Qed.

Ltac outer_compare :=
  lazymatch goal with
  | |- match ?a ?= ?b with Eq => _ | Lt => _ | Gt => _ end = _ =>
      destruct (Z.compare_spec a b)
  end.

Lemma pad2_compare (n n' : Z) (r r' : string) :
  0 <= n < 100 -> 0 <= n' < 100 ->
  String.compare (pad2 n +:+ r) (pad2 n' +:+ r')
  = match n ?= n' with Eq => String.compare r r' | c => c end.
Proof.
  intros Hn Hn'. unfold pad2.
  change (String ?a (String ?b EmptyString) +:+ ?r) with (String a (String b r)).
  rewrite !string_compare_cons, !digitChar_compare.
  pose proof (Z.div_mod n 10 ltac:(lia)). pose proof (Z.mod_pos_bound n 10 ltac:(lia)).
  pose proof (Z.div_mod n' 10 ltac:(lia)). pose proof (Z.mod_pos_bound n' 10 ltac:(lia)).
  rewrite (Z.mod_small (n / 10) 10), (Z.mod_small (n' / 10) 10) by lia.
  outer_compare; [outer_compare |..];
    destruct (Z.compare_spec n n'); try reflexivity; lia.
Qed.

Lemma pad4_compare (n n' : Z) (r r' : string) :
  0 <= n < 10000 -> 0 <= n' < 10000 ->
  String.compare (pad4 n +:+ r) (pad4 n' +:+ r')
  = match n ?= n' with Eq => String.compare r r' | c => c end.
Proof.
  intros Hn Hn'. unfold pad4, pad3.
  change (String ?a (String ?b (pad2 ?k)) +:+ ?r) with (String a (String b (pad2 k +:+ r))).
  unfold pad2.
  change (String ?a (String ?b EmptyString) +:+ ?r) with (String a (String b r)).
  rewrite !string_compare_cons, !digitChar_compare.
  assert (D : forall k, 0 <= k < 10000 ->
            k = 1000 * (k / 1000 mod 10) + 100 * (k / 100 mod 10) + 10 * (k / 10 mod 10) + k mod 10
            /\ 0 <= k / 1000 mod 10 < 10 /\ 0 <= k / 100 mod 10 < 10
            /\ 0 <= k / 10 mod 10 < 10 /\ 0 <= k mod 10 < 10).
  { intros k Hk.
    pose proof (Z.div_mod k 10 ltac:(lia)). pose proof (Z.mod_pos_bound k 10 ltac:(lia)).
    pose proof (Z.div_mod (k / 10) 10 ltac:(lia)). pose proof (Z.mod_pos_bound (k / 10) 10 ltac:(lia)).
    pose proof (Z.div_mod (k / 100) 10 ltac:(lia)). pose proof (Z.mod_pos_bound (k / 100) 10 ltac:(lia)).
    pose proof (Z.mod_pos_bound (k / 1000) 10 ltac:(lia)).
    replace (k / 100) with (k / 10 / 10) in * by (rewrite Z.div_div by lia; reflexivity).
    assert (k / 1000 = k / 10 / 10 / 10) as E by (rewrite !Z.div_div by lia; reflexivity).
    rewrite E in *.
    assert (k / 10 / 10 / 10 mod 10 = k / 10 / 10 / 10).
    { apply Z.mod_small. split; [repeat apply Z.div_pos; lia |].
      repeat (apply Z.div_lt_upper_bound; [lia |]). lia. }
    lia. }
  destruct (D n Hn) as (En & B1 & B2 & B3 & B4).
  destruct (D n' Hn') as (En' & B1' & B2' & B3' & B4').
  revert En B1 B2 B3 B4 En' B1' B2' B3' B4'.
  generalize (n / 1000 mod 10) (n / 100 mod 10) (n / 10 mod 10) (n mod 10)
             (n' / 1000 mod 10) (n' / 100 mod 10) (n' / 10 mod 10) (n' mod 10).
  intros a b c d a' b' c' d' En B1 B2 B3 B4 En' B1' B2' B3' B4'. clear D.
  outer_compare; [outer_compare; [outer_compare; [outer_compare |..] |..] |..];
    destruct (Z.compare_spec n n'); try reflexivity; lia.
Qed.


Lemma isoDate_compare (y1 m1 d1 y2 m2 d2 : Z) :
  0 <= y1 <= 9999 -> 0 <= m1 < 100 -> 0 <= d1 < 100 ->
  0 <= y2 <= 9999 -> 0 <= m2 < 100 -> 0 <= d2 < 100 ->
  String.compare (isoDate y1 m1 d1) (isoDate y2 m2 d2)
  = compareCivil (y1, m1, d1) (y2, m2, d2).
Proof.
  intros. unfold isoDate, compareCivil.
  rewrite pad4_compare by lia.
  destruct (y1 ?= y2); try reflexivity.
  change ("-" +:+ ?s) with (String "-"%char s).
  rewrite string_compare_cons. change (Ascii.compare "-" "-") with Eq. cbv iota.
  rewrite pad2_compare by lia.
  destruct (m1 ?= m2); try reflexivity.
  change ("-" +:+ ?s) with (String "-"%char s).
  rewrite string_compare_cons. change (Ascii.compare "-" "-") with Eq. cbv iota.
  replace (pad2 d1) with (pad2 d1 +:+ "") by (unfold pad2; reflexivity).
  replace (pad2 d2) with (pad2 d2 +:+ "") by (unfold pad2; reflexivity).
  rewrite pad2_compare by lia.
  destruct (d1 ?= d2); reflexivity.
Qed.

Lemma localeCompare_formatDateOnly (a b : Z) :
  0 <= YearFromTime a <= 9999 -> 0 <= YearFromTime b <= 9999 ->
  localeCompare (formatDateOnly a) (formatDateOnly b) = Z.sgn (Day a - Day b).
Proof.
  unfold YearFromTime. intros Ha Hb. unfold localeCompare.
  destruct (civilFromDay (Day a)) as [[y1 m1] d1] eqn:Ca.
  destruct (civilFromDay (Day b)) as [[y2 m2] d2] eqn:Cb.
  rewrite (formatDateOnly_civil _ _ _ _ Ca Ha), (formatDateOnly_civil _ _ _ _ Cb Hb).
  destruct (civilFromDay_valid _ _ _ _ Ca) as [? ?].
  destruct (civilFromDay_valid _ _ _ _ Cb) as [? ?].
  pose proof (daysInMonth_le_31 y1 m1). pose proof (daysInMonth_le_31 y2 m2).
  rewrite isoDate_compare by lia.
  rewrite <- Ca, <- Cb, compareCivil_civilFromDay.
  destruct (Z.compare_spec (Day a) (Day b)); lia.
Qed.

End MoreDateFacts.

(** ** What the plan handlers keep *)

Module MorePlanFacts.
Import DateFacts SortFacts PlanFacts UserFacts ServerFacts SlotFacts.

Lemma sameTables_refl (db : Db) : sameTables db db.
Proof. repeat split. Qed.

Lemma sameTables_trans (db1 db2 db3 : Db) :
  sameTables db1 db2 -> sameTables db2 db3 -> sameTables db1 db3.
Proof. unfold sameTables. intros (? & ? & ? & ?) (? & ? & ? & ?). repeat split; congruence. Qed.

Lemma sameTables_sym (db1 db2 : Db) : sameTables db1 db2 -> sameTables db2 db1.
Proof. unfold sameTables. intros (? & ? & ? & ?). repeat split; congruence. Qed.

(** The transaction of [PUT /meal-plans], with the id of the plan it
    works on. *)
Lemma transaction_savePlan_full (userId : string) (weekStart : Z) (meals : list Meal) (db : Db) :
  let row := {| plan_userId := userId; plan_weekStart := weekStart |} in
  let planId := match planOf db userId weekStart with
                | Some p => fst p
                | None => fresh (dom (mealPlans db))
                end in
  exists db',
    prisma.transaction (savePlan userId weekStart meals) db
    = (Some (includeMeals db' (planId, row)), db')
    /\ users db' = users db /\ recipes db' = recipes db
    /\ mealPlans db'
       = match planOf db userId weekStart with
         | Some _ => mealPlans db
         | None => <[planId := row]> (mealPlans db)
         end
    /\ plannedMeals db'
       = filter (fun meal => pm_planId meal ≠ planId) (plannedMeals db) ++ (toRow planId <$> meals).
Proof.
  cbv zeta. unfold prisma.transaction. rewrite savePlan_run. cbv zeta.
  change (planOf (prisma.record Q_transaction_begin db) userId weekStart)
    with (planOf db userId weekStart).
  cbn [mealPlans prisma.record plannedMeals users recipes].
  destruct (planOf db userId weekStart) as [[planId row'] |] eqn:Hplan.
  - pose proof (planOf_Some _ _ _ _ _ Hplan) as (Hl & Hu & Hw).
    assert (row' = {| plan_userId := userId; plan_weekStart := weekStart |}) as ->
      by (destruct row'; simpl in *; subst; reflexivity).
    cbn [fst]. rewrite Hl. cbn [fmap option_fmap option_map].
    eexists. split; [refine (f_equal2 pair _ eq_refl); reflexivity |]. repeat split.
  - rewrite lookup_insert_eq. cbn [fmap option_fmap option_map].
    eexists. split; [refine (f_equal2 pair _ eq_refl); reflexivity |]. repeat split.
Qed.

(** The two ways a [PUT /meal-plans] request ends. *)
Lemma PUT_meal_plans_cases (userId : string) (body : PutBody) (db : Db) :
  (exists reply db',
      PUT_meal_plans userId body db = (reply, db') /\ sameTables db db'
      /\ (reply = Throws "ZodError" \/ exists msg, reply = Send 400 (B_error msg)))
  \/ (exists weekStart meals planId views0 db',
        Body_parse body = true
        /\ parseDateOnly (body_weekStart body) = Some weekStart
        /\ readMeals weekStart (body_meals body) = inr meals
        /\ checkSlots ∅ meals = None
        /\ (forall m, m ∈ meals -> ownedBy db userId (meal_recipeId m))
        /\ PUT_meal_plans userId body db
           = (Send 200 (B_plan (Some planId) (body_weekStart body)
                          (Array_sort compareMeals views0)), db')
        /\ users db' = users db /\ recipes db' = recipes db
        /\ planOf db' userId weekStart
           = Some (planId, {| plan_userId := userId; plan_weekStart := weekStart |})
        /\ match planOf db userId weekStart with
           | Some p => p = (planId, {| plan_userId := userId; plan_weekStart := weekStart |})
                       /\ mealPlans db' = mealPlans db
           | None => mealPlans db !! planId = None
                     /\ mealPlans db'
                        = <[planId := {| plan_userId := userId; plan_weekStart := weekStart |}]>
                            (mealPlans db)
           end
        /\ plannedMeals db'
           = filter (fun meal => pm_planId meal ≠ planId) (plannedMeals db)
             ++ (toRow planId <$> meals)
        /\ toViews (includeRecipe db <$> (toRow planId <$> meals)) = Some views0).
Proof.
  unfold PUT_meal_plans.
  destruct (Body_parse body) eqn:Hbp; cbn [negb];
    [| left; eexists _, _; split; [reflexivity |]; split; [apply sameTables_refl | left; reflexivity]].
  destruct (parseDateOnly (body_weekStart body)) as [weekStart |] eqn:Hws;
    [| left; eexists _, _; split; [reflexivity |]; split; [apply sameTables_refl | right; eauto]].
  destruct (readMeals weekStart (body_meals body)) as [reply | meals] eqn:Hrm.
  { apply readMeals_inl in Hrm as [msg ->].
    left; eexists _, _; split; [reflexivity |]; split; [apply sameTables_refl | right; eauto]. }
  destruct (checkSlots ∅ meals) as [reply |] eqn:Hcs.
  { apply checkSlots_Some in Hcs as [msg ->].
    left; eexists _, _; split; [reflexivity |]; split; [apply sameTables_refl | right; eauto]. }
  unfold mbind, Prisma_bind.
  pose proof (checkRecipes_None userId meals db) as Hnone.
  pose proof (checkRecipes_Some userId meals db) as Hsome.
  pose proof (checkRecipes_tables userId meals db) as Htab.
  destruct (checkRecipes userId meals db) as [failed db1] eqn:Hcr.
  cbn [fst snd] in Hnone, Hsome, Htab. cbv zeta in Htab.
  destruct Htab as (Hu1 & Hr1 & Hm1 & Hp1).
  destruct failed as [reply |].
  { rewrite (Hsome reply eq_refl).
    left; eexists _, _; split; [reflexivity |]; split; [repeat split; assumption | right; eauto]. }
  right.
  assert (Hown : forall m, m ∈ meals -> ownedBy db userId (meal_recipeId m))
    by (apply Hnone; reflexivity).
  destruct (transaction_savePlan userId weekStart meals db1)
    as (planId & row & db2 & Htx & -> & Hu & Hr & Hp & Hm & Hpm & Hq).
  rewrite Htx.
  cbn [includeMeals pwm_meals pwm_id pwm_weekStart fst snd plan_weekStart].
  rewrite Hpm, replaced_mealsOf.
  destruct (toViews_total db2 planId meals) as [views0 Hv].
  { intros m Hm'. destruct (Hown m Hm') as (r & Hl & _). rewrite Hr, Hr1. eauto. }
  rewrite Hv. unfold mret, Prisma_ret.
  assert (Hplan1 : planOf db1 userId weekStart = planOf db userId weekStart)
    by (unfold planOf; rewrite Hm1; reflexivity).
  exists weekStart, meals, planId, views0, db2.
  apply parseDateOnly_Some in Hws as Hfmt. destruct Hfmt as [Hfmt _].
  rewrite Hfmt.
  repeat (split; [first [reflexivity | assumption | congruence] |]).
  split.
  { rewrite Hplan1 in Hm. destruct (planOf db userId weekStart) as [p |].
    - destruct Hm as [-> Hm]. split; [reflexivity | congruence].
    - rewrite <- Hm1. exact Hm. }
  split; [congruence |].
  rewrite <- Hv. f_equal. apply list_fmap_ext. intros i x _.
  unfold includeRecipe. rewrite Hr, Hr1. reflexivity.
Qed.


Lemma planOf_tables (db db' : Db) (userId : string) (weekStart : Z) :
  mealPlans db' = mealPlans db -> planOf db' userId weekStart = planOf db userId weekStart.
Proof. unfold planOf. intros ->. reflexivity. Qed.

Lemma includeRecipe_tables (db db' : Db) :
  recipes db' = recipes db -> includeRecipe db' = includeRecipe db.
Proof. intros H. unfold includeRecipe. rewrite H. reflexivity. Qed.

(** The answer of [PUT /meal-plans] and the tables it leaves depend on the
    tables only, not on the query log. *)
Lemma PUT_meal_plans_ext (userId : string) (body : PutBody) (db1 db2 : Db) :
  sameTables db1 db2 ->
  fst (PUT_meal_plans userId body db2) = fst (PUT_meal_plans userId body db1)
  /\ sameTables (snd (PUT_meal_plans userId body db1)) (snd (PUT_meal_plans userId body db2)).
Proof.
  intros Hs. unfold PUT_meal_plans.
  destruct (Body_parse body); cbn [negb]; [| split; [reflexivity | exact Hs]].
  destruct (parseDateOnly (body_weekStart body)) as [weekStart |];
    [| split; [reflexivity | exact Hs]].
  destruct (readMeals weekStart (body_meals body)) as [reply | meals];
    [split; [reflexivity | exact Hs] |].
  destruct (checkSlots ∅ meals) as [reply |]; [split; [reflexivity | exact Hs] |].
  unfold mbind, Prisma_bind. rewrite !checkRecipes_run. cbv zeta.
  destruct Hs as (Hu & Hr & Hm & Hp).
  assert (Hf : foundRecipes db2 userId (distinct ∅ (meal_recipeId <$> meals))
               = foundRecipes db1 userId (distinct ∅ (meal_recipeId <$> meals)))
    by (unfold foundRecipes; rewrite Hr; reflexivity).
  rewrite Hf.
  set (q := Q_recipe_findMany userId (distinct ∅ (meal_recipeId <$> meals))).
  assert (Hgo : forall d1 d2, sameTables d1 d2 ->
    exists r e1 e2,
      prisma.transaction (savePlan userId weekStart meals) d1 = (Some r, e1)
      /\ prisma.transaction (savePlan userId weekStart meals) d2 = (Some r, e2)
      /\ sameTables e1 e2).
  { intros d1 d2 (Hu' & Hr' & Hm' & Hp').
    pose proof (transaction_savePlan_full userId weekStart meals d1) as F1.
    pose proof (transaction_savePlan_full userId weekStart meals d2) as F2.
    cbv zeta in F1, F2.
    rewrite (planOf_tables d1 d2 userId weekStart Hm'), Hm', Hu', Hr', Hp' in F2.
    destruct F1 as (e1 & F1 & Eu1 & Er1 & Em1 & Ep1).
    destruct F2 as (e2 & F2 & Eu2 & Er2 & Em2 & Ep2).
    rewrite (includeMeals_ext e1 e2) in F2 by congruence.
    eexists _, e1, e2. split; [exact F1 |]. split; [exact F2 |].
    repeat split; congruence. }
  destruct (0 <? _).
  - destruct (negb _); cbn [fst snd].
    + split; [reflexivity | repeat split; assumption].
    + destruct (Hgo (prisma.record q db1) (prisma.record q db2)) as (r & e1 & e2 & -> & -> & He);
        [repeat split; assumption |].
      destruct (toViews _); unfold mret, Prisma_ret; cbn [fst snd]; split; auto.
  - destruct (Hgo db1 db2) as (r & e1 & e2 & -> & -> & He); [repeat split; assumption |].
    destruct (toViews _); unfold mret, Prisma_ret; cbn [fst snd]; split; auto.
Qed.

Lemma GET_meal_plans_ext (userId ws : string) (db1 db2 : Db) :
  sameTables db1 db2 ->
  fst (GET_meal_plans userId ws db2) = fst (GET_meal_plans userId ws db1).
Proof.
  intros (Hu & Hr & Hm & Hp). rewrite !GET_meal_plans_run.
  destruct (parseDateOnly ws) as [weekStart |]; [| reflexivity].
  cbn [fst]. rewrite (planOf_tables db1 db2 userId weekStart Hm).
  destruct (planOf db1 userId weekStart) as [p |]; [| reflexivity].
  cbn [fmap option_fmap option_map from_option].
  rewrite (includeMeals_ext db1 db2 p Hr Hp). reflexivity.
Qed.

Lemma GET_meal_plans_tables (userId ws : string) (db : Db) :
  sameTables db (snd (GET_meal_plans userId ws db)).
Proof.
  rewrite GET_meal_plans_run. destruct (parseDateOnly ws); repeat split.
Qed.

(** A plan row inserted for one user and week does not change the plan
    [findFirst] picks for another pair, when the pairs have one row each at
    most. *)
Lemma planOf_insert_other (db db' : Db) (id : string) (row : MealPlanRow)
    (userId : string) (weekStart : Z) :
  UniquePlans db ->
  mealPlans db !! id = None ->
  mealPlans db' = <[id := row]> (mealPlans db) ->
  ~ (plan_userId row = userId /\ plan_weekStart row = weekStart) ->
  planOf db' userId weekStart = planOf db userId weekStart.
Proof.
  intros Huniq Hfresh Hins Hother.
  destruct (planOf db userId weekStart) as [[pid prow] |] eqn:Hold.
  - apply planOf_Some in Hold as (Hl & Hu & Hw).
    assert (Hl' : mealPlans db' !! pid = Some prow).
    { rewrite Hins, lookup_insert_ne; [exact Hl | congruence]. }
    destruct (planOf_is_Some db' userId weekStart pid prow Hl' Hu Hw) as [[qid qrow] Hnew].
    rewrite Hnew. apply planOf_Some in Hnew as (Hq & Hqu & Hqw).
    assert (qid <> id).
    { intros ->. rewrite Hins, lookup_insert_eq in Hq. injection Hq as <-. tauto. }
    rewrite Hins, lookup_insert_ne in Hq by congruence.
    assert (qid = pid) as -> by (apply (Huniq qid pid qrow prow); congruence).
    congruence.
  - destruct (planOf db' userId weekStart) as [[qid qrow] |] eqn:Hnew; [| reflexivity].
    exfalso. apply planOf_Some in Hnew as (Hq & Hqu & Hqw).
    destruct (decide (qid = id)) as [-> | Hne].
    + rewrite Hins, lookup_insert_eq in Hq. injection Hq as <-. tauto.
    + rewrite Hins, lookup_insert_ne in Hq by congruence.
      destruct (planOf_is_Some db userId weekStart qid qrow Hq Hqu Hqw) as [p Hp].
      congruence.
Qed.

Lemma UniquePlans_insert (db db' : Db) (id : string) (userId : string) (weekStart : Z) :
  UniquePlans db ->
  planOf db userId weekStart = None ->
  mealPlans db' = <[id := {| plan_userId := userId; plan_weekStart := weekStart |}]> (mealPlans db) ->
  UniquePlans db'.
Proof.
  intros Huniq Hnone Hins id1 id2 row1 row2 H1 H2 Hu Hw.
  rewrite Hins in H1, H2.
  destruct (decide (id1 = id)) as [-> | N1], (decide (id2 = id)) as [-> | N2];
    [reflexivity | | |].
  - exfalso. rewrite lookup_insert_eq in H1. injection H1 as <-.
    rewrite lookup_insert_ne in H2 by congruence.
    destruct (planOf_is_Some db userId weekStart id2 row2 H2) as [p Hp];
      [symmetry; exact Hu | symmetry; exact Hw | congruence].
  - exfalso. rewrite lookup_insert_eq in H2. injection H2 as <-.
    rewrite lookup_insert_ne in H1 by congruence.
    destruct (planOf_is_Some db userId weekStart id1 row1 H1) as [p Hp];
      [exact Hu | exact Hw | congruence].
  - rewrite lookup_insert_ne in H1, H2 by congruence.
    apply (Huniq id1 id2 row1 row2); assumption.
Qed.

Lemma UniquePlans_tables (db db' : Db) :
  mealPlans db' = mealPlans db -> UniquePlans db -> UniquePlans db'.
Proof. unfold UniquePlans. intros ->. trivial. Qed.

Lemma PUT_meal_plans_unique (userId : string) (body : PutBody) (db : Db) :
  UniquePlans db -> UniquePlans (snd (PUT_meal_plans userId body db)).
Proof.
  intros Huniq.
  destruct (PUT_meal_plans_cases userId body db)
    as [(reply & db' & -> & (_ & _ & Hm & _) & _)
       | (weekStart & meals & planId & views0 & db' & _ & _ & _ & _ & _ & -> & _ & _ & _ & Hplans & _)].
  - apply (UniquePlans_tables db); assumption.
  - cbn [snd]. destruct (planOf db userId weekStart) eqn:Hold.
    + destruct Hplans as [_ Hm]. apply (UniquePlans_tables db); assumption.
    + destruct Hplans as [_ Hm]. eapply UniquePlans_insert; eassumption.
Qed.

(** The tables every request other than a plan save leaves alone. *)
Lemma handle_plans (request : Request) (db : Db) :
  (exists token body, request = Req_PUT_meal_plans (Some token) body)
  \/ (mealPlans (snd (handle request db)) = mealPlans db
      /\ plannedMeals (snd (handle request db)) = plannedMeals db
      /\ recipes (snd (handle request db)) = recipes db).
Proof.
  destruct request as [token ws | token body | token | token id role | email];
    cbn [handle]; unfold authenticated, authenticate;
    try (destruct token as [userId |]; [| right; repeat split]).
  - right. destruct (GET_meal_plans_tables userId ws db) as (_ & ? & ? & ?). auto.
  - left. eauto.
  - right. destruct (POST_admin_bootstrap_self_keeps userId db) as (? & ? & ? & _). auto.
  - right. unfold mbind, Prisma_bind.
    pose proof (requireAdmin_tables (Some userId) db) as Ht.
    destruct (requireAdmin (Some userId) db) as [denied db1].
    cbn [snd] in Ht. cbv zeta in Ht. destruct Ht as (_ & Hr & Hm & Hp).
    destruct denied as [reply |]; [auto |].
    destruct (PATCH_admin_users_role_keeps id role db1) as (? & ? & ? & _).
    repeat split; congruence.
  - right. destruct (POST_auth_register_keeps email db) as (? & ? & ? & _). auto.
Qed.

Lemma handle_unique (request : Request) (db : Db) :
  UniquePlans db -> UniquePlans (snd (handle request db)).
Proof.
  intros Huniq.
  destruct (handle_plans request db) as [(token & body & ->) | (Hm & _)].
  - cbn [handle]. unfold authenticated, authenticate. apply PUT_meal_plans_unique, Huniq.
  - apply (UniquePlans_tables db); assumption.
Qed.

Lemma serve_snd_cons (request : Request) (rest : list Request) (db : Db) :
  snd (serve (request :: rest) db) = snd (serve rest (snd (handle request db))).
Proof.
  cbn [serve]. destruct (handle request db) as [reply db1]. cbn [snd].
  destruct (serve rest db1). reflexivity.
Qed.

Lemma toViews_rows (db : Db) (rows : list PlannedMealRow) (views : list MealView) :
  toViews (includeRecipe db <$> rows) = Some views ->
  returned <$> views = stored <$> rows
  /\ Forall (fun v => exists r, recipes db !! view_recipeId v = Some r
                                /\ view_recipeName v = recipe_name r) views.
Proof.
  unfold toViews. rewrite mapM_Some. intros H. apply Forall2_fmap_l in H.
  assert (H' : Forall2 (fun row v => returned v = stored row
                          /\ exists r, recipes db !! view_recipeId v = Some r
                                       /\ view_recipeName v = recipe_name r) rows views).
  { eapply Forall2_impl; [exact H |]. intros row v. unfold toView, includeRecipe. simpl.
    destruct (recipes db !! pm_recipeId row) as [r |] eqn:Hr; simpl; [| discriminate].
    intros [= <-]. split; [reflexivity |]. exists r. simpl. auto. }
  clear H. induction H' as [| row v rows views [E R] _ [IH1 IH2]].
  - split; [reflexivity | constructor].
  - split; [cbn; rewrite E, IH1; reflexivity | constructor; assumption].
Qed.


Lemma replaced_twice (old : list PlannedMealRow) (planId : string) (meals : list Meal) :
  filter (fun meal => pm_planId meal ≠ planId)
    (filter (fun meal => pm_planId meal ≠ planId) old ++ (toRow planId <$> meals))
  = filter (fun meal => pm_planId meal ≠ planId) old.
Proof.
  rewrite filter_app.
  assert (E : filter (fun meal => pm_planId meal ≠ planId) (toRow planId <$> meals) = []).
  { induction meals as [| m ms IH]; [reflexivity |].
    rewrite fmap_cons, filter_cons_False by (cbn; tauto). exact IH. }
  rewrite E, app_nil_r.
  induction old as [| x xs IH]; [reflexivity |].
  destruct (decide (pm_planId x ≠ planId)) as [Hx | Hx].
  - rewrite !filter_cons_True by exact Hx. rewrite IH. reflexivity.
  - rewrite !filter_cons_False by exact Hx. exact IH.
Qed.

End MorePlanFacts.

(** ** The users table *)

Module MoreUserFacts.
Import DateFacts SortFacts PlanFacts UserFacts ServerFacts SlotFacts MorePlanFacts.

Lemma POST_admin_bootstrap_self_run (userId : string) (db : Db) :
  POST_admin_bootstrap_self userId db =
  if 0 <? adminCount db
  then (Send 409 (B_error "An admin already exists"),
        withUsers db (users db) [Q_user_count ADMIN])
  else match users db !! userId with
       | Some u =>
           (Send 200 (B_user userId (user_email u) ADMIN),
            withUsers db (<[userId := {| user_email := user_email u; user_role := ADMIN |}]>
                            (users db))
              [Q_user_count ADMIN; Q_user_update userId ADMIN])
       | None =>
           (Throws "PrismaClientKnownRequestError P2025",
            withUsers db (users db) [Q_user_count ADMIN; Q_user_update userId ADMIN])
       end.
Proof.
  unfold POST_admin_bootstrap_self, mbind, Prisma_bind, prisma.user.count, prisma.user.update,
    prisma.call.
  cbn [users prisma.record]. fold (adminCount db).
  destruct (0 <? adminCount db); [reflexivity |].
  cbn [users prisma.record].
  destruct (users db !! userId) as [u |]; unfold withUsers, sendUser, prisma.record; cbn;
    rewrite <- ?app_assoc; reflexivity.
Qed.

Lemma findUniqueByEmail_None (db : Db) (email : string) :
  head (map_to_list (filter (fun p : string * UserRow => user_email (snd p) = email) (users db)))
  = None <-> ~ emailTaken db email.
Proof.
  split.
  - intros H (id & u & Hl & He).
    assert (Hin : (id, u) ∈ map_to_list
              (filter (fun p : string * UserRow => user_email (snd p) = email) (users db))).
    { apply elem_of_map_to_list, map_lookup_filter_Some. auto. }
    destruct (map_to_list _) as [| x l]; [inversion Hin | discriminate].
  - intros H.
    destruct (map_to_list _) as [| [id u] l] eqn:E; [reflexivity |].
    exfalso. apply H.
    assert (Hin : (id, u) ∈ map_to_list
              (filter (fun p : string * UserRow => user_email (snd p) = email) (users db)))
      by (rewrite E; left).
    apply elem_of_map_to_list, map_lookup_filter_Some in Hin as [Hl He].
    exists id, u. auto.
Qed.

Lemma POST_auth_register_cases (email : string) (db : Db) :
  (emailTaken db email
   /\ POST_auth_register email db
      = (Send 409 (B_error "Email already in use"),
         withUsers db (users db) [Q_user_findUniqueByEmail email]))
  \/ (~ emailTaken db email
      /\ POST_auth_register email db
         = (Send 200 (B_user (fresh (dom (users db))) email USER),
            withUsers db
              (<[fresh (dom (users db)) := {| user_email := email; user_role := USER |}]>
                 (users db))
              [Q_user_findUniqueByEmail email; Q_user_create email])).
Proof.
  unfold POST_auth_register, mbind, Prisma_bind, prisma.user.findUniqueByEmail,
    prisma.user.create, prisma.call.
  cbn [users prisma.record].
  pose proof (findUniqueByEmail_None db email) as Hn.
  destruct (map_to_list _) as [| [id u] l] eqn:E.
  - right. split; [apply Hn; reflexivity |].
    cbn. unfold withUsers. cbn. rewrite <- ?app_assoc. reflexivity.
  - left. split; [| reflexivity].
    assert (Hin : (id, u) ∈ map_to_list
              (filter (fun p : string * UserRow => user_email (snd p) = email) (users db)))
      by (rewrite E; left).
    apply elem_of_map_to_list, map_lookup_filter_Some in Hin as [Hl He].
    exists id, u. auto.
Qed.


(** What [PATCH /admin/users/:id/role] does to the users table: nothing, or
    the role of the target replaced. *)
Lemma PATCH_admin_users_role_users (id : string) (role : Role) (db : Db) :
  users (snd (PATCH_admin_users_role id role db)) = users db
  \/ exists t, users db !! id = Some t
               /\ users (snd (PATCH_admin_users_role id role db))
                  = <[id := {| user_email := user_email t; user_role := role |}]> (users db).
Proof.
  destruct (decide (id = "")) as [-> | Hid]; [left; reflexivity |].
  destruct (users db !! id) as [t |] eqn:Ht.
  - rewrite (PATCH_admin_users_role_run id role db t Hid Ht).
    destruct (removesLastAdmin db t role); cbn [snd withUsers users]; eauto.
  - left. unfold PATCH_admin_users_role. rewrite (min1_nonempty id Hid).
    cbn [negb]. unfold mbind, Prisma_bind, prisma.user.findUnique, prisma.call.
    cbn [users prisma.record]. rewrite Ht. reflexivity.
Qed.

Lemma PUT_meal_plans_users (userId : string) (body : PutBody) (db : Db) :
  users (snd (PUT_meal_plans userId body db)) = users db.
Proof.
  destruct (PUT_meal_plans_cases userId body db)
    as [(reply & db' & -> & (Hu & _) & _)
       | (weekStart & meals & planId & views0 & db' & _ & _ & _ & _ & _ & -> & Hu & _)];
    exact Hu.
Qed.

(** What a request does to the users table: nothing, the role of one user
    replaced, or a user added under a new id with an address nobody has and
    the role USER. *)
Lemma handle_users (request : Request) (db : Db) :
  let db' := snd (handle request db) in
  users db' = users db
  \/ (exists id t role,
        users db !! id = Some t
        /\ users db' = <[id := {| user_email := user_email t; user_role := role |}]> (users db))
  \/ (exists email,
        ~ emailTaken db email
        /\ users db' = <[fresh (dom (users db)) := {| user_email := email; user_role := USER |}]>
                         (users db)).
Proof.
  cbv zeta.
  destruct request as [token ws | token body | token | token id role | email];
    cbn [handle]; unfold authenticated, authenticate;
    try (destruct token as [userId |]; [| left; reflexivity]).
  - left. apply (GET_meal_plans_tables userId ws db).
  - left. apply PUT_meal_plans_users.
  - rewrite POST_admin_bootstrap_self_run.
    destruct (0 <? adminCount db); [left; reflexivity |].
    destruct (users db !! userId) as [u |] eqn:Hu; [| left; reflexivity].
    right. left. exists userId, u, ADMIN. auto.
  - unfold mbind, Prisma_bind.
    pose proof (requireAdmin_tables (Some userId) db) as Ht.
    destruct (requireAdmin (Some userId) db) as [denied db1].
    cbn [snd] in Ht. cbv zeta in Ht. destruct Ht as (Hu & _).
    destruct denied as [reply |]; [left; exact Hu |].
    destruct (PATCH_admin_users_role_users id role db1) as [H | (t & Hl & H)].
    + left. congruence.
    + right. left. exists id, t, role. rewrite <- Hu. auto.
  - destruct (POST_auth_register_cases email db) as [[_ ->] | [Hn ->]].
    + left. reflexivity.
    + right. right. exists email. auto.
Qed.

Lemma handle_unique_emails (request : Request) (db : Db) :
  UniqueEmails db -> UniqueEmails (snd (handle request db)).
Proof.
  intros Huniq.
  destruct (handle_users request db) as [H | [(id & t & role & Hl & H) | (email & Hn & H)]];
    intros id1 id2 u1 u2 H1 H2 He; rewrite H in H1, H2.
  - apply (Huniq id1 id2 u1 u2); assumption.
  - assert (F : forall i u, <[id := {| user_email := user_email t; user_role := role |}]>
                              (users db) !! i = Some u ->
                            exists u0, users db !! i = Some u0 /\ user_email u0 = user_email u).
    { intros i u Hi. destruct (decide (i = id)) as [-> | Hne].
      - rewrite lookup_insert_eq in Hi. injection Hi as <-. eauto.
      - rewrite lookup_insert_ne in Hi by congruence. eauto. }
    destruct (F _ _ H1) as (v1 & L1 & E1). destruct (F _ _ H2) as (v2 & L2 & E2).
    apply (Huniq id1 id2 v1 v2); congruence.
  - set (new := fresh (dom (users db))) in *.
    assert (Hfresh : users db !! new = None) by (apply not_elem_of_dom, is_fresh).
    destruct (decide (id1 = new)) as [-> | N1], (decide (id2 = new)) as [-> | N2];
      [reflexivity | | |].
    + exfalso. rewrite lookup_insert_eq in H1. injection H1 as <-.
      rewrite lookup_insert_ne in H2 by congruence.
      apply Hn. exists id2, u2. auto.
    + exfalso. rewrite lookup_insert_eq in H2. injection H2 as <-.
      rewrite lookup_insert_ne in H1 by congruence.
      apply Hn. exists id1, u1. auto.
    + rewrite lookup_insert_ne in H1, H2 by congruence.
      apply (Huniq id1 id2 u1 u2); assumption.
Qed.

End MoreUserFacts.

(** ** The nutrition of a recipe *)

Module RecipeFacts.
Import PlanFacts NumberFacts.

Section Generic.
Context {N : Type} `{JsNumber N}.

Lemma byIdOf_lookup (rows : list (string * Ingredient N)) (id : string) (ing : Ingredient N) :
  NoDup (fst <$> rows) -> (byIdOf rows !! id = Some ing <-> (id, ing) ∈ rows).
Proof.
  unfold byIdOf.
  assert (G : forall (acc : gmap string (Ingredient N)),
            NoDup (fst <$> rows) ->
            (forall k, k ∈ fst <$> rows -> acc !! k = None) ->
            (fold_left (fun m p => <[fst p := snd p]> m) rows acc !! id = Some ing
             <-> acc !! id = Some ing \/ (id, ing) ∈ rows)).
  { induction rows as [| [k v] rows IH]; intros acc Hnd Hfresh.
    - cbn. split; [auto | intros [? | Hin]; [assumption | inversion Hin]].
    - cbn [fold_left fst snd]. rewrite fmap_cons in Hnd. apply NoDup_cons in Hnd as [Hk Hnd].
      rewrite IH; [| exact Hnd |].
      + split.
        * intros [Hl | Hin]; [| right; right; exact Hin].
          destruct (decide (id = k)) as [-> | Hne].
          -- rewrite lookup_insert_eq in Hl. injection Hl as ->. right. left.
          -- rewrite lookup_insert_ne in Hl by congruence. left. exact Hl.
        * intros [Hl | Hin].
          -- left. rewrite lookup_insert_ne; [exact Hl |].
             intros <-. rewrite Hfresh in Hl; [discriminate | rewrite fmap_cons; left].
          -- apply elem_of_cons in Hin as [[= -> ->] | Hin]; [| right; exact Hin].
             left. apply lookup_insert_eq.
      + intros j Hj. rewrite lookup_insert_ne.
        * apply Hfresh. rewrite fmap_cons. right. exact Hj.
        * intros <-. contradiction. }
  intros Hnd. rewrite (G ∅ Hnd) by (intros; apply lookup_empty).
  rewrite lookup_empty. split; [intros [? | ?]; [discriminate | assumption] | auto].
Qed.

(** The map the handler builds holds the rows of the table for the ids of
    the request, and nothing else. *)
Lemma byIdOf_findMany (table : gmap string (Ingredient N)) (ids : list string) (id : string) :
  byIdOf (ingredient_findMany table ids) !! id
  = if bool_decide (id ∈ ids) then table !! id else None.
Proof.
  unfold ingredient_findMany.
  assert (E : forall ing, byIdOf (map_to_list (filter (fun p => fst p ∈ ids) table)) !! id
                          = Some ing
                          <-> filter (fun p : string * Ingredient N => fst p ∈ ids) table !! id
                              = Some ing).
  { intros ing. rewrite byIdOf_lookup by apply NoDup_fst_map_to_list.
    apply elem_of_map_to_list. }
  apply option_eq. intros ing. rewrite E, map_lookup_filter_Some. cbn [fst].
  destruct (bool_decide_reflect (id ∈ ids)); [tauto |].
  split; [tauto | discriminate].
Qed.

Lemma unknownIngredient_None (byId : gmap string (Ingredient N)) (items : list (ItemInput N)) :
  unknownIngredient byId items = None
  <-> Forall (fun it => is_Some (byId !! ingredientId it)) items.
Proof.
  induction items as [| it rest IH]; cbn [unknownIngredient].
  - split; [constructor | reflexivity].
  - destruct (bool_decide_reflect (is_Some (byId !! ingredientId it))) as [Hs | Hs]; cbn [negb].
    + rewrite IH. split; [intros; constructor; assumption | intros F; inversion F; assumption].
    + split; [discriminate | intros F; inversion F; contradiction].
Qed.

Lemma unknownIngredient_Some (byId : gmap string (Ingredient N)) (items : list (ItemInput N))
    (reply : Reply) :
  unknownIngredient byId items = Some reply ->
  exists pre it post,
    items = pre ++ it :: post
    /\ Forall (fun i => is_Some (byId !! ingredientId i)) pre
    /\ byId !! ingredientId it = None
    /\ reply = Send 400 (B_error ("Unknown ingredientId: " +:+ ingredientId it)).
Proof.
  induction items as [| it rest IH]; cbn [unknownIngredient]; [discriminate |].
  destruct (bool_decide_reflect (is_Some (byId !! ingredientId it))) as [Hs | Hs]; cbn [negb].
  - intros Hr. destruct (IH Hr) as (pre & it' & post & -> & Hpre & Hit & ->).
    exists (it :: pre), it', post.
    split; [reflexivity |]. split; [constructor; assumption |]. split; [assumption | reflexivity].
  - intros [= <-]. exists [], it, rest.
    split; [reflexivity |]. split; [constructor |]. split; [| reflexivity].
    destruct (byId !! ingredientId it); [exfalso; apply Hs; eauto | reflexivity].
Qed.

Lemma reduceItems_is_Some (byId : gmap string (Ingredient N)) (items : list (ItemInput N))
    (acc : Nutrition N) :
  Forall (fun it => is_Some (byId !! ingredientId it)) items ->
  is_Some (reduceItems byId items acc).
Proof.
  intros F. revert acc. induction F as [| it rest [ing Hi] _ IH]; intros acc; cbn [reduceItems].
  - eauto.
  - rewrite Hi. apply IH.
Qed.

Lemma reduceItems_agree (byId byId' : gmap string (Ingredient N)) (items : list (ItemInput N))
    (acc : Nutrition N) :
  Forall (fun it => byId !! ingredientId it = byId' !! ingredientId it) items ->
  reduceItems byId items acc = reduceItems byId' items acc.
Proof.
  intros F. revert acc. induction F as [| it rest Hi _ IH]; intros acc; cbn [reduceItems].
  - reflexivity.
  - rewrite Hi. destruct (byId' !! ingredientId it); [apply IH | reflexivity].
Qed.

Lemma reduceItems_joined (byId : gmap string (Ingredient N)) (items : list (ItemInput N))
    (acc : Nutrition N) :
  reduceItems byId items acc
  = (fun rows => fold_left accumulate rows acc) <$> joined byId items.
Proof.
  unfold joined. revert acc. induction items as [| it rest IH]; intros acc.
  - reflexivity.
  - cbn [reduceItems mapM]. destruct (byId !! ingredientId it) as [ing |]; [| reflexivity].
    cbn. rewrite IH. destruct (mapM _ rest); reflexivity.
Qed.

End Generic.

End RecipeFacts.

(** ** The planner page against the server *)

Module PageFacts.
Import DateFacts SortFacts PlanFacts SlotFacts MoreDateFacts MorePlanFacts.

Lemma digitChar_not_dash (k : Z) : Ascii.eqb (digitChar k) "-" = false.
Proof.
  destruct (Ascii.eqb_spec (digitChar k) "-"%char) as [E |]; [| reflexivity].
  pose proof (proj2 (digitChar_spec k)) as H. rewrite E in H. discriminate.
Qed.

Lemma split_isoDate (y m d : Z) : Page.split "-" (isoDate y m d) = [pad4 y; pad2 m; pad2 d].
Proof.
  unfold isoDate, pad4, pad3, pad2.
  change (Page.split "-" (String (digitChar (y / 1000)) (String (digitChar (y / 100))
            (String (digitChar (y / 10)) (String (digitChar y) (String "-"
            (String (digitChar (m / 10)) (String (digitChar m) (String "-"
            (String (digitChar (d / 10)) (String (digitChar d) EmptyString))))))))))
          = [String (digitChar (y / 1000)) (String (digitChar (y / 100))
               (String (digitChar (y / 10)) (String (digitChar y) EmptyString)));
             String (digitChar (m / 10)) (String (digitChar m) EmptyString);
             String (digitChar (d / 10)) (String (digitChar d) EmptyString)]).
  cbn [Page.split]. rewrite !digitChar_not_dash. reflexivity.
Qed.

Lemma Number_pad4 (n : Z) : 0 <= n < 10000 -> Page.Number (pad4 n) = Some n.
Proof. intros H. unfold Page.Number. rewrite pad4_digits, pad4_val by lia. reflexivity. Qed.

Lemma Number_pad2 (n : Z) : 0 <= n < 100 -> Page.Number (pad2 n) = Some n.
Proof. intros H. unfold Page.Number. rewrite pad2_digits, pad2_val by lia. reflexivity. Qed.

Lemma MakeDay_range (y m d : Z) :
  0 <= y <= 9999 -> 1 <= m <= 12 -> 1 <= d <= 31 ->
  -720000 <= MakeDay y m d <= 2933000.
Proof.
  intros Hy Hm Hd. unfold MakeDay.
  set (y' := if m <=? 2 then y - 1 else y).
  assert (Hy' : -1 <= y' <= 9999) by (unfold y'; destruct (m <=? 2); lia).
  set (mp := if 2 <? m then m - 3 else m + 9).
  assert (Hmp : 0 <= mp <= 11) by (unfold mp; destruct (Z.ltb_spec 2 m); lia).
  clearbody y' mp.
  pose proof (Z.div_mod y' 400 ltac:(lia)). pose proof (Z.mod_pos_bound y' 400 ltac:(lia)).
  set (era := y' / 400) in *. set (yoe := y' - era * 400).
  assert (Hyoe : 0 <= yoe < 400) by (unfold yoe; lia).
  assert (Hera : -1 <= era <= 24) by lia.
  assert (Hrel : y' = era * 400 + yoe) by (unfold yoe; lia).
  clearbody yoe era.
  pose proof (Z.div_mod yoe 4 ltac:(lia)). pose proof (Z.mod_pos_bound yoe 4 ltac:(lia)).
  pose proof (Z.div_mod yoe 100 ltac:(lia)). pose proof (Z.mod_pos_bound yoe 100 ltac:(lia)).
  pose proof (Z.div_mod (153 * mp + 2) 5 ltac:(lia)).
  pose proof (Z.mod_pos_bound (153 * mp + 2) 5 ltac:(lia)).
  lia.
Qed.

(** On a date of the years 100 to 9999 the page reads what the server
    reads. *)
Lemma page_parseDateOnly_isoDate (y m d : Z) :
  100 <= y <= 9999 -> 1 <= m <= 12 -> 1 <= d <= 31 ->
  Page.parseDateOnly (isoDate y m d) = Some (MakeDay y m d * msPerDay).
Proof.
  intros Hy Hm Hd. unfold Page.parseDateOnly. cbv zeta.
  rewrite split_isoDate. cbn [fmap list_fmap lookup list_lookup mjoin option_join].
  rewrite Number_pad4, !Number_pad2 by lia.
  cbn [fmap option_fmap option_map]. unfold Page.Date_UTC.
  cbn [mbind option_bind].
  replace ((0 <=? y) && (y <=? 99)) with false
    by (symmetry; apply andb_false_iff; right; apply Z.leb_gt; lia).
  unfold Page.MakeDayOf. rewrite (Z.div_small (m - 1) 12), (Z.mod_small (m - 1) 12) by lia.
  replace (y + 0) with y by lia. replace (m - 1 + 1) with m by lia.
  pose proof (MakeDay_range y m d ltac:(lia) Hm Hd) as Hr.
  unfold Page.newDate, TimeClip, msPerDay.
  replace (Z.abs (MakeDay y m d * 86400000) <=? 8640000000000000) with true
    by (symmetry; apply Z.leb_le; lia).
  cbn [mbind option_bind].
  replace (Z.abs (MakeDay y m d * 86400000) <=? 8640000000000000) with true
    by (symmetry; apply Z.leb_le; lia).
  reflexivity.
Qed.

Lemma Day_mul (z : Z) : Day (z * msPerDay) = z.
Proof. unfold Day. apply Z.div_mul. unfold msPerDay. lia. Qed.

Lemma Day_add (t k : Z) : Day (t + k * msPerDay) = Day t + k.
Proof. unfold Day. apply Z.div_add. unfold msPerDay. lia. Qed.

Lemma page_addDaysUtc (date days : Z) :
  Page.addDaysUtc date days = TimeClip (date + days * msPerDay).
Proof. exact (addDaysUtc_spec date days). Qed.

Lemma startOfWeekMonday_spec (date : Z) :
  Page.startOfWeekMonday date = TimeClip (date - ((Day date + 3) mod 7) * msPerDay).
Proof.
  unfold Page.startOfWeekMonday. cbv zeta. rewrite page_addDaysUtc. f_equal.
  unfold getUTCDay.
  pose proof (Z.div_mod (Day date + 4) 7 ltac:(lia)).
  pose proof (Z.mod_pos_bound (Day date + 4) 7 ltac:(lia)).
  pose proof (Z.div_mod (Day date + 3) 7 ltac:(lia)).
  pose proof (Z.mod_pos_bound (Day date + 3) 7 ltac:(lia)).
  unfold msPerDay. destruct (Z.eqb_spec ((Day date + 4) mod 7) 0); lia.
Qed.

Lemma YearFromTime_mono (a b : Z) : Day a <= Day b -> YearFromTime a <= YearFromTime b.
Proof.
  intros H. unfold YearFromTime.
  pose proof (compareCivil_civilFromDay_le (Day a) (Day b) H) as Hc.
  destruct (civilFromDay (Day a)) as [[y1 m1] d1], (civilFromDay (Day b)) as [[y2 m2] d2].
  unfold compareCivil in Hc. destruct (Z.compare_spec y1 y2); [lia | lia | congruence].
Qed.


Lemma TimeClip_Some (v : Z) : Z.abs v <= 8640000000000000 -> TimeClip v = Some v.
Proof. intros H. unfold TimeClip. destruct (Z.leb_spec (Z.abs v) 8640000000000000); [reflexivity | lia]. Qed.

Lemma buildWeekDates_spec (ws : string) (t : Z) :
  Page.parseDateOnly ws = Some t ->
  Z.abs t <= 8000000000000000 ->
  Page.buildWeekDates ws
  = Some ((fun i => formatDateOnly (t + i * msPerDay)) <$> [0; 1; 2; 3; 4; 5; 6]).
Proof.
  intros Hp Ht. unfold Page.buildWeekDates. rewrite Hp. cbn [mbind option_bind].
  cbn [mapM]. rewrite !page_addDaysUtc.
  rewrite !TimeClip_Some by (unfold msPerDay; lia).
  reflexivity.
Qed.

(** A calendar date the server accepts, as a triple. *)
Lemma parseDateOnly_triple (s : string) (t : Z) :
  parseDateOnly s = Some t ->
  exists y m d,
    0 <= y <= 9999 /\ 1 <= m <= 12 /\ 1 <= d <= daysInMonth y m
    /\ s = isoDate y m d /\ t = MakeDay y m d * msPerDay /\ YearFromTime t = y.
Proof.
  intros Hp. destruct (parseDateOnly_Some s t Hp) as (_ & (y & m & d & Hy & Hm & Hd & ->) & _).
  exists y, m, d. repeat (split; [assumption || reflexivity |]).
  destruct (parseDateOnly_isoDate y m d Hy Hm Hd) as [E _].
  rewrite E in Hp. injection Hp as <-. split; [reflexivity |].
  unfold YearFromTime. rewrite Day_mul.
  pose proof (daysInMonth_le_31 y m).
  destruct (civilFromDay_MakeDay y m d Hm ltac:(lia)) as (m' & d' & -> & _). reflexivity.
Qed.

(** The seven dates of a week that starts on a date the server accepts, as
    the server reads them. *)
Lemma week_dates_parse (t i : Z) :
  t mod msPerDay = 0 -> 0 <= YearFromTime t -> YearFromTime (t + 6 * msPerDay) <= 9999 ->
  0 <= i <= 6 ->
  parseDateOnly (formatDateOnly (t + i * msPerDay)) = Some (t + i * msPerDay)
  /\ isWithinWeek (t + i * msPerDay) t = true.
Proof.
  intros Hmid Hlo Hhi Hi. split.
  - rewrite parseDateOnly_formatDateOnly.
    assert (H1 : YearFromTime t <= YearFromTime (t + i * msPerDay))
      by (apply YearFromTime_mono; rewrite Day_add; lia).
    assert (H2 : YearFromTime (t + i * msPerDay) <= YearFromTime (t + 6 * msPerDay))
      by (apply YearFromTime_mono; rewrite !Day_add; lia).
    replace ((0 <=? YearFromTime (t + i * msPerDay))
             && (YearFromTime (t + i * msPerDay) <=? 9999)) with true
      by (symmetry; apply andb_true_iff; rewrite !Z.leb_le; lia).
    rewrite Day_add. f_equal.
    pose proof (Day_msPerDay t) as E. unfold TimeWithinDay in E. rewrite Hmid in E. lia.
  - unfold isWithinWeek, getTime, msPerDay.
    apply andb_true_iff. rewrite !Z.leb_le. lia.
Qed.

Lemma formatDateOnly_inj_week (t i j : Z) :
  t mod msPerDay = 0 -> 0 <= YearFromTime t -> YearFromTime (t + 6 * msPerDay) <= 9999 ->
  0 <= i <= 6 -> 0 <= j <= 6 ->
  formatDateOnly (t + i * msPerDay) = formatDateOnly (t + j * msPerDay) -> i = j.
Proof.
  intros Hmid Hlo Hhi Hi Hj E.
  destruct (week_dates_parse t i Hmid Hlo Hhi Hi) as [Pi _].
  destruct (week_dates_parse t j Hmid Hlo Hhi Hj) as [Pj _].
  rewrite E, Pj in Pi. injection Pi as Pi. unfold msPerDay in Pi. lia.
Qed.

Lemma page_parseDateOnly_agrees (s : string) (t : Z) :
  parseDateOnly s = Some t -> 100 <= YearFromTime t -> Page.parseDateOnly s = Some t.
Proof.
  intros Hs Hlo.
  destruct (parseDateOnly_triple s t Hs) as (y & m & d & Hy & Hm & Hd & -> & -> & Hyear).
  pose proof (daysInMonth_le_31 y m) as Hdim.
  apply page_parseDateOnly_isoDate; lia.
Qed.

Lemma week_dates_parse_all (ws : string) (t : Z) :
  parseDateOnly ws = Some t ->
  100 <= YearFromTime t -> YearFromTime (t + 6 * msPerDay) <= 9999 ->
  let dates := (fun i => formatDateOnly (t + i * msPerDay)) <$> [0; 1; 2; 3; 4; 5; 6] in
  Page.buildWeekDates ws = Some dates
  /\ NoDup dates
  /\ Forall (fun d => exists date, parseDateOnly d = Some date
                                   /\ isWithinWeek date t = true) dates.
Proof.
  intros Hws Hlo Hhi. cbv zeta.
  destruct (parseDateOnly_Some ws t Hws) as (Hfmt & _ & Hmid).
  pose proof (page_parseDateOnly_agrees ws t Hws Hlo) as Hpage.
  destruct (parseDateOnly_triple ws t Hws) as (y & m & d & Hy & Hm & Hd & _ & Ht & Hyear).
  pose proof (daysInMonth_le_31 y m) as Hdim.
  pose proof (MakeDay_range y m d Hy Hm ltac:(lia)) as Hr.
  split; [apply (buildWeekDates_spec _ t Hpage); unfold msPerDay in *; lia |].
  split.
  - apply NoDup_fmap_2_strong; [| repeat constructor; set_solver].
    intros i j Hi Hj E.
    apply (formatDateOnly_inj_week t i j Hmid ltac:(lia) Hhi);
      [set_solver by lia | set_solver by lia | exact E].
  - apply Forall_fmap, Forall_forall. intros i Hi. cbn.
    exists (t + i * msPerDay).
    apply (week_dates_parse t i Hmid ltac:(lia) Hhi). set_solver by lia.
Qed.

Lemma monday_getUTCDay (date : Z) :
  getUTCDay (date - ((Day date + 3) mod 7) * msPerDay) = 1.
Proof.
  unfold getUTCDay.
  replace (date - (Day date + 3) mod 7 * msPerDay)
    with (date + (- ((Day date + 3) mod 7)) * msPerDay) by lia.
  rewrite Day_add.
  pose proof (Z.div_mod (Day date + 3) 7 ltac:(lia)).
  pose proof (Z.mod_pos_bound (Day date + 3) 7 ltac:(lia)).
  pose proof (Z.div_mod (Day date + - ((Day date + 3) mod 7) + 4) 7 ltac:(lia)).
  pose proof (Z.mod_pos_bound (Day date + - ((Day date + 3) mod 7) + 4) 7 ltac:(lia)).
  lia.
Qed.

(** The meals [save] sends. *)
Lemma chosen_nonempty (selections : Page.SelectionState) (date slot recipeId : string) :
  Page.chosen selections date slot = Some recipeId -> recipeId <> "".
Proof.
  unfold Page.chosen. destruct (default ∅ (selections !! date) !! slot) as [r |]; [| discriminate].
  destruct (bool_decide_reflect (r = "")); [discriminate | congruence].
Qed.

Lemma mealsToSave_elem (weekDates : list string) (selections : Page.SelectionState) (meal : MealInput) :
  meal ∈ Page.mealsToSave weekDates selections
  <-> in_date meal ∈ weekDates /\ in_slot meal ∈ Page.mealSlots
      /\ Page.chosen selections (in_date meal) (in_slot meal) = Some (in_recipeId meal).
Proof.
  unfold Page.mealsToSave. rewrite list_elem_of_bind. split.
  - intros (date & Hin & Hd). apply list_elem_of_bind in Hin as (slot & Hin & Hs).
    destruct (Page.chosen selections date slot) as [r |] eqn:Hc; [| inversion Hin].
    apply list_elem_of_singleton in Hin as ->. cbn. auto.
  - intros (Hd & Hs & Hc). exists (in_date meal). split; [| exact Hd].
    apply list_elem_of_bind. exists (in_slot meal). split; [| exact Hs].
    rewrite Hc. destruct meal. cbn. left.
Qed.

Lemma mealsToSave_NoDup (weekDates : list string) (selections : Page.SelectionState) :
  NoDup weekDates ->
  NoDup ((fun i => (in_date i, in_slot i)) <$> Page.mealsToSave weekDates selections).
Proof.
  intros Hnd. induction Hnd as [| date rest Hnot Hnd IH].
  - constructor.
  - change (Page.mealsToSave (date :: rest) selections)
      with ((slot ← Page.mealSlots;
             match Page.chosen selections date slot with
             | Some recipeId => [mkMealInput date slot recipeId]
             | None => []
             end) ++ Page.mealsToSave rest selections).
    rewrite fmap_app. apply NoDup_app. split; [| split; [| exact IH]].
    + unfold Page.mealSlots. cbn [mbind list_bind app].
      destruct (Page.chosen selections date "breakfast"), (Page.chosen selections date "lunch"),
        (Page.chosen selections date "afternoon_snack"), (Page.chosen selections date "dinner");
        cbn; repeat constructor; set_solver.
    + intros p Hp Hq.
      apply list_elem_of_fmap in Hp as (m1 & -> & H1).
      apply list_elem_of_fmap in Hq as (m2 & E & H2).
      apply mealsToSave_elem in H2 as (Hd2 & _).
      assert (in_date m1 = date).
      { apply list_elem_of_bind in H1 as (slot & H1 & _).
        destruct (Page.chosen selections date slot); [| inversion H1].
        apply list_elem_of_singleton in H1 as ->. reflexivity. }
      injection E as E1 _. congruence.
Qed.

(** A request that passes every check before the recipe check ends with the
    plan saved or with the error of the recipe check. *)
Lemma PUT_meal_plans_checked (userId : string) (body : PutBody) (db : Db)
    (weekStart : Z) (meals : list Meal) :
  Body_parse body = true ->
  parseDateOnly (body_weekStart body) = Some weekStart ->
  readMeals weekStart (body_meals body) = inr meals ->
  checkSlots ∅ meals = None ->
  (exists planId views,
      fst (PUT_meal_plans userId body db)
      = Send 200 (B_plan (Some planId) (body_weekStart body) views)
      /\ returned <$> views ≡ₚ submitted <$> body_meals body)
  \/ fst (PUT_meal_plans userId body db)
     = Send 400 (B_error "One or more recipes were not found for this user").
Proof.
  intros Hbp Hws Hrm Hcs.
  destruct (fst (checkRecipes userId meals db)) as [reply |] eqn:Hcr.
  - right. unfold PUT_meal_plans. rewrite Hbp, Hws, Hrm, Hcs. cbn [negb].
    unfold mbind, Prisma_bind.
    pose proof (checkRecipes_Some userId meals db reply Hcr) as ->.
    destruct (checkRecipes userId meals db) as [failed db1]. cbn [fst] in Hcr. subst failed.
    reflexivity.
  - left. pose proof (proj1 (checkRecipes_None userId meals db) Hcr) as Hown.
    destruct (PUT_meal_plans_total userId body db weekStart meals Hbp Hws Hrm Hcs Hown)
      as (planId & views & db' & Hrun).
    exists planId, views. rewrite Hrun. split; [reflexivity |].
    destruct (PUT_meal_plans_ok _ _ _ _ _ _ _ Hrun)
      as (weekStart' & meals' & planId' & views0 & _ & _ & -> & O).
    rewrite Array_sort_Permutation.
    rewrite (proj1 (PutOutcome_returned _ _ _ _ _ _ _ _ O)). reflexivity.
Qed.


(** The selection loaded from an answer. *)
Lemma createEmptySelection_lookup (weekDates : list string) (date : string) :
  Page.createEmptySelection weekDates !! date
  = if bool_decide (date ∈ weekDates) then Some ∅ else None.
Proof.
  unfold Page.createEmptySelection.
  assert (G : forall (acc : gmap string (gmap string string)),
            fold_left (fun next d => <[d := ∅]> next) weekDates acc !! date
            = if bool_decide (date ∈ weekDates) then Some ∅ else acc !! date).
  { induction weekDates as [| d rest IH]; intros acc; cbn [fold_left].
    - rewrite bool_decide_eq_false_2 by set_solver. reflexivity.
    - rewrite IH. destruct (bool_decide_reflect (date ∈ rest)) as [Hin | Hin].
      + rewrite bool_decide_eq_true_2 by set_solver. reflexivity.
      + destruct (decide (date = d)) as [-> | Hne].
        * rewrite bool_decide_eq_true_2 by set_solver. apply lookup_insert_eq.
        * rewrite bool_decide_eq_false_2 by set_solver. apply lookup_insert_ne. congruence. }
  rewrite G. destruct (bool_decide _); [reflexivity | apply lookup_empty].
Qed.

Lemma loadSelection_snoc (weekDates : list string) (meals : list MealView) (meal : MealView) :
  Page.loadSelection weekDates (meals ++ [meal])
  = match Page.loadSelection weekDates meals !! view_date meal with
    | Some day =>
        <[view_date meal := <[view_slot meal := view_recipeId meal]> day]>
          (Page.loadSelection weekDates meals)
    | None => Page.loadSelection weekDates meals
    end.
Proof. unfold Page.loadSelection. rewrite fold_left_app. reflexivity. Qed.

Lemma loadSelection_dom (weekDates : list string) (meals : list MealView) (date : string) :
  is_Some (Page.loadSelection weekDates meals !! date) <-> date ∈ weekDates.
Proof.
  induction meals as [| meal meals IH] using rev_ind.
  - unfold Page.loadSelection. cbn [fold_left]. rewrite createEmptySelection_lookup.
    destruct (bool_decide_reflect (date ∈ weekDates)); split; eauto.
    + intros [? ?]; discriminate.
    + contradiction.
  - rewrite loadSelection_snoc.
    destruct (Page.loadSelection weekDates meals !! view_date meal) as [day |] eqn:E;
      [| exact IH].
    destruct (decide (date = view_date meal)) as [-> | Hne].
    + rewrite lookup_insert_eq. rewrite <- IH, E. split; eauto.
    + rewrite lookup_insert_ne by congruence. exact IH.
Qed.

Lemma loadSelection_lookup (weekDates : list string) (meals : list MealView)
    (date slot recipeId : string) :
  NoDup ((fun v => (view_date v, view_slot v)) <$> meals) ->
  default ∅ (Page.loadSelection weekDates meals !! date) !! slot = Some recipeId
  <-> date ∈ weekDates
      /\ exists v, v ∈ meals /\ view_date v = date /\ view_slot v = slot
                   /\ view_recipeId v = recipeId.
Proof.
  induction meals as [| meal meals IH] using rev_ind; intros Hnd.
  - unfold Page.loadSelection. cbn [fold_left]. rewrite createEmptySelection_lookup.
    split.
    + destruct (bool_decide (date ∈ weekDates)); cbn; rewrite lookup_empty; discriminate.
    + intros (_ & v & Hin & _). inversion Hin.
  - rewrite fmap_app in Hnd. apply NoDup_app in Hnd as (Hnd & Hnew & _).
    specialize (IH Hnd). rewrite loadSelection_snoc.
    pose proof (loadSelection_dom weekDates meals (view_date meal)) as Hdom.
   
    destruct (Page.loadSelection weekDates meals !! view_date meal) as [day |] eqn:E.
    + assert (Hin : view_date meal ∈ weekDates) by (apply Hdom; eauto).
      destruct (decide (date = view_date meal)) as [-> | Hne].
      * rewrite lookup_insert_eq. cbn [default from_option]. unfold id.
        destruct (decide (slot = view_slot meal)) as [-> | Hs].
        -- rewrite lookup_insert_eq. split.
           ++ intros [= <-]. split; [exact Hin |]. exists meal. split; [set_solver | auto].
           ++ intros (_ & v & Hv & Hd & Hs & Hr). f_equal. rewrite <- Hr.
              apply elem_of_app in Hv as [Hv | Hv]; [| set_solver].
              exfalso. apply (Hnew (view_date v, view_slot v)).
              ** apply list_elem_of_fmap. eauto.
              ** rewrite Hd, Hs. cbn. left.
        -- rewrite lookup_insert_ne by congruence.
           rewrite E in IH. cbn [default from_option] in IH. unfold id in IH.
           rewrite IH. split.
           ++ intros (? & v & Hv & ?). split; [assumption |]. exists v. split; [set_solver | auto].
           ++ intros (? & v & Hv & Hd & Hs' & Hr). split; [assumption |]. exists v.
              apply elem_of_app in Hv as [Hv | Hv]; [auto |].
              apply list_elem_of_singleton in Hv as ->. congruence.
      * rewrite lookup_insert_ne by congruence. rewrite IH. split.
        -- intros (? & v & Hv & ?). split; [assumption |]. exists v. split; [set_solver | auto].
        -- intros (? & v & Hv & Hd & Hs' & Hr). split; [assumption |]. exists v.
           apply elem_of_app in Hv as [Hv | Hv]; [auto |].
           apply list_elem_of_singleton in Hv as ->. congruence.
    + rewrite IH. split.
      * intros (? & v & Hv & ?). split; [assumption |]. exists v. split; [set_solver | auto].
      * intros (Hd' & v & Hv & Hd & Hs' & Hr). split; [assumption |]. exists v.
        apply elem_of_app in Hv as [Hv | Hv]; [auto |].
        apply list_elem_of_singleton in Hv as ->. exfalso.
        assert (is_Some (None : option (gmap string string))) as [? ?]; [| discriminate].
        apply Hdom. rewrite Hd. exact Hd'.
Qed.

Lemma mealsToSave_ext (weekDates : list string) (a b : Page.SelectionState) :
  (forall date slot, date ∈ weekDates -> slot ∈ Page.mealSlots ->
                     Page.chosen a date slot = Page.chosen b date slot) ->
  Page.mealsToSave weekDates a = Page.mealsToSave weekDates b.
Proof.
  intros H. induction weekDates as [| date rest IH]; [reflexivity |].
  change (Page.mealsToSave (date :: rest) a)
    with ((slot ← Page.mealSlots;
           match Page.chosen a date slot with
           | Some recipeId => [mkMealInput date slot recipeId]
           | None => []
           end) ++ Page.mealsToSave rest a).
  change (Page.mealsToSave (date :: rest) b)
    with ((slot ← Page.mealSlots;
           match Page.chosen b date slot with
           | Some recipeId => [mkMealInput date slot recipeId]
           | None => []
           end) ++ Page.mealsToSave rest b).
  rewrite IH by (intros; apply H; [right |]; assumption).
  f_equal. unfold Page.mealSlots. cbn [mbind list_bind app].
  rewrite !(H date) by (unfold Page.mealSlots; set_solver). reflexivity.
Qed.

End PageFacts.

(** ** Doubles: what [Math.round] and the sums do *)

Module Binary64Facts.

Lemma digits2_pos_bounds (p : positive) :
  2 ^ (Z.pos (digits2_pos p) - 1) <= Z.pos p < 2 ^ Z.pos (digits2_pos p).
Proof.
  induction p as [p IH | p IH |]; cbn [digits2_pos].
  - rewrite Pos2Z.inj_succ. change (Z.pos p~1) with (2 * Z.pos p + 1).
    replace (Z.succ (Z.pos (digits2_pos p)) - 1) with (Z.succ (Z.pos (digits2_pos p) - 1)) by lia.
    rewrite !Z.pow_succ_r by lia. lia.
  - rewrite Pos2Z.inj_succ. change (Z.pos p~0) with (2 * Z.pos p).
    replace (Z.succ (Z.pos (digits2_pos p)) - 1) with (Z.succ (Z.pos (digits2_pos p) - 1)) by lia.
    rewrite !Z.pow_succ_r by lia. lia.
  - cbn. lia.
Qed.

Lemma iter_xO (p d : positive) :
  Z.pos (Pos.iter xO p d) = Z.pos p * 2 ^ Z.pos d
  /\ digits2_pos (Pos.iter xO p d) = (digits2_pos p + d)%positive.
Proof.
  induction d as [| d IH] using Pos.peano_ind.
  - cbn [Pos.iter digits2_pos]. split; lia.
  - rewrite Pos.iter_succ. cbn [digits2_pos]. destruct IH as [IH1 IH2].
    change (Z.pos (Pos.iter xO p d)~0) with (2 * Z.pos (Pos.iter xO p d)).
    rewrite IH1, IH2, Pos2Z.inj_succ, Z.pow_succ_r by lia.
    split; lia.
Qed.

(** What [Prim2SF_valid] says of a finite double: its exponent is the one
    its number of digits asks for. *)
Lemma finite_valid (x : float) (s : bool) (m : positive) (e : Z) :
  Prim2SF x = S754_finite s m e ->
  fexp prec emax (Z.pos (digits2_pos m) + e) = e /\ e <= 971.
Proof.
  intros E. pose proof (Prim2SF_valid x) as V. rewrite E in V.
  cbn [SpecFloat.valid_binary] in V. unfold bounded, canonical_mantissa in V.
  apply andb_true_iff in V as [V1 V2]. apply Z.eqb_eq in V1. apply Z.leb_le in V2.
  split; [exact V1 | exact V2].
Qed.

Lemma finite_bounds (x : float) (s : bool) (m : positive) (e : Z) :
  Prim2SF x = S754_finite s m e -> -1074 <= e <= 971 /\ Z.pos m < 2 ^ 53.
Proof.
  intros E. destruct (finite_valid _ _ _ _ E) as [V1 V2].
  unfold fexp, SpecFloat.emin in V1. change prec with 53 in V1. change emax with 1024 in V1.
  pose proof (digits2_pos_bounds m) as [_ Hm].
  split; [lia |].
  eapply Z.lt_le_trans; [exact Hm |]. apply Z.pow_le_mono_r; lia.
Qed.

(** A number that needs no rounding is kept as it is. *)
Lemma binary_round_aux_exact (s : bool) (m : positive) (e : Z) :
  fexp prec emax (Z.pos (digits2_pos m) + e) = e -> e <= 971 ->
  binary_round_aux prec emax s (Z.pos m) e loc_Exact = S754_finite s m e.
Proof.
  intros H1 H2. unfold binary_round_aux, shr_fexp. cbn [Zdigits2 shr_record_of_loc].
  rewrite H1, Z.sub_diag. cbn [shr shr_m loc_of_shr_record round_nearest_even Zdigits2
    shr_record_of_loc].
  rewrite H1, Z.sub_diag. cbn [shr shr_m].
  replace (e <=? emax - prec) with true; [reflexivity |].
  symmetry. apply Z.leb_le. change prec with 53. change emax with 1024. lia.
Qed.

Lemma binary_round_exact (s : bool) (p : positive) (e : Z) :
  fexp prec emax (Z.pos (digits2_pos p) + e) <= e ->
  fexp prec emax (Z.pos (digits2_pos p) + e) <= 971 ->
  exists m,
    binary_round prec emax s p e
    = S754_finite s m (fexp prec emax (Z.pos (digits2_pos p) + e))
    /\ Z.pos m = Z.pos p * 2 ^ (e - fexp prec emax (Z.pos (digits2_pos p) + e)).
Proof.
  intros H1 H2. unfold binary_round, shl_align.
  set (e' := fexp prec emax (Z.pos (digits2_pos p) + e)) in *.
  destruct (e' - e) as [| d | d] eqn:Ed; [| lia |].
  - assert (e' = e) as Ee by lia. exists p. rewrite Ee, Z.sub_diag, Z.mul_1_r.
    split; [| reflexivity]. apply binary_round_aux_exact; [| lia].
    unfold e' in Ee. exact Ee.
  - destruct (iter_xO p d) as [Hv Hd]. exists (Pos.iter xO p d).
    replace (e - e') with (Z.pos d) by lia. split; [| exact Hv].
    apply binary_round_aux_exact; [| exact H2].
    rewrite Hd. replace (Z.pos (digits2_pos p + d) + e')
      with (Z.pos (digits2_pos p) + e) by lia.
    reflexivity.
Qed.

(** [of_Z] is exact up to 2^53. *)
Lemma of_Z_exact (k : Z) :
  0 < Z.abs k < 2 ^ 53 ->
  exists m e, Prim2SF (Binary64.of_Z k) = S754_finite (k <? 0) m e
              /\ e <= 0 /\ Z.pos m = Z.abs k * 2 ^ (- e).
Proof.
  intros Hk.
  assert (G : forall p, Z.pos p < 2 ^ 53 ->
            exists m e, Prim2SF (of_uint63 (Uint63.of_Z (Z.pos p))) = S754_finite false m e
                        /\ e <= 0 /\ Z.pos m = Z.pos p * 2 ^ (- e)).
  { intros p Hp. rewrite of_uint63_spec, Uint63.of_Z_spec.
    rewrite Z.mod_small by (change wB with (2 ^ 63); split; [lia |];
      eapply Z.lt_trans; [exact Hp | reflexivity]).
    cbn [binary_normalize].
    assert (Hd : Z.pos (digits2_pos p) <= 53).
    { pose proof (digits2_pos_bounds p) as [Hlo _].
      destruct (Z.le_gt_cases (Z.pos (digits2_pos p)) 53) as [? | Hgt]; [assumption |].
      exfalso. assert (2 ^ 53 <= 2 ^ (Z.pos (digits2_pos p) - 1))
        by (apply Z.pow_le_mono_r; lia). lia. }
    assert (Hf : fexp prec emax (Z.pos (digits2_pos p) + 0) = Z.pos (digits2_pos p) - 53)
      by (unfold fexp, SpecFloat.emin; change prec with 53; change emax with 1024; lia).
    destruct (binary_round_exact false p 0) as (m & Hm & Hv); [rewrite Hf; lia | rewrite Hf; lia |].
    rewrite Hf in Hm, Hv. exists m, (Z.pos (digits2_pos p) - 53).
    split; [exact Hm |]. split; [lia |].
    rewrite Hv. reflexivity. }
  unfold Binary64.of_Z. destruct (Z.ltb_spec k 0) as [Hneg | Hpos].
  - destruct k as [| p | p]; try lia.
    destruct (G p) as (m & e & Hm & He & Hv); [cbn in Hk; lia |].
    exists m, e. rewrite FloatAxioms.opp_spec. change (- Z.neg p) with (Z.pos p). rewrite Hm. cbn [SFopp negb].
    split; [reflexivity |]. split; [exact He | exact Hv].
  - destruct k as [| p | p]; try lia.
    destruct (G p) as (m & e & Hm & He & Hv); [cbn in Hk; lia |].
    exists m, e. split; [exact Hm |]. split; [exact He | exact Hv].
Qed.

(** Powers of two as rationals. *)
Lemma Qpower2_nonneg (e : Z) : 0 <= e -> (Qpower 2 e == inject_Z (2 ^ e))%Q.
Proof. intros He. rewrite Zpower_Qpower by exact He. reflexivity. Qed.

Lemma Qpower2_neg (e : Z) : e <= 0 -> (Qpower 2 e * inject_Z (2 ^ (- e)) == 1)%Q.
Proof.
  intros He. rewrite Zpower_Qpower by lia.
  replace e with (- - e) at 1 by lia. rewrite Qpower_opp.
  change (inject_Z 2) with 2%Q.
  assert (Hnz : ~ (Qpower 2 (- e) == 0)%Q).
  { rewrite <- (Zpower_Qpower 2 (- e)) by lia. unfold Qeq. cbn.
    pose proof (Z.pow_pos_nonneg 2 (- e)). lia. }
  field. exact Hnz.
Qed.

Lemma toQ_scaled (a e : Z) :
  e <= 0 -> (inject_Z (a * 2 ^ (- e)) * Qpower 2 e == inject_Z a)%Q.
Proof.
  intros He. rewrite inject_Z_mult, <- Qmult_assoc, (Qmult_comm (inject_Z (2 ^ - e))).
  rewrite (Qpower2_neg e He). ring.
Qed.

Lemma toQ_zero : toQ PrimFloat.zero = Some 0%Q /\ toQ (PrimFloat.opp PrimFloat.zero) = Some 0%Q.
Proof. split; reflexivity. Qed.

(** [of_Z] holds the integer it is given, up to 2^53. *)
Lemma of_Z_holds (k : Z) : Z.abs k < 2 ^ 53 -> holdsInteger (Binary64.of_Z k) k.
Proof.
  intros Hk. destruct (Z.eq_dec k 0) as [-> | Hnz].
  - exists 0%Q. split; reflexivity.
  - destruct (of_Z_exact k) as (m & e & Hm & He & Hv); [lia |].
    unfold holdsInteger, toQ. rewrite Hm. eexists. split; [reflexivity |].
    destruct (Z.ltb_spec k 0).
    + change (Z.neg m) with (- Z.pos m). rewrite Hv.
      replace (- (Z.abs k * 2 ^ - e)) with (k * 2 ^ - e) by lia.
      apply toQ_scaled, He.
    + rewrite Hv. replace (Z.abs k) with k by lia. apply toQ_scaled, He.
Qed.

(** [Math.round] leaves an infinity and NaN as they are. *)
Lemma Math_round_not_finite (y : float) : toQ y = None -> Binary64.Math_round y = y.
Proof.
  unfold toQ, Binary64.Math_round. destruct (Prim2SF y); [discriminate | reflexivity ..| discriminate].
Qed.

(** [Math.round] of a finite double is the double of the nearest integer,
    the larger one of two that are equally near. *)
Lemma Math_round_nearest (y : float) (q : Q) :
  toQ y = Some q ->
  exists n, NearestInteger q n /\ holdsInteger (Binary64.Math_round y) n.
Proof.
  unfold toQ at 1. destruct (Prim2SF y) as [s0 | s0 | | s m e] eqn:E; try discriminate.
  - intros [= <-]. exists 0. split.
    + unfold NearestInteger. split; [discriminate | reflexivity].
    + unfold Binary64.Math_round. rewrite E. exists 0%Q. unfold toQ. rewrite E.
      split; reflexivity.
  - intros [= <-]. destruct (finite_bounds _ _ _ _ E) as [He Hm].
    set (n0 := if s then Z.neg m else Z.pos m).
    assert (Hn0 : Z.abs n0 < 2 ^ 53) by (unfold n0; destruct s; cbn [Z.abs]; exact Hm).
    unfold Binary64.Math_round. rewrite E. fold n0.
    destruct (Z.leb_spec 0 e) as [Hpos | Hneg].
    + (* an integer already *)
      assert (Hq : (inject_Z n0 * Qpower 2 e == inject_Z (n0 * 2 ^ e))%Q)
        by (rewrite inject_Z_mult, Qpower2_nonneg by exact Hpos; reflexivity).
      exists (n0 * 2 ^ e). split.
      * unfold NearestInteger. rewrite Hq. split.
        -- apply Qplus_le_l with (z := (1 # 2)%Q). ring_simplify.
           rewrite <- Qplus_0_r at 1. apply Qplus_le_r. discriminate.
        -- rewrite <- Qplus_0_r at 1. apply Qplus_lt_r. reflexivity.
      * exists (inject_Z n0 * Qpower 2 e)%Q. unfold toQ. rewrite E. fold n0.
        split; [reflexivity | exact Hq].
    + (* a fraction: the shifts compute the floor of [y + 1/2] *)
      set (P := 2 ^ (- e)).
      assert (HP : 2 <= P).
      { unfold P. change 2 with (2 ^ 1) at 1. apply Z.pow_le_mono_r; lia. }
      assert (Hk : Z.shiftr (2 * n0 + Z.shiftl 1 (- e)) (1 - e) = (2 * n0 + P) / (2 * P)).
      { rewrite Z.shiftl_1_l, Z.shiftr_div_pow2 by lia. fold P.
        replace (1 - e) with (Z.succ (- e)) by lia. rewrite Z.pow_succ_r by lia.
        reflexivity. }
      rewrite Hk. set (k := (2 * n0 + P) / (2 * P)).
      assert (Hdiv : 2 * P * k <= 2 * n0 + P < 2 * P * k + 2 * P).
      { pose proof (Z.div_mod (2 * n0 + P) (2 * P) ltac:(lia)) as Hd.
        pose proof (Z.mod_pos_bound (2 * n0 + P) (2 * P) ltac:(lia)) as Hb.
        fold k in Hd. lia. }
      assert (Hkb : Z.abs k < 2 ^ 53).
      { assert (2 ^ 53 = 9007199254740992) as E53 by reflexivity.
        rewrite E53 in *. nia. }
      assert (Hq : (inject_Z n0 * Qpower 2 e * inject_Z P == inject_Z n0)%Q).
      { rewrite <- Qmult_assoc. unfold P. rewrite Qpower2_neg by lia. ring. }
      exists k. split.
      * unfold NearestInteger.
        assert (HPq : (0 < inject_Z P)%Q) by (unfold Qlt; cbn; lia).
        split.
        -- apply (Qmult_le_r _ _ (inject_Z P) HPq). rewrite Hq.
           setoid_replace ((inject_Z k - (1 # 2)) * inject_Z P)%Q
             with (inject_Z (2 * P * k - P) * (1 # 2))%Q using relation Qeq
             by (unfold Z.sub; rewrite !inject_Z_plus, inject_Z_opp, !inject_Z_mult;
                 change (inject_Z 2) with 2%Q; ring).
           setoid_replace (inject_Z n0) with (inject_Z (2 * n0) * (1 # 2))%Q using relation Qeq
             by (rewrite inject_Z_mult; change (inject_Z 2) with 2%Q; ring).
           apply Qmult_le_compat_r; [| discriminate].
           rewrite <- Zle_Qle. lia.
        -- apply (Qmult_lt_r _ _ (inject_Z P) HPq). rewrite Hq.
           setoid_replace ((inject_Z k + (1 # 2)) * inject_Z P)%Q
             with (inject_Z (2 * P * k + P) * (1 # 2))%Q using relation Qeq
             by (rewrite !inject_Z_plus, !inject_Z_mult; change (inject_Z 2) with 2%Q; ring).
           setoid_replace (inject_Z n0) with (inject_Z (2 * n0) * (1 # 2))%Q using relation Qeq
             by (rewrite inject_Z_mult; change (inject_Z 2) with 2%Q; ring).
           apply Qmult_lt_compat_r; [reflexivity |].
           rewrite <- Zlt_Qlt. lia.
      * destruct (Z.eqb_spec k 0) as [-> | Hnz].
        -- exists 0%Q. destruct s; split; reflexivity.
        -- apply of_Z_holds, Hkb.
Qed.

(** *** Sums are never the negative zero, unless both terms are *)

Lemma shr_1_m (mrs : shr_record) :
  0 <= shr_m mrs -> shr_m (shr_1 mrs) = shr_m mrs / 2.
Proof.
  destruct mrs as [m r s]. cbn [shr_m]. intros Hm.
  destruct m as [| p | p]; [reflexivity | | lia].
  destruct p as [p | p |]; cbn [shr_1 shr_m].
  - change (Z.pos p~1) with (2 * Z.pos p + 1).
    apply Z.div_unique with (r := 1); lia.
  - change (Z.pos p~0) with (2 * Z.pos p).
    apply Z.div_unique with (r := 0); lia.
  - reflexivity.
Qed.

Lemma shr_iter_m (n : positive) (mrs : shr_record) :
  0 <= shr_m mrs -> shr_m (SpecFloat.iter_pos shr_1 n mrs) = shr_m mrs / 2 ^ Z.pos n.
Proof.
  revert mrs. induction n as [n IH | n IH |]; intros mrs Hm; cbn [SpecFloat.iter_pos];
    try assert (Hp : 0 < 2 ^ Z.pos n) by (apply Z.pow_pos_nonneg; lia).
  - assert (H1 : 0 <= shr_m (shr_1 mrs)) by (rewrite shr_1_m by exact Hm; apply Z.div_pos; lia).
    assert (H2 : 0 <= shr_m (SpecFloat.iter_pos shr_1 n (shr_1 mrs)))
      by (rewrite IH by exact H1; apply Z.div_pos; [exact H1 | apply Z.pow_pos_nonneg; lia]).
    rewrite IH, IH, shr_1_m by assumption.
    rewrite !Z.div_div by lia.
    f_equal. replace (Z.pos n~1) with (1 + (Z.pos n + Z.pos n)) by lia.
    rewrite !Z.pow_add_r by lia. reflexivity.
  - assert (H2 : 0 <= shr_m (SpecFloat.iter_pos shr_1 n mrs))
      by (rewrite IH by exact Hm; apply Z.div_pos; [exact Hm | apply Z.pow_pos_nonneg; lia]).
    rewrite IH, IH by assumption.
    rewrite !Z.div_div by lia.
    f_equal. replace (Z.pos n~0) with (Z.pos n + Z.pos n) by lia.
    rewrite !Z.pow_add_r by lia. reflexivity.
  - apply shr_1_m, Hm.
Qed.



(** The result of rounding has the sign it was given. *)
Lemma binary_round_aux_sign (s : bool) (m e : Z) (l : location) (s' : bool) :
  binary_round_aux prec emax s m e l = S754_zero s' -> s' = s.
Proof.
  unfold binary_round_aux. destruct (shr_fexp prec emax m e l) as [mrs' e'].
  destruct (shr_fexp prec emax _ e' loc_Exact) as [mrs'' e''].
  destruct (shr_m mrs''); [intros [= <-]; reflexivity | | discriminate].
  destruct (e'' <=? emax - prec); discriminate.
Qed.




(** *** Adding a zero *)






(** *** The totals are never the negative zero *)








(** *** [round1] on doubles *)

Lemma round1_Rounded64 (x : float) : Rounded64 x (round1 x).
Proof.
  unfold Rounded64, round1. cbn [num_div num_round num_mul num_of_Z binary64].
  exists (Binary64.Math_round (PrimFloat.mul x (Binary64.of_Z 10))).
  split; [reflexivity |].
  destruct (toQ (PrimFloat.mul x (Binary64.of_Z 10))) as [q |] eqn:E.
  - apply Math_round_nearest, E.
  - apply Math_round_not_finite, E.
Qed.

Lemma roundNutrition_AllRounded64 (n : Nutrition float) : AllRounded64 n (roundNutrition n).
Proof. repeat split; apply round1_Rounded64. Qed.

(** *** Lists padded with items of nothing *)





(** *** How far a rounded product and a rounded quotient are from the exact ones *)

(** *** How far rounding goes *)

Lemma inject_Z_xO (p : positive) : (inject_Z (Z.pos p~0) == 2 * inject_Z (Z.pos p))%Q.
Proof. change (Z.pos p~0) with (2 * Z.pos p). rewrite inject_Z_mult. reflexivity. Qed.

Lemma inject_Z_xI (p : positive) : (inject_Z (Z.pos p~1) == 2 * inject_Z (Z.pos p) + 1)%Q.
Proof.
  change (Z.pos p~1) with (2 * Z.pos p + 1). rewrite inject_Z_plus, inject_Z_mult. reflexivity.
Qed.

Lemma shr_1_inbetween (mrs : shr_record) (v : Q) :
  0 <= shr_m mrs ->
  inbetween (shr_m mrs) (loc_of_shr_record mrs) v ->
  inbetween (shr_m (shr_1 mrs)) (loc_of_shr_record (shr_1 mrs)) (v * (1 # 2)).
Proof.
  destruct mrs as [m r s]. cbn [shr_m]. intros Hm.
  destruct m as [| p | p]; [| | lia].
  - change (inject_Z 0) with 0%Q.
    destruct r, s; cbn [shr_1 shr_m loc_of_shr_record orb inbetween];
      change (inject_Z 0) with 0%Q; intros H; try lra.
  - destruct p as [p | p |]; destruct r, s;
      cbn [shr_1 shr_m loc_of_shr_record orb inbetween]; intros H;
      rewrite ?inject_Z_xI, ?inject_Z_xO in H;
      change (inject_Z 1) with 1%Q in *; change (inject_Z 0) with 0%Q in *;
      try (revert H; generalize (inject_Z (Z.pos p)); intros); lra.
Qed.

Lemma inbetween_compat (m : Z) (l : location) (v v' : Q) :
  (v == v')%Q -> inbetween m l v -> inbetween m l v'.
Proof. intros E. destruct l as [| []]; cbn [inbetween]; rewrite E; trivial. Qed.

Lemma shr_1_nonneg (mrs : shr_record) : 0 <= shr_m mrs -> 0 <= shr_m (shr_1 mrs).
Proof. intros H. rewrite shr_1_m by exact H. apply Z.div_pos; lia. Qed.

Lemma shr_iter_nonneg (n : positive) (mrs : shr_record) :
  0 <= shr_m mrs -> 0 <= shr_m (SpecFloat.iter_pos shr_1 n mrs).
Proof.
  intros H. rewrite shr_iter_m by exact H.
  apply Z.div_pos; [exact H | apply Z.pow_pos_nonneg; lia].
Qed.

Lemma half_power_succ (n : positive) :
  (Qpower (1 # 2) (Z.pos n~1) == (1 # 2) * Qpower (1 # 2) (Z.pos n) * Qpower (1 # 2) (Z.pos n))%Q
  /\ (Qpower (1 # 2) (Z.pos n~0) == Qpower (1 # 2) (Z.pos n) * Qpower (1 # 2) (Z.pos n))%Q.
Proof.
  assert (Hnz : ~ ((1 # 2) == 0)%Q) by discriminate.
  split.
  - replace (Z.pos n~1) with (1 + (Z.pos n + Z.pos n)) by lia.
    rewrite !Qpower_plus by exact Hnz. change (Qpower (1 # 2) 1) with (1 # 2)%Q. ring.
  - replace (Z.pos n~0) with (Z.pos n + Z.pos n) by lia.
    rewrite !Qpower_plus by exact Hnz. reflexivity.
Qed.

Lemma shr_iter_inbetween (n : positive) (mrs : shr_record) (v : Q) :
  0 <= shr_m mrs ->
  inbetween (shr_m mrs) (loc_of_shr_record mrs) v ->
  inbetween (shr_m (SpecFloat.iter_pos shr_1 n mrs))
    (loc_of_shr_record (SpecFloat.iter_pos shr_1 n mrs)) (v * Qpower (1 # 2) (Z.pos n)).
Proof.
  revert mrs v. induction n as [n IH | n IH |]; intros mrs v Hm Hv; cbn [SpecFloat.iter_pos].
  - destruct (half_power_succ n) as [E _].
    apply (inbetween_compat _ _ (v * (1 # 2) * Qpower (1 # 2) (Z.pos n) * Qpower (1 # 2) (Z.pos n)));
      [rewrite E; ring |].
    apply IH; [apply shr_iter_nonneg, shr_1_nonneg, Hm |].
    apply IH; [apply shr_1_nonneg, Hm |].
    apply shr_1_inbetween; assumption.
  - destruct (half_power_succ n) as [_ E].
    apply (inbetween_compat _ _ (v * Qpower (1 # 2) (Z.pos n) * Qpower (1 # 2) (Z.pos n)));
      [rewrite E; ring |].
    apply IH; [apply shr_iter_nonneg, Hm |].
    apply IH; assumption.
  - apply (inbetween_compat _ _ (v * (1 # 2))); [reflexivity |].
    apply shr_1_inbetween; assumption.
Qed.

(** Rounding to nearest goes at most half a unit away. *)
Lemma round_nearest_even_near (m : Z) (l : location) (v : Q) :
  inbetween m l v ->
  (Qabs (inject_Z (round_nearest_even m l) - v) <= 1 # 2)%Q
  /\ m <= round_nearest_even m l <= m + 1.
Proof.
  intros H. split.
  - apply Qabs_Qle_condition.
    destruct l as [| []]; cbn [inbetween round_nearest_even] in *;
      try destruct (Z.even m); rewrite ?inject_Z_plus; change (inject_Z 1) with 1%Q;
      revert H; generalize (inject_Z m); intros; lra.
  - destruct l as [| []]; cbn [round_nearest_even]; try destruct (Z.even m); lia.
Qed.

Lemma shr_record_of_loc_spec (m : Z) (l : location) :
  shr_m (shr_record_of_loc m l) = m /\ loc_of_shr_record (shr_record_of_loc m l) = l.
Proof. destruct l as [| []]; split; reflexivity. Qed.

(** Powers of two. *)
Lemma two_power_pos (e : Z) : (0 < Qpower 2 e)%Q.
Proof. apply Qpower_0_lt. reflexivity. Qed.

Lemma two_power_plus (a b : Z) : (Qpower 2 (a + b) == Qpower 2 a * Qpower 2 b)%Q.
Proof. apply Qpower_plus. discriminate. Qed.

Lemma two_power_succ (e : Z) : (Qpower 2 (e + 1) == 2 * Qpower 2 e)%Q.
Proof. rewrite two_power_plus. change (Qpower 2 1) with 2%Q. ring. Qed.

Lemma two_power_pred (e : Z) : (Qpower 2 (e - 1) == (1 # 2) * Qpower 2 e)%Q.
Proof.
  replace e with ((e - 1) + 1) at 2 by lia. rewrite two_power_succ. field.
Qed.

Lemma half_power_two (k : positive) : (Qpower (1 # 2) (Z.pos k) * Qpower 2 (Z.pos k) == 1)%Q.
Proof.
  rewrite <- Qmult_power. change ((1 # 2) * 2)%Q with ((2 # 2))%Q.
  assert (E : ((2 # 2) == 1)%Q) by reflexivity. rewrite E. apply Qpower_1.
Qed.

Lemma Zdigits2_bound (m : Z) : 0 <= m -> m < 2 ^ Zdigits2 m /\ (0 < m -> 2 ^ (Zdigits2 m - 1) <= m).
Proof.
  intros Hm. destruct m as [| p | p]; [cbn; lia | | lia].
  cbn [Zdigits2]. pose proof (digits2_pos_bounds p). lia.
Qed.

(** The first step of rounding: the number is shifted to the exponent its
    digits ask for, and its place between two integers is kept. *)
Lemma shr_fexp_spec (mx ex : Z) (lx : location) (V : Q) :
  0 <= mx -> inbetween mx lx V ->
  let m1 := shr_m (fst (shr_fexp prec emax mx ex lx)) in
  let l1 := loc_of_shr_record (fst (shr_fexp prec emax mx ex lx)) in
  let e1 := snd (shr_fexp prec emax mx ex lx) in
  0 <= m1 < 2 ^ 53 /\ -1074 <= e1
  /\ e1 = Z.max ex (fexp prec emax (Zdigits2 mx + ex))
  /\ (0 < mx \/ ex <= -1074 -> m1 = 0 -> e1 = -1074)
  /\ exists v1, inbetween m1 l1 v1 /\ (v1 * Qpower 2 e1 == V * Qpower 2 ex)%Q.
Proof.
  intros Hm HV. unfold shr_fexp.
  destruct (Zdigits2_bound mx Hm) as [Hhi Hlo].
  destruct (shr_record_of_loc_spec mx lx) as [Hrm Hrl].
  assert (Hd : 0 <= Zdigits2 mx) by (destruct mx; cbn; lia).
  assert (Hf : fexp prec emax (Zdigits2 mx + ex)
               = Z.max (Zdigits2 mx + ex - 53) (-1074)) by reflexivity.
  unfold shr.
  destruct (fexp prec emax (Zdigits2 mx + ex) - ex) as [| k | k] eqn:En; cbn [fst snd].
  - rewrite Hrm, Hrl.
    assert (2 ^ Zdigits2 mx <= 2 ^ 53) by (apply Z.pow_le_mono_r; lia).
    repeat split; try lia. exists V. split; [exact HV | reflexivity].
  - assert (Hk : 0 < 2 ^ Z.pos k) by (apply Z.pow_pos_nonneg; lia).
    pose proof (shr_iter_inbetween k (shr_record_of_loc mx lx) V) as Hin.
    rewrite Hrm, Hrl in Hin. specialize (Hin Hm HV).
    rewrite shr_iter_m in Hin |- * by (rewrite Hrm; exact Hm). rewrite Hrm in Hin |- *.
    assert (Hm1 : mx / 2 ^ Z.pos k < 2 ^ 53).
    { apply Z.div_lt_upper_bound; [exact Hk |]. rewrite <- Z.pow_add_r by lia.
      eapply Z.lt_le_trans; [exact Hhi |]. apply Z.pow_le_mono_r; lia. }
    split; [split; [apply Z.div_pos; lia | exact Hm1] |].
    split; [lia |]. split; [lia |]. split.
    + intros Hpos Hz. destruct (Z.eq_dec (ex + Z.pos k) (-1074)) as [E | E]; [exact E |].
      exfalso. assert (Z.pos k = Zdigits2 mx - 53) by lia.
      assert (0 < mx) by (destruct mx; cbn in *; lia).
      assert (2 ^ Z.pos k <= 2 ^ (Zdigits2 mx - 1)) by (apply Z.pow_le_mono_r; lia).
      assert (1 <= mx / 2 ^ Z.pos k) by (apply Z.div_le_lower_bound; [exact Hk | lia]).
      lia.
    + exists (V * Qpower (1 # 2) (Z.pos k))%Q. split.
      * exact Hin.
      * rewrite two_power_plus.
        transitivity (V * Qpower 2 ex * (Qpower (1 # 2) (Z.pos k) * Qpower 2 (Z.pos k)))%Q;
          [ring |]. rewrite half_power_two. ring.
  - rewrite Hrm, Hrl.
    assert (2 ^ Zdigits2 mx <= 2 ^ 53) by (apply Z.pow_le_mono_r; lia).
    repeat split; try lia. exists V. split; [exact HV | reflexivity].
Qed.

Lemma scaled_error (a v : Q) (e : Z) :
  (Qabs (a - v) <= 1 # 2)%Q ->
  (Qabs (a * Qpower 2 e - v * Qpower 2 e) <= Qpower 2 (e - 1))%Q.
Proof.
  intros H. pose proof (two_power_pos e) as HP.
  assert (E : (a * Qpower 2 e - v * Qpower 2 e == (a - v) * Qpower 2 e)%Q) by ring.
  rewrite E, Qabs_Qmult, (Qabs_pos (Qpower 2 e)) by (apply Qlt_le_weak, HP).
  rewrite two_power_pred. apply Qmult_le_compat_r; [exact H | apply Qlt_le_weak, HP].
Qed.

(** Rounding a number that lies between two integers of the given exponent:
    the result is at most half a unit of its own exponent away. *)
Lemma binary_round_aux_error (s : bool) (mx ex : Z) (lx : location) (V : Q) :
  0 <= mx -> inbetween mx lx V ->
  match binary_round_aux prec emax s mx ex lx with
  | S754_finite s' m e =>
      s' = s
      /\ (Qabs (inject_Z (Z.pos m) * Qpower 2 e - V * Qpower 2 ex) <= Qpower 2 (e - 1))%Q
  | S754_zero s' =>
      s' = s
      /\ (0 < mx \/ ex <= -1074 -> (Qabs (V * Qpower 2 ex) <= Qpower 2 (-1075))%Q)
  | S754_infinity s' =>
      s' = s /\ 971 <= Z.max ex (fexp prec emax (Zdigits2 mx + ex))
  | S754_nan => False
  end.
Proof.
  intros Hm HV. unfold binary_round_aux.
  pose proof (shr_fexp_spec mx ex lx V Hm HV) as H1. cbv zeta in H1.
  destruct (shr_fexp prec emax mx ex lx) as [mrs' e1]. cbn [fst snd] in H1.
  destruct H1 as ([Hm1 Hm1'] & He1 & Hmax & Hzero & v1 & Hin & Hval).
  rewrite <- Hmax.
  destruct (round_nearest_even_near _ _ _ Hin) as [Hnear Hrange].
  set (m2 := round_nearest_even (shr_m mrs') (loc_of_shr_record mrs')) in *.
  assert (E53 : 2 ^ 53 = 9007199254740992) by reflexivity.
  destruct (Z.eq_dec m2 (2 ^ 53)) as [Ebig | Hsmall].
  - (* the mantissa has grown to 2^53: one more shift, which is exact *)
    rewrite Ebig. unfold shr_fexp.
    change (Zdigits2 (2 ^ 53)) with 54.
    replace (fexp prec emax (54 + e1) - e1) with 1
      by (unfold fexp, SpecFloat.emin; change prec with 53; change emax with 1024; lia).
    cbn [shr SpecFloat.iter_pos]. change (shr_m (shr_1 (shr_record_of_loc (2 ^ 53) loc_Exact)))
      with (Z.pos (2 ^ 52)).
    destruct (Z.leb_spec (e1 + 1) (emax - prec)) as [Hle | Hgt];
      [| split; [reflexivity | change prec with 53 in Hgt; change emax with 1024 in Hgt; lia]].
    split; [reflexivity |]. rewrite <- Hval.
    assert (E : (inject_Z (Z.pos (2 ^ 52)) * Qpower 2 (e1 + 1)
                 == inject_Z m2 * Qpower 2 e1)%Q).
    { rewrite two_power_succ, Ebig.
      transitivity ((inject_Z (Z.pos (2 ^ 52)) * 2) * Qpower 2 e1)%Q; [ring |].
      apply Qmult_comp; [reflexivity | reflexivity]. }
    rewrite E.
    eapply Qle_trans; [apply scaled_error, Hnear |].
    replace (e1 + 1 - 1) with e1 by lia. rewrite two_power_pred.
    pose proof (two_power_pos e1). lra.
  - assert (Hd2 : Zdigits2 m2 <= 53).
    { destruct (Zdigits2_bound m2 ltac:(lia)) as [_ Hlo].
      destruct (Z.eq_dec m2 0) as [-> | Hnz]; [cbn; lia |].
      destruct (Z.le_gt_cases (Zdigits2 m2) 53) as [? | Hgt]; [assumption |].
      exfalso. assert (2 ^ 53 <= 2 ^ (Zdigits2 m2 - 1)) by (apply Z.pow_le_mono_r; lia).
      specialize (Hlo ltac:(lia)). lia. }
    unfold shr_fexp.
    assert (Hn2 : fexp prec emax (Zdigits2 m2 + e1) - e1 <= 0)
      by (unfold fexp, SpecFloat.emin; change prec with 53; change emax with 1024; lia).
    unfold shr. destruct (fexp prec emax (Zdigits2 m2 + e1) - e1) as [| k | k]; [| lia |];
      cbn [shr_record_of_loc shr_m].
    + destruct m2 as [| p | p] eqn:Em2; [| | lia].
      * split; [reflexivity |]. intros Hpos. rewrite <- Hval.
        rewrite (Hzero Hpos ltac:(lia)).
        assert (E : (v1 * Qpower 2 (-1074) == - (inject_Z 0 * Qpower 2 (-1074)
                                                 - v1 * Qpower 2 (-1074)))%Q) by ring.
        rewrite E, Qabs_opp. apply (scaled_error _ _ (-1074)), Hnear.
      * destruct (Z.leb_spec e1 (emax - prec)) as [Hle | Hgt];
          [| split; [reflexivity
                    | change prec with 53 in Hgt; change emax with 1024 in Hgt; lia]].
        split; [reflexivity |]. rewrite <- Hval. apply scaled_error, Hnear.
    + destruct m2 as [| p | p] eqn:Em2; [| | lia].
      * split; [reflexivity |]. intros Hpos. rewrite <- Hval.
        rewrite (Hzero Hpos ltac:(lia)).
        assert (E : (v1 * Qpower 2 (-1074) == - (inject_Z 0 * Qpower 2 (-1074)
                                                 - v1 * Qpower 2 (-1074)))%Q) by ring.
        rewrite E, Qabs_opp. apply (scaled_error _ _ (-1074)), Hnear.
      * destruct (Z.leb_spec e1 (emax - prec)) as [Hle | Hgt];
          [| split; [reflexivity
                    | change prec with 53 in Hgt; change emax with 1024 in Hgt; lia]].
        split; [reflexivity |]. rewrite <- Hval. apply scaled_error, Hnear.
Qed.

(** *** Products *)

Lemma signed_value (s : bool) (m : positive) :
  (inject_Z (if s then Z.neg m else Z.pos m) == signOf s * inject_Z (Z.pos m))%Q.
Proof.
  destruct s; unfold signOf; [| ring].
  change (Z.neg m) with (- Z.pos m). rewrite inject_Z_opp. ring.
Qed.

Lemma signOf_xorb (a b : bool) : (signOf (xorb a b) == signOf a * signOf b)%Q.
Proof. destruct a, b; reflexivity. Qed.

Lemma Qabs_signOf (s : bool) (x : Q) : (Qabs (signOf s * x) == Qabs x)%Q.
Proof.
  destruct s; unfold signOf.
  - assert (E : (-1 * x == - x)%Q) by ring. rewrite E. apply Qabs_opp.
  - assert (E : (1 * x == x)%Q) by ring. rewrite E. reflexivity.
Qed.

(** Half a unit of the exponent of a double is at most one part in 2^53 of
    the double, or 2^-1075. *)
Lemma half_ulp (x : float) (s : bool) (m : positive) (e : Z) :
  Prim2SF x = S754_finite s m e ->
  (Qpower 2 (e - 1)
   <= Qabs (signOf s * (inject_Z (Z.pos m) * Qpower 2 e)) * Qpower 2 (-53)
      + Qpower 2 (-1075))%Q.
Proof.
  intros E. destruct (finite_valid _ _ _ _ E) as [V1 _].
  unfold fexp, SpecFloat.emin in V1. change prec with 53 in V1. change emax with 1024 in V1.
  rewrite Qabs_signOf.
  pose proof (two_power_pos e) as HP. pose proof (two_power_pos (-1075)) as HQ.
  rewrite Qabs_pos
    by (apply Qmult_le_0_compat; [unfold Qle; cbn; lia | apply Qlt_le_weak, HP]).
  destruct (Z.eq_dec e (-1074)) as [-> | Hne].
  - change (-1074 - 1) with (-1075).
    assert (0 <= inject_Z (Z.pos m) * Qpower 2 (-1074) * Qpower 2 (-53))%Q.
    { repeat apply Qmult_le_0_compat; try (apply Qlt_le_weak, two_power_pos).
      unfold Qle; cbn; lia. }
    lra.
  - assert (Hd : Z.pos (digits2_pos m) = 53) by lia.
    pose proof (digits2_pos_bounds m) as [Hlo _]. rewrite Hd in Hlo.
    assert (Hm : (inject_Z (2 ^ 52) <= inject_Z (Z.pos m))%Q) by (rewrite <- Zle_Qle; exact Hlo).
    assert (E1 : (Qpower 2 (e - 1) == inject_Z (2 ^ 52) * Qpower 2 e * Qpower 2 (-53))%Q).
    { rewrite two_power_pred.
      assert (E2 : (inject_Z (2 ^ 52) * Qpower 2 (-53) == 1 # 2)%Q) by reflexivity.
      rewrite <- E2. ring. }
    rewrite E1.
    assert ((inject_Z (2 ^ 52) * Qpower 2 e * Qpower 2 (-53)
             <= inject_Z (Z.pos m) * Qpower 2 e * Qpower 2 (-53))%Q).
    { repeat apply Qmult_le_compat_r; try (apply Qlt_le_weak, two_power_pos). exact Hm. }
    lra.
Qed.

Lemma toQ_finite (x : float) (s : bool) (m : positive) (e : Z) :
  Prim2SF x = S754_finite s m e ->
  exists v, toQ x = Some v /\ (v == signOf s * (inject_Z (Z.pos m) * Qpower 2 e))%Q.
Proof.
  intros E. unfold toQ. rewrite E. eexists. split; [reflexivity |].
  rewrite signed_value. ring.
Qed.

(** The product of two finite doubles, when it is finite, is the product of
    their values as binary64 rounds it. *)
Lemma mul_near (x y : float) (vx vy q : Q) :
  toQ x = Some vx -> toQ y = Some vy -> toQ (PrimFloat.mul x y) = Some q ->
  Near64 q (vx * vy).
Proof.
  intros Hx Hy Hq. unfold Near64.
  assert (Hzero : forall a : Q, (a == 0)%Q -> (q == 0)%Q ->
            (Qabs (q - a) <= Qabs q * Qpower 2 (-53) + Qpower 2 (-1075))%Q).
  { intros a Ha Hq0. rewrite Ha, Hq0.
    assert (E : (0 - 0 == 0)%Q) by ring. rewrite E. change (Qabs 0) with 0%Q.
    pose proof (two_power_pos (-1075)). lra. }
  pose proof (FloatAxioms.mul_spec x y) as Hm. unfold SF64mul, SFmul in Hm.
  destruct (Prim2SF x) as [sx | sx | | sx mx ex] eqn:Ex;
    try (unfold toQ in Hx; rewrite Ex in Hx; discriminate Hx);
    destruct (Prim2SF y) as [sy | sy | | sy my ey] eqn:Ey;
    try (unfold toQ in Hy; rewrite Ey in Hy; discriminate Hy).
  - unfold toQ in Hx, Hq. rewrite Ex in Hx. rewrite Hm in Hq.
    injection Hx as <-. injection Hq as <-. apply Hzero; [ring | reflexivity].
  - unfold toQ in Hx, Hq. rewrite Ex in Hx. rewrite Hm in Hq.
    injection Hx as <-. injection Hq as <-. apply Hzero; [ring | reflexivity].
  - unfold toQ in Hy, Hq. rewrite Ey in Hy. rewrite Hm in Hq.
    injection Hy as <-. injection Hq as <-. apply Hzero; [ring | reflexivity].
  - destruct (toQ_finite _ _ _ _ Ex) as (vx' & Hx' & Evx).
    destruct (toQ_finite _ _ _ _ Ey) as (vy' & Hy' & Evy).
    rewrite Hx in Hx'. injection Hx' as <-. rewrite Hy in Hy'. injection Hy' as <-.
    pose proof (binary_round_aux_error (xorb sx sy) (Z.pos (mx * my)) (ex + ey) loc_Exact
                  (inject_Z (Z.pos (mx * my))) ltac:(lia) ltac:(reflexivity)) as Herr.
    rewrite <- Hm in Herr.
    assert (Eprod : (vx * vy == signOf (xorb sx sy)
                                * (inject_Z (Z.pos (mx * my)) * Qpower 2 (ex + ey)))%Q).
    { rewrite Evx, Evy, signOf_xorb, two_power_plus, Pos2Z.inj_mul, inject_Z_mult. ring. }
    destruct (Prim2SF (PrimFloat.mul x y)) as [s' | s' | | s' m e] eqn:Ep.
    + unfold toQ in Hq. rewrite Ep in Hq. injection Hq as <-.
      destruct Herr as [_ Herr]. specialize (Herr ltac:(lia)).
      assert (E : (0 - vx * vy == - (vx * vy))%Q) by ring.
      rewrite E, Qabs_opp, Eprod, Qabs_signOf.
      eapply Qle_trans; [exact Herr |]. change (Qabs 0) with 0%Q.
      pose proof (two_power_pos (-1075)). lra.
    + unfold toQ in Hq. rewrite Ep in Hq. discriminate Hq.
    + contradiction.
    + destruct Herr as [-> Herr].
      destruct (toQ_finite _ _ _ _ Ep) as (q' & Hq' & Eq').
      rewrite Hq in Hq'. injection Hq' as <-.
      pose proof (half_ulp _ _ _ _ Ep) as Hulp. rewrite <- Eq' in Hulp.
      eapply Qle_trans; [| exact Hulp].
      rewrite Eq', Eprod.
      assert (E : (signOf (xorb sx sy) * (inject_Z (Z.pos m) * Qpower 2 e)
                   - signOf (xorb sx sy) * (inject_Z (Z.pos (mx * my)) * Qpower 2 (ex + ey))
                   == signOf (xorb sx sy)
                      * (inject_Z (Z.pos m) * Qpower 2 e
                         - inject_Z (Z.pos (mx * my)) * Qpower 2 (ex + ey)))%Q) by ring.
      rewrite E, Qabs_signOf. exact Herr.
Qed.

(** *** Quotients *)

(** The place of a quotient between its integer part and the next. *)
Lemma new_location_inbetween (nb : positive) (q k : Z) :
  0 <= k < Z.pos nb ->
  inbetween q (new_location (Z.pos nb) k) (inject_Z q + (k # nb)).
Proof.
  intros Hk. unfold new_location, new_location_even, new_location_odd.
  assert (Hq : forall a b : Z, (inject_Z q + (a # nb) < inject_Z q + (b # nb))%Q
                               <-> a < b).
  { intros a b. split.
    - intros H. apply Qplus_lt_r in H. unfold Qlt in H. cbn in H.
      apply Z.mul_lt_mono_pos_r in H; lia.
    - intros H. apply Qplus_lt_r. unfold Qlt. cbn. apply Z.mul_lt_mono_pos_r; lia. }
  assert (Hhalf : forall c : Z, (inject_Z q + (1 # 2) < inject_Z q + (c # nb))%Q
                                <-> Z.pos nb < 2 * c).
  { intros c. split.
    - intros H. apply Qplus_lt_r in H. unfold Qlt in H. cbn in H. lia.
    - intros H. apply Qplus_lt_r. unfold Qlt. cbn. lia. }
  assert (Hhalf' : forall c : Z, (inject_Z q + (c # nb) < inject_Z q + (1 # 2))%Q
                                 <-> 2 * c < Z.pos nb).
  { intros c. split.
    - intros H. apply Qplus_lt_r in H. unfold Qlt in H. cbn in H. lia.
    - intros H. apply Qplus_lt_r. unfold Qlt. cbn. lia. }
  assert (H0 : (inject_Z q + (0 # nb) == inject_Z q)%Q).
  { assert (E : (0 # nb == 0)%Q) by reflexivity. rewrite E. ring. }
  assert (H1 : (inject_Z q + (Z.pos nb # nb) == inject_Z q + 1)%Q).
  { assert (E : (Z.pos nb # nb == 1)%Q) by (unfold Qeq; cbn; lia). rewrite E. reflexivity. }
  destruct (Z.even (Z.pos nb)) eqn:Ev.
  - destruct (Z.eqb_spec k 0) as [-> | Hnz]; [exact H0 |].
    destruct (Z.compare_spec (2 * k) (Z.pos nb)) as [E | E | E]; cbn [inbetween].
    + apply Qplus_inj_l. unfold Qeq. cbn. lia.
    + split; [rewrite <- H0 at 1; apply Hq; lia | apply Hhalf'; exact E].
    + split; [apply Hhalf; exact E | rewrite <- H1; apply Hq; lia].
  - destruct (Z.eqb_spec k 0) as [-> | Hnz]; [exact H0 |].
    assert (Hodd : 2 * k <> Z.pos nb).
    { intros E. rewrite <- E, Z.even_mul in Ev. discriminate Ev. }
    destruct (Z.compare_spec (2 * k + 1) (Z.pos nb)) as [E | E | E]; cbn [inbetween].
    + split; [rewrite <- H0 at 1; apply Hq; lia | apply Hhalf'; lia].
    + split; [rewrite <- H0 at 1; apply Hq; lia | apply Hhalf'; lia].
    + split; [apply Hhalf; lia | rewrite <- H1; apply Hq; lia].
Qed.

Lemma Zdigits2_le (m k : Z) : 0 <= m < 2 ^ k -> 0 <= k -> Zdigits2 m <= k.
Proof.
  intros [Hm Hlt] Hk. destruct (Z.eq_dec m 0) as [-> | Hnz]; [cbn; lia |].
  destruct (Zdigits2_bound m Hm) as [_ Hlo]. specialize (Hlo ltac:(lia)).
  destruct (Z.le_gt_cases (Zdigits2 m) k) as [? | Hgt]; [assumption |].
  exfalso. assert (2 ^ k <= 2 ^ (Zdigits2 m - 1)) by (apply Z.pow_le_mono_r; lia). lia.
Qed.

(** The integer quotient that a division rounds, its exponent and its
    place between two integers. *)
Lemma SFdiv_core_binary_spec (m1 : positive) (e1 : Z) (m2 : positive) (e2 : Z) :
  Z.pos (digits2_pos m1) <= 53 ->
  let q := fst (fst (SFdiv_core_binary prec emax (Z.pos m1) e1 (Z.pos m2) e2)) in
  let e' := snd (fst (SFdiv_core_binary prec emax (Z.pos m1) e1 (Z.pos m2) e2)) in
  let l := snd (SFdiv_core_binary prec emax (Z.pos m1) e1 (Z.pos m2) e2) in
  let delta := Z.pos (digits2_pos m1) + e1 - (Z.pos (digits2_pos m2) + e2) in
  0 <= q
  /\ (q = 0 -> e' <= -1074)
  /\ Z.max e' (fexp prec emax (Zdigits2 q + e')) <= Z.max (delta - 52) (-1074)
  /\ exists V,
       inbetween q l V
       /\ (V * Qpower 2 e'
           == (inject_Z (Z.pos m1) * Qpower 2 e1) / (inject_Z (Z.pos m2) * Qpower 2 e2))%Q.
Proof.
  intros Hd1. unfold SFdiv_core_binary. cbn [Zdigits2].
  set (d1 := Z.pos (digits2_pos m1)) in *. set (d2 := Z.pos (digits2_pos m2)).
  set (e' := Z.min (fexp prec emax (d1 + e1 - (d2 + e2))) (e1 - e2)).
  assert (Hf : fexp prec emax (d1 + e1 - (d2 + e2))
               = Z.max (d1 + e1 - (d2 + e2) - 53) (-1074)) by reflexivity.
  pose proof (digits2_pos_bounds m1) as [Hlo1 Hhi1]. fold d1 in Hlo1, Hhi1.
  pose proof (digits2_pos_bounds m2) as [Hlo2 Hhi2]. fold d2 in Hlo2, Hhi2.
  assert (Hs : 0 <= e1 - e2 - e') by (unfold e'; lia).
  set (m' := match e1 - e2 - e' with
             | 0 => Z.pos m1
             | Z.pos _ => Z.shiftl (Z.pos m1) (e1 - e2 - e')
             | Z.neg _ => 0
             end).
  assert (Hm' : m' = Z.pos m1 * 2 ^ (e1 - e2 - e')).
  { unfold m'. destruct (e1 - e2 - e') as [| p | p] eqn:Es; [cbn; lia | | lia].
    rewrite Z.shiftl_mul_pow2 by lia. reflexivity. }
  clearbody m'.
  pose proof (Z_div_mod m' (Z.pos m2) ltac:(lia)) as Hdm.
  destruct (Z.div_eucl m' (Z.pos m2)) as [q r]. cbn [fst snd]. destruct Hdm as [Hdm Hr].
  assert (Hpow : 0 < 2 ^ (e1 - e2 - e')) by (apply Z.pow_pos_nonneg; lia).
  assert (Hq : 0 <= q) by nia.
  split; [exact Hq |]. split.
  { intros ->. destruct (Z.le_gt_cases e' (-1074)) as [? | Hgt]; [assumption |]. exfalso.
    assert (e1 - e2 - e' = 53 - d1 + d2) by (unfold e' in *; lia).
    assert (2 ^ d2 <= 2 ^ (e1 - e2 - e')) by (apply Z.pow_le_mono_r; lia).
    nia. }
  split.
  { assert (Hqd : Zdigits2 q <= Z.max 0 (d1 + (e1 - e2 - e') - d2 + 1)).
    { destruct (Z.eq_dec q 0) as [-> | Hnz]; [cbn; lia |].
      assert (Hlt : m' < 2 ^ (d1 + (e1 - e2 - e'))).
      { rewrite Hm', Z.pow_add_r by lia. nia. }
      assert (Hge : 2 ^ (d2 - 1) <= m') by nia.
      assert (Hk : 0 < d1 + (e1 - e2 - e') - d2 + 1).
      { destruct (Z.lt_ge_cases 0 (d1 + (e1 - e2 - e') - d2 + 1)) as [? | Hle]; [assumption |].
        exfalso.
        assert (2 ^ (d1 + (e1 - e2 - e')) <= 2 ^ (d2 - 1)) by (apply Z.pow_le_mono_r; lia).
        lia. }
      rewrite Z.max_r by lia. apply Zdigits2_le; [split; [exact Hq |] | lia].
      assert (E : 2 ^ (d1 + (e1 - e2 - e'))
                  = 2 ^ (d1 + (e1 - e2 - e') - d2 + 1) * 2 ^ (d2 - 1)).
      { rewrite <- Z.pow_add_r by lia. f_equal. lia. }
      assert (0 < 2 ^ (d1 + (e1 - e2 - e') - d2 + 1)) by (apply Z.pow_pos_nonneg; lia).
      assert (0 < 2 ^ (d2 - 1)) by (apply Z.pow_pos_nonneg; lia).
      nia. }
    unfold fexp, SpecFloat.emin. change prec with 53. change emax with 1024.
    unfold e' in *. lia. }
  exists (inject_Z q + (r # m2))%Q. split; [apply new_location_inbetween; lia |].
  assert (E1 : (inject_Z q + (r # m2) == inject_Z m' / inject_Z (Z.pos m2))%Q).
  { rewrite Hdm, inject_Z_plus, inject_Z_mult, (Qmake_Qdiv r m2).
    field. unfold Qeq. cbn. lia. }
  rewrite E1, Hm', inject_Z_mult.
  assert (E2 : (Qpower 2 e1 == Qpower 2 (e1 - e2 - e') * Qpower 2 e' * Qpower 2 e2)%Q).
  { assert (Ee : e1 = e1 - e2 - e' + e' + e2) by lia.
    rewrite Ee at 1. rewrite !two_power_plus. reflexivity. }
  rewrite E2, <- (Zpower_Qpower 2 (e1 - e2 - e')) by lia.
  change (inject_Z 2) with 2%Q.
  assert (~ (inject_Z (Z.pos m2) == 0)%Q) by (unfold Qeq; cbn; lia).
  pose proof (two_power_pos e2) as HP2.
  assert (~ (Qpower 2 e2 == 0)%Q) by lra.
  field. split; assumption.
Qed.

(** The quotient of two finite doubles, when it is finite, is the quotient
    of their values as binary64 rounds it. *)
Lemma div_near (x y : float) (vx vy q : Q) :
  toQ x = Some vx -> toQ y = Some vy -> toQ (PrimFloat.div x y) = Some q ->
  Near64 q (vx / vy).
Proof.
  intros Hx Hy Hq. unfold Near64.
  pose proof (FloatAxioms.div_spec x y) as Hm. unfold SF64div, SFdiv in Hm.
  destruct (Prim2SF x) as [sx | sx | | sx mx ex] eqn:Ex;
    try (unfold toQ in Hx; rewrite Ex in Hx; discriminate Hx);
    destruct (Prim2SF y) as [sy | sy | | sy my ey] eqn:Ey;
    try (unfold toQ in Hy; rewrite Ey in Hy; discriminate Hy);
    try (unfold toQ in Hq; rewrite Hm in Hq; discriminate Hq).
  - unfold toQ in Hx, Hq. rewrite Ex in Hx. rewrite Hm in Hq.
    injection Hx as <-. injection Hq as <-.
    assert (E : (0 - 0 / vy == 0)%Q) by (unfold Qdiv; ring).
    rewrite E. change (Qabs 0) with 0%Q.
    pose proof (two_power_pos (-1075)). lra.
  - destruct (toQ_finite _ _ _ _ Ex) as (vx' & Hx' & Evx).
    destruct (toQ_finite _ _ _ _ Ey) as (vy' & Hy' & Evy).
    rewrite Hx in Hx'. injection Hx' as <-. rewrite Hy in Hy'. injection Hy' as <-.
    destruct (finite_valid _ _ _ _ Ex) as [Vx _].
    assert (Hd : Z.pos (digits2_pos mx) <= 53).
    { unfold fexp, SpecFloat.emin in Vx. change prec with 53 in Vx.
      change emax with 1024 in Vx. lia. }
    pose proof (SFdiv_core_binary_spec mx ex my ey Hd) as Hcore.
    destruct (SFdiv_core_binary prec emax (Z.pos mx) ex (Z.pos my) ey) as [[mz ez] lz].
    cbn [fst snd] in Hcore. cbv zeta in Hcore.
    destruct Hcore as (Hmz & Hzero & _ & V & Hin & HV).
    pose proof (binary_round_aux_error (xorb sx sy) mz ez lz V Hmz Hin) as Herr.
    rewrite <- Hm in Herr.
    pose proof (two_power_pos ex) as HPx. pose proof (two_power_pos ey) as HPy.
    assert (Hmy : ~ (inject_Z (Z.pos my) == 0)%Q) by (unfold Qeq; cbn; lia).
    assert (HPy' : ~ (Qpower 2 ey == 0)%Q) by lra.
    assert (Equo : (vx / vy == signOf (xorb sx sy) * (V * Qpower 2 ez))%Q).
    { rewrite HV, Evx, Evy.
      destruct sx, sy; unfold signOf; cbn [xorb]; field; split; assumption. }
    destruct (Prim2SF (PrimFloat.div x y)) as [s' | s' | | s' m e] eqn:Ep.
    + unfold toQ in Hq. rewrite Ep in Hq. injection Hq as <-.
      destruct Herr as [_ Herr].
      assert (Hpre : 0 < mz \/ ez <= -1074).
      { destruct (Z.eq_dec mz 0) as [E0 | Hnz]; [right; apply Hzero, E0 | left; lia]. }
      specialize (Herr Hpre).
      assert (E : (0 - vx / vy == - (vx / vy))%Q) by ring.
      rewrite E, Qabs_opp, Equo, Qabs_signOf.
      eapply Qle_trans; [exact Herr |]. change (Qabs 0) with 0%Q.
      pose proof (two_power_pos (-1075)). lra.
    + unfold toQ in Hq. rewrite Ep in Hq. discriminate Hq.
    + contradiction.
    + destruct Herr as [-> Herr].
      destruct (toQ_finite _ _ _ _ Ep) as (q' & Hq' & Eq').
      rewrite Hq in Hq'. injection Hq' as <-.
      pose proof (half_ulp _ _ _ _ Ep) as Hulp. rewrite <- Eq' in Hulp.
      eapply Qle_trans; [| exact Hulp].
      rewrite Eq', Equo.
      assert (E : (signOf (xorb sx sy) * (inject_Z (Z.pos m) * Qpower 2 e)
                   - signOf (xorb sx sy) * (V * Qpower 2 ez)
                   == signOf (xorb sx sy)
                      * (inject_Z (Z.pos m) * Qpower 2 e - V * Qpower 2 ez))%Q) by ring.
      rewrite E, Qabs_signOf. exact Herr.
Qed.

(** A finite double divided by a finite double that is 2 or more is finite:
    the quotient cannot overflow. *)
Lemma div_finite (x y : float) (vx : Q) (sy : bool) (my : positive) (ey : Z) :
  toQ x = Some vx -> Prim2SF y = S754_finite sy my ey ->
  2 <= Z.pos (digits2_pos my) + ey ->
  exists r, toQ (PrimFloat.div x y) = Some r.
Proof.
  intros Hx Ey Hy.
  pose proof (FloatAxioms.div_spec x y) as Hm. unfold SF64div, SFdiv in Hm.
  rewrite Ey in Hm.
  destruct (Prim2SF x) as [sx | sx | | sx mx ex] eqn:Ex;
    try (unfold toQ in Hx; rewrite Ex in Hx; discriminate Hx).
  - unfold toQ. rewrite Hm. eexists. reflexivity.
  - destruct (finite_valid _ _ _ _ Ex) as [Vx Vx'].
    unfold fexp, SpecFloat.emin in Vx. change prec with 53 in Vx. change emax with 1024 in Vx.
    assert (Hd : Z.pos (digits2_pos mx) <= 53) by lia.
    pose proof (SFdiv_core_binary_spec mx ex my ey Hd) as Hcore.
    destruct (SFdiv_core_binary prec emax (Z.pos mx) ex (Z.pos my) ey) as [[mz ez] lz].
    cbn [fst snd] in Hcore. cbv zeta in Hcore.
    destruct Hcore as (Hmz & _ & Hmax & V & Hin & _).
    pose proof (binary_round_aux_error (xorb sx sy) mz ez lz V Hmz Hin) as Herr.
    rewrite <- Hm in Herr. unfold toQ.
    destruct (Prim2SF (PrimFloat.div x y)) as [s' | s' | | s' m e].
    + eexists. reflexivity.
    + exfalso. destruct Herr as [_ Herr]. lia.
    + contradiction.
    + eexists. reflexivity.
Qed.

(** The value of the double 10. *)
Lemma ten_finite :
  exists m e, Prim2SF (Binary64.of_Z 10) = S754_finite false m e
              /\ 2 <= Z.pos (digits2_pos m) + e.
Proof. eexists _, _. split; [vm_compute; reflexivity | vm_compute; discriminate]. Qed.

(** [round1] in real numbers: ten times a finite amount, as binary64 rounds
    the product; the integer nearest to that, ties upwards; and a tenth of
    the integer, as binary64 rounds the quotient. *)
Lemma round1_near (x : float) (v q : Q) :
  toQ x = Some v -> toQ (PrimFloat.mul x (Binary64.of_Z 10)) = Some q ->
  Near64 q (10 * v)
  /\ exists n r, NearestInteger q n /\ toQ (round1 x) = Some r
                 /\ Near64 r (inject_Z n / 10).
Proof.
  intros Hx Hq.
  destruct (of_Z_holds 10 ltac:(vm_compute; reflexivity)) as (v10 & H10 & E10).
  change (inject_Z 10) with 10%Q in E10.
  split.
  - pose proof (mul_near _ _ _ _ _ Hx H10 Hq) as Hn. unfold Near64 in *.
    assert (E : (10 * v == v * v10)%Q) by (rewrite E10; ring).
    rewrite E. exact Hn.
  - destruct (Math_round_nearest _ _ Hq) as (n & Hn & vk & Hk & Ek).
    destruct ten_finite as (m10 & e10 & E & Hbig).
    destruct (div_finite _ _ _ _ _ _ Hk E Hbig) as (r & Hr).
    exists n, r. split; [exact Hn |]. split; [exact Hr |].
    pose proof (div_near _ _ _ _ _ Hk H10 Hr) as Hd. unfold Near64 in *.
    assert (E' : (inject_Z n / 10 == vk / v10)%Q) by (rewrite E10, Ek; reflexivity).
    rewrite E'. exact Hd.
Qed.

End Binary64Facts.

(** ** The dates of stored meals *)

Module StoredDateFacts.
Import DateFacts SortFacts PlanFacts UserFacts ServerFacts SlotFacts MoreDateFacts MorePlanFacts.

Lemma parseDateOnly_year (s : string) (t : Z) :
  parseDateOnly s = Some t -> 0 <= YearFromTime t <= 9999.
Proof.
  intros H. pose proof (parseDateOnly_Some _ _ H) as (Hf & _ & _).
  pose proof (parseDateOnly_formatDateOnly t) as Hp. rewrite Hf, H in Hp.
  destruct (Z.leb_spec 0 (YearFromTime t)), (Z.leb_spec (YearFromTime t) 9999);
    cbn [andb] in Hp; try discriminate Hp. lia.
Qed.

Lemma year_CalendarDateString (t : Z) :
  0 <= YearFromTime t <= 9999 -> CalendarDateString (formatDateOnly t).
Proof.
  intros [Hlo Hhi]. pose proof (parseDateOnly_formatDateOnly t) as Hp.
  rewrite (proj2 (Z.leb_le _ _) Hlo), (proj2 (Z.leb_le _ _) Hhi) in Hp. cbn [andb] in Hp.
  apply parseDateOnly_Some in Hp. tauto.
Qed.

(** Date strings of this kind are ordered as their days are. *)
Lemma compare_parsed (a b : string) (ta tb : Z) :
  parseDateOnly a = Some ta -> parseDateOnly b = Some tb ->
  (String.compare a b = Lt <-> ta < tb) /\ (String.compare a b = Eq <-> ta = tb).
Proof.
  intros Ha Hb.
  pose proof (parseDateOnly_year _ _ Ha) as Hya. pose proof (parseDateOnly_year _ _ Hb) as Hyb.
  pose proof (parseDateOnly_Some _ _ Ha) as (Hfa & _ & Hma).
  pose proof (parseDateOnly_Some _ _ Hb) as (Hfb & _ & Hmb).
  pose proof (localeCompare_formatDateOnly ta tb Hya Hyb) as Hc.
  rewrite Hfa, Hfb in Hc. unfold localeCompare in Hc.
  assert (Hda : ta = Day ta * msPerDay)
    by (unfold Day, msPerDay in *; pose proof (Z.div_mod ta 86400000); lia).
  assert (Hdb : tb = Day tb * msPerDay)
    by (unfold Day, msPerDay in *; pose proof (Z.div_mod tb 86400000); lia).
  assert (Hms : 0 < msPerDay) by (unfold msPerDay; lia).
  destruct (String.compare a b); split; split; try discriminate; intros H; try reflexivity;
    try (exfalso; nia); nia.
Qed.

Lemma readMeals_years (weekStart : Z) (input : list MealInput) (meals : list Meal) :
  readMeals weekStart input = inr meals ->
  Forall (fun m => 0 <= YearFromTime (meal_date m) <= 9999) meals.
Proof.
  intros H. apply readMeals_inr in H.
  induction H as [| i m input meals (Hp & _) _ IH]; constructor; [| exact IH].
  eapply parseDateOnly_year, Hp.
Qed.

Lemma PUT_meal_plans_dates (userId : string) (body : PutBody) (db : Db) :
  StoredDatesInRange db -> StoredDatesInRange (snd (PUT_meal_plans userId body db)).
Proof.
  unfold StoredDatesInRange. intros Hdb.
  destruct (PUT_meal_plans_cases userId body db)
    as [(reply & db' & -> & (_ & _ & _ & Hpm) & _)
       | (weekStart & meals & planId & views0 & db' & _ & _ & Hrm & _ & _ & -> & _ & _ & _ & _
          & Hpm & _)];
    cbn [snd]; rewrite Hpm; [exact Hdb |].
  apply Forall_app. split.
  - apply Forall_forall. intros r Hr.
    apply list_elem_of_filter in Hr as [_ Hr].
    rewrite Forall_forall in Hdb. apply Hdb, Hr.
  - apply readMeals_years in Hrm. apply Forall_fmap.
    eapply Forall_impl; [exact Hrm |]. intros m Hm. exact Hm.
Qed.

Lemma handle_dates (request : Request) (db : Db) :
  StoredDatesInRange db -> StoredDatesInRange (snd (handle request db)).
Proof.
  intros Hdb. destruct (handle_plans request db) as [(token & body & ->) | (_ & Hpm & _)].
  - cbn [handle]. unfold authenticated, authenticate. apply PUT_meal_plans_dates, Hdb.
  - unfold StoredDatesInRange. rewrite Hpm. exact Hdb.
Qed.

Lemma serve_dates (requests : list Request) (db : Db) :
  StoredDatesInRange db -> StoredDatesInRange (snd (serve requests db)).
Proof.
  revert db. induction requests as [| request rest IH]; intros db Hdb; [exact Hdb |].
  rewrite serve_snd_cons. apply IH, handle_dates, Hdb.
Qed.

(** The meals [GET /meal-plans] answers with carry the stored dates. *)
Lemma GET_meal_plans_views (userId ws : string) (db : Db) (id : option string)
    (ws' : string) (views : list MealView) :
  StoredDatesInRange db ->
  fst (GET_meal_plans userId ws db) = Send 200 (B_plan id ws' views) ->
  Forall (fun v => CalendarDateString (view_date v)) views.
Proof.
  intros Hdb Hget. rewrite GET_meal_plans_run in Hget.
  destruct (parseDateOnly ws); [| discriminate Hget]. cbn [fst] in Hget.
  destruct (toViews _) as [views0 |] eqn:Hv; [| discriminate Hget].
  injection Hget as _ _ <-.
  rewrite Array_sort_Permutation.
  destruct (planOf db userId z) as [plan |]; cbn [fmap option_fmap from_option] in Hv.
  - unfold includeMeals in Hv. cbn [pwm_meals] in Hv.
    apply toViews_rows in Hv as [Hret _].
    apply Forall_forall. intros v Hv.
    assert (Hin : returned v ∈ returned <$> views0) by (apply list_elem_of_fmap; eauto).
    rewrite Hret in Hin. apply list_elem_of_fmap in Hin as (r & Hr & Hin).
    apply list_elem_of_filter in Hin as [_ Hin].
    unfold StoredDatesInRange in Hdb. rewrite Forall_forall in Hdb.
    specialize (Hdb r Hin).
    unfold returned, stored in Hr. injection Hr as -> _ _.
    apply year_CalendarDateString, Hdb.
  - cbn in Hv. injection Hv as <-. constructor.
Qed.

(** So do the meals [PUT /meal-plans] answers with, whatever is stored. *)
Lemma PUT_meal_plans_views (userId : string) (body : PutBody) (db : Db) (id : option string)
    (ws : string) (views : list MealView) :
  fst (PUT_meal_plans userId body db) = Send 200 (B_plan id ws views) ->
  Forall (fun v => CalendarDateString (view_date v)) views.
Proof.
  intros Hput. destruct (PUT_meal_plans userId body db) as [r db'] eqn:E.
  cbn [fst] in Hput. subst r.
  apply PUT_meal_plans_ok in E as (weekStart & meals & planId & views0 & _ & _ & -> & O).
  rewrite Array_sort_Permutation.
  pose proof (readMeals_years _ _ _ (out_read _ _ _ _ _ _ _ _ O)) as Hy.
  pose proof (toViews_stored _ _ _ _ (out_views _ _ _ _ _ _ _ _ O)) as F.
  clear O. induction F as [| m v meals views0 (r & _ & ->) _ IH]; constructor.
  - cbn [view_date]. apply year_CalendarDateString. inversion Hy; assumption.
  - apply IH. inversion Hy; assumption.
Qed.

End StoredDateFacts.

(** * The claims on the sort and on the numbers *)

Import DateFacts SortFacts PlanFacts UserFacts ServerFacts SlotFacts NumberFacts.
Import MoreDateFacts MorePlanFacts StoredDateFacts Binary64Facts.

(** C4. The meals of every plan that [GET /meal-plans] or [PUT /meal-plans]
    answers with are sorted, when the dates stored are in the years 0 to
    9999, as every date is that the server itself has stored: each meal comes
    before every later one in the order that compares the dates as strings
    and, for equal dates, the ranks of the slots. The dates of the answer are
    calendar dates written [YYYY-MM-DD], strings of digits and hyphens, on
    which the order of the strings is the order of the days. The rank the
    code gives a slot is 0 for breakfast, 1 for lunch, 2 for afternoon_snack,
    3 for dinner, and 4 for anything else. *)
Theorem C4_meals_sorted (userId : string) (db : Db) (reply : Reply)
    (id : option string) (ws : string) (meals : list MealView)
    (Hstored : StoredDatesInRange db)
    (Hfrom : (exists weekStart, fst (GET_meal_plans userId weekStart db) = reply)
             \/ (exists body, fst (PUT_meal_plans userId body db) = reply))
    (Hplan : reply = Send 200 (B_plan id ws meals)) :
  StronglySorted mealOrder meals
  /\ Forall (fun v => CalendarDateString (view_date v)) meals
  /\ (forall a b ta tb,
        parseDateOnly a = Some ta -> parseDateOnly b = Some tb ->
        (String.compare a b = Lt <-> ta < tb) /\ (String.compare a b = Eq <-> ta = tb))
  /\ (forall slot, slotRank slot = specRank slot)
  /\ (forall a b,
        CalendarDateString (view_date a) -> CalendarDateString (view_date b) ->
        (compareMeals a b <= 0 <-> mealOrder a b))
  /\ (forall requests, StoredDatesInRange (snd (serve requests db))).
Proof.
  assert (Hsorted : StronglySorted mealOrder meals
                    /\ Forall (fun v => CalendarDateString (view_date v)) meals).
  { subst reply. destruct Hfrom as [[w Hget] | [body Hput]].
    - split; [| exact (GET_meal_plans_views _ _ _ _ _ _ Hstored Hget)].
      rewrite GET_meal_plans_run in Hget.
      destruct (parseDateOnly w); [| discriminate Hget]. cbn [fst] in Hget.
      destruct (toViews _) as [views |]; [| discriminate Hget].
      injection Hget as _ _ <-. apply sorted_meals.
    - split; [| exact (PUT_meal_plans_views _ _ _ _ _ _ Hput)].
      destruct (PUT_meal_plans userId body db) as [r db'] eqn:E. cbn [fst] in Hput. subst r.
      apply PUT_meal_plans_ok in E as (_ & _ & _ & views0 & _ & _ & -> & _).
      apply sorted_meals. }
  destruct Hsorted as [H1 H2].
  split; [exact H1 |]. split; [exact H2 |].
  split; [exact compare_parsed |].
  split; [exact slotRank_specRank |].
  split; [intros a b _ _; apply compareMeals_le |].
  intros requests. apply serve_dates, Hstored.
Qed.

(** C4 at work, on the answer to a week submitted out of order. *)
Lemma C4_meals_sorted_witness :
  let reply := fst (PUT_meal_plans "u1" Sample.week Sample.db) in
  let meals :=
    [mkMealView "2024-01-01" "breakfast" "R1" "Porridge";
     mkMealView "2024-01-01" "lunch" "R2" "Soup";
     mkMealView "2024-01-02" "dinner" "R1" "Porridge"] in
  StoredDatesInRange Sample.db
  /\ reply = Send 200 (B_plan (Some "0") "2024-01-01" meals)
  /\ StronglySorted mealOrder meals.
Proof.
  intros reply meals.
  assert (Hstored : StoredDatesInRange Sample.db) by constructor.
  assert (Hplan : reply = Send 200 (B_plan (Some "0") "2024-01-01" meals))
    by (vm_compute; reflexivity).
  split; [exact Hstored |]. split; [exact Hplan |].
  apply (C4_meals_sorted "u1" Sample.db reply (Some "0") "2024-01-01" meals Hstored);
    [right; exists Sample.week; reflexivity | exact Hplan].
Defined.

(** C7, as stated, fails on the doubles the code computes with. 230 g of
    the Egg of the seed data have 21.85 g of fat, which rounds half away from
    zero to 21.9; the code computes 21.849999999999998 and answers 21.8. And
    100 g of an ingredient with 0.15 kcal per 100 g: the double the code
    holds for the total is below 0.15 and nearer to 0.1 than to 0.2, and the
    code answers 0.2, because the product by 10 is rounded to 1.5 first. *)
Lemma C7_counterexample :
  validFloatItems SampleEgg.byId SampleEgg.items = true
  /\ (fun t => fat (total (report t 1))) <$> totalsOf SampleEgg.byId SampleEgg.items
     = Some (SampleFood.dec 218 10)
  /\ fat <$> totalsOf SampleEgg.byIdQ SampleEgg.itemsQ = Some (Q2Qc (437 # 20))
  /\ RoundedHalfAway1 (Q2Qc (437 # 20)) (Q2Qc (219 # 10))
  /\ SampleFood.dec 218 10 <> SampleFood.dec 219 10
  /\ validFloatItems SampleEgg.light SampleEgg.lightItems = true
  /\ (fun t => (kcal t, kcal (total (report t 1))))
       <$> totalsOf SampleEgg.light SampleEgg.lightItems
     = Some (SampleFood.dec 15 100, SampleFood.dec 2 10)
  /\ (exists q, toQ (SampleFood.dec 15 100) = Some q
                /\ (q - (1 # 10) < (2 # 10) - q)%Q).
Proof.
  split; [vm_compute; reflexivity |].
  split; [vm_compute; reflexivity |].
  split; [unfold totalsOf; cbn -[Q2Qc]; f_equal; apply Qc_is_canon; vm_compute; reflexivity |].
  split.
  { assert (E : Q2Qc (219 # 10) = round1 (Q2Qc (437 # 20)))
      by (apply Qc_is_canon; vm_compute; reflexivity).
    rewrite E. apply round1_half_away. apply Qcle_this. vm_compute. discriminate. }
  split.
  { intros H. apply (f_equal (fun x => PrimFloat.eqb x (SampleFood.dec 219 10))) in H.
    vm_compute in H. discriminate H. }
  split; [vm_compute; reflexivity |].
  split; [vm_compute; reflexivity |].
  eexists. split; [vm_compute; reflexivity |]. vm_compute. reflexivity.
Qed.

(** C7, amended. Each of the eight values both recipe handlers answer
    with, the four totals and the four per-serving values, is [round1] of the
    double [x] the handler has computed: the quotient by 10, in binary64, of
    the integer nearest to the binary64 product [x * 10], the larger integer
    when two are equally near. So a tie goes up, which is away from zero for a
    value that is not negative only, and it is the product as binary64 has
    rounded it that is compared with the integers, not the decimal the
    ingredients add up to. In real numbers, for a finite [x] with a finite
    product: the product is ten times the value of [x] to one part in 2^53
    of itself (or 2^-1075), and the value answered is finite and a tenth of
    that nearest integer to one part in 2^53 of itself (or 2^-1075). *)
Theorem C7_nutrition_rounded (totals : Nutrition float) (servings : Z) :
  AllRounded64 totals (total (report totals servings))
  /\ AllRounded64 (perServingOf totals servings) (perServing (report totals servings))
  /\ (forall x q, toQ x = Some q ->
        exists n, NearestInteger q n /\ holdsInteger (Binary64.Math_round x) n)
  /\ (forall x v q,
        toQ x = Some v -> toQ (PrimFloat.mul x (Binary64.of_Z 10)) = Some q ->
        Near64 q (10 * v)
        /\ exists n r, NearestInteger q n /\ toQ (round1 x) = Some r
                       /\ Near64 r (inject_Z n / 10))
  /\ round1 (SampleFood.dec (-25) 100) = SampleFood.dec (-2) 10.
Proof.
  split; [apply roundNutrition_AllRounded64 |].
  split; [apply roundNutrition_AllRounded64 |].
  split; [exact Math_round_nearest |].
  split; [exact round1_near |].
  vm_compute. reflexivity.
Qed.




(** * Properties of the code beyond the specification *)

Import DateFacts SortFacts PlanFacts UserFacts ServerFacts SlotFacts NumberFacts.
Import MoreDateFacts MorePlanFacts MoreUserFacts RecipeFacts PageFacts.

(** ** Dates *)

(** X1. [addDaysUtc] moves a date by whole days of 24 hours: the result
    is the time value plus [days] times 86400000 ms, whatever the month
    lengths and leap years in between, and an invalid [Date] exactly when
    that is farther than 8.64e15 ms from the epoch. A date moved by [days]
    from the start of a week is within the week, in the sense of
    [isWithinWeek], exactly for 0 to 6 days. *)
Theorem addDaysUtc_adds_days (date days : Z) :
  addDaysUtc date days = TimeClip (date + days * msPerDay)
  /\ match addDaysUtc date days with
     | Some moved =>
         moved = date + days * msPerDay
         /\ isWithinWeek moved date = (0 <=? days) && (days <=? 6)
     | None => 8640000000000000 < Z.abs (date + days * msPerDay)
     end.
Proof.
  rewrite addDaysUtc_spec. split; [reflexivity |].
  unfold TimeClip. destruct (Z.leb_spec (Z.abs (date + days * msPerDay)) 8640000000000000).
  - split; [reflexivity |]. unfold isWithinWeek, getTime, msPerDay.
    destruct (Z.leb_spec 0 days), (Z.leb_spec days 6); cbn [andb];
      rewrite ?andb_true_iff, ?andb_false_iff, ?Z.leb_le, ?Z.leb_gt; lia.
  - lia.
Qed.

(** X2. Parsing what [formatDateOnly] wrote gives back the day: for every
    date in the years 0 to 9999, [parseDateOnly (formatDateOnly date)] is the
    midnight that starts the UTC day of [date]; outside these years
    [formatDateOnly] cuts the six-digit year of the ISO string and
    [parseDateOnly] gives [null]. The time of day never shows. *)
Theorem parse_after_format (date : Z) :
  parseDateOnly (formatDateOnly date)
  = (if (0 <=? YearFromTime date) && (YearFromTime date <=? 9999)
     then Some (Day date * msPerDay) else None)
  /\ formatDateOnly (Day date * msPerDay) = formatDateOnly date.
Proof.
  split; [apply parseDateOnly_formatDateOnly |].
  unfold formatDateOnly, toISOString, Day.
  rewrite Z.div_mul by (unfold msPerDay; lia).
  destruct (civilFromDay (date / msPerDay)) as [[y m] d].
  unfold isoYear, pad6, pad4, pad3, pad2.
  destruct ((0 <=? y) && (y <=? 9999)); [reflexivity |].
  destruct (y <? 0); reflexivity.
Qed.

(** X3. The order of the date strings is the order of the days: for two
    dates in the years 0 to 9999, [localeCompare] on what [formatDateOnly]
    writes is negative, zero or positive as the first UTC day is before, the
    same as or after the second; so the sort of the plan handlers puts the
    meals in chronological order. *)
Theorem date_strings_sort_chronologically (a b : Z)
    (Ha : 0 <= YearFromTime a <= 9999) (Hb : 0 <= YearFromTime b <= 9999) :
  localeCompare (formatDateOnly a) (formatDateOnly b) = Z.sgn (Day a - Day b).
Proof. apply localeCompare_formatDateOnly; assumption. Qed.

(** X3 at work: the last day of 1999 and the first of 2000. *)
Lemma date_strings_sort_chronologically_witness :
  formatDateOnly 946684799999 = "1999-12-31"
  /\ formatDateOnly 946684800000 = "2000-01-01"
  /\ localeCompare (formatDateOnly 946684799999) (formatDateOnly 946684800000) = -1.
Proof.
  split; [vm_compute; reflexivity |]. split; [vm_compute; reflexivity |].
  rewrite (date_strings_sort_chronologically 946684799999 946684800000);
    [reflexivity | vm_compute; split; discriminate | vm_compute; split; discriminate].
Defined.

(** ** Meal plans *)

(** X4. A [PUT /meal-plans] that does not answer 200 has changed no table:
    users, recipes, plan rows and planned meals are as before. Its answer is
    then the schema error or a 400 with a message. *)
Theorem put_failure_changes_nothing (userId : string) (body : PutBody) (db db' : Db)
    (reply : Reply)
    (Hput : PUT_meal_plans userId body db = (reply, db'))
    (Hfail : forall id ws views, reply <> Send 200 (B_plan id ws views)) :
  sameTables db db'
  /\ (reply = Throws "ZodError" \/ exists msg, reply = Send 400 (B_error msg)).
Proof.
  destruct (PUT_meal_plans_cases userId body db)
    as [(reply' & db1 & Hrun & Hs & Hr)
       | (weekStart & meals & planId & views0 & db1 & _ & _ & _ & _ & _ & Hrun & _)];
    rewrite Hrun in Hput; injection Hput as <- <-.
  - split; assumption.
  - exfalso. eapply Hfail. reflexivity.
Qed.

(** X4 at work: a save that names a recipe of another user is refused and
    leaves a plan saved before as it was. *)
Lemma put_failure_changes_nothing_witness :
  let db1 := snd (PUT_meal_plans "u1" Sample.week Sample.db) in
  let foreign := mkPutBody "2024-01-01" [mkMealInput "2024-01-03" "lunch" "R3"] in
  fst (PUT_meal_plans "u1" foreign db1)
  = Send 400 (B_error "One or more recipes were not found for this user")
  /\ sameTables db1 (snd (PUT_meal_plans "u1" foreign db1)).
Proof.
  cbv zeta. split; [vm_compute; reflexivity |].
  refine (proj1 (put_failure_changes_nothing "u1"
            (mkPutBody "2024-01-01" [mkMealInput "2024-01-03" "lunch" "R3"])
            (snd (PUT_meal_plans "u1" Sample.week Sample.db)) _ _ _ _)).
  - vm_compute. reflexivity.
  - intros id ws views. vm_compute. discriminate.
Defined.

(** X5. Saving the same plan twice in a row is the same as saving it once:
    the second [PUT /meal-plans] gives the answer of the first, plan id
    included, and leaves the tables the first left. *)
Theorem put_twice_is_put_once (userId : string) (body : PutBody) (db : Db) :
  let first := PUT_meal_plans userId body db in
  let second := PUT_meal_plans userId body (snd first) in
  fst second = fst first /\ sameTables (snd first) (snd second).
Proof.
  cbv zeta.
  destruct (PUT_meal_plans_cases userId body db)
    as [(reply & db1 & Hrun & Hs & Hr)
       | (weekStart & meals & planId & views0 & db1 & Hbp & Hws & Hrm & Hcs & Hown & Hrun
          & Hu & Hre & Hplan & Hplans & Hpm & Hv)].
  - rewrite Hrun. cbn [fst snd].
    destruct (PUT_meal_plans_ext userId body db db1 Hs) as [Hf Ht].
    rewrite Hrun in Hf, Ht. cbn [fst snd] in Hf, Ht. split; assumption.
  - rewrite Hrun. cbn [fst snd].
    assert (Hown1 : forall m, m ∈ meals -> ownedBy db1 userId (meal_recipeId m)).
    { intros m Hm. destruct (Hown m Hm) as (r & Hl & Ho). exists r. rewrite Hre. auto. }
    destruct (PUT_meal_plans_total userId body db1 weekStart meals Hbp Hws Hrm Hcs Hown1)
      as (planId' & views' & db2 & Hrun2).
    destruct (PUT_meal_plans_cases userId body db1)
      as [(reply & db2' & Hrun' & _ & Hr)
         | (weekStart' & meals' & planId2 & views2 & db2' & _ & Hws' & Hrm' & _ & _ & Hrun'
            & Hu2 & Hre2 & _ & Hplans2 & Hpm2 & Hv2)].
    { rewrite Hrun' in Hrun2. injection Hrun2 as -> _.
      destruct Hr as [Hr | [msg Hr]]; discriminate. }
    rewrite Hws in Hws'. injection Hws' as <-.
    rewrite Hrm in Hrm'. injection Hrm' as <-.
    rewrite Hplan in Hplans2. destruct Hplans2 as [Hid Hm2]. injection Hid as <-.
    rewrite (includeRecipe_tables db db1 Hre), Hv in Hv2. injection Hv2 as <-.
    rewrite Hrun'. cbn [fst snd]. split; [reflexivity |].
    repeat split; try assumption.
    rewrite Hpm2, Hpm, replaced_twice. reflexivity.
Qed.

(** X6. The server never stores a second plan row for a user and a week:
    if no user has two plan rows for the same week, none has after any
    sequence of requests to the routes of [handle]. [PUT /meal-plans]
    creates a row only when [findFirst] found none for the pair. *)
Theorem plans_stay_unique (db : Db) (requests : list Request)
    (Huniq : UniquePlans db) :
  UniquePlans (snd (serve requests db)).
Proof.
  revert db Huniq. induction requests as [| request rest IH]; intros db Huniq.
  - exact Huniq.
  - rewrite serve_snd_cons. apply IH, handle_unique, Huniq.
Qed.

(** X6 at work: two users save the same week, one of them twice. *)
Lemma plans_stay_unique_witness :
  let requests := [Req_PUT_meal_plans (Some "u1") Sample.week;
                   Req_PUT_meal_plans (Some "u2") Sample.emptyWeek;
                   Req_PUT_meal_plans (Some "u1") Sample.emptyWeek] in
  UniquePlans Sample.db
  /\ size (mealPlans (snd (serve requests Sample.db))) = 2%nat
  /\ UniquePlans (snd (serve requests Sample.db)).
Proof.
  cbv zeta.
  assert (H : UniquePlans Sample.db).
  { intros id1 id2 row1 row2 H1. cbn in H1. rewrite lookup_empty in H1. discriminate. }
  split; [exact H |]. split; [vm_compute; reflexivity |].
  exact (plans_stay_unique Sample.db _ H).
Defined.

(** X7. A save by one user does not change what another user reads: when
    no user has two plan rows for the same week, [GET /meal-plans] of user B
    answers after a [PUT /meal-plans] of user A, whatever its body and its
    outcome, as it answered before, for every week. *)
Theorem put_leaves_other_users_plans (userA userB : string) (body : PutBody)
    (ws : string) (db : Db)
    (Huniq : UniquePlans db) (Hother : userA <> userB) :
  fst (GET_meal_plans userB ws (snd (PUT_meal_plans userA body db)))
  = fst (GET_meal_plans userB ws db).
Proof.
  destruct (PUT_meal_plans_cases userA body db)
    as [(reply & db1 & Hrun & Hs & Hr)
       | (weekStartA & meals & planId & views0 & db1 & _ & _ & _ & _ & _ & Hrun
          & Hu & Hre & Hplan & Hplans & Hpm & _)];
    rewrite Hrun; cbn [snd].
  - apply GET_meal_plans_ext, Hs.
  - rewrite !GET_meal_plans_run.
    destruct (parseDateOnly ws) as [weekStart |]; [| reflexivity].
    cbn [fst].
    apply planOf_Some in Hplan as (HlA & _ & _).
    assert (Hsame : planOf db1 userB weekStart = planOf db userB weekStart).
    { destruct (planOf db userA weekStartA) as [p |].
      - destruct Hplans as [_ Hm]. apply planOf_tables, Hm.
      - destruct Hplans as [Hfresh Hm].
        apply (planOf_insert_other db db1 planId _ userB weekStart Huniq Hfresh Hm).
        cbn. tauto. }
    rewrite Hsame.
    destruct (planOf db userB weekStart) as [[pid prow] |] eqn:HB; [| reflexivity].
    cbn [fmap option_fmap option_map from_option fst].
    apply planOf_Some in HB as (HlB & HuB & _).
    assert (Hne : pid <> planId).
    { intros ->. destruct (planOf db userA weekStartA) as [p |].
      - destruct Hplans as [_ Hm]. rewrite Hm, HlB in HlA. injection HlA as ->.
        cbn in HuB. congruence.
      - destruct Hplans as [Hfresh _]. congruence. }
    assert (Hinc : includeMeals db1 (pid, prow) = includeMeals db (pid, prow)).
    { unfold includeMeals. cbn [fst snd]. rewrite Hpm, (replaced_others _ _ _ _ Hne).
      rewrite (includeRecipe_tables db db1 Hre). reflexivity. }
    rewrite Hinc. reflexivity.
Qed.

(** X7 at work: the second user reads her week before and after a save of
    the first. *)
Lemma put_leaves_other_users_plans_witness :
  let db1 := snd (PUT_meal_plans "u2" (mkPutBody "2024-01-01"
                    [mkMealInput "2024-01-05" "dinner" "R3"]) Sample.db) in
  UniquePlans db1 /\ "u1" <> "u2"
  /\ fst (GET_meal_plans "u2" "2024-01-01" (snd (PUT_meal_plans "u1" Sample.week db1)))
     = Send 200 (B_plan (Some "0") "2024-01-01"
                   [mkMealView "2024-01-05" "dinner" "R3" "Cake"]).
Proof.
  cbv zeta.
  assert (H : UniquePlans (snd (PUT_meal_plans "u2" (mkPutBody "2024-01-01"
                                  [mkMealInput "2024-01-05" "dinner" "R3"]) Sample.db))).
  { apply PUT_meal_plans_unique.
    intros id1 id2 row1 row2 H1. cbn in H1. rewrite lookup_empty in H1. discriminate. }
  split; [exact H |]. split; [discriminate |].
  rewrite (put_leaves_other_users_plans "u1" "u2" Sample.week "2024-01-01" _ H
             ltac:(discriminate)).
  vm_compute. reflexivity.
Defined.

(** X8. What [GET /meal-plans] answers with is what is stored: for a valid
    week it answers 200 with the week as it was asked, the id of the plan row
    of the user and the week, or null when there is none, and one meal for
    each planned meal stored under that plan, no more and no fewer, each with
    the name its recipe has in the recipes table. It changes no table. *)
Theorem get_shows_stored_meals (userId ws : string) (db : Db)
    (id : option string) (ws' : string) (views : list MealView)
    (Hget : fst (GET_meal_plans userId ws db) = Send 200 (B_plan id ws' views)) :
  exists weekStart,
    parseDateOnly ws = Some weekStart /\ ws' = ws
    /\ id = fst <$> planOf db userId weekStart
    /\ returned <$> views ≡ₚ stored <$> from_option (mealsOf db) [] id
    /\ Forall (fun v => exists r, recipes db !! view_recipeId v = Some r
                                  /\ view_recipeName v = recipe_name r) views
    /\ sameTables db (snd (GET_meal_plans userId ws db)).
Proof.
  pose proof (GET_meal_plans_tables userId ws db) as Ht.
  rewrite GET_meal_plans_run in Hget.
  destruct (parseDateOnly ws) as [weekStart |]; [| discriminate].
  exists weekStart. cbn [fst] in Hget.
  destruct (toViews _) as [views0 |] eqn:Hv; [| discriminate].
  injection Hget as <- <- <-.
  repeat (split; [reflexivity |]).
  assert (H : returned <$> views0 = stored <$> from_option (mealsOf db) []
                                                (fst <$> planOf db userId weekStart)
              /\ Forall (fun v => exists r, recipes db !! view_recipeId v = Some r
                                            /\ view_recipeName v = recipe_name r) views0).
  { destruct (planOf db userId weekStart) as [p |].
    - cbn [fmap option_fmap option_map from_option includeMeals pwm_meals] in Hv |- *.
      apply toViews_rows in Hv. exact Hv.
    - cbn in Hv. injection Hv as <-. split; [reflexivity | constructor]. }
  destruct H as [E F].
  split; [rewrite <- E; apply fmap_Permutation, Array_sort_Permutation |].
  split; [| exact Ht].
  rewrite Array_sort_Permutation. exact F.
Qed.

(** X8 at work, on a week saved out of order. *)
Lemma get_shows_stored_meals_witness :
  let db1 := snd (PUT_meal_plans "u1" Sample.week Sample.db) in
  exists weekStart,
    parseDateOnly "2024-01-01" = Some weekStart /\ "2024-01-01" = "2024-01-01"
    /\ Some "0" = fst <$> planOf db1 "u1" weekStart
    /\ returned <$> [mkMealView "2024-01-01" "breakfast" "R1" "Porridge";
                     mkMealView "2024-01-01" "lunch" "R2" "Soup";
                     mkMealView "2024-01-02" "dinner" "R1" "Porridge"]
       ≡ₚ stored <$> from_option (mealsOf db1) [] (Some "0")
    /\ Forall (fun v => exists r, recipes db1 !! view_recipeId v = Some r
                                  /\ view_recipeName v = recipe_name r)
         [mkMealView "2024-01-01" "breakfast" "R1" "Porridge";
          mkMealView "2024-01-01" "lunch" "R2" "Soup";
          mkMealView "2024-01-02" "dinner" "R1" "Porridge"]
    /\ sameTables db1 (snd (GET_meal_plans "u1" "2024-01-01" db1)).
Proof.
  cbv zeta.
  apply (get_shows_stored_meals "u1" "2024-01-01"
           (snd (PUT_meal_plans "u1" Sample.week Sample.db))).
  vm_compute. reflexivity.
Defined.

(** ** Users and roles *)

(** X9. [POST /admin/bootstrap-self] makes the caller the only
    administrator, and only when there is none: with an administrator in the
    table it answers 409 and changes nothing; with none, it turns the
    caller's row into an administrator's, after which the table has exactly
    one, and when the caller has no row the update throws and the table
    stays as it was. *)
Theorem bootstrap_self_makes_the_only_admin (userId : string) (db : Db) :
  (1 <= adminCount db ->
   POST_admin_bootstrap_self userId db
   = (Send 409 (B_error "An admin already exists"),
      withUsers db (users db) [Q_user_count ADMIN]))
  /\ (forall u, adminCount db = 0 -> users db !! userId = Some u ->
        POST_admin_bootstrap_self userId db
        = (Send 200 (B_user userId (user_email u) ADMIN),
           withUsers db (<[userId := {| user_email := user_email u; user_role := ADMIN |}]>
                           (users db))
             [Q_user_count ADMIN; Q_user_update userId ADMIN])
        /\ adminCount (snd (POST_admin_bootstrap_self userId db)) = 1)
  /\ (adminCount db = 0 -> users db !! userId = None ->
      fst (POST_admin_bootstrap_self userId db) = Throws "PrismaClientKnownRequestError P2025"
      /\ sameTables db (snd (POST_admin_bootstrap_self userId db))).
Proof.
  rewrite POST_admin_bootstrap_self_run.
  split; [| split].
  - intros H. destruct (Z.ltb_spec 0 (adminCount db)); [reflexivity | lia].
  - intros u H0 Hu. destruct (Z.ltb_spec 0 (adminCount db)); [lia |].
    rewrite Hu. split; [reflexivity |]. cbn [snd].
    rewrite adminCount_withUsers, (admins_after_update _ _ _ _ Hu). fold (adminCount db).
    assert (Hrole : user_role u <> ADMIN).
    { intros Ha. pose proof (adminCount_nonneg db).
      assert (size (filter (fun p : string * UserRow => user_role (snd p) = ADMIN) (users db))
              ≠ 0%nat).
      { apply (map_size_ne_0_lookup_2 _ userId). exists u.
        apply map_lookup_filter_Some. auto. }
      unfold adminCount in H0. lia. }
    rewrite (bool_decide_eq_false_2 _ Hrole), bool_decide_eq_true_2 by reflexivity. lia.
  - intros H0 Hu. destruct (Z.ltb_spec 0 (adminCount db)); [lia |].
    rewrite Hu. split; [reflexivity | repeat split].
Qed.

(** X10. Once there is an administrator, nobody becomes one through
    [POST /admin/bootstrap-self] any more: after any sequence of requests to
    the routes of [handle] it answers 401 to a request without a valid token
    and 409 to any other, and changes no table. *)
Theorem bootstrap_self_closed_for_good (db : Db) (requests : list Request)
    (token : option string) (Hadmin : 1 <= adminCount db) :
  let later := snd (serve requests db) in
  fst (handle (Req_POST_admin_bootstrap_self token) later)
  = match token with
    | None => Send 401 (B_error "Unauthorized")
    | Some _ => Send 409 (B_error "An admin already exists")
    end
  /\ sameTables later (snd (handle (Req_POST_admin_bootstrap_self token) later)).
Proof.
  cbv zeta. destruct (serve_keeps requests db) as (_ & _ & Hk). specialize (Hk Hadmin).
  cbn [handle]. unfold authenticated, authenticate.
  destruct token as [userId |]; [| split; [reflexivity | repeat split]].
  rewrite POST_admin_bootstrap_self_run.
  destruct (Z.ltb_spec 0 (adminCount (snd (serve requests db)))); [| lia].
  split; [reflexivity | repeat split].
Qed.

(** X10 at work: the administrator demotes herself after promoting the
    second user; a third user still cannot bootstrap. *)
Lemma bootstrap_self_closed_for_good_witness :
  let requests := [Req_POST_auth_register "eva@example.org";
                   Req_PATCH_admin_users_role (Some "u1") "u2" ADMIN;
                   Req_PATCH_admin_users_role (Some "u1") "u1" USER] in
  1 <= adminCount Sample.db
  /\ fst (handle (Req_POST_admin_bootstrap_self (Some "0")) (snd (serve requests Sample.db)))
     = Send 409 (B_error "An admin already exists").
Proof.
  cbv zeta.
  assert (H : 1 <= adminCount Sample.db) by (vm_compute; discriminate).
  split; [exact H |].
  exact (proj1 (bootstrap_self_closed_for_good Sample.db _ (Some "0") H)).
Defined.

(** X11. While there is an administrator, only administrators change
    roles: a request that is not a role change carrying the token of an
    administrator leaves every row of the users table as it was, address and
    role; it can at most add a row (a registration). *)
Theorem only_admins_change_roles (db : Db) (request : Request)
    (Hadmin : 1 <= adminCount db) (Hnot : ~ roleChangeByAdmin db request) :
  forall id u, users db !! id = Some u -> users (snd (handle request db)) !! id = Some u.
Proof.
  intros id u Hl.
  destruct request as [token ws | token body | token | token rid role | email];
    cbn [handle]; unfold authenticated, authenticate;
    try (destruct token as [userId |]; [| exact Hl]).
  - rewrite (proj1 (GET_meal_plans_tables userId ws db)). exact Hl.
  - rewrite PUT_meal_plans_users. exact Hl.
  - rewrite POST_admin_bootstrap_self_run.
    destruct (Z.ltb_spec 0 (adminCount db)); [exact Hl | lia].
  - unfold mbind, Prisma_bind.
    pose proof (requireAdmin_tables (Some userId) db) as Ht.
    pose proof (requireAdmin_None userId db) as Hn.
    destruct (requireAdmin (Some userId) db) as [denied db1].
    cbn [fst snd] in Ht, Hn. cbv zeta in Ht. destruct Ht as (Hu & _).
    destruct denied as [reply |];
      [unfold mret, Prisma_ret; cbn [snd]; rewrite Hu; exact Hl |].
    exfalso. apply Hnot. cbn. destruct (proj1 Hn eq_refl) as (_ & a & Ha & Hr).
    exists userId, a. auto.
  - destruct (POST_auth_register_cases email db) as [[_ ->] | [_ ->]]; cbn [snd withUsers users].
    + exact Hl.
    + rewrite lookup_insert_ne; [exact Hl |].
      intros E. pose proof (is_fresh (dom (users db))) as Hf.
      apply Hf. rewrite E. apply elem_of_dom. eauto.
Qed.

(** X11 at work: the second user, who is no administrator, asks for the
    role of administrator and for the demotion of the first. *)
Lemma only_admins_change_roles_witness :
  let request := Req_PATCH_admin_users_role (Some "u2") "u2" ADMIN in
  1 <= adminCount Sample.db
  /\ ~ roleChangeByAdmin Sample.db request
  /\ fst (handle request Sample.db) = Send 403 (B_error "Forbidden")
  /\ users (snd (handle request Sample.db)) !! "u2" = Some (mkUser "rui@example.org" USER).
Proof.
  cbv zeta.
  assert (H : 1 <= adminCount Sample.db) by (vm_compute; discriminate).
  assert (N : ~ roleChangeByAdmin Sample.db (Req_PATCH_admin_users_role (Some "u2") "u2" ADMIN)).
  { intros (userId & u & [= <-] & Hl & Hr). vm_compute in Hl. injection Hl as <-. discriminate. }
  split; [exact H |]. split; [exact N |]. split; [vm_compute; reflexivity |].
  apply (only_admins_change_roles Sample.db _ H N). reflexivity.
Defined.

(** X12. Email addresses stay unique: if no two users share an address,
    none do after any sequence of requests to the routes of [handle].
    [POST /auth/register], on a body that passes its schema, answers 409 and
    changes nothing when a user has the address, and otherwise adds one row
    for it with the role USER; so a second registration of an address is
    always refused. *)
Theorem emails_stay_unique (db : Db) (requests : list Request) (Huniq : UniqueEmails db) :
  UniqueEmails (snd (serve requests db))
  /\ (forall email,
        fst (POST_auth_register email (snd (POST_auth_register email db)))
        = Send 409 (B_error "Email already in use")).
Proof.
  split.
  - revert db Huniq. induction requests as [| request rest IH]; intros db Huniq.
    + exact Huniq.
    + rewrite serve_snd_cons. apply IH, handle_unique_emails, Huniq.
  - intros email.
    assert (Ht : emailTaken (snd (POST_auth_register email db)) email).
    { unfold emailTaken.
      destruct (POST_auth_register_cases email db) as [[(id & u & Hl & He) ->] | [_ ->]];
        cbn [snd withUsers users].
      - exists id, u. auto.
      - exists (fresh (dom (users db))), {| user_email := email; user_role := USER |}.
        rewrite lookup_insert_eq. split; reflexivity. }
    destruct (POST_auth_register_cases email (snd (POST_auth_register email db)))
      as [[_ ->] | [Hn _]]; [reflexivity | contradiction].
Qed.

(** X12 at work, on the two users of the sample. *)
Lemma emails_stay_unique_witness :
  let requests := [Req_POST_auth_register "eva@example.org";
                   Req_POST_auth_register "ana@example.org";
                   Req_POST_auth_register "eva@example.org"] in
  UniqueEmails Sample.db
  /\ UniqueEmails (snd (serve requests Sample.db))
  /\ size (users (snd (serve requests Sample.db))) = 3%nat.
Proof.
  cbv zeta.
  assert (H : UniqueEmails Sample.db).
  { intros id1 id2 u1 u2 H1 H2 He.
    assert (D : forall id u, users Sample.db !! id = Some u ->
                (id = "u1" /\ user_email u = "ana@example.org")
                \/ (id = "u2" /\ user_email u = "rui@example.org")).
    { intros id u Hl. unfold Sample.db in Hl. cbn [users] in Hl.
      apply lookup_insert_Some in Hl as [[<- <-] | [_ Hl]]; [left; auto |].
      apply lookup_singleton_Some in Hl as [<- <-]. right; auto. }
    destruct (D _ _ H1) as [[-> E1] | [-> E1]], (D _ _ H2) as [[-> E2] | [-> E2]];
      try reflexivity; rewrite E1, E2 in He; discriminate. }
  split; [exact H |].
  split; [exact (proj1 (emails_stay_unique Sample.db _ H)) |].
  vm_compute. reflexivity.
Defined.

(** ** Recipes *)

(** X13. The ingredient check of [POST /recipes], on any numbers. The
    handler answers 400 exactly when an item names an ingredient that is not
    in the table, and the message names the first such item in submission
    order. Otherwise every item has its ingredient, the lookup
    [byId.get(id)!] never misses, and the totals are the ones computed on the
    table itself. *)
Theorem recipe_ingredient_check {N : Type} `{JsNumber N}
    (table : gmap string (Ingredient N)) (servings : Z) (items : list (ItemInput N)) :
  match recipeNutrition table servings items with
  | inl reply =>
      exists pre it post,
        items = pre ++ it :: post
        /\ Forall (fun i => is_Some (table !! ingredientId i)) pre
        /\ table !! ingredientId it = None
        /\ reply = Send 400 (B_error ("Unknown ingredientId: " +:+ ingredientId it))
  | inr answer =>
      Forall (fun it => is_Some (table !! ingredientId it)) items
      /\ is_Some answer
      /\ answer = (fun totals => report totals servings) <$> totalsOf table items
  end.
Proof.
  unfold recipeNutrition. cbv zeta.
  set (byId := byIdOf (ingredient_findMany table (ingredientIds items))).
  assert (Hby : forall it, it ∈ items -> byId !! ingredientId it = table !! ingredientId it).
  { intros it Hin. unfold byId. rewrite byIdOf_findMany.
    rewrite bool_decide_eq_true_2; [reflexivity |].
    unfold ingredientIds. apply distinct_elem_of. split; [| set_solver].
    apply list_elem_of_fmap. eauto. }
  destruct (unknownIngredient byId items) as [reply |] eqn:Hu.
  - apply unknownIngredient_Some in Hu as (pre & it & post & E & Hpre & Hit & ->).
    exists pre, it, post. split; [exact E |]. split; [| split; [| reflexivity]].
    + apply Forall_forall. intros i Hi. rewrite Forall_forall in Hpre.
      rewrite <- Hby; [apply Hpre, Hi |]. rewrite E. apply elem_of_app. auto.
    + rewrite <- Hby; [exact Hit |]. rewrite E. apply elem_of_app. right. left.
  - apply unknownIngredient_None in Hu.
    assert (Hag : Forall (fun it => byId !! ingredientId it = table !! ingredientId it) items)
      by (apply Forall_forall; exact Hby).
    split; [| split].
    + apply Forall_forall. intros it Hin. rewrite Forall_forall in Hu.
      rewrite <- Hby by exact Hin. apply Hu, Hin.
    + destruct (reduceItems_is_Some byId items zeroNutrition Hu) as [t Ht].
      unfold totalsOf. rewrite Ht. cbn. eauto.
    + unfold totalsOf. rewrite (reduceItems_agree byId table items _ Hag). reflexivity.
Qed.

(** X14. [POST /recipes] and [GET /recipes] compute the same nutrition,
    on any numbers, doubles included: folding the submitted items with [add]
    over the ingredient map gives the report that folding the same items,
    each with its ingredient joined, with [+=] gives; both are undefined
    when an ingredient is missing. *)
Theorem recipe_nutrition_same_on_read {N : Type} `{JsNumber N}
    (byId : gmap string (Ingredient N)) (items : list (ItemInput N)) (servings : Z) :
  (fun totals => report totals servings) <$> totalsOf byId items
  = (fun rows => report (listTotals rows) servings) <$> joined byId items.
Proof.
  unfold totalsOf, listTotals. rewrite reduceItems_joined.
  destruct (joined byId items); reflexivity.
Qed.

(** ** The planner page *)

(** X16. The planner page and the server read a date string alike, from
    the year 100 on: for a string the server's [parseDateOnly] accepts, the
    page's [parseDateOnly] gives the same date when the year is 100 or later.
    For the years 0000 to 0099 it does not: [Date.UTC] takes a year below 100
    as a year of the 1900s. *)
Theorem page_reads_dates_as_server (s : string) (t : Z)
    (Hs : parseDateOnly s = Some t) :
  (100 <= YearFromTime t -> Page.parseDateOnly s = Some t)
  /\ (YearFromTime t <= 99 ->
      exists t', Page.parseDateOnly s = Some t'
                 /\ YearFromTime t' = 1900 + YearFromTime t).
Proof.
  destruct (parseDateOnly_triple s t Hs) as (y & m & d & Hy & Hm & Hd & -> & -> & Hyear).
  pose proof (daysInMonth_le_31 y m) as Hdim.
  split; intros H; rewrite Hyear in *.
  - apply page_parseDateOnly_isoDate; lia.
  - exists (MakeDay (1900 + y) m d * msPerDay). split.
    + unfold Page.parseDateOnly. cbv zeta.
      rewrite split_isoDate. cbn [fmap list_fmap lookup list_lookup mjoin option_join].
      rewrite Number_pad4, !Number_pad2 by lia.
      cbn [fmap option_fmap option_map]. unfold Page.Date_UTC.
      cbn [mbind option_bind].
      replace ((0 <=? y) && (y <=? 99)) with true
        by (symmetry; apply andb_true_iff; rewrite !Z.leb_le; lia).
      unfold Page.MakeDayOf.
      rewrite (Z.div_small (m - 1) 12), (Z.mod_small (m - 1) 12) by lia.
      replace (1900 + y + 0) with (1900 + y) by lia. replace (m - 1 + 1) with m by lia.
      pose proof (MakeDay_range (1900 + y) m d ltac:(lia) Hm ltac:(lia)) as Hr.
      unfold Page.newDate. rewrite TimeClip_Some by (unfold msPerDay; lia).
      cbn [mbind option_bind]. apply TimeClip_Some. unfold msPerDay. lia.
    + unfold YearFromTime. rewrite Day_mul.
      destruct (civilFromDay_MakeDay (1900 + y) m d Hm ltac:(lia)) as (m' & d' & -> & _).
      reflexivity.
Qed.

(** X16 at work, on the first day of 2024. *)
Lemma page_reads_dates_as_server_witness :
  parseDateOnly "2024-01-01" = Some 1704067200000
  /\ Page.parseDateOnly "2024-01-01" = Some 1704067200000.
Proof.
  assert (H : parseDateOnly "2024-01-01" = Some 1704067200000) by (vm_compute; reflexivity).
  split; [exact H |].
  apply (proj1 (page_reads_dates_as_server "2024-01-01" 1704067200000 H)).
  vm_compute. discriminate.
Defined.

(** X17. [startOfWeekMonday] gives the Monday of the week of a date: the
    date moved back by the days since Monday, none for a Monday and six for a
    Sunday, at the same time of day; the date is within the week, in the
    sense of the server's [isWithinWeek], that starts there. The result is an
    invalid [Date] only within six days of the earliest time value. *)
Theorem startOfWeekMonday_is_monday (date : Z) :
  Page.startOfWeekMonday date = TimeClip (date - ((Day date + 3) mod 7) * msPerDay)
  /\ match Page.startOfWeekMonday date with
     | Some monday =>
         getUTCDay monday = 1
         /\ isWithinWeek date monday = true
         /\ TimeWithinDay monday = TimeWithinDay date
     | None => 8640000000000000 - 6 * msPerDay < Z.abs date
     end.
Proof.
  rewrite startOfWeekMonday_spec. split; [reflexivity |].
  pose proof (Z.mod_pos_bound (Day date + 3) 7 ltac:(lia)) as Hk.
  set (k := (Day date + 3) mod 7) in *.
  unfold TimeClip. destruct (Z.leb_spec (Z.abs (date - k * msPerDay)) 8640000000000000).
  - split; [| split].
    + apply monday_getUTCDay.
    + unfold isWithinWeek, getTime, msPerDay. apply andb_true_iff. rewrite !Z.leb_le. lia.
    + unfold TimeWithinDay. replace (date - k * msPerDay) with (date + (- k) * msPerDay) by lia.
      apply Z.mod_add. unfold msPerDay. lia.
  - unfold msPerDay in *. lia.
Qed.

(** X18. The seven dates the page builds for a week are the seven days
    from the start of the week on, each one a string the server parses to a
    day within that week, all different, the first one the start itself;
    this for a week that starts on a date the server accepts, in the year 100
    or later, and ends by the year 9999. *)
Theorem week_dates_are_the_week (ws : string) (t : Z)
    (Hws : parseDateOnly ws = Some t)
    (Hlo : 100 <= YearFromTime t) (Hhi : YearFromTime (t + 6 * msPerDay) <= 9999) :
  exists dates,
    Page.buildWeekDates ws = Some dates
    /\ dates = (fun i => formatDateOnly (t + i * msPerDay)) <$> [0; 1; 2; 3; 4; 5; 6]
    /\ dates !! 0%nat = Some ws
    /\ NoDup dates
    /\ Forall (fun d => exists date, parseDateOnly d = Some date
                                     /\ isWithinWeek date t = true) dates.
Proof.
  destruct (week_dates_parse_all ws t Hws Hlo Hhi) as (Hb & Hnd & Hall).
  destruct (parseDateOnly_Some ws t Hws) as (Hfmt & _ & _).
  eexists. split; [exact Hb |]. split; [reflexivity |].
  split; [cbn [fmap list_fmap lookup list_lookup];
          replace (t + 0 * msPerDay) with t by lia; rewrite Hfmt; reflexivity |].
  split; assumption.
Qed.

(** X18 at work, on the first week of 2024. *)
Lemma week_dates_are_the_week_witness :
  parseDateOnly "2024-01-01" = Some 1704067200000
  /\ Page.buildWeekDates "2024-01-01"
     = Some ["2024-01-01"; "2024-01-02"; "2024-01-03"; "2024-01-04"; "2024-01-05";
             "2024-01-06"; "2024-01-07"].
Proof.
  assert (H : parseDateOnly "2024-01-01" = Some 1704067200000) by (vm_compute; reflexivity).
  split; [exact H |].
  destruct (week_dates_are_the_week "2024-01-01" 1704067200000 H)
    as (dates & -> & -> & _); [vm_compute; discriminate | vm_compute; discriminate |].
  vm_compute. reflexivity.
Defined.

(** X19. Whatever the page has selected, the body its [save] sends for a
    week passes the schema, the date checks and the duplicate-slot check of
    [PUT /meal-plans]: the server answers 200 with the meals sent, or 400
    because a recipe is not the user's, and nothing else. The week is one
    that starts on a date the server accepts, in the year 100 or later, and
    ends by the year 9999. *)
Theorem page_save_passes_server_checks (ws : string) (t : Z)
    (selections : Page.SelectionState) (userId : string) (db : Db)
    (Hws : parseDateOnly ws = Some t)
    (Hlo : 100 <= YearFromTime t) (Hhi : YearFromTime (t + 6 * msPerDay) <= 9999) :
  exists dates,
    Page.buildWeekDates ws = Some dates
    /\ let body := Page.save ws dates selections in
       (exists planId views,
           fst (PUT_meal_plans userId body db) = Send 200 (B_plan (Some planId) ws views)
           /\ returned <$> views ≡ₚ submitted <$> body_meals body)
       \/ fst (PUT_meal_plans userId body db)
          = Send 400 (B_error "One or more recipes were not found for this user").
Proof.
  destruct (week_dates_parse_all ws t Hws Hlo Hhi) as (Hb & Hnd & Hall).
  eexists. split; [exact Hb |]. cbv zeta.
  set (dates := (fun i => formatDateOnly (t + i * msPerDay)) <$> [0; 1; 2; 3; 4; 5; 6]) in *.
  set (body := Page.save ws dates selections).
  assert (Hbp : Body_parse body = true).
  { unfold Body_parse. apply forallb_forall. intros meal Hin.
    apply list_elem_of_In, mealsToSave_elem in Hin as (_ & Hslot & Hc).
    apply chosen_nonempty in Hc.
    apply andb_true_iff. split.
    - unfold mealSlotSchema. apply bool_decide_eq_true_2. exact Hslot.
    - destruct (in_recipeId meal); [contradiction |].
      apply Z.leb_le. cbn [String.length]. lia. }
  assert (Hdates : DatesInWeek t (body_meals body)).
  { apply Forall_forall. intros meal Hin. apply mealsToSave_elem in Hin as (Hd & _).
    rewrite Forall_forall in Hall. apply Hall, Hd. }
  destruct (readMeals_total t (body_meals body) Hdates) as [meals Hrm].
  assert (Hcs : checkSlots ∅ meals = None).
  { apply checkSlots_None. split; [| set_solver].
    rewrite (readMeals_keys _ _ _ Hrm).
    apply (NoDup_fmap_transfer (fun i => (in_date i, in_slot i)) inputKey).
    - intros a b Ha Hb' E. unfold DatesInWeek in Hdates. rewrite Forall_forall in Hdates.
      destruct (Hdates a Ha) as (da & Pa & _). destruct (Hdates b Hb') as (db0 & Pb & _).
      destruct (inputKey_inj a b da db0 Pa Pb E) as [E1 E2]. congruence.
    - apply mealsToSave_NoDup, Hnd. }
  exact (PUT_meal_plans_checked userId body db t meals Hbp Hws Hrm Hcs).
Qed.

(** X19 at work: two slots chosen, one of them for a day outside the week
    shown, which [save] leaves out. *)
Lemma page_save_passes_server_checks_witness :
  let selections : Page.SelectionState :=
    Page.setSlotRecipe "2024-01-03" "lunch" "R2"
      (Page.setSlotRecipe "2024-02-01" "dinner" "R1"
         (Page.createEmptySelection ["2024-01-01"; "2024-01-02"; "2024-01-03"; "2024-01-04";
                                     "2024-01-05"; "2024-01-06"; "2024-01-07"])) in
  parseDateOnly "2024-01-01" = Some 1704067200000
  /\ exists dates,
       Page.buildWeekDates "2024-01-01" = Some dates
       /\ body_meals (Page.save "2024-01-01" dates selections)
          = [mkMealInput "2024-01-03" "lunch" "R2"]
       /\ fst (PUT_meal_plans "u1" (Page.save "2024-01-01" dates selections) Sample.db)
          = Send 200 (B_plan (Some "0") "2024-01-01"
                        [mkMealView "2024-01-03" "lunch" "R2" "Soup"]).
Proof.
  cbv zeta.
  assert (H : parseDateOnly "2024-01-01" = Some 1704067200000) by (vm_compute; reflexivity).
  split; [exact H |].
  destruct (page_save_passes_server_checks "2024-01-01" 1704067200000 ∅ "u1" Sample.db H)
    as (dates & Hb & _); [vm_compute; discriminate | vm_compute; discriminate |].
  exists dates. split; [exact Hb |].
  assert (E : Some dates = Some ["2024-01-01"; "2024-01-02"; "2024-01-03"; "2024-01-04";
                                 "2024-01-05"; "2024-01-06"; "2024-01-07"])
    by (rewrite <- Hb; vm_compute; reflexivity).
  injection E as ->. split; vm_compute; reflexivity.
Defined.

(** X20. The week the page shows for a day picked in the date input
    starts on a Monday and has the day among its seven dates; this for a day
    the server accepts, with the six days before it in the year 100 or later
    and the six days after it in the year 9999 or before. *)
Theorem picked_day_is_in_its_week (value : string) (t : Z)
    (Hvalue : parseDateOnly value = Some t)
    (Hlo : 100 <= YearFromTime (t - 6 * msPerDay))
    (Hhi : YearFromTime (t + 6 * msPerDay) <= 9999) :
  exists ws monday dates,
    Page.weekOf value = Some ws
    /\ parseDateOnly ws = Some monday
    /\ getUTCDay monday = 1
    /\ Page.buildWeekDates ws = Some dates
    /\ value ∈ dates.
Proof.
  destruct (parseDateOnly_Some value t Hvalue) as (Hfmt & _ & Hmid).
  assert (Hy1 : YearFromTime (t - 6 * msPerDay) <= YearFromTime t).
  { apply YearFromTime_mono. replace (t - 6 * msPerDay) with (t + (-6) * msPerDay) by lia.
    rewrite Day_add. lia. }
  pose proof (page_parseDateOnly_agrees value t Hvalue ltac:(lia)) as Hpage.
  pose proof (Z.mod_pos_bound (Day t + 3) 7 ltac:(lia)) as Hk.
  pose proof (monday_getUTCDay t) as Hmon.
  pose proof (startOfWeekMonday_spec t) as Hstart.
  set (k := (Day t + 3) mod 7) in *.
  set (monday := t - k * msPerDay) in *.
  destruct (parseDateOnly_triple value t Hvalue) as (y & m & d & Hy & Hm & Hd & _ & Ht & _).
  pose proof (daysInMonth_le_31 y m) as Hdim.
  pose proof (MakeDay_range y m d Hy Hm ltac:(lia)) as Hr.
  rewrite TimeClip_Some in Hstart by (unfold monday, msPerDay in *; lia).
  assert (Hmmid : monday mod msPerDay = 0).
  { unfold monday. replace (t - k * msPerDay) with (t + (- k) * msPerDay) by lia.
    rewrite Z.mod_add by (unfold msPerDay; lia). exact Hmid. }
  assert (Hmlo : 100 <= YearFromTime monday).
  { apply (Z.le_trans _ _ _ Hlo). apply YearFromTime_mono.
    unfold monday.
    replace (t - 6 * msPerDay) with (t + (-6) * msPerDay) by lia.
    replace (t - k * msPerDay) with (t + (- k) * msPerDay) by lia.
    rewrite !Day_add. lia. }
  assert (Hmhi : YearFromTime (monday + 6 * msPerDay) <= 9999).
  { apply (Z.le_trans _ (YearFromTime (t + 6 * msPerDay))); [| exact Hhi].
    apply YearFromTime_mono. unfold monday.
    replace (t - k * msPerDay + 6 * msPerDay) with (t + (6 - k) * msPerDay) by lia.
    rewrite !Day_add. lia. }
  assert (Hparse : parseDateOnly (formatDateOnly monday) = Some monday).
  { destruct (week_dates_parse monday 0 Hmmid ltac:(lia) Hmhi ltac:(lia)) as [P _].
    replace (monday + 0 * msPerDay) with monday in P by lia. exact P. }
  destruct (week_dates_parse_all (formatDateOnly monday) monday Hparse Hmlo Hmhi)
    as (Hb & _ & _).
  exists (formatDateOnly monday), monday. eexists.
  split; [unfold Page.weekOf; rewrite Hpage; cbn [mbind option_bind]; rewrite Hstart;
          reflexivity |].
  split; [exact Hparse |]. split; [exact Hmon |]. split; [exact Hb |].
  rewrite <- Hfmt. apply list_elem_of_fmap. exists k.
  split; [f_equal; unfold monday; lia | set_solver by lia].
Qed.

(** X20 at work: Wednesday the third of January 2024. *)
Lemma picked_day_is_in_its_week_witness :
  parseDateOnly "2024-01-03" = Some 1704240000000
  /\ Page.weekOf "2024-01-03" = Some "2024-01-01".
Proof.
  assert (H : parseDateOnly "2024-01-03" = Some 1704240000000) by (vm_compute; reflexivity).
  split; [exact H |].
  destruct (picked_day_is_in_its_week "2024-01-03" 1704240000000 H)
    as (ws & monday & dates & Hw & _); [vm_compute; discriminate | vm_compute; discriminate |].
  rewrite Hw. f_equal.
  assert (E : Page.weekOf "2024-01-03" = Some "2024-01-01") by (vm_compute; reflexivity).
  rewrite E in Hw. injection Hw as <-. reflexivity.
Defined.

(** X21. The count of selected meals the page shows is the number of meals
    its [save] sends. *)
Theorem selected_count_is_meals_sent (weekDates : list string)
    (selections : Page.SelectionState) :
  Page.selectedCount weekDates selections
  = Z.of_nat (length (Page.mealsToSave weekDates selections)).
Proof.
  unfold Page.selectedCount.
  assert (G : forall count,
            fold_left (fun count date =>
              match selections !! date with
              | None => count
              | Some day =>
                  fold_left (fun count slot =>
                    match day !! slot with
                    | Some recipeId =>
                        if bool_decide (recipeId = "") then count else count + 1
                    | None => count
                    end) Page.mealSlots count
              end) weekDates count
            = count + Z.of_nat (length (Page.mealsToSave weekDates selections))).
  { induction weekDates as [| date rest IH]; intros count.
    - cbn. lia.
    - change (Page.mealsToSave (date :: rest) selections)
        with ((slot ← Page.mealSlots;
               match Page.chosen selections date slot with
               | Some recipeId => [mkMealInput date slot recipeId]
               | None => []
               end) ++ Page.mealsToSave rest selections).
      cbn [fold_left]. rewrite IH, length_app. unfold Page.mealSlots, Page.chosen.
      cbn [fold_left mbind list_bind app].
      destruct (selections !! date) as [day |]; cbn [default from_option]; unfold id.
      + destruct (day !! "breakfast") as [r1 |], (day !! "lunch") as [r2 |],
          (day !! "afternoon_snack") as [r3 |], (day !! "dinner") as [r4 |];
          repeat match goal with
          | |- context [bool_decide (?r = "")] => destruct (bool_decide (r = ""))
          end;
          cbn [length app]; lia.
      + rewrite !lookup_empty. cbn [length app]. lia. }
  rewrite G. lia.
Qed.

(** X22. Choosing a recipe for a slot changes that slot only: after
    [setSlotRecipe] the slot holds the recipe, or nothing when the empty
    choice was made, and every other slot of every day holds what it held;
    so the next [save] sends that meal, when its day is in the week shown. *)
Theorem setSlotRecipe_sets_one_slot (date slot recipeId : string)
    (prev : Page.SelectionState) (weekDates : list string) :
  (forall date' slot',
     Page.chosen (Page.setSlotRecipe date slot recipeId prev) date' slot'
     = if bool_decide (date' = date /\ slot' = slot)
       then (if bool_decide (recipeId = "") then None else Some recipeId)
       else Page.chosen prev date' slot')
  /\ (mkMealInput date slot recipeId
        ∈ Page.mealsToSave weekDates (Page.setSlotRecipe date slot recipeId prev)
      <-> date ∈ weekDates /\ slot ∈ Page.mealSlots /\ recipeId <> "").
Proof.
  assert (G : forall date' slot',
     Page.chosen (Page.setSlotRecipe date slot recipeId prev) date' slot'
     = if bool_decide (date' = date /\ slot' = slot)
       then (if bool_decide (recipeId = "") then None else Some recipeId)
       else Page.chosen prev date' slot').
  { intros date' slot'. unfold Page.chosen, Page.setSlotRecipe.
    cbv zeta.
    destruct (decide (date' = date)) as [-> | Hd].
    - rewrite lookup_insert_eq. cbn [default from_option]. unfold id.
      destruct (decide (slot' = slot)) as [-> | Hs].
      + rewrite (bool_decide_eq_true_2 (date = date /\ slot = slot)) by (split; reflexivity).
        destruct (bool_decide_reflect (recipeId = "")) as [E | E].
        * rewrite lookup_delete_eq. reflexivity.
        * rewrite lookup_insert_eq. rewrite bool_decide_eq_false_2 by exact E. reflexivity.
      + rewrite (bool_decide_eq_false_2 (date = date /\ slot' = slot)) by tauto.
        destruct (bool_decide (recipeId = ""));
          [rewrite lookup_delete_ne by congruence | rewrite lookup_insert_ne by congruence];
          reflexivity.
    - rewrite lookup_insert_ne by congruence.
      rewrite (bool_decide_eq_false_2 (date' = date /\ slot' = slot)) by tauto. reflexivity. }
  split; [exact G |].
  rewrite mealsToSave_elem. cbn [in_date in_slot in_recipeId].
  rewrite G, (bool_decide_eq_true_2 (date = date /\ slot = slot)) by (split; reflexivity).
  destruct (bool_decide_reflect (recipeId = "")); split.
  - intros (_ & _ & [=]).
  - tauto.
  - tauto.
  - tauto.
Qed.

(** X23. What the page loads is what it saved: when [PUT /meal-plans]
    answers 200 to the body [save] built from a selection, the selection the
    page builds from the meals of the answer makes [save] build the same
    meals again, in the same order. *)
Theorem load_then_save_round_trip (ws : string) (weekDates : list string)
    (selections : Page.SelectionState) (userId : string) (db : Db)
    (id : option string) (ws' : string) (views : list MealView)
    (Hput : fst (PUT_meal_plans userId (Page.save ws weekDates selections) db)
            = Send 200 (B_plan id ws' views)) :
  Page.mealsToSave weekDates (Page.loadSelection weekDates views)
  = Page.mealsToSave weekDates selections.
Proof.
  destruct (PUT_meal_plans userId (Page.save ws weekDates selections) db)
    as [reply db'] eqn:Hrun.
  cbn [fst] in Hput. subst reply.
  destruct (PUT_meal_plans_ok _ _ _ _ _ _ _ Hrun)
    as (weekStart & meals & planId & views0 & _ & _ & -> & O).
  destruct (PutOutcome_returned _ _ _ _ _ _ _ _ O) as [Hret _].
  cbn [Page.save body_meals] in Hret.
  set (input := Page.mealsToSave weekDates selections) in *.
  assert (Hperm : returned <$> Array_sort compareMeals views0 ≡ₚ submitted <$> input)
    by (rewrite Array_sort_Permutation, Hret; reflexivity).
  assert (Hkeys : NoDup ((fun v => (view_date v, view_slot v))
                           <$> Array_sort compareMeals views0)).
  { assert (E : (fun v => (view_date v, view_slot v)) <$> Array_sort compareMeals views0
                ≡ₚ (fun i => (in_date i, in_slot i)) <$> input).
    { transitivity ((fun tr : string * string * string => (tr.1.1, tr.1.2))
                      <$> (returned <$> Array_sort compareMeals views0)).
      - rewrite <- list_fmap_compose. reflexivity.
      - rewrite Hperm, <- list_fmap_compose. reflexivity. }
    rewrite E.
    pose proof (out_slots _ _ _ _ _ _ _ _ O) as Hcs.
    apply checkSlots_None in Hcs as [Hnd _].
    rewrite (readMeals_keys _ _ _ (out_read _ _ _ _ _ _ _ _ O)) in Hnd.
    cbn [Page.save body_meals] in Hnd. fold input in Hnd.
    apply (NoDup_fmap_transfer inputKey (fun i => (in_date i, in_slot i))); [| exact Hnd].
    intros a b _ _ [= Ea Eb]. unfold inputKey. congruence. }
  apply mealsToSave_ext. intros date slot Hdate Hslot.
  apply option_eq. intros r.
  assert (Hch : forall sel : Page.SelectionState,
            Page.chosen sel date slot = Some r
            <-> default ∅ (sel !! date) !! slot = Some r /\ r <> "").
  { intros sel. unfold Page.chosen.
    destruct (default ∅ (sel !! date) !! slot) as [r0 |].
    - destruct (bool_decide_reflect (r0 = "")); split.
      + discriminate.
      + intros [[= ->] ?]. contradiction.
      + intros [= ->]. auto.
      + intros [[= ->] _]. reflexivity.
    - split; [discriminate | intros [[=] _]]. }
  rewrite (Hch (Page.loadSelection weekDates (Array_sort compareMeals views0))).
  rewrite (loadSelection_lookup _ _ _ _ _ Hkeys).
  assert (Hin : (exists v, v ∈ Array_sort compareMeals views0 /\ view_date v = date
                           /\ view_slot v = slot /\ view_recipeId v = r)
                <-> mkMealInput date slot r ∈ input).
  { transitivity ((date, slot, r) ∈ returned <$> Array_sort compareMeals views0).
    - rewrite list_elem_of_fmap. split.
      + intros (v & Hv & <- & <- & <-). exists v. auto.
      + intros (v & [= -> -> ->] & Hv). exists v. auto.
    - rewrite Hperm, list_elem_of_fmap. split.
      + intros ([d s r'] & [= -> -> ->] & Hi). exact Hi.
      + intros Hi. exists (mkMealInput date slot r). auto. }
  rewrite Hin. unfold input. rewrite mealsToSave_elem. cbn [in_date in_slot in_recipeId].
  split.
  - tauto.
  - intros Hc. pose proof (chosen_nonempty _ _ _ _ Hc). tauto.
Qed.

(** X23 at work: a lunch chosen for the third of January 2024. *)
Lemma load_then_save_round_trip_witness :
  let dates := ["2024-01-01"; "2024-01-02"; "2024-01-03"; "2024-01-04"; "2024-01-05";
                "2024-01-06"; "2024-01-07"] in
  let selections := Page.setSlotRecipe "2024-01-03" "lunch" "R2" (Page.createEmptySelection dates) in
  let views := [mkMealView "2024-01-03" "lunch" "R2" "Soup"] in
  fst (PUT_meal_plans "u1" (Page.save "2024-01-01" dates selections) Sample.db)
  = Send 200 (B_plan (Some "0") "2024-01-01" views)
  /\ Page.mealsToSave dates (Page.loadSelection dates views)
     = [mkMealInput "2024-01-03" "lunch" "R2"].
Proof.
  cbv zeta.
  assert (H : fst (PUT_meal_plans "u1"
                     (Page.save "2024-01-01"
                        ["2024-01-01"; "2024-01-02"; "2024-01-03"; "2024-01-04"; "2024-01-05";
                         "2024-01-06"; "2024-01-07"]
                        (Page.setSlotRecipe "2024-01-03" "lunch" "R2"
                           (Page.createEmptySelection
                              ["2024-01-01"; "2024-01-02"; "2024-01-03"; "2024-01-04";
                               "2024-01-05"; "2024-01-06"; "2024-01-07"]))) Sample.db)
              = Send 200 (B_plan (Some "0") "2024-01-01"
                            [mkMealView "2024-01-03" "lunch" "R2" "Soup"]))
    by (vm_compute; reflexivity).
  split; [exact H |].
  rewrite (load_then_save_round_trip _ _ _ _ _ _ _ _ H).
  vm_compute. reflexivity.
Defined.
